(** * The MBG news scrapers: text, URL and date normalisation, list and
      detail parsing, the per-site orchestrators and the classifier wrapper

    A shallow embedding of the Python sources of the repository
    ([mbg_news_detik.py], [mbg_news_kompas.py], [mbg_news_tribunnews.py],
    [mbg_news_tempo.py], [mbg_news_republika.py], [mbg_news_pr.py],
    [sentiment_engine.py]) and the properties of the specification that are
    decided on it.

    Conventions of the embedding.
    - A Python [str] is a list of Unicode code points ([char := N]); [lit]
      turns a literal into such a list.
    - A call that may raise returns a [result]: [Ok v] or [Raise e].
    - The headless browser, the HTML parser and the language models are the
      environment: a rendered page is given by its parse tree ([node]), a
      fetch by a function from the URL, a model by a function from its input.
    - The standard library of Python is modelled where the sources call it
      ([re], [urllib.parse], [datetime]); each model says which part of the
      library it covers. *)

From Stdlib Require Import List NArith ZArith Bool Arith Lia String Ascii.
Import ListNotations.

(* ================================================================== *)
(** * Part I: the embedding *)
(* ================================================================== *)

(** ** Strings and exceptions *)

Definition char := N.
Bind Scope N_scope with char.
Definition str := list char.

Definition lit (s : string) : str :=
  map N_of_ascii (list_ascii_of_string s).

Definition chr_eqb (a b : char) : bool := N.eqb a b.

Fixpoint str_eqb (a b : str) : bool :=
  match a, b with
  | [], [] => true
  | x :: a', y :: b' => chr_eqb x y && str_eqb a' b'
  | _, _ => false
  end.

(** [s.startswith(p)] *)
Fixpoint startswith (p s : str) : bool :=
  match p, s with
  | [], _ => true
  | x :: p', y :: s' => chr_eqb x y && startswith p' s'
  | _ :: _, [] => false
  end.

(** [p in s] for strings: [p] occurs as a contiguous block of [s]. *)
Fixpoint contains (p s : str) : bool :=
  startswith p s ||
  match s with
  | [] => false
  | _ :: s' => contains p s'
  end.

(** [s.endswith(p)] *)
Definition endswith (p s : str) : bool := startswith (rev p) (rev s).

(** Python truthiness of a string: the empty string is falsy. *)
Definition truthy (s : str) : bool :=
  match s with [] => false | _ => true end.

(** [a or b] on strings. *)
Definition or_else (a b : str) : str := if truthy a then a else b.

(** [sep.join(parts)] *)
Fixpoint join (sep : str) (parts : list str) : str :=
  match parts with
  | [] => []
  | [p] => p
  | p :: rest => p ++ sep ++ join sep rest
  end.

(** The exceptions the modelled code can raise. *)
Inductive exn : Type :=
| ValueError (msg : string)
| OverflowError
| UnboundLocalError (var : string)
| KeyError (key : string)
| IndexError
| UnicodeEncodeError
| FetchError (msg : string).   (* anything the browser or a model raises *)

Inductive result (A : Type) : Type :=
| Ok (a : A)
| Raise (e : exn).
Arguments Ok {A} a.
Arguments Raise {A} e.

Definition bind {A B} (r : result A) (f : A -> result B) : result B :=
  match r with
  | Ok a => f a
  | Raise e => Raise e
  end.

Notation "x <- r ;; k" := (bind r (fun x => k))
  (at level 61, r at next level, right associativity).

(** [try: body except Exception: handler] *)
Definition try_except {A} (body : result A) (handler : exn -> result A) : result A :=
  match body with
  | Ok a => Ok a
  | Raise e => handler e
  end.

(** ** Character classes of Python *)

Definition in_range (lo hi c : N) : bool := (lo <=? c)%N && (c <=? hi)%N.

(** [str.isspace] and the class [\s] of [re] on [str] patterns. *)
Definition is_space (c : char) : bool :=
  in_range 9 13 c || in_range 28 32 c || chr_eqb c 133 || chr_eqb c 160 ||
  chr_eqb c 5760 || in_range 8192 8202 c || chr_eqb c 8232 || chr_eqb c 8233 ||
  chr_eqb c 8239 || chr_eqb c 8287 || chr_eqb c 12288.

Definition is_digit_ascii (c : char) : bool := in_range 48 57 c.
Definition is_upper_ascii (c : char) : bool := in_range 65 90 c.
Definition is_lower_ascii (c : char) : bool := in_range 97 122 c.
Definition is_alpha_ascii (c : char) : bool := is_upper_ascii c || is_lower_ascii c.

(** The decimal digits of Unicode 14 (category Nd) come in blocks of ten,
    from a zero to a nine: the zeros above ASCII. *)
Definition digit_zeros : list N :=
  [1632; 1776; 1984; 2406; 2534; 2662; 2790; 2918; 3046; 3174; 3302; 3430; 3558; 3664;
   3792; 3872; 4160; 4240; 6112; 6160; 6470; 6608; 6784; 6800; 6992; 7088; 7232; 7248;
   42528; 43216; 43264; 43472; 43504; 43600; 44016; 65296; 66720; 68912; 69734; 69872;
   69942; 70096; 70384; 70736; 70864; 71248; 71360; 71472; 71904; 72016; 72784; 73040;
   73120; 92768; 92864; 93008; 120782; 120792; 120802; 120812; 120822; 123200; 123632;
   125264; 130032]%N.

(** The zero of the block of a decimal digit. *)
Definition digit_zero (c : char) : option N :=
  if is_digit_ascii c then Some 48%N
  else find (fun z => in_range z (z + 9) c) digit_zeros.

(** The class [\d] on [str] patterns, and the digits that [int()] reads:
    the decimal digits of Unicode. *)
Definition is_digit (c : char) : bool :=
  match digit_zero c with Some _ => true | None => false end.

(** The class [\w] on [str] patterns: alphanumerics and the underscore.
    Exact up to U+00FF; the code points from U+0100 on are taken as
    alphanumeric unless they are white space. *)
Definition is_word (c : char) : bool :=
  is_alpha_ascii c || is_digit_ascii c || chr_eqb c 95 ||
  chr_eqb c 170 || chr_eqb c 178 || chr_eqb c 179 || chr_eqb c 181 ||
  chr_eqb c 185 || chr_eqb c 186 || in_range 188 190 c ||
  in_range 192 214 c || in_range 216 246 c || in_range 248 255 c ||
  ((256 <=? c)%N && negb (is_space c)).

(** [str.lower] and [str.upper]: the ASCII letters; other code points are
    left as they are. *)
Definition lower_chr (c : char) : char := if is_upper_ascii c then (c + 32)%N else c.
Definition upper_chr (c : char) : char := if is_lower_ascii c then (c - 32)%N else c.
Definition lower (s : str) : str := map lower_chr s.
Definition upper (s : str) : str := map upper_chr s.

(** The case folding of [re.IGNORECASE] onto the letters of ASCII: beside
    the capital letters, U+0130 and U+0131 count as i, U+017F as s and
    U+212A as k. *)
Definition fold_chr (c : char) : char :=
  if chr_eqb c 304 || chr_eqb c 305 then 105%N
  else if chr_eqb c 383 then 115%N
  else if chr_eqb c 8490 then 107%N
  else lower_chr c.

(** The class [[A-Za-z]] under [re.IGNORECASE]. *)
Definition is_alpha_fold (c : char) : bool := is_lower_ascii (fold_chr c).

(** [s.lower()] on a text of that class: U+0130 becomes i and a dot above,
    U+212A becomes k, U+0131 and U+017F are small letters already. *)
Definition lower_folded (s : str) : str :=
  flat_map (fun c => if chr_eqb c 304 then [105; 775]%N
                     else if chr_eqb c 8490 then [107%N]
                     else [lower_chr c]) s.

(** [s.lstrip()], [s.rstrip()], [s.strip()] *)
Fixpoint lstrip (s : str) : str :=
  match s with
  | c :: s' => if is_space c then lstrip s' else s
  | [] => []
  end.
Definition rstrip (s : str) : str := rev (lstrip (rev s)).
Definition strip (s : str) : str := rstrip (lstrip s).

(** ** A model of [re]: backtracking matcher with groups

    The patterns of the sources are written as terms of [re]; the matcher
    tries alternatives in the order of Python's (left alternative first,
    greedy repetition longest first, lazy repetition shortest first), so the
    first match found is the one [re.search] reports. *)
Module Re.

Inductive re : Type :=
| Eps
| Chr (p : char -> bool)                 (* one character of a class *)
| Seq (a b : re)
| Alt (a b : re)
| Rep (lo : nat) (hi : option nat) (greedy : bool) (a : re)
| Grp (i : nat) (a : re)                 (* capturing group number i *)
| Bol                                    (* ^ *)
| Eol                                    (* $ *)
| Wordb.                                 (* \b *)

(** The text of each group, latest binding first. *)
Definition caps := list (nat * str).

Fixpoint group (c : caps) (i : nat) : str :=
  match c with
  | [] => []
  | (j, v) :: c' => if Nat.eqb i j then v else group c' i
  end.

Definition below (hi : option nat) (n : nat) : bool :=
  match hi with
  | None => true
  | Some h => Nat.ltb n h
  end.

Section Matcher.
Variable A : Type.

(** A continuation takes the text consumed so far (reversed), the rest of
    the subject and the groups. *)
Definition cont := str -> str -> caps -> option A.

(** The repetition [a{lo,hi}]: [n] iterations are done; an iteration has
    to consume at least one character. *)
Fixpoint rep_loop (body : str -> str -> caps -> cont -> option A)
         (lo : nat) (hi : option nat) (greedy : bool) (k : cont)
         (fuel n : nat) (pre s : str) (c : caps) : option A :=
  let stop := if Nat.leb lo n then k pre s c else None in
  let more :=
    match fuel with
    | O => None
    | S fuel' =>
        if below hi n then
          body pre s c (fun pre' s' c' =>
            if Nat.ltb (List.length s') (List.length s)
            then rep_loop body lo hi greedy k fuel' (S n) pre' s' c'
            else None)
        else None
    end in
  if greedy
  then match more with Some v => Some v | None => stop end
  else match stop with Some v => Some v | None => more end.

Definition word_boundary (pre s : str) : bool :=
  let before := match pre with x :: _ => is_word x | [] => false end in
  let after := match s with x :: _ => is_word x | [] => false end in
  xorb before after.

Fixpoint run (r : re) (pre s : str) (c : caps) (k : cont) : option A :=
  match r with
  | Eps => k pre s c
  | Chr p =>
      match s with
      | x :: s' => if p x then k (x :: pre) s' c else None
      | [] => None
      end
  | Seq a b => run a pre s c (fun pre' s' c' => run b pre' s' c' k)
  | Alt a b =>
      match run a pre s c k with
      | Some v => Some v
      | None => run b pre s c k
      end
  | Rep lo hi greedy a =>
      rep_loop (fun pre' s' c' k' => run a pre' s' c' k')
               lo hi greedy k (S (List.length s)) 0 pre s c
  | Grp i a =>
      run a pre s c (fun pre' s' c' =>
        k pre' s' ((i, firstn (List.length s - List.length s') s) :: c'))
  | Bol => match pre with [] => k pre s c | _ => None end
  | Eol =>
      match s with
      | [] => k pre s c
      | [x] => if chr_eqb x 10 then k pre s c else None   (* before a final newline *)
      | _ => None
      end
  | Wordb => if word_boundary pre s then k pre s c else None
  end.
End Matcher.
Arguments rep_loop {A} body lo hi greedy k fuel n pre s c.
Arguments run {A} r pre s c k.

(** A match: the text before it (reversed), the matched text, the rest and
    the groups. *)
Record mtch : Type := Mtch {
  m_before : str;
  m_text : str;
  m_after : str;
  m_caps : caps
}.

(** The match of [r] that starts exactly after [pre]. *)
Definition match_here (r : re) (pre s : str) : option mtch :=
  run r pre s [] (fun _ s' c =>
    Some (Mtch pre (firstn (List.length s - List.length s') s) s' c)).

(** [re.search]: the leftmost start at which the pattern matches. *)
Fixpoint search_from (r : re) (pre s : str) : option mtch :=
  match match_here r pre s with
  | Some m => Some m
  | None =>
      match s with
      | [] => None
      | x :: s' => search_from r (x :: pre) s'
      end
  end.

Definition search (r : re) (s : str) : option mtch := search_from r [] s.

(** [re.sub(r, repl, s)] for a replacement text without group references:
    the matches are replaced from left to right; after an empty match one
    character is copied. *)
Fixpoint sub_from (r : re) (repl : str) (fuel : nat) (pre s : str) : str :=
  match fuel with
  | O => s
  | S fuel' =>
      match match_here r pre s with
      | Some m =>
          match m_text m with
          | [] =>
              match s with
              | [] => repl
              | x :: s' => repl ++ x :: sub_from r repl fuel' (x :: pre) s'
              end
          | _ :: _ =>
              repl ++ sub_from r repl fuel' (rev (m_text m) ++ pre) (m_after m)
          end
      | None =>
          match s with
          | [] => []
          | x :: s' => x :: sub_from r repl fuel' (x :: pre) s'
          end
      end
  end.

Definition sub (r : re) (repl s : str) : str :=
  sub_from r repl (S (List.length s)) [] s.

(** Pattern builders. *)
Definition c1 (x : char) : re := Chr (chr_eqb x).
Fixpoint text (s : str) : re :=
  match s with
  | [] => Eps
  | [x] => c1 x
  | x :: s' => Seq (c1 x) (text s')
  end.
(** A literal of ASCII under [re.IGNORECASE]. *)
Definition ci1 (x : char) : re := Chr (fun y => chr_eqb (fold_chr y) (lower_chr x)).
Fixpoint text_i (s : str) : re :=
  match s with
  | [] => Eps
  | [x] => ci1 x
  | x :: s' => Seq (ci1 x) (text_i s')
  end.
Fixpoint seq (rs : list re) : re :=
  match rs with
  | [] => Eps
  | [r] => r
  | r :: rs' => Seq r (seq rs')
  end.
Definition plus (a : re) : re := Rep 1 None true a.
Definition star (a : re) : re := Rep 0 None true a.
Definition star_lazy (a : re) : re := Rep 0 None false a.
Definition times (n : nat) (a : re) : re := Rep n (Some n) true a.
Definition between (lo hi : nat) (a : re) : re := Rep lo (Some hi) true a.
Definition at_least (lo : nat) (a : re) : re := Rep lo None true a.

Definition ws : re := Chr is_space.                       (* \s *)
Definition nws : re := Chr (fun c => negb (is_space c)).  (* \S *)
Definition dg : re := Chr is_digit.                       (* \d *)
Definition wd : re := Chr is_word.                        (* \w *)
Definition dot : re := Chr (fun c => negb (chr_eqb c 10)). (* . *)

End Re.

(** ** [clean_text], the variant of detik, kompas, tribunnews and tempo

<<
def clean_text(s: str) -> str:
    return re.sub(r"\s+", " ", s or "").strip()
>> *)
Module Detik_text.

Definition clean_text (s : option str) : str :=
  strip (Re.sub (Re.plus Re.ws) (lit " ")
                (match s with Some x => x | None => [] end)).

End Detik_text.

(** ** [clean_text], the variant of republika

<<
def clean_text(text: str) -> str:
    if not text:
        return ""
    text = re.sub(r'\s+', ' ', text)
    text = re.sub(r'[^\x00-\x7F]+', ' ', text)
    text = re.sub(r'[\x00-\x1F\x7F-\x9F]', '', text)
    text = re.sub(r'[^\w\s.,!?;:()\-<four code points><both quotes>]', '', text)
    text = re.sub(r'\s+', ' ', text)
    return text.strip()
>>
    The class of the fourth substitution has, besides the ASCII punctuation,
    the four code points U+201A, U+00C4, U+00EE and U+00EC of the source
    file. *)
Module Republika_text.

Definition non_ascii (c : char) : bool := negb (in_range 0 127 c).

Definition control (c : char) : bool := in_range 0 31 c || in_range 127 159 c.

(** The characters the fourth substitution keeps. *)
Definition kept (c : char) : bool :=
  is_word c || is_space c ||
  existsb (chr_eqb c) (lit ".,!?;:()-" ++ [8218; 196; 238; 236; 34; 39])%N.

Definition unwanted (c : char) : bool := negb (kept c).

Definition clean_text (text : option str) : str :=
  match text with
  | None | Some [] => []
  | Some text =>
      let text := Re.sub (Re.plus Re.ws) (lit " ") text in
      let text := Re.sub (Re.plus (Re.Chr non_ascii)) (lit " ") text in
      let text := Re.sub (Re.Chr control) [] text in
      let text := Re.sub (Re.Chr unwanted) [] text in
      let text := Re.sub (Re.plus Re.ws) (lit " ") text in
      strip text
  end.

End Republika_text.

(** ** [clean_text], the variant of pikiran-rakyat

<<
def clean_text(text: str) -> str:
    # docstring: Membersihkan teks dari karakter tidak diinginkan dan spasi berlebihan.
    if not text:
        return ""
    text = re.sub(r'\s+', ' ', text)
    text = re.sub(r'[^\x00-\x7F]+', ' ', text)
    text = re.sub(r'[\x00-\x1F\x7F-\x9F]', '', text)
    text = re.sub(r'[^\w\s.,!?;:()\-<four code points><both quotes>]', '', text)
    return text.strip()
>> *)
Module Pr_text.

Definition clean_text (text : option str) : str :=
  match text with
  | None | Some [] => []
  | Some text =>
      let text := Re.sub (Re.plus Re.ws) (lit " ") text in
      let text := Re.sub (Re.plus (Re.Chr Republika_text.non_ascii)) (lit " ") text in
      let text := Re.sub (Re.Chr Republika_text.control) [] text in
      let text := Re.sub (Re.Chr Republika_text.unwanted) [] text in
      strip text
  end.

End Pr_text.

(** ** Functions of the statements

    What the substitutions of [clean_text] compute, written by recursion on
    the text, and the two properties of a cleaned text. *)

(** Every maximal block of [p]-characters becomes [repl]; [inrun] says that
    the previous character was in a block. *)
Fixpoint squeeze (p : char -> bool) (repl : str) (inrun : bool) (s : str) : str :=
  match s with
  | [] => []
  | x :: s' =>
      if p x
      then (if inrun then squeeze p repl true s' else repl ++ squeeze p repl true s')
      else x :: squeeze p repl false s'
  end.

(** Every [p]-character becomes [repl]. *)
Fixpoint replace_each (p : char -> bool) (repl : str) (s : str) : str :=
  match s with
  | [] => []
  | x :: s' => (if p x then repl else [x]) ++ replace_each p repl s'
  end.

(** The text after its leading block of [p]-characters. *)
Fixpoint dropwhile (p : char -> bool) (s : str) : str :=
  match s with
  | x :: s' => if p x then dropwhile p s' else s
  | [] => []
  end.

(** Two white-space characters in a row. *)
Fixpoint has_space_pair (s : str) : bool :=
  match s with
  | x :: ((y :: _) as s') => (is_space x && is_space y) || has_space_pair s'
  | _ => false
  end.

(** White space at the start or at the end. *)
Definition space_at_edge (s : str) : bool :=
  match s with
  | [] => false
  | x :: _ => is_space x || is_space (last s x)
  end.

(** ** A model of [urllib.parse]

    After CPython 3.11/3.12. [urlsplit] raises [ValueError] on a netloc with
    unbalanced or misplaced brackets. Two further checks of the library are
    outside the model, which accepts where they might raise: the syntax of
    the address between brackets ([ipaddress]) and the NFKC check of a netloc
    with non-ASCII characters. No URL with a bracket or a non-ASCII netloc is
    claimed below to be accepted. *)
Module Url.

Definition colon : char := 58.
Definition slash : char := 47.
Definition question : char := 63.
Definition hash : char := 35.
Definition semicolon : char := 59.
Definition lbracket : char := 91.
Definition rbracket : char := 93.
Definition at_sign : char := 64.
Definition ampersand : char := 38.
Definition equals : char := 61.
Definition plus_sign : char := 43.
Definition percent : char := 37.
Definition space : char := 32.

(** [s.partition(c)]: the text before and after the first [c]. *)
Fixpoint cut (c : char) (s : str) : option (str * str) :=
  match s with
  | [] => None
  | x :: s' =>
      if chr_eqb x c then Some ([], s')
      else match cut c s' with
           | Some (a, b) => Some (x :: a, b)
           | None => None
           end
  end.

(** [s.rpartition(c)[2]]: the text after the last [c], all of [s] without. *)
Fixpoint after_last (c : char) (s : str) : str :=
  match s with
  | [] => []
  | x :: s' =>
      if existsb (chr_eqb c) s' then after_last c s'
      else if chr_eqb x c then s' else s
  end.

(** [s.split(c)] *)
Fixpoint split (c : char) (s : str) : list str :=
  match s with
  | [] => [[]]
  | x :: s' =>
      if chr_eqb x c then [] :: split c s'
      else match split c s' with
           | p :: ps => (x :: p) :: ps
           | [] => [[x]]
           end
  end.

Record parsed : Type := Parsed {
  scheme : str;
  netloc : str;
  path : str;
  params : str;
  query : str;
  fragment : str
}.

Definition uses_relative : list str :=
  map lit [""; "ftp"; "http"; "gopher"; "nntp"; "imap"; "wais"; "file"; "https";
           "shttp"; "mms"; "prospero"; "rtsp"; "rtspu"; "sftp"; "svn"; "svn+ssh";
           "ws"; "wss"]%string.

Definition uses_netloc : list str :=
  map lit [""; "ftp"; "http"; "gopher"; "nntp"; "telnet"; "imap"; "wais"; "file";
           "mms"; "https"; "shttp"; "snews"; "prospero"; "rtsp"; "rtspu"; "rsync";
           "svn"; "svn+ssh"; "sftp"; "nfs"; "git"; "git+ssh"; "ws"; "wss"]%string.

Definition uses_params : list str :=
  map lit [""; "ftp"; "hdl"; "prospero"; "http"; "imap"; "https"; "shttp"; "rtsp";
           "rtspu"; "sip"; "sips"; "mms"; "sftp"; "tel"]%string.

Definition mem (s : str) (l : list str) : bool := existsb (str_eqb s) l.

Definition scheme_char (c : char) : bool :=
  is_alpha_ascii c || is_digit_ascii c ||
  chr_eqb c 43 || chr_eqb c 45 || chr_eqb c 46.

(** [_WHATWG_C0_CONTROL_OR_SPACE] and [_UNSAFE_URL_BYTES_TO_REMOVE] *)
Definition c0_or_space (c : char) : bool := (c <=? 32)%N.
Definition unsafe (c : char) : bool := chr_eqb c 9 || chr_eqb c 13 || chr_eqb c 10.

Fixpoint lstrip_c0 (s : str) : str :=
  match s with
  | c :: s' => if c0_or_space c then lstrip_c0 s' else s
  | [] => []
  end.

Definition strip_c0 (s : str) : str := rev (lstrip_c0 (rev (lstrip_c0 s))).

Definition remove_unsafe (s : str) : str := filter (fun c => negb (unsafe c)) s.

(** The scheme, when the text before the first colon is one. *)
Definition split_scheme (dflt url : str) : str * str :=
  match cut colon url with
  | Some (x :: a, b) =>
      if is_alpha_ascii x && forallb scheme_char (x :: a)
      then (lower (x :: a), b)
      else (dflt, url)
  | _ => (dflt, url)
  end.

Definition delimiter (c : char) : bool :=
  chr_eqb c slash || chr_eqb c question || chr_eqb c hash.

(** [_splitnetloc], on the text after the two slashes. *)
Fixpoint splitnetloc (s : str) : str * str :=
  match s with
  | [] => ([], [])
  | x :: s' =>
      if delimiter x then ([], s)
      else let (a, b) := splitnetloc s' in (x :: a, b)
  end.

(** [_check_bracketed_netloc], without the check of the address itself. *)
Definition check_bracketed_netloc (nl : str) : result unit :=
  let hostname_and_port := after_last at_sign nl in
  match cut lbracket hostname_and_port with
  | Some (before_bracket, bracketed) =>
      if truthy before_bracket then Raise (ValueError "Invalid IPv6 URL")
      else
        let port := match cut rbracket bracketed with
                    | Some (_, p) => p
                    | None => []
                    end in
        if truthy port && negb (startswith [colon] port)
        then Raise (ValueError "Invalid IPv6 URL")
        else Ok tt
  | None => Ok tt
  end.

Definition check_brackets (nl : str) : result unit :=
  let has_l := existsb (chr_eqb lbracket) nl in
  let has_r := existsb (chr_eqb rbracket) nl in
  if (has_l && negb has_r) || (has_r && negb has_l)
  then Raise (ValueError "Invalid IPv6 URL")
  else if has_l && has_r then check_bracketed_netloc nl
  else Ok tt.

(** [urlsplit(url, scheme)]; [params] is left empty. *)
Definition urlsplit (url dflt : str) : result parsed :=
  let url := remove_unsafe (lstrip_c0 url) in
  let dflt := remove_unsafe (strip_c0 dflt) in
  let (sch, url) := split_scheme dflt url in
  nu <- (if startswith [slash; slash] url
         then let (nl, url') := splitnetloc (skipn 2 url) in
              _ <- check_brackets nl ;; Ok (nl, url')
         else Ok ([], url)) ;;
  let (nl, url) := (nu : str * str) in
  let (url, frag) := match cut hash url with
                     | Some (a, b) => (a, b)
                     | None => (url, [])
                     end in
  let (url, qry) := match cut question url with
                    | Some (a, b) => (a, b)
                    | None => (url, [])
                    end in
  Ok (Parsed sch nl url [] qry frag).

(** [_splitparams]: the cut at the first semicolon of the last segment. *)
Fixpoint splitparams (url : str) : str * str :=
  match url with
  | [] => ([], [])
  | x :: s' =>
      if existsb (chr_eqb slash) s'
      then let (a, b) := splitparams s' in (x :: a, b)
      else if chr_eqb x semicolon then ([], s')
      else let (a, b) := splitparams s' in (x :: a, b)
  end.

(** [urlparse(url, scheme)] *)
Definition urlparse (url dflt : str) : result parsed :=
  p <- urlsplit url dflt ;;
  if mem (scheme p) uses_params && existsb (chr_eqb semicolon) (path p)
  then let (u, prm) := splitparams (path p) in
       Ok (Parsed (scheme p) (netloc p) u prm (query p) (fragment p))
  else Ok p.

(** [urlunsplit] after the step of [urlunparse] that puts the parameters
    back. *)
Definition urlunparse (p : parsed) : str :=
  let url := if truthy (params p) then path p ++ [semicolon] ++ params p else path p in
  let url :=
    if truthy (netloc p) ||
       (truthy (scheme p) && mem (scheme p) uses_netloc &&
        negb (startswith [slash; slash] url))
    then [slash; slash] ++ netloc p ++
         (if truthy url && negb (startswith [slash] url) then slash :: url else url)
    else url in
  let url := if truthy (scheme p) then scheme p ++ [colon] ++ url else url in
  let url := if truthy (query p) then url ++ [question] ++ query p else url in
  if truthy (fragment p) then url ++ [hash] ++ fragment p else url.

(** [parsed._replace(fragment=f)] and [parsed._replace(query=q)] *)
Definition replace_fragment (p : parsed) (f : str) : parsed :=
  Parsed (scheme p) (netloc p) (path p) (params p) (query p) f.
Definition replace_query (p : parsed) (q : str) : parsed :=
  Parsed (scheme p) (netloc p) (path p) (params p) q (fragment p).

(** The loop of [urljoin] over the segments; [acc] is [resolved_path],
    last segment first. *)
Fixpoint resolve (segments : list str) (acc : list str) : list str :=
  match segments with
  | [] => rev acc
  | seg :: rest =>
      if str_eqb seg (lit "..") then resolve rest (tl acc)
      else if str_eqb seg (lit ".") then resolve rest acc
      else resolve rest (seg :: acc)
  end.

(** [segments[1:-1] = filter(None, segments[1:-1])] *)
Definition drop_empty_middle (segments : list str) : list str :=
  match segments with
  | [] => []
  | first :: rest =>
      match rev rest with
      | [] => [first]
      | final :: middle => first :: filter truthy (rev middle) ++ [final]
      end
  end.

(** [urljoin(base, url)] *)
Definition urljoin (base url : str) : result str :=
  if negb (truthy base) then Ok url
  else if negb (truthy url) then Ok base
  else
    b <- urlparse base [] ;;
    p <- urlparse url (scheme b) ;;
    if negb (str_eqb (scheme p) (scheme b)) || negb (mem (scheme p) uses_relative)
    then Ok url
    else if mem (scheme p) uses_netloc && truthy (netloc p)
    then Ok (urlunparse p)
    else
      let nl := if mem (scheme p) uses_netloc then netloc b else netloc p in
      if negb (truthy (path p)) && negb (truthy (params p))
      then Ok (urlunparse (Parsed (scheme p) nl (path b) (params b)
                                  (if truthy (query p) then query p else query b)
                                  (fragment p)))
      else
        let base_parts := split slash (path b) in
        let base_parts := if truthy (last base_parts [])
                          then removelast base_parts else base_parts in
        let segments :=
          if startswith [slash] (path p) then split slash (path p)
          else drop_empty_middle (base_parts ++ split slash (path p)) in
        let resolved := resolve segments [] in
        let resolved :=
          if mem (last segments []) [lit "."; lit ".."]
          then resolved ++ [[]] else resolved in
        Ok (urlunparse (Parsed (scheme p) nl
                               (or_else (join [slash] resolved) [slash])
                               (params p) (query p) (fragment p))).

(** *** Percent-encoding *)

Definition byte := N.

(** [str.encode('utf-8')] with [errors='strict'] *)
Definition utf8_encode_chr (c : char) : result (list byte) :=
  (if c <? 128 then Ok [c]
   else if c <? 2048 then Ok [192 + c / 64; 128 + c mod 64]
   else if c <? 65536 then
     if in_range 55296 57343 c then Raise UnicodeEncodeError
     else Ok [224 + c / 4096; 128 + (c / 64) mod 64; 128 + c mod 64]
   else if c <? 1114112 then
     Ok [240 + c / 262144; 128 + (c / 4096) mod 64; 128 + (c / 64) mod 64;
         128 + c mod 64]
   else Raise UnicodeEncodeError)%N.

Fixpoint utf8_encode (s : str) : result (list byte) :=
  match s with
  | [] => Ok []
  | c :: s' =>
      b <- utf8_encode_chr c ;;
      bs <- utf8_encode s' ;;
      Ok (b ++ bs)
  end.

Definition continuation (b : byte) : bool := in_range 128 191 b.
Definition replacement : char := 65533.

(** [bytes.decode('utf-8', errors='replace')]: an ill-formed sequence gives
    one U+FFFD for its longest well-formed start. *)
Fixpoint utf8_decode (bs : list byte) : str :=
  match bs with
  | [] => []
  | b :: r =>
      (if b <? 128 then b :: utf8_decode r
       else if b <? 194 then replacement :: utf8_decode r
       else if b <? 224 then
         match r with
         | [] => [replacement]
         | b2 :: r2 =>
             if continuation b2
             then ((b - 192) * 64 + (b2 - 128)) :: utf8_decode r2
             else replacement :: utf8_decode r
         end
       else if b <? 240 then
         match r with
         | [] => [replacement]
         | b2 :: r2 =>
             if negb (continuation b2) ||
                (if b2 <? 160 then b =? 224 else b =? 237)
             then replacement :: utf8_decode r
             else
               match r2 with
               | [] => [replacement]
               | b3 :: r3 =>
                   if continuation b3
                   then ((b - 224) * 4096 + (b2 - 128) * 64 + (b3 - 128))
                          :: utf8_decode r3
                   else replacement :: utf8_decode r2
               end
         end
       else if b <? 245 then
         match r with
         | [] => [replacement]
         | b2 :: r2 =>
             if negb (continuation b2) ||
                (if b2 <? 144 then b =? 240 else b =? 244)
             then replacement :: utf8_decode r
             else
               match r2 with
               | [] => [replacement]
               | b3 :: r3 =>
                   if negb (continuation b3)
                   then replacement :: utf8_decode r2
                   else
                     match r3 with
                     | [] => [replacement]
                     | b4 :: r4 =>
                         if continuation b4
                         then ((b - 240) * 262144 + (b2 - 128) * 4096 +
                               (b3 - 128) * 64 + (b4 - 128)) :: utf8_decode r4
                         else replacement :: utf8_decode r3
                     end
               end
         end
       else replacement :: utf8_decode r)%N
  end.

Definition hexval (c : char) : option N :=
  (if is_digit_ascii c then Some (c - 48)
   else if in_range 97 102 c then Some (c - 87)
   else if in_range 65 70 c then Some (c - 55)
   else None)%N.

Definition hexdigit (n : N) : char := (if n <? 10 then 48 + n else 55 + n)%N.

(** [unquote_to_bytes] on an ASCII text. *)
Fixpoint unquote_to_bytes (s : str) : list byte :=
  match s with
  | [] => []
  | c :: s' =>
      if chr_eqb c percent then
        match s' with
        | h1 :: ((h2 :: s'') as t) =>
            match hexval h1, hexval h2 with
            | Some a, Some b => (16 * a + b)%N :: unquote_to_bytes s''
            | _, _ => c :: unquote_to_bytes s'
            end
        | _ => c :: unquote_to_bytes s'
        end
      else c :: unquote_to_bytes s'
  end.

(** The text cut into its ASCII and non-ASCII blocks ([_asciire.split]). *)
Fixpoint ascii_blocks (s : str) : list (bool * str) :=
  match s with
  | [] => []
  | c :: s' =>
      let a := (c <? 128)%N in
      match ascii_blocks s' with
      | (a', blk) :: rest =>
          if Bool.eqb a a' then (a, c :: blk) :: rest
          else (a, [c]) :: (a', blk) :: rest
      | [] => [(a, [c])]
      end
  end.

(** [unquote(string)], with [encoding='utf-8'] and [errors='replace'] *)
Definition unquote (s : str) : str :=
  if negb (existsb (chr_eqb percent) s) then s
  else flat_map (fun blk : bool * str =>
                   if fst blk then utf8_decode (unquote_to_bytes (snd blk))
                   else snd blk)
                (ascii_blocks s).

Definition always_safe (b : byte) : bool :=
  is_alpha_ascii b || is_digit_ascii b ||
  chr_eqb b 95 || chr_eqb b 46 || chr_eqb b 45 || chr_eqb b 126.

(** [quote_plus(s)] with [safe=''] *)
Definition quote_plus_byte (b : byte) : str :=
  if always_safe b then [b]
  else if chr_eqb b space then [plus_sign]
  else [percent; hexdigit (b / 16); hexdigit (b mod 16)]%N.

Definition quote_plus (s : str) : result str :=
  bs <- utf8_encode s ;;
  Ok (flat_map quote_plus_byte bs).

(** [parse_qsl(qs, keep_blank_values=True)] *)
Definition plus_to_space (s : str) : str :=
  map (fun c => if chr_eqb c plus_sign then space else c) s.

Definition parse_field (name_value : str) : str * str :=
  match cut equals name_value with
  | Some (n, v) => (unquote (plus_to_space n), unquote (plus_to_space v))
  | None => (unquote (plus_to_space name_value), [])
  end.

Definition parse_qsl (qs : str) : list (str * str) :=
  if truthy qs
  then map parse_field (filter truthy (split ampersand qs))
  else [].

(** [urlencode(pairs, doseq=True)] on pairs of strings *)
Fixpoint encode_fields (pairs : list (str * str)) : result (list str) :=
  match pairs with
  | [] => Ok []
  | (k, v) :: rest =>
      k' <- quote_plus k ;;
      v' <- quote_plus v ;;
      l <- encode_fields rest ;;
      Ok ((k' ++ [equals] ++ v') :: l)
  end.

Definition urlencode (pairs : list (str * str)) : result str :=
  l <- encode_fields pairs ;;
  Ok (join [ampersand] l).

End Url.

(** ** [normalize_url] of detik (tribunnews and tempo have it with their base)

<<
BASE = "https://www.detik.com"

def normalize_url(u: str) -> str:
    if not u:
        return ""
    if u.startswith("/"):
        u = urljoin(BASE, u)
    parsed = urlparse(u)
    return parsed._replace(fragment="").geturl()
>> *)
Module Detik_url.

Definition BASE : str := lit "https://www.detik.com".

Definition normalize_url (u : option str) : result str :=
  match u with
  | None | Some [] => Ok []
  | Some u =>
      u <- (if startswith (lit "/") u then Url.urljoin BASE u else Ok u) ;;
      parsed <- Url.urlparse u [] ;;
      Ok (Url.urlunparse (Url.replace_fragment parsed []))
  end.

(** [bool(url) and bool(re.search(r"/d-\d+/", url))] *)
Definition article_re : Re.re :=
  Re.seq [Re.text (lit "/d-"); Re.plus Re.dg; Re.c1 47].

Definition is_article_url (url : str) : bool :=
  truthy url &&
  match Re.search article_re url with Some _ => true | None => false end.

End Detik_url.

(** ** [normalize_url] of kompas

<<
BASE = "https://www.kompas.com"

def normalize_url(u: str) -> str:
    if not u:
        return ""
    if u.startswith("/"):
        u = urljoin(BASE, u)
    parsed = urlparse(u)
    parsed = parsed._replace(fragment="")
    if parsed.query:
        kept = []
        for k, v in parse_qsl(parsed.query, keep_blank_values=True):
            lk = k.lower()
            if lk.startswith("utm_") or lk in {"fbclid", "gclid", "yclid"}:
                continue
            kept.append((k, v))
        parsed = parsed._replace(query=urlencode(kept, doseq=True))
    return parsed.geturl()
>> *)
Module Kompas_url.

Definition BASE : str := lit "https://www.kompas.com".

Definition is_tracking (k : str) : bool :=
  let lk := lower k in
  startswith (lit "utm_") lk ||
  Url.mem lk [lit "fbclid"; lit "gclid"; lit "yclid"].

(** The loop over the pairs; [kept] is the list built so far. *)
Fixpoint keep_loop (pairs : list (str * str)) (kept : list (str * str))
  : list (str * str) :=
  match pairs with
  | [] => kept
  | (k, v) :: rest =>
      if is_tracking k then keep_loop rest kept
      else keep_loop rest (kept ++ [(k, v)])
  end.

Definition normalize_url (u : option str) : result str :=
  match u with
  | None | Some [] => Ok []
  | Some u =>
      u <- (if startswith (lit "/") u then Url.urljoin BASE u else Ok u) ;;
      parsed <- Url.urlparse u [] ;;
      let parsed := Url.replace_fragment parsed [] in
      parsed <- (if truthy (Url.query parsed)
                 then
                   let kept := keep_loop (Url.parse_qsl (Url.query parsed)) [] in
                   q <- Url.urlencode kept ;;
                   Ok (Url.replace_query parsed q)
                 else Ok parsed) ;;
      Ok (Url.urlunparse parsed)
  end.

(** [bool(url) and bool(re.search(r"kompas\.com/read/\d{4}/\d{2}/\d{2}/\d+", url))] *)
Definition article_re : Re.re :=
  Re.seq [Re.text (lit "kompas.com/read/"); Re.times 4 Re.dg; Re.c1 47;
          Re.times 2 Re.dg; Re.c1 47; Re.times 2 Re.dg; Re.c1 47; Re.plus Re.dg].

Definition is_kompas_article_url (url : str) : bool :=
  truthy url &&
  match Re.search article_re url with Some _ => true | None => false end.

End Kompas_url.

(** ** Functions of the statements about URLs *)

(** A host name the model of [urlsplit] covers: not empty, ASCII, without
    delimiter, bracket, tab or line break. *)
Definition plain_host (h : str) : bool :=
  truthy h &&
  forallb (fun c => negb (Url.delimiter c) && negb (Url.unsafe c) &&
                    negb (chr_eqb c Url.lbracket) && negb (chr_eqb c Url.rbracket) &&
                    (c <? 128)%N) h.

(** A reference that starts with one slash: after the tabs and line breaks
    that [urlsplit] deletes are gone, it does not start with two. *)
Definition one_slash_reference (u : str) : bool :=
  startswith [Url.slash] u &&
  negb (startswith [Url.slash; Url.slash] (Url.remove_unsafe u)).

(** ** A model of [datetime] and of the zone Asia/Jakarta

    Dates are those of the proleptic Gregorian calendar, as in the library;
    the day number and its inverse follow [_ymd2ord] and [_ord2ymd]. An
    instant is a count of seconds since 0001-01-01 00:00:00 UTC. *)
Module Datetime.

Local Open Scope Z_scope.

Record datetime : Type := Datetime {
  year : Z; month : Z; day : Z;
  hour : Z; minute : Z; second : Z;
  utcoffset : option Z          (* None: naive; Some o: aware, o seconds east *)
}.

Definition is_leap (y : Z) : bool :=
  (y mod 4 =? 0) && (negb (y mod 100 =? 0) || (y mod 400 =? 0)).

Definition days_in_month (y m : Z) : Z :=
  if m =? 2 then (if is_leap y then 29 else 28)
  else if (m =? 4) || (m =? 6) || (m =? 9) || (m =? 11) then 30
  else 31.

(** [_DAYS_BEFORE_MONTH] *)
Definition days_before_month_table (m : Z) : Z :=
  nth (Z.to_nat m) [0; 0; 31; 59; 90; 120; 151; 181; 212; 243; 273; 304; 334] 0.

Definition days_before_month (y m : Z) : Z :=
  days_before_month_table m + (if (2 <? m) && is_leap y then 1 else 0).

Definition days_before_year (y : Z) : Z :=
  let z := y - 1 in z * 365 + z / 4 - z / 100 + z / 400.

(** [_ymd2ord]: 0001-01-01 is day 1. *)
Definition ymd2ord (y m d : Z) : Z :=
  days_before_year y + days_before_month y m + d.

(** [_ord2ymd] *)
Definition ord2ymd (n : Z) : Z * Z * Z :=
  let n := n - 1 in
  let n400 := n / 146097 in let n := n mod 146097 in
  let n100 := n / 36524 in let n := n mod 36524 in
  let n4 := n / 1461 in let n := n mod 1461 in
  let n1 := n / 365 in let n := n mod 365 in
  let y := n400 * 400 + 1 + n100 * 100 + n4 * 4 + n1 in
  if (n1 =? 4) || (n100 =? 4) then (y - 1, 12, 31)
  else
    let leapyear := (n1 =? 3) && (negb (n4 =? 24) || (n100 =? 3)) in
    let m := Z.shiftr (n + 50) 5 in
    let preceding := days_before_month_table m + (if (2 <? m) && leapyear then 1 else 0) in
    if n <? preceding
    then
      let m := m - 1 in
      let dim := if m =? 2 then (if leapyear then 29 else 28)
                 else if (m =? 4) || (m =? 6) || (m =? 9) || (m =? 11) then 30 else 31 in
      (y, m, n - (preceding - dim) + 1)
    else (y, m, n - preceding + 1).

(** The checks of the constructor. *)
Definition check_fields (y m d hh mm ss : Z) : result unit :=
  if negb ((1 <=? y) && (y <=? 9999)) then Raise (ValueError "year is out of range")
  else if negb ((1 <=? m) && (m <=? 12)) then Raise (ValueError "month must be in 1..12")
  else if negb ((1 <=? d) && (d <=? days_in_month y m))
       then Raise (ValueError "day is out of range for month")
  else if negb ((0 <=? hh) && (hh <=? 23)) then Raise (ValueError "hour must be in 0..23")
  else if negb ((0 <=? mm) && (mm <=? 59)) then Raise (ValueError "minute must be in 0..59")
  else if negb ((0 <=? ss) && (ss <=? 59)) then Raise (ValueError "second must be in 0..59")
  else Ok tt.

(** [datetime(y, m, d, hh, mm, ss, tzinfo=...)] *)
Definition make (y m d hh mm ss : Z) (tz : option Z) : result datetime :=
  _ <- check_fields y m d hh mm ss ;;
  Ok (Datetime y m d hh mm ss tz).

(** Seconds since 0001-01-01 00:00:00 on the clock of the fields. *)
Definition clock_seconds (dt : datetime) : Z :=
  (ymd2ord (year dt) (month dt) (day dt) - 1) * 86400 +
  hour dt * 3600 + minute dt * 60 + second dt.

Definition of_clock_seconds (t : Z) (tz : option Z) : datetime :=
  let '(y, m, d) := ord2ymd (t / 86400 + 1) in
  let s := t mod 86400 in
  Datetime y m d (s / 3600) ((s mod 3600) / 60) (s mod 60) tz.

(** The last second of the year 9999. *)
Definition max_seconds : Z := 3652059 * 86400 - 1.

Definition in_range_seconds (t : Z) : bool := (0 <=? t) && (t <=? max_seconds).

(** The offset of Asia/Jakarta at a UTC instant (tzdata): local mean time
    until 1923, then +7:20, +7:30, +9, +7:30, +8, +7:30, and +7 (WIB) from
    1963-12-31 16:30:00 UTC on. *)
Definition jakarta_utcoffset (utc : Z) : Z :=
  if utc <? 60683877600 then 25632
  else if utc <? 60962690400 then 26400
  else if utc <? 61258955400 then 27000
  else if utc <? 61369542000 then 32400
  else if utc <? 61451713800 then 27000
  else if utc <? 61514784000 then 28800
  else if utc <? 61946181000 then 27000
  else 25200.

(** [dt.astimezone(ZoneInfo("Asia/Jakarta"))] of an aware [dt] *)
Definition astimezone_jakarta (dt : datetime) : result datetime :=
  let off := match utcoffset dt with Some o => o | None => 0 end in
  let utc := clock_seconds dt - off in
  if negb (in_range_seconds utc) then Raise OverflowError
  else
    let o := jakarta_utcoffset utc in
    let loc := utc + o in
    if negb (in_range_seconds loc) then Raise OverflowError
    else Ok (of_clock_seconds loc (Some o)).

(** Decimal digits. *)
Definition digit (n : Z) : char := Z.to_N (48 + n mod 10).
Definition pad2 (n : Z) : str := [digit (n / 10); digit n].
Definition pad4 (n : Z) : str := [digit (n / 1000); digit (n / 100); digit (n / 10); digit n].

(** The year of [%Y] as the C library prints it: no zeros in front. *)
Definition year_text (y : Z) : str :=
  if y <? 10 then [digit y]
  else if y <? 100 then pad2 y
  else if y <? 1000 then digit (y / 100) :: pad2 y
  else pad4 y.

(** [dt.strftime("%Y-%m-%d %H:%M:%S")] *)
Definition strftime (dt : datetime) : str :=
  year_text (year dt) ++ lit "-" ++ pad2 (month dt) ++ lit "-" ++ pad2 (day dt) ++
  lit " " ++ pad2 (hour dt) ++ lit ":" ++ pad2 (minute dt) ++ lit ":" ++ pad2 (second dt).

(** [int(s)] on a text of decimal digits: a digit counts from the zero of
    its block. *)
Definition digit_value (c : char) : Z :=
  Z.of_N c - Z.of_N (match digit_zero c with Some z => z | None => 48%N end).

Fixpoint int_of_digits (acc : Z) (s : str) : Z :=
  match s with
  | [] => acc
  | c :: s' => int_of_digits (acc * 10 + digit_value c) s'
  end.

Definition int (s : str) : Z := int_of_digits 0 s.

(** Exactly [n] ASCII digits at the start: their value and the rest. *)
Fixpoint take_digits (n : nat) (acc : Z) (s : str) : option (Z * str) :=
  match n with
  | O => Some (acc, s)
  | S n' =>
      match s with
      | c :: s' =>
          if is_digit_ascii c then take_digits n' (acc * 10 + digit_value c) s'
          else None
      | [] => None
      end
  end.

Definition expect (c : char) (s : str) : option str :=
  match s with
  | x :: s' => if chr_eqb x c then Some s' else None
  | [] => None
  end.

Definition invalid : exn := ValueError "Invalid isoformat string".

(** The offset [+HH:MM] or [-HH:MM] at the end of the text. *)
Definition parse_offset (s : str) : result (option Z) :=
  match s with
  | [] => Ok None
  | sign :: t =>
      if chr_eqb sign 43 || chr_eqb sign 45 then
        match take_digits 2 0 t with
        | Some (hh, t1) =>
            match expect 58 t1 with
            | Some t2 =>
                match take_digits 2 0 t2 with
                | Some (mm, []) =>
                    let o := hh * 3600 + mm * 60 in
                    if 86400 <=? o
                    then Raise (ValueError "offset must be strictly between -24 and 24 hours")
                    else Ok (Some (if chr_eqb sign 45 then - o else o))
                | _ => Raise invalid
                end
            | None => Raise invalid
            end
        | None => Raise invalid
        end
      else Raise invalid
  end.

(** [datetime.fromisoformat(s)] of Python 3.11, on the extended format:
    [YYYY-MM-DD], then nothing, or one separator character and [HH:MM] or
    [HH:MM:SS], then nothing or an offset [+HH:MM] or [-HH:MM]. The library
    reads more spellings (basic format, week dates, fractions of a second,
    other offsets); on those the model raises, and nothing is stated about
    them. *)
Definition fromisoformat (s : str) : result datetime :=
  match take_digits 4 0 s with
  | None => Raise invalid
  | Some (y, s1) =>
  match expect 45 s1 with
  | None => Raise invalid
  | Some s2 =>
  match take_digits 2 0 s2 with
  | None => Raise invalid
  | Some (m, s3) =>
  match expect 45 s3 with
  | None => Raise invalid
  | Some s4 =>
  match take_digits 2 0 s4 with
  | None => Raise invalid
  | Some (d, s5) =>
  match s5 with
  | [] => make y m d 0 0 0 None
  | _ :: s6 =>
  match take_digits 2 0 s6 with
  | None => Raise invalid
  | Some (hh, s7) =>
  match expect 58 s7 with
  | None => Raise invalid
  | Some s8 =>
  match take_digits 2 0 s8 with
  | None => Raise invalid
  | Some (mm, s9) =>
      match expect 58 s9 with
      | Some s10 =>
          match take_digits 2 0 s10 with
          | None => Raise invalid
          | Some (ss, s11) =>
              tz <- parse_offset s11 ;;
              make y m d hh mm ss tz
          end
      | None =>
          tz <- parse_offset s9 ;;
          make y m d hh mm 0 tz
      end
  end end end end end end end end end.

End Datetime.

(** ** The date normalisers

[iso_to_wib] of detik and kompas:
<<
def iso_to_wib(iso_str: str) -> str:
    if not iso_str:
        return ""
    s = iso_str.strip()
    if s.endswith("Z"):
        s = s[:-1] + "+00:00"
    try:
        dt = datetime.fromisoformat(s)
        if dt.tzinfo is None:
            dt = dt.replace(tzinfo=ZoneInfo("UTC"))
        dt_wib = dt.astimezone(WIB)
        return dt_wib.strftime("%Y-%m-%d %H:%M:%S WIB")
    except Exception:
        return ""
>>
    [iso_to_wib] of tribunnews and [parse_iso_to_wib] of tempo are the same
    with the format [%Y-%m-%d %H:%M:%S]. *)
Module Dates.

(** The statements of [iso_to_wib] up to the formatting. *)
Definition iso_to_jakarta (iso_str : str) : result Datetime.datetime :=
  let s := strip iso_str in
  let s := if endswith (lit "Z") s then removelast s ++ lit "+00:00" else s in
  dt <- Datetime.fromisoformat s ;;
  let dt := match Datetime.utcoffset dt with
            | None => Datetime.Datetime (Datetime.year dt) (Datetime.month dt)
                        (Datetime.day dt) (Datetime.hour dt) (Datetime.minute dt)
                        (Datetime.second dt) (Some 0%Z)
            | Some _ => dt
            end in
  Datetime.astimezone_jakarta dt.

Definition detik_iso_to_wib (iso_str : str) : str :=
  if negb (truthy iso_str) then []
  else match iso_to_jakarta iso_str with
       | Ok dt_wib => Datetime.strftime dt_wib ++ lit " WIB"
       | Raise _ => []
       end.

Definition tribun_iso_to_wib (iso_str : str) : str :=
  if negb (truthy iso_str) then []
  else match iso_to_jakarta iso_str with
       | Ok dt_wib => Datetime.strftime dt_wib
       | Raise _ => []
       end.

(** [parse_kompas_time_text_to_wib] of kompas:
<<
def parse_kompas_time_text_to_wib(text: str) -> str:
    if not text:
        return ""
    s = clean_text(text)
    m = re.search(r"(\d{2})/(\d{2})/(\d{4}),\s*(\d{2}):(\d{2})\s*WIB", s)
    if m:
        dd, mm, yyyy, HH, MM = m.groups()
        dt = datetime(int(yyyy), int(mm), int(dd), int(HH), int(MM), 0, tzinfo=WIB)
        return dt.strftime("%Y-%m-%d %H:%M:%S")
    bulan_map = { "januari": 1, "jan": 1, ..., "desember": 12, "des": 12 }
    m = re.search(r"(\d{1,2})\s+([A-Za-z]+)\s+(\d{4}).*?(\d{2}):(\d{2})\s*WIB",
                  s, flags=re.I)
    if m:
        dd, mon, yyyy, HH, MM = m.groups()
        mon_num = bulan_map.get(mon.lower(), 0)
        if mon_num:
            dt = datetime(int(yyyy), mon_num, int(dd), int(HH), int(MM), 0, tzinfo=WIB)
            return dt.strftime("%Y-%m-%d %H:%M:%S")
    return ""
>> *)
Definition numeric_re : Re.re :=
  Re.seq [Re.Grp 1 (Re.times 2 Re.dg); Re.c1 47; Re.Grp 2 (Re.times 2 Re.dg); Re.c1 47;
          Re.Grp 3 (Re.times 4 Re.dg); Re.c1 44; Re.star Re.ws;
          Re.Grp 4 (Re.times 2 Re.dg); Re.c1 58; Re.Grp 5 (Re.times 2 Re.dg);
          Re.star Re.ws; Re.text (lit "WIB")].

Definition long_re : Re.re :=
  Re.seq [Re.Grp 1 (Re.between 1 2 Re.dg); Re.plus Re.ws;
          Re.Grp 2 (Re.plus (Re.Chr is_alpha_fold)); Re.plus Re.ws;
          Re.Grp 3 (Re.times 4 Re.dg); Re.star_lazy Re.dot;
          Re.Grp 4 (Re.times 2 Re.dg); Re.c1 58; Re.Grp 5 (Re.times 2 Re.dg);
          Re.star Re.ws; Re.text_i (lit "WIB")].

Definition bulan_map : list (str * Z) :=
  [(lit "januari", 1); (lit "jan", 1); (lit "februari", 2); (lit "feb", 2);
   (lit "maret", 3); (lit "mar", 3); (lit "april", 4); (lit "apr", 4);
   (lit "mei", 5); (lit "juni", 6); (lit "jun", 6); (lit "juli", 7); (lit "jul", 7);
   (lit "agustus", 8); (lit "agu", 8); (lit "september", 9); (lit "sep", 9);
   (lit "oktober", 10); (lit "okt", 10); (lit "november", 11); (lit "nov", 11);
   (lit "desember", 12); (lit "des", 12)]%Z.

(** [d.get(key, default)] on a dictionary with string keys *)
Fixpoint dict_get {V : Type} (d : list (str * V)) (key : str) (default : V) : V :=
  match d with
  | [] => default
  | (k, v) :: d' => if str_eqb k key then v else dict_get d' key default
  end.

Definition parse_kompas_time_text_to_wib (text : str) : result str :=
  if negb (truthy text) then Ok []
  else
    let s := Detik_text.clean_text (Some text) in
    match Re.search numeric_re s with
    | Some m =>
        let g := Re.group (Re.m_caps m) in
        dt <- Datetime.make (Datetime.int (g 3%nat)) (Datetime.int (g 2%nat))
                (Datetime.int (g 1%nat)) (Datetime.int (g 4%nat))
                (Datetime.int (g 5%nat)) 0 (Some 25200%Z) ;;
        Ok (Datetime.strftime dt)
    | None =>
        match Re.search long_re s with
        | Some m =>
            let g := Re.group (Re.m_caps m) in
            let mon_num := dict_get bulan_map (lower_folded (g 2%nat)) 0%Z in
            if (mon_num =? 0)%Z then Ok []
            else
              dt <- Datetime.make (Datetime.int (g 3%nat)) mon_num
                      (Datetime.int (g 1%nat)) (Datetime.int (g 4%nat))
                      (Datetime.int (g 5%nat)) 0 (Some 25200%Z) ;;
              Ok (Datetime.strftime dt)
        | None => Ok []
        end
    end.

End Dates.

(** ** Functions of the statements about dates *)
Module Datespec.

Local Open Scope Z_scope.

(** The text [YYYY-MM-DD], a separator, [HH:MM:SS], then [tail]. *)
Definition iso_text (sep : char) (y m d hh mm ss : Z) (tail : str) : str :=
  Datetime.pad4 y ++ 45%N :: Datetime.pad2 m ++ 45%N :: Datetime.pad2 d ++
  sep :: Datetime.pad2 hh ++ 58%N :: Datetime.pad2 mm ++ 58%N :: Datetime.pad2 ss ++ tail.

(** What follows the time in an ISO-8601 text. *)
Inductive designator : Type :=
| Naive                                         (* nothing *)
| Zulu                                          (* Z *)
| Offset (west : bool) (oh om : Z).             (* +HH:MM or -HH:MM *)

Definition designator_text (z : designator) : str :=
  match z with
  | Naive => []
  | Zulu => lit "Z"
  | Offset west oh om =>
      (if west then 45%N else 43%N) :: Datetime.pad2 oh ++ 58%N :: Datetime.pad2 om
  end.

(** Seconds east of UTC; a text without designator counts as UTC. *)
Definition designator_seconds (z : designator) : Z :=
  match z with
  | Naive | Zulu => 0
  | Offset west oh om => if west then - (oh * 3600 + om * 60) else oh * 3600 + om * 60
  end.

(** The offset of the parsed value: none for a text without designator. *)
Definition designator_offset (z : designator) : option Z :=
  match z with
  | Naive => None
  | _ => Some (designator_seconds z)
  end.

Definition valid_designator (z : designator) : bool :=
  match z with
  | Naive | Zulu => true
  | Offset _ oh om =>
      (0 <=? oh) && (oh <=? 99) && (0 <=? om) && (om <=? 99) &&
      (oh * 3600 + om * 60 <? 86400)
  end.

Definition valid_fields (y m d hh mm ss : Z) : bool :=
  match Datetime.check_fields y m d hh mm ss with
  | Ok _ => true
  | Raise _ => false
  end.

(** Seconds since 0001-01-01 00:00:00 on the clock that shows the fields. *)
Definition clock (y m d hh mm ss : Z) : Z :=
  Datetime.clock_seconds (Datetime.Datetime y m d hh mm ss None).

(** The UTC instants at which Jakarta is on WIB (UTC+7) and whose local time
    is still in the year 9999 at most. *)
Definition wib_era (utc : Z) : bool :=
  (61946181000 <=? utc) && (utc + 25200 <=? Datetime.max_seconds).

(** The canonical text of the clock time [t]. *)
Definition canonical_text (t : Z) : str :=
  Datetime.strftime (Datetime.of_clock_seconds t None).

(** The shape [YYYY-MM-DD HH:MM:SS]. *)
Definition is_canonical (s : str) : bool :=
  match s with
  | [y1; y2; y3; y4; a; m1; m2; b; d1; d2; c; h1; h2; e; n1; n2; f; s1; s2] =>
      forallb is_digit_ascii [y1; y2; y3; y4; m1; m2; d1; d2; h1; h2; n1; n2; s1; s2] &&
      chr_eqb a 45 && chr_eqb b 45 && chr_eqb c 32 && chr_eqb e 58 && chr_eqb f 58
  | _ => false
  end%N.

End Datespec.

(** ** Functions of the statements about patterns *)

(** Every text that [r] matches has a character of the class [p]. *)
Inductive needs (p : char -> bool) : Re.re -> Prop :=
| needs_chr q : (forall x, q x = true -> p x = true) -> needs p (Re.Chr q)
| needs_seq_l a b : needs p a -> needs p (Re.Seq a b)
| needs_seq_r a b : needs p b -> needs p (Re.Seq a b)
| needs_alt a b : needs p a -> needs p b -> needs p (Re.Alt a b)
| needs_grp i a : needs p a -> needs p (Re.Grp i a)
| needs_rep lo hi greedy a : 1 <= lo -> needs p a -> needs p (Re.Rep lo hi greedy a).

(** [s'] is what is left of [s] after a start of it. *)
Definition is_suffix (s' s : str) : Prop := exists a, s = a ++ s'.

(** A matcher that, when it succeeds, has called its continuation on a
    suffix of the subject. *)
Definition hands_suffix (A : Type)
  (body : str -> str -> Re.caps -> Re.cont A -> option A) : Prop :=
  forall pre s c k v,
    body pre s c k = Some v ->
    exists pre' s' c', k pre' s' c' = Some v /\ is_suffix s' s.

(** The letter W, in either case. *)
Definition letter_w (c : char) : bool := chr_eqb (lower_chr c) 119.

(** The text begins with the four digits of a year, as every text that
    [datetime.fromisoformat] reads does. *)
Definition starts_with_year (s : str) : bool :=
  match s with
  | a :: b :: c :: d :: _ => forallb is_digit_ascii [a; b; c; d]
  | _ => false
  end.

(** One of the two patterns of [parse_kompas_time_text_to_wib] finds a date
    in the text: the one in digits, or the one in words with a month of the
    table. *)
Definition kompas_date_found (s : str) : bool :=
  match Re.search Dates.numeric_re s with
  | Some _ => true
  | None =>
      match Re.search Dates.long_re s with
      | Some m =>
          negb (Dates.dict_get Dates.bulan_map
                  (lower_folded (Re.group (Re.m_caps m) 2)) 0 =? 0)%Z
      | None => false
      end
  end.

(** ** [parse_indo_date] of republika

<<
def parse_indo_date(date_text: str) -> Optional[datetime]:
    if not date_text:
        return None
    months = { "Januari": 1, ..., "Desember": 12 }
    try:
        pattern1 = r"(\d{1,2})\s+(\w+)\s+(\d{4}),?\s+(\d{1,2}):(\d{2})"
        match1 = re.search(pattern1, date_text)
        if match1:
            day, month_str, year, hour, minute = match1.groups()
            month = months.get(month_str)
            if month:
                return datetime(int(year), month, int(day),
                                int(hour), int(minute)).replace(tzinfo=WIB)
        pattern2 = r"(\d{4})-(\d{2})-(\d{2})[T\s](\d{2}):(\d{2}):(\d{2})"
        match2 = re.search(pattern2, date_text)
        if match2:
            year, month, day, hour, minute, second = match2.groups()
            return datetime(int(year), int(month), int(day),
                            int(hour), int(minute), int(second)).replace(tzinfo=WIB)
    except Exception:
        pass
    return None
>>
    The callers format the value with [%Y-%m-%d %H:%M:%S]. *)
Module Republika_dates.

Definition months : list (str * Z) :=
  [(lit "Januari", 1); (lit "Februari", 2); (lit "Maret", 3); (lit "April", 4);
   (lit "Mei", 5); (lit "Juni", 6); (lit "Juli", 7); (lit "Agustus", 8);
   (lit "September", 9); (lit "Oktober", 10); (lit "November", 11);
   (lit "Desember", 12)]%Z.

Definition pattern1 : Re.re :=
  Re.seq [Re.Grp 1 (Re.between 1 2 Re.dg); Re.plus Re.ws; Re.Grp 2 (Re.plus Re.wd);
          Re.plus Re.ws; Re.Grp 3 (Re.times 4 Re.dg); Re.between 0 1 (Re.c1 44);
          Re.plus Re.ws; Re.Grp 4 (Re.between 1 2 Re.dg); Re.c1 58;
          Re.Grp 5 (Re.times 2 Re.dg)].

Definition pattern2 : Re.re :=
  Re.seq [Re.Grp 1 (Re.times 4 Re.dg); Re.c1 45; Re.Grp 2 (Re.times 2 Re.dg); Re.c1 45;
          Re.Grp 3 (Re.times 2 Re.dg); Re.Chr (fun c => chr_eqb c 84 || is_space c);
          Re.Grp 4 (Re.times 2 Re.dg); Re.c1 58; Re.Grp 5 (Re.times 2 Re.dg); Re.c1 58;
          Re.Grp 6 (Re.times 2 Re.dg)].

(** The body of the [try]. *)
Definition parse_body (date_text : str) : result (option Datetime.datetime) :=
  let second_pattern :=
    match Re.search pattern2 date_text with
    | Some m =>
        let g := Re.group (Re.m_caps m) in
        dt <- Datetime.make (Datetime.int (g 1%nat)) (Datetime.int (g 2%nat))
                (Datetime.int (g 3%nat)) (Datetime.int (g 4%nat))
                (Datetime.int (g 5%nat)) (Datetime.int (g 6%nat)) (Some 25200%Z) ;;
        Ok (Some dt)
    | None => Ok None
    end in
  match Re.search pattern1 date_text with
  | Some m =>
      let g := Re.group (Re.m_caps m) in
      let month := Dates.dict_get months (g 2%nat) 0%Z in
      if (month =? 0)%Z then second_pattern
      else
        dt <- Datetime.make (Datetime.int (g 3%nat)) month (Datetime.int (g 1%nat))
                (Datetime.int (g 4%nat)) (Datetime.int (g 5%nat)) 0 (Some 25200%Z) ;;
        Ok (Some dt)
  | None => second_pattern
  end.

Definition parse_indo_date (date_text : str) : option Datetime.datetime :=
  if negb (truthy date_text) then None
  else match parse_body date_text with
       | Ok r => r
       | Raise _ => None
       end.

(** [dt.strftime("%Y-%m-%d %H:%M:%S")] when there is a value, as in
    [extract_republika_article]. *)
Definition waktu_terbit (publish_date : str) : str :=
  match parse_indo_date publish_date with
  | Some dt => Datetime.strftime dt
  | None => []
  end.

End Republika_dates.

(** ** More of [str] *)

(** [s.replace(old, new)] for a non-empty [old]; [skip] counts the characters
    of a replaced occurrence that are still to pass. *)
Fixpoint replace_go (old new : str) (skip : nat) (s : str) : str :=
  match s with
  | [] => []
  | x :: s' =>
      match skip with
      | S k => replace_go old new k s'
      | O =>
          if startswith old s
          then new ++ replace_go old new (List.length old - 1) s'
          else x :: replace_go old new 0 s'
      end
  end.

Definition replace (old new s : str) : str := replace_go old new 0 s.

(** The separator of the paragraphs of a content: two line feeds. *)
Definition blank_line : str := [10; 10]%N.

(** [s.split()]: the maximal blocks without white space. *)
Fixpoint words_go (cur : str) (s : str) : list str :=
  match s with
  | [] => match cur with [] => [] | _ => [rev cur] end
  | x :: s' =>
      if is_space x
      then match cur with [] => words_go [] s' | _ => rev cur :: words_go [] s' end
      else words_go (x :: cur) s'
  end.

Definition words (s : str) : list str := words_go [] s.

(** ** A model of a parsed page

    What [BeautifulSoup(html, "lxml")] returns: a tree of elements and texts.
    The root stands for the document. Comments and the code of script and
    style elements are no text of the tree, as for [get_text]. *)
Module Dom.

#[warnings="-register-all"]
Inductive node : Type :=
| Text (s : str)
| Elem (tag : str) (attrs : list (str * str)) (children : list node).

(** The tree of a page: the document, whose only child is the [html]
    element. *)
Definition html (cs : list node) : node :=
  Elem (lit "[document]") [] [Elem (lit "html") [] cs].

Definition children (n : node) : list node :=
  match n with
  | Text _ => []
  | Elem _ _ cs => cs
  end.

(** [el.get(name)]: the value of an attribute, if the element has it. *)
Fixpoint lookup (attrs : list (str * str)) (name : str) : option str :=
  match attrs with
  | [] => None
  | (k, v) :: rest => if str_eqb k name then Some v else lookup rest name
  end.

Definition attr (n : node) (name : str) : option str :=
  match n with
  | Text _ => None
  | Elem _ attrs _ => lookup attrs name
  end.

(** [el.get(name, "")] *)
Definition attr_or_empty (n : node) (name : str) : str :=
  match attr n name with Some v => v | None => [] end.

Definition tag_is (t : str) (n : node) : bool :=
  match n with
  | Text _ => false
  | Elem t' _ _ => str_eqb t t'
  end.

(** The classes of an element: the white-space separated words of its
    [class] attribute. *)
Definition has_class (c : str) (n : node) : bool :=
  match attr n (lit "class") with
  | Some v => existsb (str_eqb c) (words v)
  | None => false
  end.

Definition has_id (i : str) (n : node) : bool :=
  match attr n (lit "id") with
  | Some v => str_eqb i v
  | None => false
  end.

(** The elements below [n], in the order of the document. *)
Fixpoint descendants (n : node) : list node :=
  match n with
  | Text _ => []
  | Elem _ _ cs =>
      flat_map (fun c => match c with
                         | Text _ => []
                         | Elem _ _ _ => c :: descendants c
                         end) cs
  end.

(** The texts below [n], in the order of the document. *)
Fixpoint strings (n : node) : list str :=
  match n with
  | Text s => [s]
  | Elem _ _ cs => flat_map strings cs
  end.

(** [el.get_text(sep, strip=True)] and [el.get_text()] *)
Definition get_text_strip (sep : str) (n : node) : str :=
  join sep (filter truthy (map strip (strings n))).

Definition get_text (n : node) : str := List.concat (strings n).

(** A simple selector: a tag, an id, a class, an attribute that is there,
    a text inside the class attribute ([[class*='x']]), each optional. *)
Record simple : Type := Simple {
  s_tag : option str;
  s_id : option str;
  s_class : option str;
  s_attr : option str;
  s_class_part : option str
}.

Definition matches (sel : simple) (n : node) : bool :=
  match n with
  | Text _ => false
  | Elem _ _ _ =>
      match s_tag sel with Some t => tag_is t n | None => true end &&
      match s_id sel with Some i => has_id i n | None => true end &&
      match s_class sel with Some c => has_class c n | None => true end &&
      match s_attr sel with
      | Some a => match attr n a with Some _ => true | None => false end
      | None => true
      end &&
      match s_class_part sel with
      | Some x => match attr n (lit "class") with
                  | Some v => contains x v
                  | None => false
                  end
      | None => true
      end
  end.

Definition by_tag (t : string) : simple := Simple (Some (lit t)) None None None None.
Definition by_tag_class (t c : string) : simple :=
  Simple (Some (lit t)) None (Some (lit c)) None None.
Definition by_tag_id (t i : string) : simple :=
  Simple (Some (lit t)) (Some (lit i)) None None None.
Definition by_tag_attr (t a : string) : simple :=
  Simple (Some (lit t)) None None (Some (lit a)) None.
Definition by_class (c : string) : simple := Simple None None (Some (lit c)) None None.
Definition by_id (i : string) : simple := Simple None (Some (lit i)) None None None.
Definition by_tag_class_part (t x : string) : simple :=
  Simple (Some (lit t)) None None None (Some (lit x)).

(** [el.select(sel)] for a list of simple selectors: the elements below [el]
    that one of them matches, in the order of the document. *)
Definition select (sels : list simple) (n : node) : list node :=
  filter (fun d => existsb (fun sel => matches sel d) sels) (descendants n).

(** [el.select_one(sel)] and [el.find(tag)] *)
Definition select_one (sels : list simple) (n : node) : option node :=
  hd_error (select sels n).

(** [el.find_all(tag)] *)
Definition find_all (t : string) (n : node) : list node := select [by_tag t] n.

(** [el.find(tag, attrs={name: value})] *)
Definition find_with_attr (t : string) (name value : str) (n : node) : option node :=
  hd_error (filter (fun d => tag_is (lit t) d &&
                             match attr d name with
                             | Some v => str_eqb v value
                             | None => false
                             end) (descendants n)).

(** An element of [el.select("a b")]: a [b] below an [a] below [el]. *)
Definition select_below (outer inner : simple) (n : node) : list node :=
  flat_map (fun a => filter (matches inner) (descendants a))
           (filter (matches outer) (descendants n)).

(** The tree without the elements that [f] takes, as after [decompose] on
    each of them. *)
Fixpoint remove_all (f : node -> bool) (n : node) : node :=
  match n with
  | Text s => Text s
  | Elem t a cs =>
      Elem t a (flat_map (fun c => match c with
                                   | Text _ => [c]
                                   | Elem _ _ _ =>
                                       if f c then [] else [remove_all f c]
                                   end) cs)
  end.

(** The tree without the first element that [f] takes, as after
    [decompose] on the result of [select_one]; the flag says that the
    element is gone. *)
Fixpoint remove_first (f : node -> bool) (n : node) : node * bool :=
  match n with
  | Text s => (Text s, false)
  | Elem t a cs =>
      let fix go (l : list node) : list node * bool :=
        match l with
        | [] => ([], false)
        | c :: rest =>
            match c with
            | Text _ => let (r, b) := go rest in (c :: r, b)
            | Elem _ _ _ =>
                if f c then (rest, true)
                else
                  let (c', b) := remove_first f c in
                  if b then (c' :: rest, true)
                  else let (r, b') := go rest in (c :: r, b')
            end
        end in
      let (cs', b) := go cs in (Elem t a cs', b)
  end.

(** The tree in which every element that [f] takes is replaced by its
    children, as after [unwrap] on each of them. *)
Fixpoint unwrap_all (f : node -> bool) (n : node) : node :=
  match n with
  | Text s => Text s
  | Elem t a cs =>
      Elem t a (flat_map (fun c => match c with
                                   | Text _ => [c]
                                   | Elem _ _ _ =>
                                       if f c then children (unwrap_all f c)
                                       else [unwrap_all f c]
                                   end) cs)
  end.

End Dom.

(** ** The two loops of every list parser

<<
    rows = []
    for a in soup.select("a[href]"):
        ...                      # continue, or rows.append(row)
    seen = set()
    out = []
    for r in rows:
        if r["url"] in seen:
            continue
        seen.add(r["url"])
        out.append(r)
    return out
>>
    The loops are the same in detik, kompas and tempo; the rows differ, and
    so does the body of the first loop, which gives the row of a link or
    skips the link. *)
Module Listing.

Section Rows.
Variable R : Type.
Variable url : R -> str.
Variable row_of_link : Dom.node -> result (option R).

(** The first loop: the rows of the links, in the order of the page. *)
Fixpoint collect_rows (links : list Dom.node) (rows : list R) : result (list R) :=
  match links with
  | [] => Ok rows
  | a :: rest =>
      r <- row_of_link a ;;
      match r with
      | Some x => collect_rows rest (rows ++ [x])
      | None => collect_rows rest rows
      end
  end.

(** The second loop: [seen] is the set of the urls taken, [out] the rows
    kept. *)
Fixpoint dedup (rows : list R) (seen : list str) (out : list R) : list R :=
  match rows with
  | [] => out
  | r :: rest =>
      if existsb (str_eqb (url r)) seen then dedup rest seen out
      else dedup rest (url r :: seen) (out ++ [r])
  end.

Definition parse_list (links : list Dom.node) : result (list R) :=
  rows <- collect_rows links [] ;;
  Ok (dedup rows [] []).

End Rows.
Arguments collect_rows {R} row_of_link links rows.
Arguments dedup {R} url rows seen out.
Arguments parse_list {R} url row_of_link links.

End Listing.

(** ** The list parser and the detail parser of detik *)
Module Detik.

Definition clean_text := Detik_text.clean_text.
Definition normalize_url := Detik_url.normalize_url.
Definition is_article_url := Detik_url.is_article_url.

(** A row of the list: [published_wib], [title_list], [url]. The key [page]
    that the orchestrator adds is read nowhere and is left out. *)
Record row : Type := Row {
  published_wib : str;
  title_list : str;
  url : str
}.

(**
<<
m = re.search(
    r"^(?P<channel>\S+)\s+(?P<dow>\S+),\s+(?P<date>\d{1,2}\s+\S+\s+\d{4})\s+"
    r"(?P<time>\d{2}:\d{2})\s+WIB\s+(?P<title>.+)$", text)
>>
    Groups 1 to 5: channel, dow, date, time, title. *)
Definition list_re : Re.re :=
  Re.seq [Re.Bol; Re.Grp 1 (Re.plus Re.nws); Re.plus Re.ws;
          Re.Grp 2 (Re.plus Re.nws); Re.c1 44; Re.plus Re.ws;
          Re.Grp 3 (Re.seq [Re.between 1 2 Re.dg; Re.plus Re.ws; Re.plus Re.nws;
                            Re.plus Re.ws; Re.times 4 Re.dg]);
          Re.plus Re.ws;
          Re.Grp 4 (Re.seq [Re.times 2 Re.dg; Re.c1 58; Re.times 2 Re.dg]);
          Re.plus Re.ws; Re.text (lit "WIB"); Re.plus Re.ws;
          Re.Grp 5 (Re.plus Re.dot); Re.Eol].

(** The body of the loop over the links: the row of a link, if it is taken.
<<
    url = normalize_url(a.get("href", ""))
    if not is_article_url(url):
        continue
    text = clean_text(a.get_text(" ", strip=True))
    if "WIB" not in text:
        continue
    m = re.search(...)
    if not m:
        continue
    rows.append({
        "published_wib": f'{m.group("dow")}, {m.group("date")} {m.group("time")} WIB',
        "title_list": clean_text(m.group("title")),
        "url": url,
    })
>> *)
Definition row_of_link (a : Dom.node) : result (option row) :=
  url <- normalize_url (Some (Dom.attr_or_empty a (lit "href"))) ;;
  if negb (is_article_url url) then Ok None
  else
    let text := clean_text (Some (Dom.get_text_strip (lit " ") a)) in
    if negb (contains (lit "WIB") text) then Ok None
    else
      match Re.search list_re text with
      | None => Ok None
      | Some m =>
          let g := Re.group (Re.m_caps m) in
          Ok (Some (Row (g 2%nat ++ lit ", " ++ g 3%nat ++ lit " " ++ g 4%nat ++ lit " WIB")
                        (clean_text (Some (g 5%nat)))
                        url))
      end.

Definition parse_tag_news_page (soup : Dom.node) : result (list row) :=
  Listing.parse_list url row_of_link (Dom.select [Dom.by_tag_attr "a" "href"] soup).

(** [extract_meta(soup, name=..., prop=...)] *)
Definition meta_content (key value : str) (soup : Dom.node) : option str :=
  match Dom.find_with_attr "meta" key value soup with
  | Some m =>
      match Dom.attr m (lit "content") with
      | Some c => if truthy c then Some (clean_text (Some c)) else None
      | None => None
      end
  | None => None
  end.

Definition extract_meta (soup : Dom.node) (name prop : option str) : str :=
  match match prop with
        | Some p => if truthy p then meta_content (lit "property") p soup else None
        | None => None
        end with
  | Some c => c
  | None =>
      match match name with
            | Some n => if truthy n then meta_content (lit "name") n soup else None
            | None => None
            end with
      | Some c => c
      | None => []
      end
  end.

(** [pick_main_container]: the first of the selectors with an element that
    has text, else the document. *)
Definition container_selectors : list Dom.simple :=
  [Dom.by_tag "article"; Dom.by_tag_class "div" "detail__body-text";
   Dom.by_tag_class "div" "detail__body"; Dom.by_tag_id "div" "detikdetailtext";
   Dom.by_tag_class "div" "itp_bodycontent"].

Fixpoint pick_from (sels : list Dom.simple) (soup : Dom.node) : Dom.node :=
  match sels with
  | [] => soup
  | sel :: rest =>
      match Dom.select_one [sel] soup with
      | Some el => if truthy (Dom.get_text_strip [] el) then el else pick_from rest soup
      | None => pick_from rest soup
      end
  end.

Definition pick_main_container (soup : Dom.node) : Dom.node :=
  pick_from container_selectors soup.

(** The test on a paragraph of the content.
<<
    t = clean_text(p.get_text(" ", strip=True))
    if not t: continue
    if t == "ADVERTISEMENT": continue
    if t.lower().startswith("baca juga:"): continue
    paras.append(t)
>> *)
Definition keep_paragraph (t : str) : bool :=
  truthy t && negb (str_eqb t (lit "ADVERTISEMENT")) &&
  negb (startswith (lit "baca juga:") (lower t)).

Definition paragraphs (container : Dom.node) : list str :=
  filter keep_paragraph
         (map (fun p => clean_text (Some (Dom.get_text_strip (lit " ") p)))
              (Dom.find_all "p" container)).

(** [([A-Za-z .'-]+)\s*-\s*detik\w+] *)
Definition author_re : Re.re :=
  Re.seq [Re.Grp 1 (Re.plus (Re.Chr (fun c =>
             is_alpha_ascii c || chr_eqb c 32 || chr_eqb c 46 || chr_eqb c 39 ||
             chr_eqb c 45)));
          Re.star Re.ws; Re.c1 45; Re.star Re.ws; Re.text (lit "detik"); Re.plus Re.wd].

Record detail : Type := Detail {
  d_url : str;
  title_detail : str;
  author : str;
  published_time_iso : str;
  content : str
}.

Definition parse_detail_page (soup : Dom.node) (u : str) : detail :=
  (* title: the og:title metadata, else the first h1 *)
  let title := extract_meta soup None (Some (lit "og:title")) in
  let title :=
    if truthy title then title
    else match Dom.select_one [Dom.by_tag "h1"] soup with
         | Some h1 => clean_text (Some (Dom.get_text_strip (lit " ") h1))
         | None => []
         end in
  (* author: the author metadata, else a name in front of the brand *)
  let author := extract_meta soup (Some (lit "author")) None in
  let author :=
    if truthy author then author
    else match Re.search author_re (Dom.get_text_strip (lit " ") soup) with
         | Some m => clean_text (Some (Re.group (Re.m_caps m) 1))
         | None => author
         end in
  let published_iso :=
    or_else (extract_meta soup None (Some (lit "article:published_time")))
            (or_else (extract_meta soup (Some (lit "publishdate")) None)
                     (extract_meta soup (Some (lit "date")) None)) in
  (* content: the paragraphs, else all the text of the container *)
  let container := pick_main_container soup in
  let content := strip (join blank_line (paragraphs container)) in
  let content :=
    if truthy content then content
    else clean_text (Some (Dom.get_text_strip (lit " ") container)) in
  Detail u title author published_iso content.

End Detik.

(** ** The orchestrators: what they share *)

(** A row of the table that a run returns, in the order of the columns. *)
Record article : Type := Article {
  sumber : str;
  tanggal : str;
  judul : str;
  a_content : str;
  a_author : str;
  a_url : str;
  created_at : str
}.

(** [list(dict.fromkeys(urls))]: each url once, at its first place. *)
Fixpoint fromkeys (urls : list str) (seen : list str) : list str :=
  match urls with
  | [] => []
  | u :: rest =>
      if existsb (str_eqb u) seen then fromkeys rest seen
      else u :: fromkeys rest (u :: seen)
  end.

(** [str(n)] of a page number *)
Fixpoint decimal_go (fuel : nat) (n : N) (acc : str) : str :=
  match fuel with
  | O => acc
  | S fuel' =>
      let acc' := (48 + n mod 10)%N :: acc in
      if (n <? 10)%N then acc' else decimal_go fuel' (n / 10)%N acc'
  end.

Definition decimal (n : N) : str := decimal_go (S (N.to_nat (N.log2 n))) n [].

(** The environment of a run: what the browser returns for a URL, as the
    tree that the parser makes of the page, or the exception of the fetch;
    and the clock at the start. *)
Record world : Type := World {
  fetch : str -> result Dom.node;
  now : str
}.

(** ** The orchestrator of detik

<<
def scrape_tag_news_to_csv(page_start=1, page_end=10, sortby="time", ...):
    created_at = datetime.now(WIB).strftime("%Y-%m-%d %H:%M:%S")
    with sync_playwright() as p:
        ...
        list_rows = []
        for pg in range(page_start, page_end + 1):
            list_url = f"{TAG_URL}?sortby={sortby}&page={pg}"
            html = fetch_rendered(page, list_url)
            rows = parse_tag_news_page(html)
            if not rows:
                break
            filtered_rows = [r for r in rows
                             if "video" not in (r.get("title_list") or "").lower()]
            list_rows.extend(filtered_rows)
        urls = list(dict.fromkeys([r["url"] for r in list_rows]))
        out = []
        for i, u in enumerate(urls, start=1):
            base = next((x for x in list_rows if x["url"] == u), {})
            try:
                html = fetch_rendered(page, u)
                d = parse_detail_page(html, u)
                sources = "detik"
                iso_wib = iso_to_wib(d.get("published_time_iso", ""))
                if iso_wib:
                    tanggal = iso_wib.replace(" WIB", "")
                else:
                    tgl_list = base.get("published_wib", "")
                    m = re.search(r"\b(\d{1,2}) (\w+) (\d{4}) (\d{2}):(\d{2}) WIB\b", tgl_list)
                    if m:
                        bulan_map = {"Jan": "01", ..., "Des": "12"}
                        hari, bln, thn, jam, menit = m.groups()
                        bln_num = bulan_map.get(bln[:3], "01")
                        dt = datetime(int(thn), int(bln_num), int(hari), int(jam),
                                      int(minut := menit), 0, tzinfo=WIB)
                        tanggal = dt.strftime("%Y-%m-%d %H:%M:%S")
                    else:
                        tanggal = tgl_list
                out.append({
                    "sumber": sources,
                    "tanggal": tanggal,
                    "judul": base.get("title_list", "") or "",  # fallback judul list
                    "content": (d.get("content") or "").replace("SCROLL TO CONTINUE WITH CONTENT", ""),
                    "author": d.get("author") or "",
                    "url": u,
                    "created_at": created_at,
                })
            except Exception as e:
                print(f"[ERROR] {u} -> {e}")
                out.append({
                    "sumber": sources,
                    "tanggal": base.get("published_wib", "") or "",
                    "judul": base.get("title_list", "") or "",
                    "content": "",
                    "author": "",
                    "url": u,
                    "created_at": created_at,
                })
    df = pd.DataFrame(out, columns=[...])
    ...
    return df
>>
    The pauses, the log lines and the writing of the file are left out; the
    value of a run is the list [out], or the exception that ends the run. *)
Module Detik_scrape.

Import Detik.

Definition TAG_URL : str := lit "https://www.detik.com/tag/news/makan-bergizi-gratis/".

Definition list_url (sortby : str) (pg : N) : str :=
  TAG_URL ++ lit "?sortby=" ++ sortby ++ lit "&page=" ++ decimal pg.

Definition not_video (r : row) : bool :=
  negb (contains (lit "video") (lower (title_list r))).

(** The loop over the pages: [count] pages are left, [pg] is the next. *)
Fixpoint listing (w : world) (sortby : str) (count : nat) (pg : N) (list_rows : list row)
  : result (list row) :=
  match count with
  | O => Ok list_rows
  | S count' =>
      html <- fetch w (list_url sortby pg) ;;
      rows <- parse_tag_news_page html ;;
      match rows with
      | [] => Ok list_rows                                   (* break *)
      | _ => listing w sortby count' (pg + 1)%N (list_rows ++ filter not_video rows)
      end
  end.

(** [next((x for x in list_rows if x["url"] == u), {})] *)
Definition base_of (list_rows : list row) (u : str) : option row :=
  find (fun x => str_eqb (url x) u) list_rows.

(** [base.get(key, "")] on the row or on the empty dictionary *)
Definition base_get (base : option row) (field : row -> str) : str :=
  match base with
  | Some r => field r
  | None => []
  end.

Definition fallback_date_re : Re.re :=
  Re.seq [Re.Wordb; Re.Grp 1 (Re.between 1 2 Re.dg); Re.c1 32; Re.Grp 2 (Re.plus Re.wd);
          Re.c1 32; Re.Grp 3 (Re.times 4 Re.dg); Re.c1 32; Re.Grp 4 (Re.times 2 Re.dg);
          Re.c1 58; Re.Grp 5 (Re.times 2 Re.dg); Re.text (lit " WIB"); Re.Wordb].

Definition bulan_map : list (str * str) :=
  [(lit "Jan", lit "01"); (lit "Feb", lit "02"); (lit "Mar", lit "03");
   (lit "Apr", lit "04"); (lit "Mei", lit "05"); (lit "Jun", lit "06");
   (lit "Jul", lit "07"); (lit "Agu", lit "08"); (lit "Sep", lit "09");
   (lit "Okt", lit "10"); (lit "Nov", lit "11"); (lit "Des", lit "12")].

(** The date of a row: the ISO time of the page, else the date of the list. *)
Definition tanggal_of (d : detail) (base : option row) : result str :=
  let iso_wib := Dates.detik_iso_to_wib (published_time_iso d) in
  if truthy iso_wib then Ok (replace (lit " WIB") [] iso_wib)
  else
    let tgl_list := base_get base published_wib in
    match Re.search fallback_date_re tgl_list with
    | Some m =>
        let g := Re.group (Re.m_caps m) in
        let bln_num := Dates.dict_get bulan_map (firstn 3 (g 2%nat)) (lit "01") in
        dt <- Datetime.make (Datetime.int (g 3%nat)) (Datetime.int bln_num)
                (Datetime.int (g 1%nat)) (Datetime.int (g 4%nat))
                (Datetime.int (g 5%nat)) 0 (Some 25200%Z) ;;
        Ok (Datetime.strftime dt)
    | None => Ok tgl_list
    end.

(** The state of the second loop: the local variable [sources], which has no
    value until the first assignment, and the list [out]. *)
Record state : Type := State {
  sources : option str;
  out : list article
}.

(** The handler of the [try]: it reads [sources]. *)
Definition handler (w : world) (st : state) (base : option row) (u : str) : result state :=
  match sources st with
  | None => Raise (UnboundLocalError "sources")
  | Some s =>
      Ok (State (sources st)
                (out st ++ [Article s (base_get base published_wib)
                                    (base_get base title_list) [] [] u (now w)]))
  end.

(** One turn of the second loop. *)
Definition detail_step (w : world) (list_rows : list row) (st : state) (u : str)
  : result state :=
  let base := base_of list_rows u in
  match fetch w u with
  | Raise _ => handler w st base u
  | Ok html =>
      let d := parse_detail_page html u in
      let st := State (Some (lit "detik")) (out st) in        (* sources = "detik" *)
      match tanggal_of d base with
      | Raise _ => handler w st base u
      | Ok tanggal =>
          Ok (State (sources st)
                    (out st ++
                     [Article (lit "detik") tanggal
                              (base_get base title_list)
                              (replace (lit "SCROLL TO CONTINUE WITH CONTENT") [] (content d))
                              (author d) u (now w)]))
      end
  end.

Fixpoint detail_loop (w : world) (list_rows : list row) (st : state) (urls : list str)
  : result state :=
  match urls with
  | [] => Ok st
  | u :: rest =>
      st' <- detail_step w list_rows st u ;;
      detail_loop w list_rows st' rest
  end.

(** [page_end + 1 - page_start] pages from [page_start] on. *)
Definition scrape_tag_news (w : world) (page_start page_end : N) (sortby : str)
  : result (list article) :=
  list_rows <- listing w sortby (N.to_nat (page_end + 1 - page_start)) page_start [] ;;
  let urls := fromkeys (map url list_rows) [] in
  st <- detail_loop w list_rows (State None []) urls ;;
  Ok (out st).

End Detik_scrape.

(** ** The list parser, the detail parser and the orchestrator of kompas *)
Module Kompas.

Definition clean_text := Detik_text.clean_text.
Definition normalize_url := Kompas_url.normalize_url.
Definition is_kompas_article_url := Kompas_url.is_kompas_article_url.
Definition extract_meta := Detik.extract_meta.

(** A row of the list: [title_list], [url]. *)
Record row : Type := Row {
  title_list : str;
  url : str
}.

(** The body of the loop over the links.
<<
    url = normalize_url(a.get("href", ""))
    if not is_kompas_article_url(url):
        continue
    title = clean_text(a.get_text(" ", strip=True))
    if len(title) < 8:
        continue
    if title.lower().startswith("baca juga"):
        continue
    rows.append({"title_list": title, "url": url})
>> *)
Definition row_of_link (a : Dom.node) : result (option row) :=
  url <- normalize_url (Some (Dom.attr_or_empty a (lit "href"))) ;;
  if negb (is_kompas_article_url url) then Ok None
  else
    let title := clean_text (Some (Dom.get_text_strip (lit " ") a)) in
    if (List.length title <? 8)%nat then Ok None
    else if startswith (lit "baca juga") (lower title) then Ok None
    else Ok (Some (Row title url)).

Definition parse_kompas_search_page (soup : Dom.node) : result (list row) :=
  Listing.parse_list url row_of_link (Dom.select [Dom.by_tag_attr "a" "href"] soup).

Definition container_selectors : list Dom.simple :=
  [Dom.by_tag_class "div" "read__content"; Dom.by_tag_class "div" "read__content__text";
   Dom.by_tag "article"; Dom.by_tag_class "div" "read__article"].

Definition pick_main_container (soup : Dom.node) : Dom.node :=
  Detik.pick_from container_selectors soup.

(** The blocks that are no content, in the order in which they are removed. *)
Definition removed_selectors : list Dom.simple :=
  [Dom.by_tag_class "div" "read__related"; Dom.by_tag_class "div" "related";
   Dom.by_tag_class "div" "baca-juga"; Dom.by_tag_id "div" "bacajuga";
   Dom.by_tag_class_part "div" "related"; Dom.by_tag_class_part "div" "baca";
   Dom.by_tag "script"; Dom.by_tag "style"].

Definition without_blocks (container : Dom.node) : Dom.node :=
  fold_left (fun c sel => Dom.remove_all (Dom.matches sel) c) removed_selectors container.

(** The loop over the paragraphs of the content.
<<
    t = clean_text(p.get_text(" ", strip=True))
    if not t: continue
    low = t.lower()
    if t == "ADVERTISEMENT": continue
    if low.startswith("baca juga"): continue
    if low.startswith("lihat juga"): continue
    t = t.replace("SCROLL TO CONTINUE WITH CONTENT", "").strip()
    if not t: continue
    paras.append(t)
>> *)
Definition paragraph (t : str) : option str :=
  if negb (truthy t) then None
  else if str_eqb t (lit "ADVERTISEMENT") then None
  else if startswith (lit "baca juga") (lower t) then None
  else if startswith (lit "lihat juga") (lower t) then None
  else
    let t' := strip (replace (lit "SCROLL TO CONTINUE WITH CONTENT") [] t) in
    if truthy t' then Some t' else None.

Fixpoint paragraphs_of (ts : list str) : list str :=
  match ts with
  | [] => []
  | t :: rest =>
      match paragraph t with
      | Some t' => t' :: paragraphs_of rest
      | None => paragraphs_of rest
      end
  end.

Definition paragraphs (container : Dom.node) : list str :=
  paragraphs_of (map (fun p => clean_text (Some (Dom.get_text_strip (lit " ") p)))
                     (Dom.find_all "p" container)).

Record detail : Type := Detail {
  d_url : str;
  title_detail : str;
  author : str;
  published_time_iso : str;
  published_time_text : str;
  content : str
}.

Definition SEARCH_BASE : str := lit "https://search.kompas.com/search".

Definition list_url (query sort site_id last_date : str) (pg : N) : str :=
  SEARCH_BASE ++ lit "?q=" ++ query ++ lit "&sort=" ++ sort ++
  lit "&site_id=" ++ site_id ++ lit "&last_date=" ++ last_date ++
  lit "&page=" ++ decimal pg.

(** [next((x for x in list_rows if x["url"] == u), {})] *)
Definition base_of (list_rows : list row) (u : str) : option row :=
  find (fun x => str_eqb (url x) u) list_rows.

(** [base.get("title_list")] and [base.get("title_list", "")]: both are used
    in front of an [or], where [None] and the empty text do the same. *)
Definition base_title (base : option row) : str :=
  match base with
  | Some r => title_list r
  | None => []
  end.

Section Author.

(** [extract_author_kompas] reads the JSON-LD blocks of the page with
    [json.loads] and walks the decoded values; a name that is no text makes
    it raise. Its code is not embedded: the author of a page, or the
    exception, is a parameter of what follows. *)
Variable extract_author_kompas : Dom.node -> result str.

Definition parse_detail_page (soup : Dom.node) (u : str) : result detail :=
  (* title: the og:title metadata, else the first h1 *)
  let title := extract_meta soup None (Some (lit "og:title")) in
  let title :=
    if truthy title then title
    else match Dom.select_one [Dom.by_tag "h1"] soup with
         | Some h1 => clean_text (Some (Dom.get_text_strip (lit " ") h1))
         | None => []
         end in
  author <- extract_author_kompas soup ;;
  let published_iso :=
    or_else (extract_meta soup None (Some (lit "article:published_time")))
      (or_else (extract_meta soup (Some (lit "content_PublishedDate")) None)
         (or_else (extract_meta soup (Some (lit "publishdate")) None)
                  (extract_meta soup (Some (lit "date")) None))) in
  let published_text :=
    match Dom.select_one [Dom.by_class "read__time"; Dom.by_tag_class "div" "read__time"]
                         soup with
    | Some time_el => clean_text (Some (Dom.get_text_strip (lit " ") time_el))
    | None => []
    end in
  (* content: the paragraphs of the container without the blocks and with
     the links unwrapped, else all the text of what is left *)
  let container := pick_main_container soup in
  let container := without_blocks container in
  let container := Dom.unwrap_all (Dom.tag_is (lit "a")) container in
  let content := strip (join blank_line (paragraphs container)) in
  let content :=
    if truthy content then content
    else clean_text (Some (Dom.get_text_strip (lit " ") container)) in
  Ok (Detail u title author published_iso published_text content).

(** The loop over the pages. The key [page] that it adds to a row is read
    nowhere and is left out. *)
Fixpoint listing (w : world) (list_url : N -> str) (count : nat) (pg : N)
    (list_rows : list row) : result (list row) :=
  match count with
  | O => Ok list_rows
  | S count' =>
      html <- fetch w (list_url pg) ;;
      rows <- parse_kompas_search_page html ;;
      match rows with
      | [] => Ok list_rows                                   (* break *)
      | _ => listing w list_url count' (pg + 1)%N (list_rows ++ rows)
      end
  end.

(** The body of the [try] of the second loop: the row of a page. *)
Definition detail_row (w : world) (base : option row) (u : str) : result article :=
  html <- fetch w u ;;
  d <- parse_detail_page html u ;;
  let iso_wib := Dates.detik_iso_to_wib (published_time_iso d) in
  tanggal <- (if truthy iso_wib then Ok (replace (lit " WIB") [] iso_wib)
              else Dates.parse_kompas_time_text_to_wib (published_time_text d)) ;;
  Ok (Article (lit "kompas") tanggal
              (or_else (title_detail d) (base_title base))
              (replace (lit "KOMPAS.com") []
                 (replace (lit "SCROLL TO CONTINUE WITH CONTENT") [] (content d)))
              (author d) u (now w)).

(** The row that the handler of the [try] appends. *)
Definition degraded_row (w : world) (base : option row) (u : str) : article :=
  Article (lit "kompas") [] (base_title base) [] [] u (now w).

(** One turn of the second loop: the row appended to [out]. *)
Definition detail_step (w : world) (list_rows : list row) (u : str) : article :=
  let base := base_of list_rows u in
  match detail_row w base u with
  | Ok a => a
  | Raise _ => degraded_row w base u
  end.

Definition scrape_kompas_search (w : world) (query : str) (page_start page_end : N)
    (sort site_id last_date : str) : result (list article) :=
  list_rows <- listing w (list_url query sort site_id last_date)
                 (N.to_nat (page_end + 1 - page_start)) page_start [] ;;
  let urls := fromkeys (map url list_rows) [] in
  Ok (map (detail_step w list_rows) urls).

End Author.

End Kompas.

(** ** The parsers and the orchestrator of tribunnews *)
Module Tribun.

Definition clean_text := Detik_text.clean_text.

Definition BASE : str := lit "https://www.tribunnews.com".

Definition normalize_url (u : option str) : result str :=
  match u with
  | None | Some [] => Ok []
  | Some u =>
      u <- (if startswith (lit "/") u then Url.urljoin BASE u else Ok u) ;;
      pu <- Url.urlparse u [] ;;
      Ok (Url.urlunparse (Url.replace_fragment pu []))
  end.

(** [/\d{5,}/] *)
Definition id_re : Re.re := Re.seq [Re.c1 47; Re.at_least 5 Re.dg; Re.c1 47].

(**
<<
def is_tribun_article_url(url: str) -> bool:
    if not url: return False
    pu = urlparse(url)
    host_ok = pu.netloc.endswith("tribunnews.com")
    id_ok = bool(re.search(r"/\d{5,}/", pu.path))
    bad = any(x in pu.path for x in ["/search", "/tag", "/topic", "/index", "/video"])
    return host_ok and id_ok and (not bad)
>> *)
Definition is_tribun_article_url (url : str) : result bool :=
  if negb (truthy url) then Ok false
  else
    pu <- Url.urlparse url [] ;;
    let host_ok := endswith (lit "tribunnews.com") (Url.netloc pu) in
    let id_ok := match Re.search id_re (Url.path pu) with Some _ => true | None => false end in
    let bad := existsb (fun x => contains x (Url.path pu))
                 [lit "/search"; lit "/tag"; lit "/topic"; lit "/index"; lit "/video"] in
    Ok (host_ok && id_ok && negb bad).

(** [parse_qs(qs)]: the values of each key, the keys in the order of their
    first places; a field without [=] or with an empty value is skipped. *)
Definition parse_qs_field (name_value : str) : option (str * str) :=
  match Url.cut Url.equals name_value with
  | Some (n, v) =>
      if truthy v
      then Some (Url.unquote (Url.plus_to_space n), Url.unquote (Url.plus_to_space v))
      else None
  | None => None
  end.

Fixpoint dict_add (d : list (str * list str)) (k v : str) : list (str * list str) :=
  match d with
  | [] => [(k, [v])]
  | (k', vs) :: d' =>
      if str_eqb k' k then (k', vs ++ [v]) :: d' else (k', vs) :: dict_add d' k v
  end.

Definition parse_qs (qs : str) : list (str * list str) :=
  if truthy qs
  then fold_left (fun d f => match parse_qs_field f with
                             | Some (k, v) => dict_add d k v
                             | None => d
                             end) (Url.split Url.ampersand qs) []
  else [].

(** [d[k] = vs] *)
Fixpoint dict_set (d : list (str * list str)) (k : str) (vs : list str)
  : list (str * list str) :=
  match d with
  | [] => [(k, vs)]
  | (k', vs') :: d' =>
      if str_eqb k' k then (k', vs) :: d' else (k', vs') :: dict_set d' k vs
  end.

(**
<<
def add_page_all(url: str) -> str:
    if not url: return ""
    pu = urlparse(url)
    qs = parse_qs(pu.query)
    if qs.get("page", [""])[0] == "all": return url
    qs["page"] = ["all"]
    new_query = urlencode({k: v[0] for k, v in qs.items()})
    return pu._replace(query=new_query).geturl()
>> *)
Definition add_page_all (url : str) : result str :=
  if negb (truthy url) then Ok []
  else
    pu <- Url.urlparse url [] ;;
    let qs := parse_qs (Url.query pu) in
    if str_eqb (hd [] (Dates.dict_get qs (lit "page") [[]])) (lit "all") then Ok url
    else
      let qs := dict_set qs (lit "page") [lit "all"] in
      new_query <- Url.urlencode (map (fun kv => (fst kv, hd [] (snd kv))) qs) ;;
      Ok (Url.urlunparse (Url.replace_query pu new_query)).

Definition months : list (str * str) :=
  [(lit "Januari", lit "01"); (lit "Februari", lit "02"); (lit "Maret", lit "03");
   (lit "April", lit "04"); (lit "Mei", lit "05"); (lit "Juni", lit "06");
   (lit "Juli", lit "07"); (lit "Agustus", lit "08"); (lit "September", lit "09");
   (lit "Oktober", lit "10"); (lit "November", lit "11"); (lit "Desember", lit "12")].

(** [^[a-zA-Z]+,\s*] *)
Definition day_name_re : Re.re :=
  Re.seq [Re.Bol; Re.plus (Re.Chr is_alpha_ascii); Re.c1 44; Re.star Re.ws].

(** [s.zfill(2)] *)
Definition zfill2 (s : str) : str :=
  match s with
  | [c] => if chr_eqb c 43 || chr_eqb c 45 then [c; 48%N] else [48%N; c]
  | _ => s
  end.

(**
<<
def parse_indo_date(date_text: str) -> str:
    if not date_text: return ""
    months = {...}
    try:
        s = re.sub(r"^[a-zA-Z]+,\s*", "", date_text).replace("WIB", "").strip()
        parts = s.split()
        if len(parts) >= 4:
            day, month, year, time_val = parts[0].zfill(2), months.get(parts[1], "01"), parts[2], parts[3]
            if len(time_val.split(':')) == 2: time_val += ":00"
            return f"{year}-{month}-{day} {time_val}"
    except: pass
    return ""
>> *)
Definition parse_indo_date (date_text : str) : str :=
  if negb (truthy date_text) then []
  else
    let s := strip (replace (lit "WIB") [] (Re.sub day_name_re [] date_text)) in
    match words s with
    | p0 :: p1 :: p2 :: p3 :: _ =>
        let day := zfill2 p0 in
        let month := Dates.dict_get months p1 (lit "01") in
        let year := p2 in
        let time_val :=
          if (List.length (Url.split Url.colon p3) =? 2)%nat then p3 ++ lit ":00" else p3 in
        year ++ lit "-" ++ month ++ lit "-" ++ day ++ lit " " ++ time_val
    | _ => []
    end.

Definition iso_to_wib := Dates.tribun_iso_to_wib.

(** [extract_meta(soup, prop=value)] and [extract_meta(soup, name=value)],
    for a non-empty [value] *)
Definition extract_meta (soup : Dom.node) (key value : str) : str :=
  match Detik.meta_content key value soup with
  | Some c => c
  | None => []
  end.

Definition container_selectors : list Dom.simple :=
  [Dom.by_tag "article"; Dom.by_tag_class "div" "txt-article";
   Dom.by_tag_id "div" "articlebody"; Dom.by_tag_class "div" "side-article"].

Definition pick_main_container (soup : Dom.node) : Dom.node :=
  Detik.pick_from container_selectors soup.

(** The body of the loop over the links: the url of a link, if it is taken.
<<
    href = normalize_url(a.get("href", ""))
    if not is_tribun_article_url(href):
        continue
    title = clean_text(a.get_text(" ", strip=True))
    if not title or len(title) < 10 or "video" in title.lower():
        continue
    rows.append({"url": href})
>> *)
Definition row_of_link (a : Dom.node) : result (option str) :=
  href <- normalize_url (Some (Dom.attr_or_empty a (lit "href"))) ;;
  ok <- is_tribun_article_url href ;;
  if negb ok then Ok None
  else
    let title := clean_text (Some (Dom.get_text_strip (lit " ") a)) in
    if negb (truthy title) || (List.length title <? 10)%nat ||
       contains (lit "video") (lower title)
    then Ok None
    else Ok (Some href).

(** The side bar [#boxright_fix] is removed first. The selector
    [h3 a[href], h2 a[href], a[href]] takes the links that [a[href]] takes,
    each once, in the order of the document. *)
Definition parse_tag_page (soup : Dom.node) : result (list str) :=
  let soup := fst (Dom.remove_first (Dom.matches (Dom.by_id "boxright_fix")) soup) in
  Listing.parse_list (fun u => u) row_of_link
    (Dom.select [Dom.by_tag_attr "a" "href"] soup).

(** The marks of a paragraph that is no content. The test is on
    [p.upper()], here on the ASCII letters; the upper case of Python takes a
    few other letters to ASCII ones as well (the dotless i to I), so the
    source drops every paragraph that the model drops, and some more. *)
Definition marks : list str := [lit "ADVERTISEMENT"; lit "IKLAN"; lit "BACA JUGA"].

Definition keep_paragraph (p : str) : bool :=
  truthy p && negb (existsb (fun x => contains x (upper p)) marks).

Definition removed_selectors : list Dom.simple :=
  [Dom.by_tag "script"; Dom.by_tag "style"; Dom.by_tag "noscript";
   Dom.by_class "ads"; Dom.by_class "baca-juga"].

Definition paragraphs (container : Dom.node) : list str :=
  filter keep_paragraph
         (map (fun p => clean_text (Some (Dom.get_text_strip (lit " ") p)))
              (Dom.find_all "p" container)).

Record detail : Type := Detail {
  d_url : str;
  title_detail : str;
  author : str;
  published_final : str;
  content : str
}.

Definition parse_detail_page (soup : Dom.node) (u : str) : detail :=
  let title :=
    or_else (extract_meta soup (lit "property") (lit "og:title"))
            match Dom.select_one [Dom.by_tag "h1"] soup with
            | Some h1 => Dom.get_text_strip [] h1
            | None => []
            end in
  let author :=
    match Dom.select_one [Dom.by_id "penulis"] soup with
    | Some penulis_el =>
        clean_text (Some (replace (lit "Penulis:") [] (Dom.get_text penulis_el)))
    | None => []
    end in
  let author :=
    if truthy author then author else extract_meta soup (lit "name") (lit "author") in
  let published_final :=
    match hd_error (Dom.select_below (Dom.by_tag "time") (Dom.by_tag "span") soup) with
    | Some time_el => parse_indo_date (Dom.get_text_strip [] time_el)
    | None => []
    end in
  let published_final :=
    if truthy published_final then published_final
    else iso_to_wib (extract_meta soup (lit "property") (lit "article:published_time")) in
  let container := pick_main_container soup in
  let container :=
    Dom.remove_all (fun d => existsb (fun sel => Dom.matches sel d) removed_selectors)
                   container in
  let content := join blank_line (paragraphs container) in
  Detail u title author published_final (strip content).

Definition list_url (pg : N) : str :=
  lit "https://www.tribunnews.com/tag/mbg" ++ lit "?page=" ++ decimal pg.

Fixpoint map_result {A B} (f : A -> result B) (l : list A) : result (list B) :=
  match l with
  | [] => Ok []
  | x :: rest =>
      y <- f x ;;
      ys <- map_result f rest ;;
      Ok (y :: ys)
  end.

(** The body of the [try] of the first loop: the urls of a page. *)
Definition page_urls (w : world) (pg : N) : result (list str) :=
  html <- fetch w (list_url pg) ;;
  links <- parse_tag_page html ;;
  map_result add_page_all links.

(** The first loop: an empty page and an exception both end it. *)
Fixpoint listing (w : world) (count : nat) (pg : N) (all_urls : list str) : list str :=
  match count with
  | O => all_urls
  | S count' =>
      match page_urls w pg with
      | Raise _ => all_urls                                  (* except: break *)
      | Ok [] => all_urls                                    (* if not links: break *)
      | Ok urls => listing w count' (pg + 1)%N (all_urls ++ urls)
      end
  end.

(** One turn of the second loop: the row appended to [out], if any.
<<
    try:
        page.goto(u, wait_until="domcontentloaded")
        d = parse_detail_page(page.content(), u)
        judul_bersih = d["title_detail"].replace("Tribunnews.com", "").strip()
        content_bersih = d["content"].replace("Tribunnews.com", "").strip()
        out.append({"sumber": "tribunnews", "tanggal": d["published_final"],
                    "judul": judul_bersih, "content": content_bersih,
                    "author": d["author"], "url": u, "created_at": created_at})
    except Exception as e:
        print(f"[!] Gagal {u}: {e}")
>> *)
Definition detail_step (w : world) (u : str) : option article :=
  match fetch w u with
  | Raise _ => None
  | Ok html =>
      let d := parse_detail_page html u in
      Some (Article (lit "tribunnews") (published_final d)
                    (strip (replace (lit "Tribunnews.com") [] (title_detail d)))
                    (strip (replace (lit "Tribunnews.com") [] (content d)))
                    (author d) u (now w))
  end.

Fixpoint detail_loop (w : world) (urls : list str) (out : list article) : list article :=
  match urls with
  | [] => out
  | u :: rest =>
      match detail_step w u with
      | Some a => detail_loop w rest (out ++ [a])
      | None => detail_loop w rest out
      end
  end.

Definition scrape_tribun_tag (w : world) (page_start page_end : N) : list article :=
  let all_urls := listing w (N.to_nat (page_end + 1 - page_start)) page_start [] in
  let all_urls := fromkeys all_urls [] in
  detail_loop w all_urls [].

End Tribun.

(** ** The classifier wrapper [analyze_dual] of sentiment_engine

<<
def analyze_dual(text, judul=""):
    if not text or len(str(text).strip()) < 15:
        return "NEUTRAL", 0.0, "NEUTRAL", 0.0, "Lainnya"
    model_roberta, model_indobert, model_topik = load_models()
    try:
        text = str(text)[:512]
        judul = str(judul)[:200]
        r1 = model_roberta(text)[0]
        s1 = r1["label"].upper()
        c1 = round(float(r1["score"]), 4)
        r2 = model_indobert(text)[0]
        label_indobert = r2["label"].lower()
        label_map_indobert = {"positif": "POSITIVE", "positive": "POSITIVE",
                              "negatif": "NEGATIVE", "negative": "NEGATIVE",
                              "netral": "NEUTRAL", "neutral": "NEUTRAL",
                              "label_0": "NEGATIVE", "label_1": "NEUTRAL",
                              "label_2": "POSITIVE"}
        s2 = label_map_indobert.get(label_indobert, "NEUTRAL")
        c2 = round(float(r2["score"]), 4)
        res_t = model_topik(judul, candidate_labels=CANDIDATE_TOPICS)
        topic = res_t["labels"][0] if res_t and "labels" in res_t else "Lainnya"
        return s1, c1, s2, c2, topic
    except Exception as e:
        print(f"Error in analyze_dual: {e}")
        return "NEUTRAL", 0.0, "NEUTRAL", 0.0, "Lainnya"
>>
    The three pipelines are code of the transformers library: what they
    return for a text, or the exception they raise, is a parameter here, and
    so are the scores, which are floating-point numbers, with the rounding to
    four places. *)
Module Sentiment.

Definition CANDIDATE_TOPICS : list str :=
  [lit "Anggaran"; lit "Kualitas"; lit "Distribusi"; lit "Kebijakan";
   lit "Sekolah"; lit "Menu Sehat"; lit "Lainnya"].

Definition label_map_indobert : list (str * str) :=
  [(lit "positif", lit "POSITIVE"); (lit "positive", lit "POSITIVE");
   (lit "negatif", lit "NEGATIVE"); (lit "negative", lit "NEGATIVE");
   (lit "netral", lit "NEUTRAL"); (lit "neutral", lit "NEUTRAL");
   (lit "label_0", lit "NEGATIVE"); (lit "label_1", lit "NEUTRAL");
   (lit "label_2", lit "POSITIVE")].

(** The labels of the closed set. *)
Definition sentiment_labels : list str :=
  [lit "POSITIVE"; lit "NEGATIVE"; lit "NEUTRAL"].

Section Scores.

Variable score : Type.
Variable zero : score.                      (* 0.0 *)
Variable round4 : score -> score.           (* round(float(x), 4) *)

(** An entry of the list that a sentiment pipeline returns. *)
Record prediction : Type := Prediction {
  label : str;
  p_score : score
}.

(** The three pipelines. The topic pipeline returns a dictionary: [None]
    stands for one that is empty or has no key [labels], [Some l] for one
    whose key [labels] holds [l]. *)
Record models : Type := Models {
  model_roberta : str -> result (list prediction);
  model_indobert : str -> result (list prediction);
  model_topik : str -> list str -> result (option (list str))
}.

(** The five values returned. *)
Record verdict : Type := Verdict {
  s1 : str;
  c1 : score;
  s2 : str;
  c2 : score;
  topic : str
}.

Definition fail_safe : verdict :=
  Verdict (lit "NEUTRAL") zero (lit "NEUTRAL") zero (lit "Lainnya").

(** [l[0]] *)
Definition first {A} (l : list A) : result A :=
  match l with
  | x :: _ => Ok x
  | [] => Raise IndexError
  end.

(** The body of the [try]. *)
Definition analyze (m : models) (text judul : str) : result verdict :=
  let text := firstn 512 text in
  let judul := firstn 200 judul in
  l1 <- model_roberta m text ;;
  r1 <- first l1 ;;
  let s1 := upper (label r1) in
  let c1 := round4 (p_score r1) in
  l2 <- model_indobert m text ;;
  r2 <- first l2 ;;
  let label_indobert := lower (label r2) in
  let s2 := Dates.dict_get label_map_indobert label_indobert (lit "NEUTRAL") in
  let c2 := round4 (p_score r2) in
  res_t <- model_topik m judul CANDIDATE_TOPICS ;;
  topic <- match res_t with
           | Some labels => first labels
           | None => Ok (lit "Lainnya")
           end ;;
  Ok (Verdict s1 c1 s2 c2 topic).

Definition analyze_dual (load_models : result models) (text judul : str) : result verdict :=
  if negb (truthy text) || (List.length (strip text) <? 15)%nat then Ok fail_safe
  else
    m <- load_models ;;
    match analyze m text judul with
    | Ok v => Ok v
    | Raise _ => Ok fail_safe
    end.

End Scores.

Arguments Prediction {score} label p_score.
Arguments label {score} p.
Arguments p_score {score} p.
Arguments Models {score} model_roberta model_indobert model_topik.
Arguments model_roberta {score} m.
Arguments model_indobert {score} m.
Arguments model_topik {score} m.
Arguments Verdict {score} s1 c1 s2 c2 topic.
Arguments s1 {score} v.
Arguments c1 {score} v.
Arguments s2 {score} v.
Arguments c2 {score} v.
Arguments topic {score} v.
Arguments fail_safe {score} zero.
Arguments analyze {score} round4 m text judul.
Arguments analyze_dual {score} zero round4 load_models text judul.

End Sentiment.

(** ** Notions for the statements about the list parsers and the runs *)

(** [l] is [l'] without some of its elements, the order kept. *)
Inductive subseq {A : Type} : list A -> list A -> Prop :=
| subseq_nil : subseq [] []
| subseq_skip x l l' : subseq l l' -> subseq l (x :: l')
| subseq_take x l l' : subseq l l' -> subseq (x :: l) (x :: l').

Definition is_ok {A} (r : result A) : bool :=
  match r with
  | Ok _ => true
  | Raise _ => false
  end.

Section Taken.
Variable R : Type.
Variable url : R -> str.
Variable row_of_link : Dom.node -> result (option R).

(** The rows of the links that the body of the first loop takes. *)
Definition taken (links : list Dom.node) : list R :=
  flat_map (fun a => match row_of_link a with
                     | Ok (Some r) => [r]
                     | _ => []
                     end) links.

(** The first row with the url of [r]. *)
Definition first_with (rows : list R) (r : R) : option R :=
  find (fun x => str_eqb (url x) (url r)) rows.

(** The rows whose url is not in [seen] and in no row before, in order. *)
Fixpoint first_seen (rows : list R) (seen : list str) : list R :=
  match rows with
  | [] => []
  | r :: rest =>
      if existsb (str_eqb (url r)) seen then first_seen rest seen
      else r :: first_seen rest (url r :: seen)
  end.

End Taken.
Arguments taken {R} row_of_link links.
Arguments first_with {R} url rows r.
Arguments first_seen {R} url rows seen.

(** The number of the distinct texts of a list. *)
Definition distinct (l : list str) : nat :=
  List.length (nodup (list_eq_dec N.eq_dec) l).

(** [out] is [rows] deduplicated by url in first-seen order: the order of
    [rows] is kept, no url is twice in [out], every url of [rows] is in
    [out], a row of [out] is the first row of [rows] with its url, and
    [out] has as many rows as [rows] has distinct urls. *)
Definition deduplicated {R : Type} (url : R -> str) (rows out : list R) : Prop :=
  subseq out rows /\
  NoDup (map url out) /\
  (forall r, In r rows -> In (url r) (map url out)) /\
  (forall r, In r out -> first_with url rows r = Some r) /\
  List.length out = distinct (map url rows).

(** The links of a list page. *)
Definition links_of (soup : Dom.node) : list Dom.node :=
  Dom.select [Dom.by_tag_attr "a" "href"] soup.

(** The reference of a link is one that [urlparse] and [urlencode] take. *)
Definition href_ok (normalize_url : option str -> result str) (a : Dom.node) : bool :=
  is_ok (normalize_url (Some (Dom.attr_or_empty a (lit "href")))).


(** ** [normalize_url] of republika

<<
BASE_URL = "https://republika.co.id"

def normalize_url(u: str, base_url: str = BASE_URL) -> str:
    if not u:
        return ""
    if u.startswith("/"):
        u = urljoin(base_url, u)
    pu = urlparse(u)
    return pu._replace(fragment="", query="").geturl()
>> *)
Module Republika_url.

Definition BASE_URL : str := lit "https://republika.co.id".

Definition normalize_url (u : option str) (base_url : str) : result str :=
  match u with
  | None | Some [] => Ok []
  | Some u =>
      u <- (if startswith (lit "/") u then Url.urljoin base_url u else Ok u) ;;
      pu <- Url.urlparse u [] ;;
      Ok (Url.urlunparse (Url.replace_query (Url.replace_fragment pu []) []))
  end.

End Republika_url.

(** ** Notions for the statements about the loops over the pages *)

(** The rows of [n] pages from [pg] on, when each of them is read without
    exception and has rows. *)
Fixpoint pages {R : Type} (page : N -> result (list R)) (n : nat) (pg : N)
  : option (list R) :=
  match n with
  | O => Some []
  | S n' =>
      match page pg with
      | Ok (r :: rs) =>
          match pages page n' (pg + 1)%N with
          | Some rows => Some ((r :: rs) ++ rows)
          | None => None
          end
      | _ => None
      end
  end.

(** What the body of the first loop reads for a page: detik, kompas,
    tribunnews. *)
Definition detik_page (w : world) (sortby : str) (pg : N) : result (list Detik.row) :=
  html <- fetch w (Detik_scrape.list_url sortby pg) ;;
  Detik.parse_tag_news_page html.

Definition kompas_page (w : world) (list_url : N -> str) (pg : N)
  : result (list Kompas.row) :=
  html <- fetch w (list_url pg) ;;
  Kompas.parse_kompas_search_page html.

(** No title with the word video, in whatever case. *)
Definition no_video (title : str) : bool := negb (contains (lit "video") (lower title)).

(** ** Notions for the statements about the content *)

(** The tree from which the detail parser of kompas reads the paragraphs:
    the container without the blocks, the links unwrapped. *)
Definition kompas_content_tree (soup : Dom.node) : Dom.node :=
  Dom.unwrap_all (Dom.tag_is (lit "a"))
    (Kompas.without_blocks (Kompas.pick_main_container soup)).

(** The same for tribunnews: the container without the blocks. *)
Definition tribun_content_tree (soup : Dom.node) : Dom.node :=
  Dom.remove_all (fun d => existsb (fun sel => Dom.matches sel d) Tribun.removed_selectors)
    (Tribun.pick_main_container soup).

(** One of the selectors takes the element. *)
Definition taken_by (sels : list Dom.simple) (d : Dom.node) : bool :=
  existsb (fun sel => Dom.matches sel d) sels.

(** ** [parse_page_range] of the command line of republika (scrap_republika.py)

<<
def parse_page_range(page_str):
    if '-' in page_str:
        start, end = map(int, page_str.split('-'))
        return start, end
    elif ',' in page_str:
        ranges = []
        for part in page_str.split(','):
            if '-' in part:
                start, end = map(int, part.split('-'))
                ranges.append((start, end))
            else:
                page = int(part)
                ranges.append((page, page))
        return ranges
    else:
        page = int(page_str)
        return (page, page)
>> *)
Module Page_range.

Definition invalid_literal : exn := ValueError "invalid literal for int() with base 10".

(** The digits of a literal, with single underscores between digits:
    [prev] is the character before, [acc] the value and [n] the number of
    the digits read. *)
Fixpoint scan (s : str) (prev : option char) (acc : Z) (n : nat) : option (Z * nat) :=
  match s with
  | [] =>
      match prev with
      | Some p => if chr_eqb p 95 then None else Some (acc, n)
      | None => Some (acc, n)
      end
  | c :: s' =>
      if is_digit_ascii c
      then scan s' (Some c) (acc * 10 + Datetime.digit_value c)%Z (S n)
      else if chr_eqb c 95
           then match prev with
                | Some p => if chr_eqb p 95 then None else scan s' (Some c) acc n
                | None => None
                end
           else None
  end.

(** The white space of the C library: tab to carriage return, and space. *)
Definition c_space (c : char) : bool := chr_eqb c 32 || in_range 9 13 c.

Fixpoint lstrip_c (s : str) : str :=
  match s with
  | c :: s' => if c_space c then lstrip_c s' else s
  | [] => []
  end.

(** The text is rewritten first: a white-space character of Unicode from
    U+007F on becomes a space and a decimal digit its ASCII digit; another
    character from U+007F on becomes a question mark, which ends the
    literal as it is refused. *)
Definition to_ascii (s : str) : str :=
  map (fun c => if (c <? 127)%N then c
                else if is_space c then 32%N
                else match digit_zero c with
                     | Some z => (48 + (c - z))%N
                     | None => 63%N
                     end) s.

(** [int(s)] for a text: white space at the ends is skipped, then come a
    sign, if any, and decimal digits, with single underscores between
    digits; more than 4300 digits are refused. *)
Definition int (s : str) : result Z :=
  let s := rev (lstrip_c (rev (lstrip_c (to_ascii s)))) in
  let (negative, body) :=
    match s with
    | c :: rest =>
        if chr_eqb c 45 then (true, rest)
        else if chr_eqb c 43 then (false, rest)
        else (false, s)
    | [] => (false, s)
    end in
  match scan body None 0 0 with
  | Some (v, n) =>
      if (n =? 0)%nat then Raise invalid_literal
      else if (4300 <? n)%nat
           then Raise (ValueError "Exceeds the limit (4300 digits) for integer string conversion")
           else Ok (if negative then (- v)%Z else v)
  | None => Raise invalid_literal
  end.

(** [start, end = map(int, parts)]: the items are computed one by one, a
    third one before the count is found wrong. *)
Definition unpack2 (parts : list str) : result (Z * Z) :=
  match parts with
  | [] => Raise (ValueError "not enough values to unpack (expected 2, got 0)")
  | p0 :: rest =>
      a <- int p0 ;;
      match rest with
      | [] => Raise (ValueError "not enough values to unpack (expected 2, got 1)")
      | p1 :: rest' =>
          b <- int p1 ;;
          match rest' with
          | [] => Ok (a, b)
          | p2 :: _ =>
              _ <- int p2 ;;
              Raise (ValueError "too many values to unpack (expected 2)")
          end
      end
  end.

(** What the function returns: a pair, or a list of pairs. *)
Inductive page_range : Type :=
| Single (start end_ : Z)
| Ranges (ranges : list (Z * Z)).

Fixpoint ranges_loop (parts : list str) (ranges : list (Z * Z)) : result (list (Z * Z)) :=
  match parts with
  | [] => Ok ranges
  | part :: rest =>
      if contains (lit "-") part
      then r <- unpack2 (Url.split 45 part) ;; ranges_loop rest (ranges ++ [r])
      else page <- int part ;; ranges_loop rest (ranges ++ [(page, page)])
  end.

Definition parse_page_range (page_str : str) : result page_range :=
  if contains (lit "-") page_str
  then r <- unpack2 (Url.split 45 page_str) ;; Ok (Single (fst r) (snd r))
  else if contains (lit ",") page_str
       then ranges <- ranges_loop (Url.split 44 page_str) [] ;; Ok (Ranges ranges)
       else page <- int page_str ;; Ok (Single page page).

End Page_range.

(** The value of a text of digits, a digit more. *)
Definition decimal_step (v : Z) (c : char) : Z := (v * 10 + Datetime.digit_value c)%Z.

(** The characters that the encoding of a byte is made of: ASCII, and none
    of the separators of a query. *)
Definition quoted_char (c : char) : bool :=
  (c <? 128)%N && negb (chr_eqb c Url.equals) && negb (chr_eqb c Url.ampersand) &&
  negb (chr_eqb c Url.plus_sign) && negb (chr_eqb c Url.hash).

(** What [parse_qs] keeps: no key twice, and no value that is empty. *)
Definition qs_ok (d : list (str * list str)) : Prop :=
  NoDup (map fst d) /\
  Forall (fun kv => snd kv <> [] /\ Forall (fun v => v <> []) (snd kv)) d.

(** ** The address of a search page of republika

    The two statements of [scrape_republika_search] that make the address
    of page [page]:
<<
    q = quote_plus(keyword)
    url = f"{BASE_URL}/search/v3/all/{page}/?q={q}&latest_date=custom&startdate={startdate}&enddate={enddate}"
>> *)
Module Republika_search.

Definition search_url (keyword : str) (page : N) (startdate enddate : str) : result str :=
  q <- Url.quote_plus keyword ;;
  Ok (Republika_url.BASE_URL ++ lit "/search/v3/all/" ++ decimal page ++ lit "/?q=" ++ q ++
      lit "&latest_date=custom&startdate=" ++ startdate ++ lit "&enddate=" ++ enddate).

End Republika_search.

(** A character of a date written with digits and dashes. *)
Definition date_char (c : char) : bool := is_digit_ascii c || chr_eqb c 45.

(** The characters that [quote_plus] writes, and the digits and dashes. *)
Definition written_char (c : char) : Prop :=
  (c = 37 \/ c = 43 \/ c = 45 \/ c = 46 \/ 48 <= c <= 57 \/ 65 <= c <= 90 \/
   c = 95 \/ 97 <= c <= 122 \/ c = 126)%N.

(** A text that [clean_text] of detik, kompas and tribunnews leaves as it
    is. *)
Definition clean (s : str) : Prop := Detik_text.clean_text (Some s) = s.

(** ** The text of the word cloud ([app.py])

<<
def normalize_text(s: str) -> str:
    s = str(s or "")
    s = re.sub(r"http\S+|www\.\S+", " ", s)
    s = re.sub(r"\s+", " ", s).strip()
    return s
>>
    on a text or [None]. *)
Module App.

(** [http\S+|www\.\S+] *)
Definition url_re : Re.re :=
  Re.Alt (Re.Seq (Re.text (lit "http")) (Re.plus Re.nws))
         (Re.Seq (Re.text (lit "www.")) (Re.plus Re.nws)).

Definition normalize_text (s : option str) : str :=
  let s := match s with Some x => x | None => [] end in
  let s := Re.sub url_re (lit " ") s in
  strip (Re.sub (Re.plus Re.ws) (lit " ") s).

End App.

(** A text that starts with [http] or [www.] and one more character that is
    no white space: where [url_re] matches. *)
Definition starts_url (s : str) : bool :=
  match s with
  | a :: b :: c :: d :: y :: _ =>
      (str_eqb [a; b; c; d] (lit "http") || str_eqb [a; b; c; d] (lit "www.")) &&
      negb (is_space y)
  | _ => false
  end.

(** No place of the text starts a link. *)
Definition url_free (t : str) : Prop :=
  forall a b, t = a ++ b -> starts_url b = false.
(* ================================================================== *)
(** * Part II: the properties *)
(* ================================================================== *)

(** ** The matcher on a class and on a block of a class *)

Lemma dropwhile_length p s : List.length (dropwhile p s) <= List.length s.
Proof.
  induction s as [|x s IH]; simpl; [lia|].
  destruct (p x); simpl; lia.
Qed.

(** A greedy block of a class, followed by a continuation that accepts
    everything, consumes the longest block. *)
Lemma rep_class_greedy (A : Type) (p : char -> bool) (G : str -> Re.caps -> A)
      (lo : nat) (s : str) :
  forall fuel n pre c,
    List.length s < fuel ->
    Re.rep_loop (fun pre' s' c' k' => Re.run (Re.Chr p) pre' s' c' k')
                lo None true (fun _ s' c' => Some (G s' c')) fuel n pre s c
    = if Nat.leb lo (n + (List.length s - List.length (dropwhile p s)))
      then Some (G (dropwhile p s) c) else None.
Proof.
  induction s as [|x s IH]; intros fuel n pre c Hf.
  - destruct fuel; [simpl in Hf; lia|]. simpl.
    replace (n + 0) with n by lia. destruct (Nat.leb lo n); reflexivity.
  - destruct fuel; [simpl in Hf; lia|].
    simpl in Hf.
    cbn [Re.rep_loop Re.below Re.run].
    destruct (p x) eqn:Hp.
    + assert (Hlt : Nat.ltb (List.length s) (List.length (x :: s)) = true)
        by (apply Nat.ltb_lt; cbn [List.length]; lia).
      rewrite Hlt. rewrite IH by lia.
      cbn [dropwhile]. rewrite Hp.
      pose proof (dropwhile_length p s) as Hd.
      replace (n + (List.length (x :: s) - List.length (dropwhile p s)))
        with (S n + (List.length s - List.length (dropwhile p s)))
        by (cbn [List.length]; lia).
      destruct (Nat.leb lo (S n + (List.length s - List.length (dropwhile p s)))) eqn:Hle;
        [reflexivity|].
      apply Nat.leb_gt in Hle.
      assert (Hn : Nat.leb lo n = false) by (apply Nat.leb_gt; lia).
      rewrite Hn. reflexivity.
    + cbn [dropwhile]. rewrite Hp.
      replace (n + (List.length (x :: s) - List.length (x :: s))) with n by lia.
      destruct (Nat.leb lo n); reflexivity.
Qed.

Lemma run_rep (A : Type) lo hi greedy a pre s c (k : Re.cont A) :
  Re.run (Re.Rep lo hi greedy a) pre s c k
  = Re.rep_loop (fun pre' s' c' k' => Re.run a pre' s' c' k')
                lo hi greedy k (S (List.length s)) 0 pre s c.
Proof. reflexivity. Qed.

Lemma squeeze_in_run p repl s :
  squeeze p repl true s = squeeze p repl false (dropwhile p s).
Proof.
  induction s as [|x s IH]; simpl; [reflexivity|].
  destruct (p x) eqn:Hp; [exact IH|].
  simpl. rewrite Hp. reflexivity.
Qed.

(** [re.sub(r"[class]+", repl, s)] replaces every maximal block. *)
Lemma sub_plus_class (p : char -> bool) (repl : str) :
  forall fuel pre s,
    List.length s < fuel ->
    Re.sub_from (Re.plus (Re.Chr p)) repl fuel pre s = squeeze p repl false s.
Proof.
  induction fuel as [|fuel IH]; intros pre s Hf; [lia|].
  cbn [Re.sub_from].
  unfold Re.match_here, Re.plus. rewrite run_rep.
  rewrite rep_class_greedy with
    (G := fun s' c => Re.Mtch pre (firstn (List.length s - List.length s') s) s' c)
    by lia.
  destruct s as [|x s].
  - reflexivity.
  - cbn [dropwhile squeeze]. destruct (p x) eqn:Hp.
    + pose proof (dropwhile_length p s) as Hd.
      assert (Hle : Nat.leb 1 (0 + (List.length (x :: s) - List.length (dropwhile p s))) = true)
        by (apply Nat.leb_le; cbn [List.length]; lia).
      rewrite Hle. cbn [Re.m_text Re.m_after].
      destruct (firstn (List.length (x :: s) - List.length (dropwhile p s)) (x :: s))
        as [|y t] eqn:Hfirst.
      * exfalso.
        assert (Hl : List.length (firstn (List.length (x :: s) - List.length (dropwhile p s)) (x :: s)) = 0)
          by (rewrite Hfirst; reflexivity).
        rewrite length_firstn in Hl. cbn [List.length] in Hl. lia.
      * rewrite IH by (cbn [List.length] in Hf; lia).
        rewrite squeeze_in_run. reflexivity.
    + replace (0 + (List.length (x :: s) - List.length (x :: s))) with 0 by lia.
      cbn [Nat.leb]. rewrite IH by (cbn [List.length] in Hf; lia). reflexivity.
Qed.

(** [re.sub(r"[class]", repl, s)] replaces every character of the class. *)
Lemma sub_class (p : char -> bool) (repl : str) :
  forall fuel pre s,
    List.length s < fuel ->
    Re.sub_from (Re.Chr p) repl fuel pre s = replace_each p repl s.
Proof.
  induction fuel as [|fuel IH]; intros pre s Hf; [lia|].
  cbn [Re.sub_from]. unfold Re.match_here. cbn [Re.run].
  destruct s as [|x s]; [reflexivity|].
  cbn [replace_each]. destruct (p x) eqn:Hp.
  - cbn [Re.m_text Re.m_after].
    replace (List.length (x :: s) - List.length s) with 1 by (cbn [List.length]; lia).
    cbn [firstn]. rewrite IH by (cbn [List.length] in Hf; lia). reflexivity.
  - rewrite IH by (cbn [List.length] in Hf; lia). reflexivity.
Qed.

Lemma sub_plus (p : char -> bool) (repl s : str) :
  Re.sub (Re.plus (Re.Chr p)) repl s = squeeze p repl false s.
Proof. unfold Re.sub. apply sub_plus_class. lia. Qed.

Lemma sub_one (p : char -> bool) (repl s : str) :
  Re.sub (Re.Chr p) repl s = replace_each p repl s.
Proof. unfold Re.sub. apply sub_class. lia. Qed.

(** ** Stripping *)

Lemma lstrip_app a b :
  lstrip (a ++ b) = if forallb is_space a then lstrip b else lstrip a ++ b.
Proof.
  induction a as [|x a IH]; simpl; [reflexivity|].
  destruct (is_space x); simpl; [exact IH | reflexivity].
Qed.

Lemma lstrip_all a : forallb is_space a = true -> lstrip a = [].
Proof.
  induction a as [|x a IH]; simpl; [reflexivity|].
  destruct (is_space x); simpl; [exact IH | discriminate].
Qed.

Lemma forallb_rev (f : char -> bool) l : forallb f (rev l) = forallb f l.
Proof.
  induction l as [|x l IH]; simpl; [reflexivity|].
  rewrite forallb_app, IH. simpl. rewrite andb_true_r. apply andb_comm.
Qed.

Lemma rstrip_cons x t :
  rstrip (x :: t) = if forallb is_space (x :: t) then [] else x :: rstrip t.
Proof.
  unfold rstrip. cbn [rev]. rewrite lstrip_app, forallb_rev.
  cbn [forallb]. destruct (forallb is_space t) eqn:Ht.
  - rewrite andb_true_r.
    rewrite (lstrip_all (rev t)) by (rewrite forallb_rev; exact Ht).
    simpl. destruct (is_space x); reflexivity.
  - rewrite andb_false_r. rewrite rev_app_distr. reflexivity.
Qed.

Lemma lstrip_suffix s : exists w, s = w ++ lstrip s.
Proof.
  induction s as [|x s [w IH]]; simpl; [exists []; reflexivity|].
  destruct (is_space x).
  - exists (x :: w). simpl. f_equal. exact IH.
  - exists []. reflexivity.
Qed.

Lemma rstrip_prefix s : exists w, s = rstrip s ++ w.
Proof.
  induction s as [|x s [w IH]]; [exists []; reflexivity|].
  rewrite rstrip_cons. destruct (forallb is_space (x :: s)).
  - exists (x :: s). reflexivity.
  - exists w. simpl. f_equal. exact IH.
Qed.

Lemma lstrip_head s :
  match lstrip s with [] => True | x :: _ => is_space x = false end.
Proof.
  induction s as [|x s IH]; simpl; [exact I|].
  destruct (is_space x) eqn:Hx; [exact IH | exact Hx].
Qed.

Lemma rstrip_head x t :
  is_space x = false -> rstrip (x :: t) = x :: rstrip t.
Proof. intros Hx. rewrite rstrip_cons. cbn [forallb]. rewrite Hx. reflexivity. Qed.

Lemma rstrip_nil t : rstrip t = [] -> forallb is_space t = true.
Proof.
  destruct t as [|x t]; [reflexivity|]. rewrite rstrip_cons.
  destruct (forallb is_space (x :: t)); [reflexivity | discriminate].
Qed.

Lemma rstrip_last s d :
  rstrip s = [] \/ is_space (last (rstrip s) d) = false.
Proof.
  induction s as [|x s IH]; [left; reflexivity|].
  rewrite rstrip_cons. destruct (forallb is_space (x :: s)) eqn:Hall; [left; reflexivity|].
  right. destruct (rstrip s) as [|y r] eqn:Hr.
  - apply rstrip_nil in Hr. cbn [forallb] in Hall. rewrite Hr, andb_true_r in Hall.
    exact Hall.
  - destruct IH as [IH|IH]; [discriminate|]. exact IH.
Qed.

Lemma last_not_space_not_all x t d :
  is_space (last (x :: t) d) = false -> forallb is_space (x :: t) = false.
Proof.
  revert x. induction t as [|y t IH]; intros x H.
  - simpl in *. rewrite H. reflexivity.
  - change (forallb is_space (x :: y :: t))
      with (is_space x && forallb is_space (y :: t)).
    change (last (x :: y :: t) d) with (last (y :: t) d) in H.
    rewrite (IH y H). apply andb_false_r.
Qed.

Lemma rstrip_id s d :
  s <> [] -> is_space (last s d) = false -> rstrip s = s.
Proof.
  induction s as [|x s IH]; intros Hne H; [contradiction|].
  rewrite rstrip_cons, (last_not_space_not_all _ _ _ H).
  f_equal. destruct s as [|y s]; [reflexivity|].
  apply IH; [discriminate | exact H].
Qed.

Lemma space_at_edge_strip s : space_at_edge (strip s) = false.
Proof.
  unfold strip. pose proof (lstrip_head s) as Hh.
  destruct (lstrip s) as [|x t]; [reflexivity|].
  rewrite (rstrip_head x t Hh). unfold space_at_edge. rewrite Hh. simpl orb.
  destruct (rstrip_last (x :: t) x) as [H|H];
    rewrite (rstrip_head x t Hh) in H; [discriminate | exact H].
Qed.

Lemma strip_id s : space_at_edge s = false -> strip s = s.
Proof.
  unfold space_at_edge, strip. destruct s as [|x t]; [reflexivity|].
  intros H. apply orb_false_elim in H. destruct H as [Hx Hl].
  cbn [lstrip]. rewrite Hx. apply rstrip_id with (d := x); [discriminate | exact Hl].
Qed.

Lemma has_space_pair_cons x y r :
  has_space_pair (x :: y :: r) = (is_space x && is_space y) || has_space_pair (y :: r).
Proof. reflexivity. Qed.

Lemma has_space_pair_app_l a b :
  has_space_pair (a ++ b) = false -> has_space_pair a = false.
Proof.
  induction a as [|x a IH]; [reflexivity|].
  destruct a as [|y a].
  - reflexivity.
  - cbn [app has_space_pair]. intros H. apply orb_false_elim in H.
    destruct H as [H1 H2]. rewrite H1. simpl. apply IH. exact H2.
Qed.

Lemma has_space_pair_app_r a b :
  has_space_pair (a ++ b) = false -> has_space_pair b = false.
Proof.
  induction a as [|x a IH]; [trivial|].
  intros H. apply IH. cbn [app] in H.
  destruct (a ++ b) as [|y r]; [reflexivity|].
  cbn [has_space_pair] in H. apply orb_false_elim in H. apply H.
Qed.

Lemma has_space_pair_strip s :
  has_space_pair s = false -> has_space_pair (strip s) = false.
Proof.
  intros H. unfold strip.
  destruct (lstrip_suffix s) as [w Hw].
  destruct (rstrip_prefix (lstrip s)) as [v Hv].
  rewrite Hw in H. apply has_space_pair_app_r in H.
  rewrite Hv in H. apply has_space_pair_app_l in H. exact H.
Qed.

Lemma In_strip c s : In c (strip s) -> In c s.
Proof.
  intros H. unfold strip in H.
  destruct (lstrip_suffix s) as [w Hw].
  destruct (rstrip_prefix (lstrip s)) as [v Hv].
  rewrite Hw. apply in_or_app. right. rewrite Hv. apply in_or_app. left. exact H.
Qed.

(** ** Collapsing blocks *)

Lemma squeeze_In p repl c s : forall b,
  In c (squeeze p repl b s) -> In c repl \/ (In c s /\ p c = false).
Proof.
  induction s as [|x s IH]; intros b H; [contradiction|].
  cbn [squeeze] in H. destruct (p x) eqn:Hp.
  - destruct b.
    + destruct (IH _ H) as [H1|[H1 H2]]; [left; exact H1 | right; split; [right|]; assumption].
    + apply in_app_or in H. destruct H as [H|H]; [left; exact H|].
      destruct (IH _ H) as [H1|[H1 H2]]; [left; exact H1 | right; split; [right|]; assumption].
  - destruct H as [H|H].
    + subst c. right. split; [left; reflexivity | exact Hp].
    + destruct (IH _ H) as [H1|[H1 H2]]; [left; exact H1 | right; split; [right|]; assumption].
Qed.

Lemma squeeze_none p repl s : forall b,
  (forall c, In c s -> p c = false) -> squeeze p repl b s = s.
Proof.
  induction s as [|x s IH]; intros b H; [reflexivity|].
  cbn [squeeze]. rewrite (H x (or_introl eq_refl)). f_equal.
  apply IH. intros c Hc. apply H. right. exact Hc.
Qed.

Lemma replace_each_none p s :
  (forall c, In c s -> p c = false) -> replace_each p [] s = s.
Proof.
  induction s as [|x s IH]; intros H; [reflexivity|].
  cbn [replace_each]. rewrite (H x (or_introl eq_refl)). simpl. f_equal.
  apply IH. intros c Hc. apply H. right. exact Hc.
Qed.

Lemma replace_each_In p c s :
  In c (replace_each p [] s) -> In c s /\ p c = false.
Proof.
  induction s as [|x s IH]; intros H; [contradiction|].
  cbn [replace_each] in H. destruct (p x) eqn:Hp; simpl in H.
  - destruct (IH H) as [H1 H2]. split; [right|]; assumption.
  - destruct H as [H|H].
    + subst c. split; [left; reflexivity | exact Hp].
    + destruct (IH H) as [H1 H2]. split; [right|]; assumption.
Qed.

(** After the white-space blocks are collapsed, no two white-space characters
    are adjacent, and the text that follows a block starts with none. *)
Lemma squeeze_space_pairs s :
  has_space_pair (squeeze is_space (lit " ") false s) = false /\
  has_space_pair (squeeze is_space (lit " ") true s) = false /\
  match squeeze is_space (lit " ") true s with
  | [] => True
  | x :: _ => is_space x = false
  end.
Proof.
  induction s as [|x s (IH1 & IH2 & IH3)]; [repeat split; reflexivity|].
  cbn [squeeze]. destruct (is_space x) eqn:Hx.
  - repeat split; [|exact IH2|exact IH3].
    change (lit " " ++ squeeze is_space (lit " ") true s)
      with (32%N :: squeeze is_space (lit " ") true s).
    destruct (squeeze is_space (lit " ") true s) as [|y r]; [reflexivity|].
    rewrite has_space_pair_cons, IH3, andb_false_r. exact IH2.
  - assert (H : has_space_pair (x :: squeeze is_space (lit " ") false s) = false).
    { destruct (squeeze is_space (lit " ") false s) as [|y r]; [reflexivity|].
      rewrite has_space_pair_cons, Hx. exact IH1. }
    repeat split; [exact H | exact H | exact Hx].
Qed.

(** A text without adjacent white space, in which the only white space is
    the space character, is not changed by the collapse. *)
Lemma squeeze_space_id s :
  has_space_pair s = false ->
  (forall c, In c s -> is_space c = true -> c = 32%N) ->
  squeeze is_space (lit " ") false s = s.
Proof.
  induction s as [|x s IH]; intros Hp Hs; [reflexivity|].
  assert (IHs : squeeze is_space (lit " ") false s = s).
  { apply IH.
    - apply (has_space_pair_app_r [x] s). exact Hp.
    - intros c Hc. apply Hs. right. exact Hc. }
  cbn [squeeze]. destruct (is_space x) eqn:Hx.
  - rewrite (Hs x (or_introl eq_refl) Hx).
    change (lit " " ++ squeeze is_space (lit " ") true s)
      with (32%N :: squeeze is_space (lit " ") true s).
    f_equal. rewrite squeeze_in_run.
    destruct s as [|y s]; [reflexivity|].
    rewrite has_space_pair_cons in Hp. apply orb_false_elim in Hp. destruct Hp as [Hp _].
    rewrite Hx in Hp. simpl in Hp. cbn [dropwhile]. rewrite Hp. exact IHs.
  - f_equal. exact IHs.
Qed.

Lemma squeeze_space_only c s b :
  In c (squeeze is_space (lit " ") b s) -> is_space c = true -> c = 32%N.
Proof.
  intros H Hc. destruct (squeeze_In _ _ _ _ _ H) as [H1|[_ H2]].
  - destruct H1 as [H1|[]]. symmetry. exact H1.
  - rewrite H2 in Hc. discriminate.
Qed.

(** ** [clean_text] of detik, kompas, tribunnews and tempo *)

Lemma detik_clean_text_eq s :
  Detik_text.clean_text s
  = strip (squeeze is_space (lit " ") false (match s with Some x => x | None => [] end)).
Proof. unfold Detik_text.clean_text, Re.ws. rewrite sub_plus. reflexivity. Qed.

Lemma detik_clean_text_none : Detik_text.clean_text None = [].
Proof. reflexivity. Qed.

Lemma detik_clean_text_no_space_pair s :
  has_space_pair (Detik_text.clean_text s) = false.
Proof.
  rewrite detik_clean_text_eq. apply has_space_pair_strip.
  apply squeeze_space_pairs.
Qed.

Lemma detik_clean_text_no_space_at_edge s :
  space_at_edge (Detik_text.clean_text s) = false.
Proof. rewrite detik_clean_text_eq. apply space_at_edge_strip. Qed.

Lemma detik_clean_text_idempotent s :
  Detik_text.clean_text (Some (Detik_text.clean_text s)) = Detik_text.clean_text s.
Proof.
  rewrite (detik_clean_text_eq (Some _)).
  rewrite squeeze_space_id.
  - apply strip_id. apply detik_clean_text_no_space_at_edge.
  - apply detik_clean_text_no_space_pair.
  - intros c Hc. rewrite detik_clean_text_eq in Hc. apply In_strip in Hc.
    apply (squeeze_space_only _ _ _ Hc).
Qed.

(** ** [clean_text] of republika *)

Lemma republika_clean_text_eq x s :
  Republika_text.clean_text (Some (x :: s))
  = strip (squeeze is_space (lit " ") false
      (replace_each Republika_text.unwanted []
        (replace_each Republika_text.control []
          (squeeze Republika_text.non_ascii (lit " ") false
            (squeeze is_space (lit " ") false (x :: s)))))).
Proof.
  unfold Republika_text.clean_text, Re.ws.
  rewrite !sub_plus, !sub_one. reflexivity.
Qed.

Lemma republika_clean_text_none : Republika_text.clean_text None = [].
Proof. reflexivity. Qed.

Lemma republika_clean_text_no_space_pair s :
  has_space_pair (Republika_text.clean_text s) = false.
Proof.
  destruct s as [[|x s]|]; try reflexivity.
  rewrite republika_clean_text_eq. apply has_space_pair_strip.
  apply squeeze_space_pairs.
Qed.

Lemma republika_clean_text_no_space_at_edge s :
  space_at_edge (Republika_text.clean_text s) = false.
Proof.
  destruct s as [[|x s]|]; try reflexivity.
  rewrite republika_clean_text_eq. apply space_at_edge_strip.
Qed.

(** The characters of a cleaned text: ASCII, no control character, none of
    the unwanted ones; the only white space is the space character. *)
Lemma republika_clean_text_chars s c :
  In c (Republika_text.clean_text s) ->
  Republika_text.non_ascii c = false /\ Republika_text.control c = false /\
  Republika_text.unwanted c = false /\ (is_space c = true -> c = 32%N).
Proof.
  destruct s as [[|x s]|]; try contradiction.
  rewrite republika_clean_text_eq. intros H. apply In_strip in H.
  split; [|split; [|split]]; [| | |exact (squeeze_space_only _ _ _ H)];
    (destruct (squeeze_In _ _ _ _ _ H) as [[H1|[]]|[H1 _]]; [subst c; reflexivity|]);
    apply replace_each_In in H1; destruct H1 as [H1 Hu];
    apply replace_each_In in H1; destruct H1 as [H1 Hc];
    [|exact Hc|exact Hu].
  destruct (squeeze_In _ _ _ _ _ H1) as [[H2|[]]|[_ H2]]; [subst c; reflexivity|exact H2].
Qed.

Lemma republika_clean_text_idempotent s :
  Republika_text.clean_text (Some (Republika_text.clean_text s))
  = Republika_text.clean_text s.
Proof.
  pose proof (republika_clean_text_chars s) as Hc.
  pose proof (republika_clean_text_no_space_pair s) as Hp.
  pose proof (republika_clean_text_no_space_at_edge s) as He.
  destruct (Republika_text.clean_text s) as [|x t] eqn:E; [reflexivity|].
  rewrite republika_clean_text_eq.
  rewrite (squeeze_space_id (x :: t)) by
    (try exact Hp; intros c H; apply (Hc c H)).
  rewrite (squeeze_none _ _ (x :: t)) by (intros c H; apply (Hc c H)).
  rewrite (replace_each_none _ (x :: t)) by (intros c H; apply (Hc c H)).
  rewrite (replace_each_none _ (x :: t)) by (intros c H; apply (Hc c H)).
  rewrite (squeeze_space_id (x :: t)) by
    (try exact Hp; intros c H; apply (Hc c H)).
  apply strip_id. exact He.
Qed.

(** ** [clean_text] of pikiran-rakyat *)

(** Claim C5, at the variant of pikiran-rakyat: [clean_text] has to leave no
    two white-space characters in a row and to be idempotent, for every
    site's variant. The variant of [mbg_news_pr.py] deletes the unwanted
    characters after its only collapse of the white space, so the spaces
    around a deleted character stay: on the text [a & b] it returns [a],
    two spaces, [b], and cleaning that again gives another text. *)
Theorem C5_pr_clean_text_leaves_space_pair :
  Pr_text.clean_text (Some (lit "a & b")) = lit "a  b" /\
  has_space_pair (Pr_text.clean_text (Some (lit "a & b"))) = true /\
  Pr_text.clean_text (Some (Pr_text.clean_text (Some (lit "a & b")))) = lit "a b" /\
  Republika_text.clean_text (Some (lit "a & b")) = lit "a b".
Proof. repeat split; vm_compute; reflexivity. Qed.

(** ** URLs: no fragment in a normalised URL *)

Lemma chr_eqb_eq a b : chr_eqb a b = true <-> a = b.
Proof. apply N.eqb_eq. Qed.

Lemma existsb_chr_In c s : existsb (chr_eqb c) s = true <-> In c s.
Proof.
  rewrite existsb_exists. split.
  - intros [x [Hx He]]. apply chr_eqb_eq in He. subst x. exact Hx.
  - intros H. exists c. split; [exact H | apply chr_eqb_eq; reflexivity].
Qed.

Lemma cut_some c s a b :
  Url.cut c s = Some (a, b) -> s = a ++ c :: b /\ ~ In c a.
Proof.
  revert a b. induction s as [|x s IH]; intros a b H; [discriminate|].
  cbn [Url.cut] in H. destruct (chr_eqb x c) eqn:E.
  - apply chr_eqb_eq in E. subst x. inversion H; subst. split; [reflexivity | intros []].
  - destruct (Url.cut c s) as [[a' b']|]; [|discriminate].
    inversion H; subst. destruct (IH a' b eq_refl) as [H1 H2].
    split; [simpl; f_equal; exact H1|].
    intros [Hx|Hx]; [subst x; rewrite (proj2 (chr_eqb_eq c c) eq_refl) in E; discriminate
                    | exact (H2 Hx)].
Qed.

Lemma cut_none c s : Url.cut c s = None -> ~ In c s.
Proof.
  induction s as [|x s IH]; intros H; [intros []|].
  cbn [Url.cut] in H. destruct (chr_eqb x c) eqn:E; [discriminate|].
  destruct (Url.cut c s) as [[a' b']|]; [discriminate|].
  intros [Hx|Hx]; [subst x; rewrite (proj2 (chr_eqb_eq c c) eq_refl) in E; discriminate
                  | exact (IH eq_refl Hx)].
Qed.

Lemma splitnetloc_spec s a b :
  Url.splitnetloc s = (a, b) ->
  s = a ++ b /\ forallb (fun c => negb (Url.delimiter c)) a = true.
Proof.
  revert a b. induction s as [|x s IH]; intros a b H.
  - inversion H. split; reflexivity.
  - cbn [Url.splitnetloc] in H. destruct (Url.delimiter x) eqn:E.
    + inversion H; subst. split; reflexivity.
    + destruct (Url.splitnetloc s) as [a' b']. inversion H; subst.
      destruct (IH a' b eq_refl) as [H1 H2]. split; [simpl; f_equal; exact H1|].
      simpl. rewrite E, H2. reflexivity.
Qed.

Lemma no_delimiter_no_hash a :
  forallb (fun c => negb (Url.delimiter c)) a = true -> ~ In Url.hash a.
Proof.
  intros H Hin. rewrite forallb_forall in H. specialize (H _ Hin).
  discriminate H.
Qed.

Lemma scheme_chars_no_hash a :
  forallb Url.scheme_char a = true -> ~ In Url.hash (lower a).
Proof.
  intros H Hin. unfold lower in Hin. apply in_map_iff in Hin.
  destruct Hin as [x [Hx Hin]]. rewrite forallb_forall in H. specialize (H _ Hin).
  unfold Url.scheme_char, lower_chr, is_alpha_ascii, is_upper_ascii, is_lower_ascii,
    is_digit_ascii, in_range, chr_eqb, Url.hash in *.
  destruct (65 <=? x)%N eqn:E1, (x <=? 90)%N eqn:E2; simpl in Hx;
    repeat match goal with
           | H : (_ <=? _)%N = true |- _ => apply N.leb_le in H
           | H : (_ <=? _)%N = false |- _ => apply N.leb_gt in H
           end; try lia.
  all: subst x; vm_compute in H; discriminate.
Qed.

Lemma split_scheme_spec dflt url s r :
  Url.split_scheme dflt url = (s, r) ->
  (s = dflt /\ r = url) \/
  (exists a, s = lower a /\ forallb Url.scheme_char a = true /\ url = a ++ Url.colon :: r).
Proof.
  unfold Url.split_scheme. destruct (Url.cut Url.colon url) as [[[|x a] b]|] eqn:E;
    try (intros H; inversion H; left; split; reflexivity).
  destruct (is_alpha_ascii x && forallb Url.scheme_char (x :: a)) eqn:E2;
    intros H; inversion H; subst; [|left; split; reflexivity].
  right. exists (x :: a). apply andb_true_iff in E2. destruct E2 as [_ E2].
  apply cut_some in E. destruct E as [E _]. repeat split; assumption.
Qed.

(** The components that [urlsplit] returns have no hash sign, the fragment
    apart. *)
Lemma urlsplit_no_hash url p :
  Url.urlsplit url [] = Ok p ->
  ~ In Url.hash (Url.scheme p) /\ ~ In Url.hash (Url.netloc p) /\
  ~ In Url.hash (Url.path p) /\ ~ In Url.hash (Url.query p) /\ Url.params p = [].
Proof.
  unfold Url.urlsplit.
  change (Url.remove_unsafe (Url.strip_c0 [])) with (@nil char).
  destruct (Url.split_scheme [] (Url.remove_unsafe (Url.lstrip_c0 url))) as [sch u1] eqn:Es.
  assert (Hsch : ~ In Url.hash sch).
  { apply split_scheme_spec in Es. destruct Es as [[-> _]|[a [-> [Ha _]]]];
      [intros [] | apply scheme_chars_no_hash; exact Ha]. }
  assert (Hnet : forall nl u2,
             (if startswith [Url.slash; Url.slash] u1
              then let (nl, url') := Url.splitnetloc (skipn 2 u1) in
                   _ <- Url.check_brackets nl ;; Ok (nl, url')
              else Ok ([], u1)) = Ok (nl, u2) -> ~ In Url.hash nl).
  { intros nl u2. destruct (startswith [Url.slash; Url.slash] u1).
    - destruct (Url.splitnetloc (skipn 2 u1)) as [a b] eqn:En.
      destruct (Url.check_brackets a); cbn [bind]; intros H; inversion H; subst.
      apply splitnetloc_spec in En. apply no_delimiter_no_hash. apply En.
    - intros H; inversion H. intros []. }
  destruct (if startswith [Url.slash; Url.slash] u1
            then let (nl, url') := Url.splitnetloc (skipn 2 u1) in
                 _ <- Url.check_brackets nl ;; Ok (nl, url')
            else Ok ([], u1)) as [[nl u2]|e] eqn:En; cbn [bind]; [|intros Hd; discriminate Hd].
  specialize (Hnet nl u2 eq_refl).
  destruct (Url.cut Url.hash u2) as [[a b]|] eqn:Eh.
  - apply cut_some in Eh. destruct Eh as [_ Ha].
    destruct (Url.cut Url.question a) as [[a1 a2]|] eqn:Eq; intros H; inversion H; subst; cbn.
    + apply cut_some in Eq. destruct Eq as [-> _].
      repeat split; try assumption; intros Hin; apply Ha, in_or_app;
        [left | right; right]; exact Hin.
    + repeat split; try assumption. intros [].
  - apply cut_none in Eh.
    destruct (Url.cut Url.question u2) as [[a1 a2]|] eqn:Eq; intros H; inversion H; subst; cbn.
    + apply cut_some in Eq. destruct Eq as [-> _].
      repeat split; try assumption; intros Hin; apply Eh, in_or_app;
        [left | right; right]; exact Hin.
    + repeat split; try assumption. intros [].
Qed.

Lemma splitparams_In url a b c :
  Url.splitparams url = (a, b) -> In c a \/ In c b -> In c url.
Proof.
  revert a b. induction url as [|x s IH]; intros a b H Hin.
  - inversion H; subst. destruct Hin as [[]|[]].
  - cbn [Url.splitparams] in H.
    destruct (existsb (chr_eqb Url.slash) s).
    + destruct (Url.splitparams s) as [a' b']. inversion H; subst.
      destruct Hin as [[Hx|Hx]|Hx]; [left; exact Hx | right; apply (IH a' b eq_refl); left; exact Hx
                                   | right; apply (IH a' b eq_refl); right; exact Hx].
    + destruct (chr_eqb x Url.semicolon).
      * inversion H; subst. destruct Hin as [[]|Hx]. right. exact Hx.
      * destruct (Url.splitparams s) as [a' b']. inversion H; subst.
        destruct Hin as [[Hx|Hx]|Hx]; [left; exact Hx | right; apply (IH a' b eq_refl); left; exact Hx
                                     | right; apply (IH a' b eq_refl); right; exact Hx].
Qed.

Lemma urlparse_no_hash url p :
  Url.urlparse url [] = Ok p ->
  ~ In Url.hash (Url.scheme p) /\ ~ In Url.hash (Url.netloc p) /\
  ~ In Url.hash (Url.path p) /\ ~ In Url.hash (Url.params p) /\
  ~ In Url.hash (Url.query p).
Proof.
  unfold Url.urlparse. destruct (Url.urlsplit url []) as [q|e] eqn:E; cbn [bind]; [|intros Hd; discriminate Hd].
  apply urlsplit_no_hash in E. destruct E as (H1 & H2 & H3 & H4 & H5).
  destruct (Url.mem (Url.scheme q) Url.uses_params && existsb (chr_eqb Url.semicolon) (Url.path q)).
  - destruct (Url.splitparams (Url.path q)) as [a b] eqn:Es. intros H; inversion H; subst; cbn.
    repeat split; try assumption; intros Hin; apply H3;
      apply (splitparams_In _ _ _ _ Es); [left | right]; exact Hin.
  - intros H; inversion H; subst. rewrite H5. repeat split; try assumption. intros [].
Qed.

Ltac in_cases H :=
  repeat match type of H with
         | In _ (_ ++ _) => apply in_app_or in H; destruct H as [H|H]
         | In _ (_ :: _) => destruct H as [H|H]
         | In _ [] => destruct H
         end.

(** Putting a URL without fragment back together brings no hash sign in. *)
Lemma urlunparse_no_hash p :
  ~ In Url.hash (Url.scheme p) -> ~ In Url.hash (Url.netloc p) ->
  ~ In Url.hash (Url.path p) -> ~ In Url.hash (Url.params p) ->
  ~ In Url.hash (Url.query p) -> Url.fragment p = [] ->
  ~ In Url.hash (Url.urlunparse p).
Proof.
  intros H1 H2 H3 H4 H5 H6. unfold Url.urlunparse. rewrite H6. cbn [truthy].
  intros Hin.
  repeat match type of Hin with
         | context [if ?b then _ else _] => destruct b
         end;
    in_cases Hin; solve [contradiction | discriminate Hin].
Qed.

(** Inversion of [x <- m ;; k = Ok r]. *)
Ltac bind_ok H x E :=
  match type of H with
  | bind ?m _ = Ok _ =>
      destruct m as [x|] eqn:E; cbn [bind] in H; [|discriminate H]
  end.

Lemma detik_normalize_url_no_fragment u r :
  Detik_url.normalize_url u = Ok r -> ~ In Url.hash r.
Proof.
  unfold Detik_url.normalize_url. destruct u as [[|x u]|];
    try (intros H; inversion H; intros []).
  intros H. bind_ok H u1 E1. bind_ok H p E2.
  inversion H; subst. apply urlparse_no_hash in E2.
  destruct E2 as (H1 & H2 & H3 & H4 & H5).
  apply urlunparse_no_hash; cbn; auto.
Qed.

Lemma hexdigit_not_hash n : Url.hexdigit n <> Url.hash.
Proof.
  unfold Url.hexdigit, Url.hash. destruct (n <? 10)%N eqn:E.
  - lia.
  - apply N.ltb_ge in E. lia.
Qed.

Lemma quote_plus_byte_no_hash b : ~ In Url.hash (Url.quote_plus_byte b).
Proof.
  unfold Url.quote_plus_byte. destruct (Url.always_safe b) eqn:Es.
  - intros [H|[]]. subst b. vm_compute in Es. discriminate Es.
  - destruct (chr_eqb b Url.space); [intros [H|[]]; discriminate H|].
    intros [H|[H|[H|[]]]]; [discriminate H| |]; exact (hexdigit_not_hash _ H).
Qed.

Lemma quote_plus_no_hash s q : Url.quote_plus s = Ok q -> ~ In Url.hash q.
Proof.
  unfold Url.quote_plus. intros H. bind_ok H bs E. inversion H; subst.
  intros Hin. apply in_flat_map in Hin. destruct Hin as [b [_ Hb]].
  exact (quote_plus_byte_no_hash b Hb).
Qed.

Lemma join_In c sep l :
  In c (join sep l) -> In c sep \/ exists p, In p l /\ In c p.
Proof.
  induction l as [|p l IH]; [intros []|].
  destruct l as [|p' l].
  - intros H. right. exists p. split; [left; reflexivity | exact H].
  - change (join sep (p :: p' :: l)) with (p ++ sep ++ join sep (p' :: l)).
    intros H. in_cases H.
    + right. exists p. split; [left; reflexivity | exact H].
    + left. exact H.
    + destruct (IH H) as [H1|[q [H1 H2]]]; [left; exact H1|].
      right. exists q. split; [right; exact H1 | exact H2].
Qed.

Lemma encode_fields_no_hash pairs l :
  Url.encode_fields pairs = Ok l -> forall p, In p l -> ~ In Url.hash p.
Proof.
  revert l. induction pairs as [|[k v] rest IH]; intros l H.
  - inversion H. intros p [].
  - cbn [Url.encode_fields] in H. bind_ok H k' Ek. bind_ok H v' Ev. bind_ok H l' El.
    inversion H; subst. intros p [Hp|Hp]; [|exact (IH l' eq_refl p Hp)].
    subst p. intros Hin. in_cases Hin.
    + exact (quote_plus_no_hash _ _ Ek Hin).
    + discriminate Hin.
    + exact (quote_plus_no_hash _ _ Ev Hin).
Qed.

Lemma urlencode_no_hash pairs q : Url.urlencode pairs = Ok q -> ~ In Url.hash q.
Proof.
  unfold Url.urlencode. intros H. bind_ok H l E. inversion H; subst.
  intros Hin. apply join_In in Hin. destruct Hin as [Hin|[p [Hp Hin]]].
  - in_cases Hin. discriminate Hin.
  - exact (encode_fields_no_hash _ _ E p Hp Hin).
Qed.

Lemma kompas_normalize_url_no_fragment u r :
  Kompas_url.normalize_url u = Ok r -> ~ In Url.hash r.
Proof.
  unfold Kompas_url.normalize_url. destruct u as [[|x u]|];
    try (intros H; inversion H; intros []).
  intros H. bind_ok H u1 E1. bind_ok H p E2. bind_ok H p' E3.
  inversion H; subst. apply urlparse_no_hash in E2.
  destruct E2 as (H1 & H2 & H3 & H4 & H5).
  destruct (truthy (Url.query (Url.replace_fragment p []))).
  - bind_ok E3 q Equ. inversion E3; subst.
    apply urlunparse_no_hash; cbn; auto. exact (urlencode_no_hash _ _ Equ).
  - inversion E3; subst. apply urlunparse_no_hash; cbn; auto.
Qed.

(** ** URLs: the tracking parameters of kompas *)

Lemma keep_loop_filter pairs kept :
  Kompas_url.keep_loop pairs kept
  = kept ++ filter (fun kv => negb (Kompas_url.is_tracking (fst kv))) pairs.
Proof.
  revert kept. induction pairs as [|[k v] rest IH]; intros kept.
  - simpl. rewrite app_nil_r. reflexivity.
  - cbn [Kompas_url.keep_loop filter fst]. destruct (Kompas_url.is_tracking k); cbn [negb].
    + apply IH.
    + rewrite IH, <- app_assoc. reflexivity.
Qed.

(** What [normalize_url] of kompas returns, in terms of the parsed URL. *)
Lemma kompas_normalize_url_query x u r :
  Kompas_url.normalize_url (Some (x :: u)) = Ok r ->
  exists u1 p,
    (if startswith (lit "/") (x :: u) then Url.urljoin Kompas_url.BASE (x :: u)
     else Ok (x :: u)) = Ok u1 /\
    Url.urlparse u1 [] = Ok p /\
    ((Url.query p = [] /\ r = Url.urlunparse (Url.replace_fragment p [])) \/
     (Url.query p <> [] /\
      exists q,
        Url.urlencode (filter (fun kv => negb (Kompas_url.is_tracking (fst kv)))
                              (Url.parse_qsl (Url.query p))) = Ok q /\
        r = Url.urlunparse (Url.replace_query (Url.replace_fragment p []) q))).
Proof.
  unfold Kompas_url.normalize_url. intros H.
  bind_ok H u1 E1. bind_ok H p E2. bind_ok H p' E3. inversion H; subst.
  exists u1, p. repeat split; try assumption.
  cbn [Url.replace_fragment Url.query] in E3.
  destruct (Url.query p) as [|c q0] eqn:Equ; cbn [truthy] in E3.
  - left. inversion E3; subst. split; reflexivity.
  - right. split; [discriminate|]. bind_ok E3 q Eu. inversion E3; subst.
    rewrite keep_loop_filter in Eu. exists q. split; [exact Eu | reflexivity].
Qed.

(** ** URLs: a reference that starts with one slash stays on the base *)

Lemma https_prefix_eq : lit "https://" = [104; 116; 116; 112; 115; 58; 47; 47]%N.
Proof. reflexivity. Qed.

Lemma plain_host_forall h c :
  plain_host h = true -> In c h ->
  Url.delimiter c = false /\ Url.unsafe c = false /\
  chr_eqb c Url.lbracket = false /\ chr_eqb c Url.rbracket = false.
Proof.
  unfold plain_host. intros H Hin. apply andb_true_iff in H. destruct H as [_ H].
  rewrite forallb_forall in H. specialize (H c Hin).
  repeat (apply andb_true_iff in H; destruct H as [H ?]).
  repeat match goal with
         | H : negb _ = true |- _ => apply negb_true_iff in H
         end.
  repeat split; assumption.
Qed.

Lemma plain_host_truthy h : plain_host h = true -> truthy h = true.
Proof. unfold plain_host. intros H. apply andb_true_iff in H. apply H. Qed.

Lemma plain_host_tail x h : plain_host (x :: h) = true -> forall c, In c h -> In c (x :: h).
Proof. intros _ c Hc. right. exact Hc. Qed.

Lemma filter_plain h :
  (forall c, In c h -> Url.unsafe c = false) -> Url.remove_unsafe h = h.
Proof.
  induction h as [|x h IH]; intros H; [reflexivity|].
  unfold Url.remove_unsafe in *. cbn [filter]. rewrite (H x (or_introl eq_refl)).
  cbn [negb]. f_equal. apply IH. intros c Hc. apply H. right. exact Hc.
Qed.

Lemma splitnetloc_app h t :
  (forall c, In c h -> Url.delimiter c = false) ->
  match t with [] => True | x :: _ => Url.delimiter x = true end ->
  Url.splitnetloc (h ++ t) = (h, t).
Proof.
  intros Hh Ht. induction h as [|x h IH].
  - destruct t as [|y t]; [reflexivity|]. cbn [app Url.splitnetloc]. rewrite Ht. reflexivity.
  - cbn [app Url.splitnetloc]. rewrite (Hh x (or_introl eq_refl)).
    rewrite IH; [reflexivity|]. intros c Hc. apply Hh. right. exact Hc.
Qed.

Lemma no_brackets_ok h :
  (forall c, In c h -> chr_eqb c Url.lbracket = false /\ chr_eqb c Url.rbracket = false) ->
  Url.check_brackets h = Ok tt.
Proof.
  intros H. unfold Url.check_brackets.
  assert (Hl : existsb (chr_eqb Url.lbracket) h = false).
  { apply not_true_is_false. intros E. apply existsb_chr_In in E.
    destruct (H _ E) as [E1 _]. vm_compute in E1. discriminate E1. }
  assert (Hr : existsb (chr_eqb Url.rbracket) h = false).
  { apply not_true_is_false. intros E. apply existsb_chr_In in E.
    destruct (H _ E) as [_ E1]. vm_compute in E1. discriminate E1. }
  rewrite Hl, Hr. reflexivity.
Qed.

(** A cut at [c] of a text that starts with another character keeps the
    start. *)
Lemma cut_head c x s :
  chr_eqb x c = false ->
  exists a b, match Url.cut c (x :: s) with
              | Some (a', b') => (a', b')
              | None => (x :: s, [])
              end = (x :: a, b).
Proof.
  intros E. cbn [Url.cut]. rewrite E.
  destruct (Url.cut c s) as [[a b]|]; eauto.
Qed.

Lemma splitparams_head x s :
  chr_eqb x Url.semicolon = false ->
  exists a b, Url.splitparams (x :: s) = (x :: a, b).
Proof.
  intros E. cbn [Url.splitparams]. rewrite E.
  destruct (existsb (chr_eqb Url.slash) s); destruct (Url.splitparams s) as [a b]; eauto.
Qed.

(** The path and the rest of a text that starts with a slash and is read
    after the netloc. *)
Lemma urlsplit_tail sch nl w :
  exists pa q f,
    (let (url, frag) := match Url.cut Url.hash (Url.slash :: w) with
                        | Some (a, b) => (a, b)
                        | None => (Url.slash :: w, [])
                        end in
     let (url, qry) := match Url.cut Url.question url with
                       | Some (a, b) => (a, b)
                       | None => (url, [])
                       end in
     Ok (Url.Parsed sch nl url [] qry frag))
    = Ok (Url.Parsed sch nl (Url.slash :: pa) [] q f).
Proof.
  destruct (cut_head Url.hash Url.slash w eq_refl) as [a [b E]].
  destruct (Url.cut Url.hash (Url.slash :: w)) as [[a' b']|];
    inversion E; subst;
    destruct (cut_head Url.question Url.slash a eq_refl) as [a2 [b2 E2]];
    destruct (Url.cut Url.question (Url.slash :: a)) as [[a3 b3]|];
    inversion E2; subst; eauto.
Qed.

Lemma urlparse_of_split url dflt sch nl pa q f :
  Url.urlsplit url dflt = Ok (Url.Parsed sch nl (Url.slash :: pa) [] q f) ->
  exists pa' prm,
    Url.urlparse url dflt = Ok (Url.Parsed sch nl (Url.slash :: pa') prm q f).
Proof.
  intros E. unfold Url.urlparse. rewrite E. cbn [bind Url.scheme Url.path Url.netloc
    Url.query Url.fragment].
  destruct (Url.mem sch Url.uses_params && existsb (chr_eqb Url.semicolon) (Url.slash :: pa)).
  - destruct (splitparams_head Url.slash pa eq_refl) as [a [b Es]]. rewrite Es. eauto.
  - eauto.
Qed.

Lemma remove_unsafe_app a b :
  Url.remove_unsafe (a ++ b) = Url.remove_unsafe a ++ Url.remove_unsafe b.
Proof. apply filter_app. Qed.

Lemma urlsplit_https_start x :
  Url.lstrip_c0 (lit "https://" ++ x) = lit "https://" ++ x /\
  Url.remove_unsafe (lit "https://" ++ x) = lit "https://" ++ Url.remove_unsafe x /\
  Url.split_scheme [] (lit "https://" ++ x) = (lit "https", Url.slash :: Url.slash :: x) /\
  startswith [Url.slash; Url.slash] (Url.slash :: Url.slash :: x) = true.
Proof. repeat split; reflexivity. Qed.

(** Parsing an absolute https URL whose path starts with a slash or is
    empty. *)
Lemma urlsplit_absolute h t :
  plain_host h = true ->
  Url.urlsplit (lit "https://" ++ h ++ t) []
  = (nu <- (_ <- Url.check_brackets h ;; Ok (h, Url.remove_unsafe t)) ;;
     let (nl, url) := (nu : str * str) in
     let (url, frag) := match Url.cut Url.hash url with
                        | Some (a, b) => (a, b)
                        | None => (url, [])
                        end in
     let (url, qry) := match Url.cut Url.question url with
                       | Some (a, b) => (a, b)
                       | None => (url, [])
                       end in
     Ok (Url.Parsed (lit "https") nl url [] qry frag)) \/
  match Url.remove_unsafe t with [] => False | x :: _ => Url.delimiter x = false end.
Proof.
  intros Hh.
  destruct (Url.remove_unsafe t) as [|x t'] eqn:Et.
  - left. unfold Url.urlsplit.
    destruct (urlsplit_https_start (h ++ t)) as (E1 & _).
    rewrite E1.
    destruct (urlsplit_https_start (h ++ t)) as (_ & E2 & _). rewrite E2.
    rewrite remove_unsafe_app, Et.
    rewrite (filter_plain h) by (intros c Hc; apply (plain_host_forall h c Hh Hc)).
    change (Url.remove_unsafe (Url.strip_c0 [])) with (@nil char).
    destruct (urlsplit_https_start (h ++ [])) as (_ & _ & E3 & E4). rewrite E3, E4.
    cbn [skipn].
    rewrite splitnetloc_app;
      [reflexivity | intros c Hc; apply (plain_host_forall h c Hh Hc) | exact I].
  - destruct (Url.delimiter x) eqn:Ed; [|right; reflexivity].
    left. unfold Url.urlsplit.
    destruct (urlsplit_https_start (h ++ t)) as (E1 & E2 & _). rewrite E1, E2.
    rewrite remove_unsafe_app, Et.
    rewrite (filter_plain h) by (intros c Hc; apply (plain_host_forall h c Hh Hc)).
    change (Url.remove_unsafe (Url.strip_c0 [])) with (@nil char).
    destruct (urlsplit_https_start (h ++ x :: t')) as (_ & _ & E3 & E4). rewrite E3, E4.
    cbn [skipn].
    rewrite splitnetloc_app;
      [reflexivity | intros c Hc; apply (plain_host_forall h c Hh Hc) | exact Ed].
Qed.

Lemma urlparse_absolute h w :
  plain_host h = true ->
  exists pa prm q f,
    Url.urlparse (lit "https://" ++ h ++ Url.slash :: w) []
    = Ok (Url.Parsed (lit "https") h (Url.slash :: pa) prm q f).
Proof.
  intros Hh.
  assert (Hs : exists pa q f,
             Url.urlsplit (lit "https://" ++ h ++ Url.slash :: w) []
             = Ok (Url.Parsed (lit "https") h (Url.slash :: pa) [] q f)).
  { destruct (urlsplit_absolute h (Url.slash :: w) Hh) as [E|E].
    - rewrite E.
      rewrite no_brackets_ok by (intros c Hc; split; apply (plain_host_forall h c Hh Hc)).
      cbn [bind]. change (Url.remove_unsafe (Url.slash :: w)) with (Url.slash :: Url.remove_unsafe w).
      apply urlsplit_tail.
    - change (Url.remove_unsafe (Url.slash :: w)) with (Url.slash :: Url.remove_unsafe w) in E.
      discriminate E. }
  destruct Hs as (pa & q & f & Hs).
  destruct (urlparse_of_split _ _ _ _ _ _ _ Hs) as (pa' & prm & Hp). eauto.
Qed.

(** Parsing the base itself. *)
Lemma urlparse_base h :
  plain_host h = true ->
  Url.urlparse (lit "https://" ++ h) [] = Ok (Url.Parsed (lit "https") h [] [] [] []).
Proof.
  intros Hh. unfold Url.urlparse.
  destruct (urlsplit_absolute h [] Hh) as [E|E]; [|destruct E].
  rewrite app_nil_r in E. rewrite E.
  rewrite no_brackets_ok by (intros c Hc; split; apply (plain_host_forall h c Hh Hc)).
  reflexivity.
Qed.

Lemma https_prefix_split x :
  lit "https://" ++ x = lit "https" ++ [Url.colon] ++ [Url.slash; Url.slash] ++ x.
Proof. reflexivity. Qed.

(** Putting an https URL with a host and a path back together. *)
Lemma urlunparse_absolute h pa prm q f :
  truthy h = true -> truthy pa = true ->
  exists w,
    Url.urlunparse (Url.Parsed (lit "https") h pa prm q f)
    = lit "https://" ++ h ++ Url.slash :: w.
Proof.
  intros Hh Hp. unfold Url.urlunparse.
  cbn [Url.scheme Url.netloc Url.path Url.params Url.query Url.fragment].
  rewrite Hh. cbn [orb].
  set (url0 := if truthy prm then pa ++ [Url.semicolon] ++ prm else pa).
  assert (H0 : truthy url0 = true).
  { unfold url0. destruct (truthy prm); [|exact Hp].
    destruct pa; [discriminate Hp | reflexivity]. }
  clearbody url0.
  assert (H1 : exists t, (if truthy url0 && negb (startswith [Url.slash] url0)
                          then Url.slash :: url0 else url0) = Url.slash :: t).
  { destruct url0 as [|x t]; [discriminate H0|]. cbn [truthy andb startswith].
    destruct (chr_eqb Url.slash x) eqn:E; cbn [andb negb].
    - apply chr_eqb_eq in E. subst x. eexists. reflexivity.
    - eexists. reflexivity. }
  destruct H1 as [t Ht]. rewrite Ht.
  change (truthy (lit "https")) with true. cbv iota.
  destruct (truthy q), (truthy f);
    [exists (t ++ [Url.question] ++ q ++ [Url.hash] ++ f)
    |exists (t ++ [Url.question] ++ q)
    |exists (t ++ [Url.hash] ++ f)
    |exists t];
    rewrite https_prefix_split; repeat rewrite <- app_assoc; reflexivity.
Qed.

Lemma or_else_truthy a x : truthy (or_else a [x]) = true.
Proof. unfold or_else. destruct (truthy a) eqn:E; [exact E | reflexivity]. Qed.

(** [urljoin] of an https base without path and a reference that starts with
    one slash: the scheme and the host of the base, then a path. *)
Lemma urljoin_one_slash h u :
  plain_host h = true -> one_slash_reference u = true ->
  exists w, Url.urljoin (lit "https://" ++ h) u = Ok (lit "https://" ++ h ++ Url.slash :: w).
Proof.
  intros Hh Hu. unfold one_slash_reference in Hu. apply andb_true_iff in Hu.
  destruct Hu as [Hu1 Hu2]. apply negb_true_iff in Hu2.
  destruct u as [|x rest]; [discriminate Hu1|].
  cbn [startswith] in Hu1. apply andb_true_iff in Hu1. destruct Hu1 as [Hx _].
  apply chr_eqb_eq in Hx. subst x.
  change (Url.remove_unsafe (Url.slash :: rest)) with (Url.slash :: Url.remove_unsafe rest) in Hu2.
  unfold Url.urljoin.
  change (truthy (lit "https://" ++ h)) with true.
  cbn [negb truthy]. cbv iota.
  rewrite (urlparse_base h Hh). cbn [bind Url.scheme Url.netloc Url.path Url.params Url.query].
  (* the reference, read with the scheme of the base as default *)
  assert (Hs : exists pa q f,
             Url.urlsplit (Url.slash :: rest) (lit "https")
             = Ok (Url.Parsed (lit "https") [] (Url.slash :: pa) [] q f)).
  { unfold Url.urlsplit.
    change (Url.lstrip_c0 (Url.slash :: rest)) with (Url.slash :: rest).
    change (Url.remove_unsafe (Url.slash :: rest)) with (Url.slash :: Url.remove_unsafe rest).
    change (Url.remove_unsafe (Url.strip_c0 (lit "https"))) with (lit "https").
    assert (Hsch : Url.split_scheme (lit "https") (Url.slash :: Url.remove_unsafe rest)
                   = (lit "https", Url.slash :: Url.remove_unsafe rest)).
    { unfold Url.split_scheme. cbn [Url.cut].
      change (chr_eqb Url.slash Url.colon) with false. cbv iota.
      destruct (Url.cut Url.colon (Url.remove_unsafe rest)) as [[a b]|]; reflexivity. }
    rewrite Hsch, Hu2. cbn [bind]. apply urlsplit_tail. }
  destruct Hs as (pa & q & f & Hs).
  destruct (urlparse_of_split _ _ _ _ _ _ _ Hs) as (pa' & prm & Hp).
  rewrite Hp. cbn [bind Url.scheme Url.netloc Url.path Url.params Url.query Url.fragment].
  change (str_eqb (lit "https") (lit "https")) with true.
  change (Url.mem (lit "https") Url.uses_relative) with true.
  change (Url.mem (lit "https") Url.uses_netloc) with true.
  cbn [negb orb andb truthy]. cbv iota.
  match goal with
  | |- exists w, Ok (Url.urlunparse (Url.Parsed _ _ (or_else ?a ?b) _ _ _)) = _ =>
      destruct (urlunparse_absolute h (or_else a b) prm q f
                  (plain_host_truthy h Hh) (or_else_truthy a Url.slash)) as [w Hw];
      exists w; rewrite Hw; reflexivity
  end.
Qed.

(** The two steps of [normalize_url] on such a reference, for a site whose
    base is [https://h]. *)
Lemma normalize_one_slash h u :
  plain_host h = true -> one_slash_reference u = true ->
  exists u1 pa prm q f,
    Url.urljoin (lit "https://" ++ h) u = Ok u1 /\
    Url.urlparse u1 [] = Ok (Url.Parsed (lit "https") h (Url.slash :: pa) prm q f).
Proof.
  intros Hh Hu. destruct (urljoin_one_slash h u Hh Hu) as [w Hj].
  destruct (urlparse_absolute h w Hh) as (pa & prm & q & f & Hp).
  exists (lit "https://" ++ h ++ Url.slash :: w), pa, prm, q, f.
  split; [exact Hj | exact Hp].
Qed.

Lemma startswith_app p s : startswith p (p ++ s) = true.
Proof.
  induction p as [|x p IH]; [reflexivity|]. cbn [app startswith].
  rewrite IH. unfold chr_eqb. rewrite N.eqb_refl. reflexivity.
Qed.

Lemma one_slash_starts u : one_slash_reference u = true -> startswith (lit "/") u = true.
Proof. unfold one_slash_reference. intros H. apply andb_true_iff in H. apply H. Qed.

Lemma detik_normalize_url_relative u :
  one_slash_reference u = true ->
  exists r, Detik_url.normalize_url (Some u) = Ok r /\
            startswith (lit "https://www.detik.com/") r = true.
Proof.
  intros Hu.
  assert (Hh : plain_host (lit "www.detik.com") = true) by reflexivity.
  destruct (normalize_one_slash _ u Hh Hu) as (u1 & pa & prm & q & f & Hj & Hp).
  pose proof (one_slash_starts u Hu) as Hu1.
  unfold Detik_url.normalize_url.
  destruct u as [|x u]; [discriminate Hu1|].
  rewrite Hu1. change Detik_url.BASE with (lit "https://" ++ lit "www.detik.com").
  rewrite Hj. cbn [bind]. rewrite Hp. cbn [bind].
  unfold Url.replace_fragment. cbn [Url.scheme Url.netloc Url.path Url.params Url.query].
  destruct (urlunparse_absolute (lit "www.detik.com") (Url.slash :: pa) prm q []
              eq_refl eq_refl) as [w' Hw].
  rewrite Hw. eexists. split; [reflexivity|].
  change (lit "https://" ++ lit "www.detik.com" ++ Url.slash :: w')
    with (lit "https://www.detik.com/" ++ w').
  apply startswith_app.
Qed.

Lemma utf8_encode_raises s e : Url.utf8_encode s = Raise e -> e = UnicodeEncodeError.
Proof.
  induction s as [|c s IH]; [discriminate|]. cbn [Url.utf8_encode].
  destruct (Url.utf8_encode_chr c) as [b|e'] eqn:Ec; cbn [bind].
  - destruct (Url.utf8_encode s) as [bs|e''] eqn:Es; cbn [bind]; [discriminate|].
    intros H. inversion H; subst. apply IH. reflexivity.
  - intros H. inversion H; subst. unfold Url.utf8_encode_chr in Ec.
    repeat match type of Ec with
           | (if ?b then _ else _) = _ => destruct b
           end; inversion Ec; reflexivity.
Qed.

Lemma quote_plus_raises s e : Url.quote_plus s = Raise e -> e = UnicodeEncodeError.
Proof.
  unfold Url.quote_plus. destruct (Url.utf8_encode s) as [bs|e'] eqn:E; cbn [bind];
    [discriminate|]. intros H. inversion H; subst. exact (utf8_encode_raises _ _ E).
Qed.

Lemma urlencode_raises pairs e : Url.urlencode pairs = Raise e -> e = UnicodeEncodeError.
Proof.
  unfold Url.urlencode.
  assert (H : forall e, Url.encode_fields pairs = Raise e -> e = UnicodeEncodeError).
  { induction pairs as [|[k v] rest IH]; intros e0; [discriminate|].
    cbn [Url.encode_fields].
    destruct (Url.quote_plus k) as [k'|e1] eqn:Ek; cbn [bind];
      [|intros H; inversion H; subst; exact (quote_plus_raises _ _ Ek)].
    destruct (Url.quote_plus v) as [v'|e1] eqn:Ev; cbn [bind];
      [|intros H; inversion H; subst; exact (quote_plus_raises _ _ Ev)].
    destruct (Url.encode_fields rest) as [l|e1]; cbn [bind]; [discriminate|].
    intros H; inversion H; subst. apply IH. reflexivity. }
  destruct (Url.encode_fields pairs) as [l|e1]; cbn [bind]; [discriminate|].
  intros H0; inversion H0; subst. apply H. reflexivity.
Qed.

Lemma kompas_normalize_url_relative u :
  one_slash_reference u = true ->
  (exists r, Kompas_url.normalize_url (Some u) = Ok r /\
             startswith (lit "https://www.kompas.com/") r = true) \/
  Kompas_url.normalize_url (Some u) = Raise UnicodeEncodeError.
Proof.
  intros Hu.
  assert (Hh : plain_host (lit "www.kompas.com") = true) by reflexivity.
  destruct (normalize_one_slash _ u Hh Hu) as (u1 & pa & prm & q & f & Hj & Hp).
  pose proof (one_slash_starts u Hu) as Hu1.
  unfold Kompas_url.normalize_url.
  destruct u as [|x u]; [discriminate Hu1|].
  rewrite Hu1. change Kompas_url.BASE with (lit "https://" ++ lit "www.kompas.com").
  rewrite Hj. cbn [bind]. rewrite Hp. cbn [bind].
  unfold Url.replace_fragment, Url.replace_query.
  cbn [Url.scheme Url.netloc Url.path Url.params Url.query Url.fragment].
  assert (Hfin : forall q', exists r,
             Ok (Url.urlunparse (Url.Parsed (lit "https") (lit "www.kompas.com")
                                            (Url.slash :: pa) prm q' []))
             = Ok r /\ startswith (lit "https://www.kompas.com/") r = true).
  { intros q'.
    destruct (urlunparse_absolute (lit "www.kompas.com") (Url.slash :: pa) prm q' []
                eq_refl eq_refl) as [w' Hw].
    rewrite Hw. eexists. split; [reflexivity|].
    change (lit "https://" ++ lit "www.kompas.com" ++ Url.slash :: w')
      with (lit "https://www.kompas.com/" ++ w').
    apply startswith_app. }
  destruct (truthy q).
  - destruct (Url.urlencode (Kompas_url.keep_loop (Url.parse_qsl q) [])) as [q'|e] eqn:Ee;
      cbn [bind].
    + left. apply Hfin.
    + right. rewrite (urlencode_raises _ _ Ee). reflexivity.
  - cbn [bind]. left. apply Hfin.
Qed.

(** ** The claim on [normalize_url] *)

(** The claim as stated fails at a reference that starts with two slashes:
    [urljoin] reads [//cdn.detik.net.id/x.js] as a reference with a host of
    its own and gives it the scheme of the base only. *)
Lemma C6_network_path_counterexample :
  startswith (lit "/") (lit "//cdn.detik.net.id/x.js") = true /\
  Detik_url.normalize_url (Some (lit "//cdn.detik.net.id/x.js"))
  = Ok (lit "https://cdn.detik.net.id/x.js") /\
  startswith (lit "https://www.detik.com") (lit "https://cdn.detik.net.id/x.js") = false.
Proof. repeat split; vm_compute; reflexivity. Qed.

(** Claim C6, amended. For detik and kompas: a falsy input gives the empty
    string; a reference that starts with one slash (and not with two, once
    the tabs and line breaks are deleted) is joined to the scheme and host of
    the base, where kompas can only fail in [urlencode]; a result never has a
    hash sign, hence no fragment; and kompas writes the query again from the
    pairs of [parse_qsl] whose key is no tracking key, in their order. *)
Theorem C6_normalize_url (u : option str) :
  (u = None \/ u = Some [] ->
   Detik_url.normalize_url u = Ok [] /\ Kompas_url.normalize_url u = Ok []) /\
  (forall s, u = Some s -> one_slash_reference s = true ->
     (exists r, Detik_url.normalize_url u = Ok r /\
                startswith (lit "https://www.detik.com/") r = true) /\
     ((exists r, Kompas_url.normalize_url u = Ok r /\
                 startswith (lit "https://www.kompas.com/") r = true) \/
      Kompas_url.normalize_url u = Raise UnicodeEncodeError)) /\
  (forall r, Detik_url.normalize_url u = Ok r -> ~ In Url.hash r) /\
  (forall r, Kompas_url.normalize_url u = Ok r -> ~ In Url.hash r) /\
  (forall x s r, u = Some (x :: s) -> Kompas_url.normalize_url u = Ok r ->
     exists u1 p,
       (if startswith (lit "/") (x :: s) then Url.urljoin Kompas_url.BASE (x :: s)
        else Ok (x :: s)) = Ok u1 /\
       Url.urlparse u1 [] = Ok p /\
       ((Url.query p = [] /\ r = Url.urlunparse (Url.replace_fragment p [])) \/
        (Url.query p <> [] /\
         exists q,
           Url.urlencode (filter (fun kv => negb (Kompas_url.is_tracking (fst kv)))
                                 (Url.parse_qsl (Url.query p))) = Ok q /\
           r = Url.urlunparse (Url.replace_query (Url.replace_fragment p []) q)))).
Proof.
  repeat split.
  - destruct H; subst u; reflexivity.
  - destruct H; subst u; reflexivity.
  - subst u. apply detik_normalize_url_relative. assumption.
  - subst u. apply kompas_normalize_url_relative. assumption.
  - apply detik_normalize_url_no_fragment.
  - apply kompas_normalize_url_no_fragment.
  - intros x s r Hu. subst u. apply kompas_normalize_url_query.
Qed.

Lemma C6_normalize_url_witness :
  (exists r, Detik_url.normalize_url (Some (lit "/jabar/berita/d-8183382/x?a=1#top")) = Ok r /\
             startswith (lit "https://www.detik.com/") r = true) /\
  ~ In Url.hash (lit "https://www.kompas.com/read/2025/12/17/09463351/x?page=all&b=2").
Proof.
  split.
  - apply (proj1 (proj2 (C6_normalize_url
             (Some (lit "/jabar/berita/d-8183382/x?a=1#top")))) _ eq_refl eq_refl).
  - apply (proj1 (proj2 (proj2 (proj2 (C6_normalize_url
             (Some (lit "https://www.kompas.com/read/2025/12/17/09463351/x?page=all&utm_campaign=q&b=2&fbclid=1#c"))))))).
    vm_compute. reflexivity.
Defined.

(** The tracking keys of kompas on an example: the two tracking pairs go,
    the others stay in their order, and the fragment goes. *)
Example kompas_normalize_url_example :
  Kompas_url.normalize_url
    (Some (lit "https://www.kompas.com/read/2025/12/17/09463351/x?page=all&utm_campaign=q&b=2&fbclid=1#c"))
  = Ok (lit "https://www.kompas.com/read/2025/12/17/09463351/x?page=all&b=2").
Proof. vm_compute. reflexivity. Qed.

(** [urlencode] refuses a lone surrogate, so [normalize_url] of kompas can
    raise on a query that has one. *)
Example kompas_normalize_url_surrogate :
  Kompas_url.normalize_url (Some (lit "/a?x=" ++ [55296%N])) = Raise UnicodeEncodeError.
Proof. vm_compute. reflexivity. Qed.

(** ** The matcher: what a match consumes *)

Lemma is_suffix_refl s : is_suffix s s.
Proof. exists []. reflexivity. Qed.

Lemma is_suffix_trans a b c : is_suffix a b -> is_suffix b c -> is_suffix a c.
Proof.
  intros [x Hx] [y Hy]. exists (y ++ x). rewrite Hy, Hx, app_assoc. reflexivity.
Qed.

Lemma is_suffix_cons x s : is_suffix s (x :: s).
Proof. exists [x]. reflexivity. Qed.

Lemma is_suffix_existsb (p : char -> bool) s' s :
  is_suffix s' s -> existsb p s' = true -> existsb p s = true.
Proof. intros [a ->] H. rewrite existsb_app, H. apply orb_true_r. Qed.

Section Consumes.
Variable A : Type.

Lemma rep_loop_suffix body lo hi greedy k :
  hands_suffix A body ->
  forall fuel n pre s c v,
    Re.rep_loop body lo hi greedy k fuel n pre s c = Some v ->
    exists pre' s' c', k pre' s' c' = Some v /\ is_suffix s' s.
Proof.
  intros Hb.
  assert (Hstop : forall n pre s c v',
             (if Nat.leb lo n then k pre s c else None) = Some v' ->
             exists pre' s' c', k pre' s' c' = Some v' /\ is_suffix s' s).
  { intros n pre s c v' Hm. destruct (Nat.leb lo n); [|discriminate].
    exists pre, s, c. split; [exact Hm | apply is_suffix_refl]. }
  induction fuel as [|fuel IH]; intros n pre s c v H.
  - cbn [Re.rep_loop] in H. destruct greedy.
    + apply (Hstop n pre s c). exact H.
    + destruct (if Nat.leb lo n then k pre s c else None) as [v'|] eqn:Es;
        [|discriminate]. inversion H; subst. apply (Hstop n pre s c). exact Es.
  - cbn [Re.rep_loop] in H.
    assert (Hmore : forall v',
               (if Re.below hi n
                then body pre s c (fun pre' s' c' =>
                       if Nat.ltb (List.length s') (List.length s)
                       then Re.rep_loop body lo hi greedy k fuel (S n) pre' s' c'
                       else None)
                else None) = Some v' ->
               exists pre' s' c', k pre' s' c' = Some v' /\ is_suffix s' s).
    { intros v' Hm. destruct (Re.below hi n); [|discriminate].
      apply Hb in Hm. destruct Hm as (p1 & s1 & c1 & Hm & Hs1).
      destruct (Nat.ltb (List.length s1) (List.length s)); [|discriminate].
      apply IH in Hm. destruct Hm as (p2 & s2 & c2 & Hk & Hs2).
      exists p2, s2, c2. split; [exact Hk | exact (is_suffix_trans _ _ _ Hs2 Hs1)]. }
    destruct greedy.
    + destruct (if Re.below hi n then _ else None) as [v'|] eqn:Em.
      * inversion H; subst. apply Hmore. reflexivity.
      * apply (Hstop n pre s c). exact H.
    + destruct (if Nat.leb lo n then k pre s c else None) as [v'|] eqn:Es.
      * inversion H; subst. apply (Hstop n pre s c). exact Es.
      * apply Hmore. exact H.
Qed.

Lemma run_suffix r : hands_suffix A (fun pre s c k => Re.run r pre s c k).
Proof.
  induction r as [|p|a IHa b IHb|a IHa b IHb|lo hi g a IHa|i a IHa| | |];
    intros pre s c k v H; cbn [Re.run] in H.
  - exists pre, s, c. split; [exact H | apply is_suffix_refl].
  - destruct s as [|x s]; [discriminate|]. destruct (p x); [|discriminate].
    exists (x :: pre), s, c. split; [exact H | apply is_suffix_cons].
  - apply IHa in H. destruct H as (p1 & s1 & c1 & H & Hs1).
    apply IHb in H. destruct H as (p2 & s2 & c2 & H & Hs2).
    exists p2, s2, c2. split; [exact H | exact (is_suffix_trans _ _ _ Hs2 Hs1)].
  - destruct (Re.run a pre s c k) as [v'|] eqn:Ea.
    + inversion H; subst. apply IHa in Ea. exact Ea.
    + apply IHb in H. exact H.
  - apply (rep_loop_suffix _ lo hi g k IHa) in H. exact H.
  - apply IHa in H. destruct H as (p1 & s1 & c1 & H & Hs1).
    eexists _, _, _. split; [exact H | exact Hs1].
  - destruct pre; [|discriminate]. exists [], s, c. split; [exact H | apply is_suffix_refl].
  - destruct s as [|x [|y s]]; [| |discriminate].
    + exists pre, [], c. split; [exact H | apply is_suffix_refl].
    + destruct (chr_eqb x 10); [|discriminate].
      exists pre, [x], c. split; [exact H | apply is_suffix_refl].
  - destruct (Re.word_boundary pre s); [|discriminate].
    exists pre, s, c. split; [exact H | apply is_suffix_refl].
Qed.

(** A match of a pattern that needs a character of [p] has one. *)
Lemma run_needs p r :
  needs p r ->
  forall pre s c (k : Re.cont A) v, Re.run r pre s c k = Some v -> existsb p s = true.
Proof.
  induction 1 as [q Hq|a b _ IH|a b _ IH|a b _ IHa _ IHb|i a _ IH|lo hi g a Hlo _ IH];
    intros pre s c k v H; cbn [Re.run] in H.
  - destruct s as [|x s]; [discriminate|]. destruct (q x) eqn:E; [|discriminate].
    cbn [existsb]. rewrite (Hq x E). reflexivity.
  - exact (IH _ _ _ _ _ H).
  - apply run_suffix in H. destruct H as (p1 & s1 & c1 & H & Hs).
    exact (is_suffix_existsb p _ _ Hs (IH _ _ _ _ _ H)).
  - destruct (Re.run a pre s c k) as [v'|] eqn:Ea.
    + exact (IHa _ _ _ _ _ Ea).
    + exact (IHb _ _ _ _ _ H).
  - exact (IH _ _ _ _ _ H).
  - cbn [Re.rep_loop] in H.
    assert (Hn : Nat.leb lo 0 = false) by (apply Nat.leb_gt; lia).
    rewrite Hn in H.
    assert (Hm : exists v',
               (if Re.below hi 0
                then Re.run a pre s c (fun pre' s' c' =>
                       if Nat.ltb (List.length s') (List.length s)
                       then Re.rep_loop (fun pre' s' c' k' => Re.run a pre' s' c' k')
                              lo hi g k (List.length s) 1 pre' s' c'
                       else None)
                else None) = Some v').
    { destruct g; destruct (if Re.below hi 0 then _ else None) as [v'|];
        try discriminate; eauto. }
    destruct Hm as [v' Hm]. destruct (Re.below hi 0); [|discriminate].
    exact (IH _ _ _ _ _ Hm).
Qed.
End Consumes.

Lemma search_needs p r :
  needs p r -> forall s pre, existsb p s = false -> Re.search_from r pre s = None.
Proof.
  intros Hn. induction s as [|x s IH]; intros pre Hs.
  - cbn [Re.search_from]. unfold Re.match_here.
    destruct (Re.run r pre [] [] _) as [v|] eqn:E; [|reflexivity].
    apply (run_needs _ p r Hn) in E. discriminate E.
  - cbn [Re.search_from]. unfold Re.match_here.
    destruct (Re.run r pre (x :: s) [] _) as [v|] eqn:E.
    + apply (run_needs _ p r Hn) in E. rewrite E in Hs. discriminate Hs.
    + apply IH. cbn [existsb] in Hs. apply orb_false_elim in Hs. apply Hs.
Qed.

(** ** Dates: digits *)

Lemma digit_cases n :
  exists k, In k [0; 1; 2; 3; 4; 5; 6; 7; 8; 9]%Z /\ (n mod 10 = k)%Z /\
            Datetime.digit n = Z.to_N (48 + k).
Proof.
  unfold Datetime.digit.
  pose proof (Z.mod_pos_bound n 10 eq_refl) as H.
  exists (n mod 10)%Z. repeat split.
  assert (Hc : (n mod 10 = 0 \/ n mod 10 = 1 \/ n mod 10 = 2 \/ n mod 10 = 3 \/
                n mod 10 = 4 \/ n mod 10 = 5 \/ n mod 10 = 6 \/ n mod 10 = 7 \/
                n mod 10 = 8 \/ n mod 10 = 9)%Z) by lia.
  cbn [In]. intuition auto.
Qed.

Ltac digit_case n :=
  let k := fresh "k" in let Hk := fresh "Hk" in let Hm := fresh "Hm" in
  let Hd := fresh "Hd" in
  destruct (digit_cases n) as (k & Hk & Hm & Hd); rewrite Hd;
  cbn [In] in Hk;
  repeat (destruct Hk as [Hk|Hk]; [subst k|]); try contradiction.

Lemma digit_is_digit n : is_digit_ascii (Datetime.digit n) = true.
Proof. digit_case n; reflexivity. Qed.

Lemma digit_not_space n : is_space (Datetime.digit n) = false.
Proof. digit_case n; reflexivity. Qed.

Lemma digit_value_ascii c :
  is_digit_ascii c = true -> Datetime.digit_value c = (Z.of_N c - 48)%Z.
Proof. intros H. unfold Datetime.digit_value, digit_zero. rewrite H. reflexivity. Qed.

Lemma is_digit_ascii_digit c : is_digit_ascii c = true -> is_digit c = true.
Proof. intros H. unfold is_digit, digit_zero. rewrite H. reflexivity. Qed.

Lemma forallb_digit_ascii s : forallb is_digit_ascii s = true -> forallb is_digit s = true.
Proof.
  intros H. rewrite forallb_forall in *. intros c Hc. apply is_digit_ascii_digit, H, Hc.
Qed.

Lemma digit_zeros_above : forallb (fun z => 1632 <=? z)%N digit_zeros = true.
Proof. reflexivity. Qed.

(** Below U+0660 the decimal digits are those of ASCII. *)
Lemma digit_zero_below c :
  (c < 1632)%N -> digit_zero c = if is_digit_ascii c then Some 48%N else None.
Proof.
  intros H. unfold digit_zero. destruct (is_digit_ascii c); [reflexivity|].
  destruct (find (fun z => in_range z (z + 9) c) digit_zeros) as [z|] eqn:E; [|reflexivity].
  apply find_some in E. destruct E as [Hin Hr].
  pose proof digit_zeros_above as Hz. rewrite forallb_forall in Hz.
  specialize (Hz z Hin). apply N.leb_le in Hz.
  unfold in_range in Hr. apply andb_true_iff in Hr. destruct Hr as [Hr _].
  apply N.leb_le in Hr. lia.
Qed.

Lemma is_digit_below c : (c < 1632)%N -> is_digit c = is_digit_ascii c.
Proof.
  intros H. unfold is_digit. rewrite (digit_zero_below c H).
  destruct (is_digit_ascii c); reflexivity.
Qed.

Lemma space_not_digit c : is_space c = true -> is_digit c = false.
Proof.
  unfold is_space, in_range, chr_eqb. intros H.
  repeat match type of H with
         | (_ || _) = true => apply orb_true_iff in H; destruct H as [H|H]
         end;
    try (apply N.eqb_eq in H; subst c; reflexivity);
    apply andb_true_iff in H; destruct H as [H1 H2];
    apply N.leb_le in H1; apply N.leb_le in H2.
  - rewrite is_digit_below by lia. unfold is_digit_ascii, in_range.
    apply andb_false_iff. left. apply N.leb_gt. lia.
  - rewrite is_digit_below by lia. unfold is_digit_ascii, in_range.
    apply andb_false_iff. left. apply N.leb_gt. lia.
  - assert (Hc : (c = 8192 \/ c = 8193 \/ c = 8194 \/ c = 8195 \/ c = 8196 \/ c = 8197 \/
                  c = 8198 \/ c = 8199 \/ c = 8200 \/ c = 8201 \/ c = 8202)%N) by lia.
    repeat (destruct Hc as [->|Hc]; [reflexivity|]). subst c. reflexivity.
Qed.

(** The value of a digit is below ten, whatever its block. *)
Lemma digit_value_range c : is_digit c = true -> (0 <= Datetime.digit_value c <= 9)%Z.
Proof.
  unfold is_digit, Datetime.digit_value, digit_zero.
  destruct (is_digit_ascii c) eqn:Ea.
  - intros _. unfold is_digit_ascii, in_range in Ea. apply andb_true_iff in Ea.
    destruct Ea as [H1 H2]. apply N.leb_le in H1. apply N.leb_le in H2. lia.
  - destruct (find (fun z => in_range z (z + 9) c) digit_zeros) as [z|] eqn:E;
      [|discriminate].
    intros _. apply find_some in E. destruct E as [_ Hr].
    unfold in_range in Hr. apply andb_true_iff in Hr. destruct Hr as [H1 H2].
    apply N.leb_le in H1. apply N.leb_le in H2. lia.
Qed.

Lemma digit_value_digit n : Datetime.digit_value (Datetime.digit n) = (n mod 10)%Z.
Proof. digit_case n; rewrite Hm; reflexivity. Qed.

Lemma digit_not c n :
  is_digit_ascii c = false -> chr_eqb (Datetime.digit n) c = false.
Proof.
  intros H. destruct (chr_eqb (Datetime.digit n) c) eqn:E; [|reflexivity].
  apply N.eqb_eq in E. subst c. rewrite digit_is_digit in H. discriminate H.
Qed.

Lemma take_digits_pad2 n rest :
  (0 <= n <= 99)%Z ->
  Datetime.take_digits 2 0 (Datetime.pad2 n ++ rest) = Some (n, rest).
Proof.
  intros H. unfold Datetime.pad2. cbn [app Datetime.take_digits].
  rewrite !digit_is_digit, !digit_value_digit. f_equal. f_equal.
  pose proof (Z.div_mod n 10 ltac:(lia)).
  assert ((n / 10) mod 10 = n / 10)%Z.
  { apply Z.mod_small. split; [apply Z.div_pos; lia | apply Z.div_lt_upper_bound; lia]. }
  lia.
Qed.

Lemma take_digits_pad4 n rest :
  (0 <= n <= 9999)%Z ->
  Datetime.take_digits 4 0 (Datetime.pad4 n ++ rest) = Some (n, rest).
Proof.
  intros H. unfold Datetime.pad4. cbn [app Datetime.take_digits].
  rewrite !digit_is_digit, !digit_value_digit. f_equal. f_equal.
  assert (H1 : ((n / 1000) mod 10 = n / 1000)%Z).
  { apply Z.mod_small. split; [apply Z.div_pos; lia | apply Z.div_lt_upper_bound; lia]. }
  rewrite H1.
  pose proof (Z.div_mod n 10 ltac:(lia)).
  pose proof (Z.div_mod (n / 10) 10 ltac:(lia)).
  pose proof (Z.div_mod (n / 100) 10 ltac:(lia)).
  assert (n / 100 = n / 10 / 10)%Z by (rewrite Z.div_div by lia; reflexivity).
  assert (n / 1000 = n / 100 / 10)%Z by (rewrite Z.div_div by lia; reflexivity).
  lia.
Qed.

(** ** Dates: reading the text of the fields *)

Lemma expect_same c r : Datetime.expect c (c :: r) = Some r.
Proof. unfold Datetime.expect, chr_eqb. rewrite N.eqb_refl. reflexivity. Qed.

Lemma valid_fields_ranges y m d hh mm ss :
  Datespec.valid_fields y m d hh mm ss = true ->
  Datetime.check_fields y m d hh mm ss = Ok tt /\
  (1 <= y <= 9999 /\ 1 <= m <= 12 /\ 1 <= d <= 31 /\
   0 <= hh <= 23 /\ 0 <= mm <= 59 /\ 0 <= ss <= 59)%Z.
Proof.
  unfold Datespec.valid_fields, Datetime.check_fields.
  repeat match goal with
         | |- context [if negb ?b then _ else _] => destruct b eqn:?; cbn [negb]
         end; try discriminate.
  intros _. split; [reflexivity|].
  assert (Hdim : (Datetime.days_in_month y m <= 31)%Z).
  { unfold Datetime.days_in_month.
    repeat match goal with
           | |- context [if ?b then _ else _] => destruct b
           end; lia. }
  repeat match goal with
         | H : (_ && _) = true |- _ => apply andb_true_iff in H; destruct H
         | H : (_ <=? _)%Z = true |- _ => apply Z.leb_le in H
         end.
  lia.
Qed.

Lemma parse_offset_text west oh om :
  Datespec.valid_designator (Datespec.Offset west oh om) = true ->
  Datetime.parse_offset (Datespec.designator_text (Datespec.Offset west oh om))
  = Ok (Some (Datespec.designator_seconds (Datespec.Offset west oh om))).
Proof.
  cbn [Datespec.valid_designator]. intros H.
  repeat (apply andb_true_iff in H; destruct H as [H ?]).
  repeat match goal with
         | H : (_ <=? _)%Z = true |- _ => apply Z.leb_le in H
         | H : (_ <? _)%Z = true |- _ => apply Z.ltb_lt in H
         end.
  assert (Hlt : (86400 <=? oh * 3600 + om * 60)%Z = false) by (apply Z.leb_gt; lia).
  destruct west; cbn [Datespec.designator_text Datetime.parse_offset].
  - change (chr_eqb 45 43 || chr_eqb 45 45) with true. cbv iota.
    rewrite take_digits_pad2 by lia. rewrite expect_same.
    rewrite <- (app_nil_r (Datetime.pad2 om)). rewrite take_digits_pad2 by lia.
    rewrite Hlt. reflexivity.
  - change (chr_eqb 43 43 || chr_eqb 43 45) with true. cbv iota.
    rewrite take_digits_pad2 by lia. rewrite expect_same.
    rewrite <- (app_nil_r (Datetime.pad2 om)). rewrite take_digits_pad2 by lia.
    rewrite Hlt. reflexivity.
Qed.

Lemma fromisoformat_text sep y m d hh mm ss z :
  Datespec.valid_fields y m d hh mm ss = true ->
  Datespec.valid_designator z = true -> z <> Datespec.Zulu ->
  Datetime.fromisoformat (Datespec.iso_text sep y m d hh mm ss (Datespec.designator_text z))
  = Ok (Datetime.Datetime y m d hh mm ss (Datespec.designator_offset z)).
Proof.
  intros Hv Hz Hnz. apply valid_fields_ranges in Hv. destruct Hv as [Hc Hr].
  unfold Datetime.fromisoformat, Datespec.iso_text.
  rewrite take_digits_pad4 by lia. rewrite expect_same.
  rewrite take_digits_pad2 by lia. rewrite expect_same.
  rewrite take_digits_pad2 by lia.
  rewrite take_digits_pad2 by lia. rewrite expect_same.
  rewrite take_digits_pad2 by lia. rewrite expect_same.
  rewrite take_digits_pad2 by lia.
  destruct z as [| |west oh om].
  - cbn [Datespec.designator_text Datetime.parse_offset bind Datespec.designator_offset].
    unfold Datetime.make. rewrite Hc. reflexivity.
  - contradiction.
  - rewrite parse_offset_text by exact Hz. cbn [bind Datespec.designator_offset].
    unfold Datetime.make. rewrite Hc. reflexivity.
Qed.

Lemma space_at_edge_ends x mid l :
  space_at_edge (x :: mid ++ [l]) = is_space x || is_space l.
Proof.
  unfold space_at_edge. f_equal. f_equal.
  change (x :: mid ++ [l]) with ((x :: mid) ++ [l]). apply last_last.
Qed.

Lemma endswith_single c s l : endswith [c] (s ++ [l]) = chr_eqb c l.
Proof.
  unfold endswith. rewrite rev_app_distr. cbn [rev app startswith].
  apply andb_true_r.
Qed.

(** The text of the fields starts and ends with a digit, or ends with Z. *)
Lemma iso_text_ends sep y m d hh mm ss z :
  exists mid l,
    Datespec.iso_text sep y m d hh mm ss (Datespec.designator_text z)
    = Datetime.digit (y / 1000) :: mid ++ [l] /\
    match z with
    | Datespec.Zulu =>
        l = 90%N /\
        Datetime.digit (y / 1000) :: mid
        = Datespec.iso_text sep y m d hh mm ss []
    | _ => exists n, l = Datetime.digit n
    end.
Proof.
  destruct z as [| |west oh om]; unfold Datespec.iso_text, Datetime.pad4, Datetime.pad2;
    cbn [Datespec.designator_text app].
  - eexists [_; _; _; _; _; _; _; _; _; _; _; _; _; _; _; _; _], _.
    split; [reflexivity | eexists; reflexivity].
  - eexists [_; _; _; _; _; _; _; _; _; _; _; _; _; _; _; _; _; _], _.
    split; [reflexivity | split; reflexivity].
  - unfold Datetime.pad2. cbn [app].
    eexists [_; _; _; _; _; _; _; _; _; _; _; _; _; _; _; _; _; _; _; _; _; _; _], _.
    split; [reflexivity | eexists; reflexivity].
Qed.

Lemma iso_text_app sep y m d hh mm ss a b :
  Datespec.iso_text sep y m d hh mm ss a ++ b = Datespec.iso_text sep y m d hh mm ss (a ++ b).
Proof. reflexivity. Qed.

(** [iso_to_wib] up to the formatting, on the text of the fields. *)
Lemma iso_to_jakarta_text sep y m d hh mm ss z :
  Datespec.valid_fields y m d hh mm ss = true ->
  Datespec.valid_designator z = true ->
  Dates.iso_to_jakarta (Datespec.iso_text sep y m d hh mm ss (Datespec.designator_text z))
  = Datetime.astimezone_jakarta
      (Datetime.Datetime y m d hh mm ss (Some (Datespec.designator_seconds z))).
Proof.
  intros Hv Hz. unfold Dates.iso_to_jakarta.
  destruct (iso_text_ends sep y m d hh mm ss z) as (mid & l & Ht & Hl).
  rewrite strip_id by (rewrite Ht, space_at_edge_ends, digit_not_space;
    destruct z; [destruct Hl as [n ->]; apply digit_not_space
                | destruct Hl as [-> _]; reflexivity
                | destruct Hl as [n ->]; apply digit_not_space]).
  assert (Hend : endswith (lit "Z")
                   (Datespec.iso_text sep y m d hh mm ss (Datespec.designator_text z))
                 = chr_eqb 90 l).
  { rewrite Ht. exact (endswith_single 90 (Datetime.digit (y / 1000) :: mid) l). }
  rewrite Hend. clear Hend.
  destruct z as [| |west oh om].
  - destruct Hl as [n ->]. unfold chr_eqb at 1. rewrite (N.eqb_sym 90).
    fold (chr_eqb (Datetime.digit n) 90). rewrite (digit_not 90 n eq_refl).
    rewrite (fromisoformat_text sep y m d hh mm ss Datespec.Naive Hv Hz) by discriminate.
    reflexivity.
  - destruct Hl as [-> Hmid]. change (chr_eqb 90 90) with true. cbv iota.
    rewrite Ht. change (Datetime.digit (y / 1000) :: mid ++ [90%N])
      with ((Datetime.digit (y / 1000) :: mid) ++ [90%N]).
    rewrite removelast_last, Hmid, iso_text_app. cbn [app].
    change (lit "+00:00") with (Datespec.designator_text (Datespec.Offset false 0 0)).
    rewrite (fromisoformat_text sep y m d hh mm ss (Datespec.Offset false 0 0) Hv eq_refl)
      by discriminate.
    reflexivity.
  - destruct Hl as [n ->]. unfold chr_eqb at 1. rewrite (N.eqb_sym 90).
    fold (chr_eqb (Datetime.digit n) 90). rewrite (digit_not 90 n eq_refl).
    rewrite (fromisoformat_text sep y m d hh mm ss _ Hv Hz) by discriminate.
    reflexivity.
Qed.

Lemma jakarta_offset_wib utc :
  Datespec.wib_era utc = true ->
  Datetime.in_range_seconds utc = true /\ Datetime.jakarta_utcoffset utc = 25200%Z /\
  Datetime.in_range_seconds (utc + 25200) = true.
Proof.
  unfold Datespec.wib_era, Datetime.in_range_seconds, Datetime.jakarta_utcoffset.
  intros H. apply andb_true_iff in H. destruct H as [H1 H2].
  apply Z.leb_le in H1. apply Z.leb_le in H2.
  assert (Hmax : Datetime.max_seconds = 315537897599%Z) by reflexivity.
  rewrite Hmax in *.
  repeat split.
  - apply andb_true_iff. split; apply Z.leb_le; lia.
  - repeat match goal with
           | |- context [(utc <? ?c)%Z] =>
               replace (utc <? c)%Z with false by (symmetry; apply Z.ltb_ge; lia)
           end. reflexivity.
  - apply andb_true_iff. split; apply Z.leb_le; lia.
Qed.

Lemma strftime_of_clock t tz :
  Datetime.strftime (Datetime.of_clock_seconds t tz) = Datespec.canonical_text t.
Proof.
  unfold Datespec.canonical_text, Datetime.of_clock_seconds.
  destruct (Datetime.ord2ymd (t / 86400 + 1)) as [[y m] d]. reflexivity.
Qed.

Lemma iso_text_truthy sep y m d hh mm ss tail :
  truthy (Datespec.iso_text sep y m d hh mm ss tail) = true.
Proof. reflexivity. Qed.

(** The two [iso_to_wib] on the text of the fields, for an instant of the
    WIB era. *)
Lemma iso_to_wib_text sep y m d hh mm ss z :
  Datespec.valid_fields y m d hh mm ss = true ->
  Datespec.valid_designator z = true ->
  Datespec.wib_era (Datespec.clock y m d hh mm ss - Datespec.designator_seconds z) = true ->
  let text := Datespec.iso_text sep y m d hh mm ss (Datespec.designator_text z) in
  let local := (Datespec.clock y m d hh mm ss - Datespec.designator_seconds z + 25200)%Z in
  Dates.detik_iso_to_wib text = Datespec.canonical_text local ++ lit " WIB" /\
  Dates.tribun_iso_to_wib text = Datespec.canonical_text local.
Proof.
  intros Hv Hz He text local.
  unfold Dates.detik_iso_to_wib, Dates.tribun_iso_to_wib. subst text.
  rewrite iso_text_truthy. cbn [negb]. rewrite (iso_to_jakarta_text sep _ _ _ _ _ _ z Hv Hz).
  unfold Datetime.astimezone_jakarta. cbn [Datetime.utcoffset].
  change (Datetime.clock_seconds
            (Datetime.Datetime y m d hh mm ss (Some (Datespec.designator_seconds z))))
    with (Datespec.clock y m d hh mm ss).
  destruct (jakarta_offset_wib _ He) as (H1 & H2 & H3).
  rewrite H1, H2, H3. cbn [negb]. rewrite strftime_of_clock. split; reflexivity.
Qed.

(** ** Dates: the shape of the result *)

Lemma is_canonical_fields y m d hh mm ss :
  Datespec.is_canonical
    (Datetime.pad4 y ++ lit "-" ++ Datetime.pad2 m ++ lit "-" ++ Datetime.pad2 d ++
     lit " " ++ Datetime.pad2 hh ++ lit ":" ++ Datetime.pad2 mm ++ lit ":" ++ Datetime.pad2 ss)
  = true.
Proof.
  unfold Datetime.pad4, Datetime.pad2, Datespec.is_canonical.
  change (lit "-") with [45%N]. change (lit " ") with [32%N]. change (lit ":") with [58%N].
  cbn [app forallb]. rewrite !digit_is_digit. reflexivity.
Qed.

Lemma is_canonical_iso_text y m d hh mm ss :
  Datespec.is_canonical (Datespec.iso_text 32 y m d hh mm ss []) = true.
Proof.
  unfold Datespec.iso_text. rewrite app_nil_r. apply (is_canonical_fields y m d hh mm ss).
Qed.

Lemma strftime_canonical dt :
  (1000 <= Datetime.year dt)%Z -> Datespec.is_canonical (Datetime.strftime dt) = true.
Proof.
  intros H. unfold Datetime.strftime, Datetime.year_text.
  replace (Datetime.year dt <? 10)%Z with false by (symmetry; apply Z.ltb_ge; lia).
  replace (Datetime.year dt <? 100)%Z with false by (symmetry; apply Z.ltb_ge; lia).
  replace (Datetime.year dt <? 1000)%Z with false by (symmetry; apply Z.ltb_ge; lia).
  apply is_canonical_fields.
Qed.

Lemma ord2ymd_year n :
  (584388 <= n - 1)%Z -> (1000 <= fst (fst (Datetime.ord2ymd n)))%Z.
Proof.
  intros H. unfold Datetime.ord2ymd.
  set (n0 := (n - 1)%Z) in *.
  assert (H400 : (4 <= n0 / 146097)%Z) by (apply Z.div_le_lower_bound; lia).
  pose proof (Z.mod_pos_bound n0 146097 eq_refl) as B1.
  set (r1 := (n0 mod 146097)%Z) in *.
  assert (H100 : (0 <= r1 / 36524)%Z) by (apply Z.div_pos; lia).
  pose proof (Z.mod_pos_bound r1 36524 eq_refl) as B2.
  set (r2 := (r1 mod 36524)%Z) in *.
  assert (H4 : (0 <= r2 / 1461)%Z) by (apply Z.div_pos; lia).
  pose proof (Z.mod_pos_bound r2 1461 eq_refl) as B3.
  set (r3 := (r2 mod 1461)%Z) in *.
  assert (H1 : (0 <= r3 / 365)%Z) by (apply Z.div_pos; lia).
  repeat match goal with
         | |- context [if ?b then _ else _] => destruct b
         end; cbn [fst]; lia.
Qed.

Lemma canonical_text_shape t :
  (61946181000 <= t)%Z -> Datespec.is_canonical (Datespec.canonical_text t) = true.
Proof.
  intros H. unfold Datespec.canonical_text. apply strftime_canonical.
  unfold Datetime.of_clock_seconds.
  assert (Hd : (584388 <= t / 86400 + 1 - 1)%Z).
  { replace (t / 86400 + 1 - 1)%Z with (t / 86400)%Z by lia.
    apply Z.div_le_lower_bound; lia. }
  pose proof (ord2ymd_year _ Hd) as Hy.
  destruct (Datetime.ord2ymd (t / 86400 + 1)) as [[y m] d]. exact Hy.
Qed.

Lemma canonical_not_with_suffix s :
  Datespec.is_canonical s = true -> Datespec.is_canonical (s ++ lit " WIB") = false.
Proof.
  unfold Datespec.is_canonical.
  do 20 (destruct s as [|? s]; try discriminate). intros _. reflexivity.
Qed.

(** ** Dates: texts that are no date *)

Lemma take_digits_no_year s acc :
  starts_with_year s = false -> Datetime.take_digits 4 acc s = None.
Proof.
  unfold starts_with_year.
  destruct s as [|a [|b [|c [|d s]]]]; cbn [Datetime.take_digits forallb];
    repeat match goal with
           | |- context [if is_digit_ascii ?x then _ else _] =>
               destruct (is_digit_ascii x); cbn [andb]
           end; try reflexivity; discriminate.
Qed.

Lemma fromisoformat_no_year s :
  starts_with_year s = false -> Datetime.fromisoformat s = Raise Datetime.invalid.
Proof.
  intros H. unfold Datetime.fromisoformat. rewrite (take_digits_no_year s 0 H). reflexivity.
Qed.

(** Writing [+00:00] for a final Z does not make a year. *)
Lemma no_year_zulu s :
  starts_with_year s = false ->
  starts_with_year (removelast s ++ lit "+00:00") = false.
Proof.
  destruct s as [|a [|b [|c [|d [|e s]]]]]; try reflexivity.
  - intros _. cbn [removelast app starts_with_year forallb].
    change (lit "+00:00") with [43; 48; 48; 58; 48; 48]%N.
    cbn [app forallb]. destruct (is_digit_ascii a); reflexivity.
  - intros _. change (lit "+00:00") with [43; 48; 48; 58; 48; 48]%N.
    cbn [removelast app starts_with_year forallb].
    destruct (is_digit_ascii a), (is_digit_ascii b); reflexivity.
  - intros _. change (lit "+00:00") with [43; 48; 48; 58; 48; 48]%N.
    cbn [removelast app starts_with_year forallb].
    destruct (is_digit_ascii a), (is_digit_ascii b), (is_digit_ascii c); reflexivity.
  - intros H. exact H.
Qed.

Lemma iso_to_wib_no_year s :
  starts_with_year (strip s) = false ->
  Dates.detik_iso_to_wib s = [] /\ Dates.tribun_iso_to_wib s = [].
Proof.
  intros H. unfold Dates.detik_iso_to_wib, Dates.tribun_iso_to_wib, Dates.iso_to_jakarta.
  rewrite fromisoformat_no_year.
  - cbn [bind]. destruct (truthy s); split; reflexivity.
  - destruct (endswith (lit "Z") (strip s)); [apply no_year_zulu|]; exact H.
Qed.

(** A text without a digit does not begin with a year. *)
Lemma no_digit_no_year s :
  forallb (fun c => negb (is_digit_ascii c)) s = true -> starts_with_year (strip s) = false.
Proof.
  intros H. rewrite forallb_forall in H. unfold starts_with_year.
  destruct (strip s) as [|a [|b [|c [|d t]]]] eqn:E; try reflexivity.
  cbn [forallb].
  assert (Ha : is_digit_ascii a = false).
  { apply negb_true_iff. apply H. apply In_strip. rewrite E. left. reflexivity. }
  rewrite Ha. reflexivity.
Qed.

(** The text of fields that need not be a date: what [fromisoformat]
    hands to the constructor. *)
Lemma fromisoformat_fields sep y m d hh mm ss :
  (0 <= y <= 9999)%Z -> (0 <= m <= 99)%Z -> (0 <= d <= 99)%Z ->
  (0 <= hh <= 99)%Z -> (0 <= mm <= 99)%Z -> (0 <= ss <= 99)%Z ->
  Datetime.fromisoformat (Datespec.iso_text sep y m d hh mm ss [])
  = Datetime.make y m d hh mm ss None.
Proof.
  intros Hy Hm Hd Hh Hi Hs.
  unfold Datetime.fromisoformat, Datespec.iso_text.
  rewrite take_digits_pad4 by lia. rewrite expect_same.
  rewrite take_digits_pad2 by lia. rewrite expect_same.
  rewrite take_digits_pad2 by lia.
  rewrite take_digits_pad2 by lia. rewrite expect_same.
  rewrite take_digits_pad2 by lia. rewrite expect_same.
  rewrite take_digits_pad2 by lia.
  reflexivity.
Qed.

Lemma make_day_out y m d hh mi ss tz :
  (1 <= y <= 9999)%Z -> (1 <= m <= 12)%Z -> (Datetime.days_in_month y m < d)%Z ->
  Datetime.make y m d hh mi ss tz = Raise (ValueError "day is out of range for month").
Proof.
  intros Hy Hm Hd. unfold Datetime.make, Datetime.check_fields.
  assert (T : forall a b c : Z, (a <= b <= c)%Z -> ((a <=? b) && (b <=? c))%Z = true).
  { intros a b c [H1 H2]. apply andb_true_iff. split; apply Z.leb_le; assumption. }
  rewrite (T _ _ _ Hy), (T _ _ _ Hm). cbn [negb].
  rewrite (proj2 (Z.leb_gt d (Datetime.days_in_month y m))) by lia.
  rewrite andb_false_r. reflexivity.
Qed.

(** [iso_to_wib] on a text of ISO shape whose day the month does not have. *)
Lemma iso_to_wib_day_out sep y m d hh mm ss :
  (1 <= y <= 9999)%Z -> (1 <= m <= 12)%Z -> (Datetime.days_in_month y m < d <= 99)%Z ->
  (0 <= hh <= 99)%Z -> (0 <= mm <= 99)%Z -> (0 <= ss <= 99)%Z ->
  Dates.detik_iso_to_wib (Datespec.iso_text sep y m d hh mm ss []) = [].
Proof.
  intros Hy Hm Hd Hh Hi Hs. unfold Dates.detik_iso_to_wib, Dates.iso_to_jakarta.
  rewrite iso_text_truthy. cbn [negb].
  destruct (iso_text_ends sep y m d hh mm ss Datespec.Naive) as (mid & l & Ht & n & Hl).
  cbn [Datespec.designator_text] in Ht.
  rewrite strip_id
    by (rewrite Ht, space_at_edge_ends, digit_not_space, Hl; apply digit_not_space).
  assert (Hend : endswith (lit "Z") (Datespec.iso_text sep y m d hh mm ss []) = false).
  { rewrite Ht.
    transitivity (chr_eqb 90 l);
      [exact (endswith_single 90 (Datetime.digit (y / 1000) :: mid) l)|].
    rewrite Hl. unfold chr_eqb. rewrite N.eqb_sym. apply (digit_not 90 n eq_refl). }
  rewrite Hend.
  assert (H0 : (0 <= Datetime.days_in_month y m)%Z).
  { unfold Datetime.days_in_month.
    repeat match goal with |- context [if ?b then _ else _] => destruct b end; lia. }
  rewrite fromisoformat_fields by lia.
  rewrite make_day_out by lia. reflexivity.
Qed.

Lemma needs_w_numeric : needs letter_w Dates.numeric_re.
Proof.
  unfold Dates.numeric_re. cbn [Re.seq Re.text lit].
  do 11 apply needs_seq_r. apply needs_seq_l. apply needs_chr.
  intros x Hx. apply N.eqb_eq in Hx. subst x. reflexivity.
Qed.

Lemma needs_w_long : needs letter_w Dates.long_re.
Proof.
  unfold Dates.long_re. cbn [Re.seq Re.text_i lit].
  do 10 apply needs_seq_r. apply needs_seq_l. apply needs_chr.
  intros x Hx. unfold letter_w. unfold fold_chr in Hx.
  destruct (chr_eqb x 304 || chr_eqb x 305); [discriminate Hx|].
  destruct (chr_eqb x 383); [discriminate Hx|].
  destruct (chr_eqb x 8490); [discriminate Hx|]. exact Hx.
Qed.

Lemma clean_text_keeps_class (p : char -> bool) s :
  p 32%N = false -> existsb p s = false ->
  existsb p (Detik_text.clean_text (Some s)) = false.
Proof.
  intros Hsp Hs. apply not_true_is_false. intros E.
  apply existsb_exists in E. destruct E as [c [Hc Hp]].
  rewrite detik_clean_text_eq in Hc. apply In_strip in Hc.
  destruct (squeeze_In _ _ _ _ _ Hc) as [[H1|[]]|[H1 _]].
  - assert (Hc32 : c = 32%N) by (symmetry; exact H1).
    rewrite Hc32, Hsp in Hp. discriminate Hp.
  - assert (existsb p s = true) by (apply existsb_exists; exists c; split; assumption).
    rewrite Hs in H. discriminate H.
Qed.

(** A text without the letter W is read by neither pattern of kompas. *)
Lemma parse_kompas_no_w s :
  existsb letter_w s = false -> Dates.parse_kompas_time_text_to_wib s = Ok [].
Proof.
  intros H. unfold Dates.parse_kompas_time_text_to_wib.
  destruct (truthy s); [|reflexivity]. cbn [negb].
  pose proof (clean_text_keeps_class letter_w s eq_refl H) as Hc.
  cbv zeta. unfold Re.search.
  rewrite (search_needs letter_w _ needs_w_numeric) by exact Hc.
  rewrite (search_needs letter_w _ needs_w_long) by exact Hc.
  reflexivity.
Qed.

Lemma digit_not_w n : letter_w (Datetime.digit n) = false.
Proof. digit_case n; reflexivity. Qed.

Lemma iso_text_no_w y m d hh mm ss :
  existsb letter_w (Datespec.iso_text 32 y m d hh mm ss []) = false.
Proof.
  unfold Datespec.iso_text, Datetime.pad4, Datetime.pad2. cbn [app existsb].
  rewrite !digit_not_w. reflexivity.
Qed.

(** ** The time of kompas: texts in which no date is found *)

Lemma needs_digit_numeric : needs is_digit Dates.numeric_re.
Proof.
  unfold Dates.numeric_re. cbn [Re.seq].
  apply needs_seq_l, needs_grp. unfold Re.times. apply needs_rep; [lia|].
  apply needs_chr. intros x Hx. exact Hx.
Qed.

Lemma needs_digit_long : needs is_digit Dates.long_re.
Proof.
  unfold Dates.long_re. cbn [Re.seq].
  apply needs_seq_l, needs_grp. unfold Re.between. apply needs_rep; [lia|].
  apply needs_chr. intros x Hx. exact Hx.
Qed.

Lemma parse_kompas_not_found s :
  kompas_date_found (Detik_text.clean_text (Some s)) = false ->
  Dates.parse_kompas_time_text_to_wib s = Ok [].
Proof.
  unfold kompas_date_found, Dates.parse_kompas_time_text_to_wib. intros H.
  destruct (truthy s); [|reflexivity]. cbn [negb]. cbv zeta.
  destruct (Re.search Dates.numeric_re (Detik_text.clean_text (Some s))); [discriminate H|].
  destruct (Re.search Dates.long_re (Detik_text.clean_text (Some s))) as [m|]; [|reflexivity].
  apply negb_false_iff in H. rewrite H. reflexivity.
Qed.

Lemma kompas_not_found_class (p : char -> bool) s :
  p 32%N = false -> needs p Dates.numeric_re -> needs p Dates.long_re ->
  existsb p s = false ->
  kompas_date_found (Detik_text.clean_text (Some s)) = false.
Proof.
  intros Hsp N1 N2 H. unfold kompas_date_found.
  pose proof (clean_text_keeps_class p s Hsp H) as Hc.
  unfold Re.search.
  rewrite (search_needs p _ N1) by exact Hc.
  rewrite (search_needs p _ N2) by exact Hc.
  reflexivity.
Qed.

(** ** The claims on the date normalisers *)

(** The claim as stated fails on the format: [iso_to_wib] of detik and kompas
    ends its result with the letters WIB. *)
Lemma C2_suffix_counterexample :
  Dates.detik_iso_to_wib (lit "2025-12-17T01:02:03") = lit "2025-12-17 08:02:03 WIB" /\
  Datespec.is_canonical (lit "2025-12-17 08:02:03 WIB") = false.
Proof. split; vm_compute; reflexivity. Qed.

(** Claim C2, amended. The text [YYYY-MM-DDxHH:MM:SS] of valid fields,
    followed by nothing, by Z or by an offset, names an instant; when it is
    of the WIB era, [iso_to_wib] returns the clock time seven hours ahead of
    UTC, in the shape [YYYY-MM-DD HH:MM:SS], which detik and kompas end with
    the letters WIB and tribunnews and tempo do not. A text without
    designator is read as UTC, as one with Z. *)
Theorem C2_iso_to_wib sep y m d hh mm ss z :
  Datespec.valid_fields y m d hh mm ss = true ->
  Datespec.valid_designator z = true ->
  Datespec.wib_era (Datespec.clock y m d hh mm ss - Datespec.designator_seconds z) = true ->
  let text := Datespec.iso_text sep y m d hh mm ss (Datespec.designator_text z) in
  let local := (Datespec.clock y m d hh mm ss - Datespec.designator_seconds z + 25200)%Z in
  Dates.detik_iso_to_wib text = Datespec.canonical_text local ++ lit " WIB" /\
  Dates.tribun_iso_to_wib text = Datespec.canonical_text local /\
  Datespec.is_canonical (Datespec.canonical_text local) = true.
Proof.
  intros Hv Hz He text local.
  destruct (iso_to_wib_text sep y m d hh mm ss z Hv Hz He) as [H1 H2].
  repeat split; [exact H1 | exact H2|].
  apply canonical_text_shape. subst local.
  unfold Datespec.wib_era in He. apply andb_true_iff in He. destruct He as [He _].
  apply Z.leb_le in He. lia.
Qed.

Lemma C2_iso_to_wib_witness :
  Datespec.valid_fields 2025 12 17 1 2 3 = true /\
  Datespec.valid_designator (Datespec.Offset true 5 30) = true /\
  Dates.detik_iso_to_wib (lit "2025-12-17T01:02:03-05:30") = lit "2025-12-17 13:32:03 WIB" /\
  Dates.tribun_iso_to_wib (lit "2025-12-17T01:02:03-05:30") = lit "2025-12-17 13:32:03".
Proof.
  split; [reflexivity|]. split; [reflexivity|].
  pose proof (C2_iso_to_wib 84 2025 12 17 1 2 3 (Datespec.Offset true 5 30)
                eq_refl eq_refl eq_refl) as H.
  cbv zeta in H. destruct H as (H1 & H2 & _). split; [exact H1 | exact H2].
Defined.

(** What [parse_indo_date] of republika does with an ISO text: the fields
    are taken as Jakarta time, whatever the designator says. *)
Example republika_parse_indo_date_zulu :
  Republika_dates.waktu_terbit (lit "2024-03-15T14:30:00Z") = lit "2024-03-15 14:30:00" /\
  Dates.tribun_iso_to_wib (lit "2024-03-15T14:30:00Z") = lit "2024-03-15 21:30:00".
Proof. split; vm_compute; reflexivity. Qed.

(** The claim as stated fails on a canonical text: [iso_to_wib] reads it as
    UTC and moves it by seven hours, and the pattern of kompas wants the
    letters WIB. *)
Lemma C3_canonical_counterexample :
  Datespec.is_canonical (lit "2025-12-17 01:02:03") = true /\
  Dates.detik_iso_to_wib (lit "2025-12-17 01:02:03") = lit "2025-12-17 08:02:03 WIB" /\
  Dates.parse_kompas_time_text_to_wib (lit "2025-12-17 01:02:03") = Ok [].
Proof. repeat split; vm_compute; reflexivity. Qed.

(** Claim C3, amended. A text that is no date returns the empty string and
    raises nothing. For [iso_to_wib] that is every text which, without the
    white space at its ends, does not begin with the four digits of a year,
    and every text of ISO shape whose day the month does not have; for
    [parse_kompas_time_text_to_wib] it is every text in which neither of
    the two patterns finds a date with a month of the table, as every text
    without the letter W and every text without a digit. A canonical text
    is no fixed point: [iso_to_wib] returns the time seven hours later,
    followed by WIB, and [parse_kompas_time_text_to_wib] the empty string. *)
Theorem C3_no_date_and_canonical :
  (forall s, starts_with_year (strip s) = false -> Dates.detik_iso_to_wib s = []) /\
  (forall sep y m d hh mm ss,
      (1 <= y <= 9999)%Z -> (1 <= m <= 12)%Z -> (Datetime.days_in_month y m < d <= 99)%Z ->
      (0 <= hh <= 99)%Z -> (0 <= mm <= 99)%Z -> (0 <= ss <= 99)%Z ->
      Dates.detik_iso_to_wib (Datespec.iso_text sep y m d hh mm ss []) = []) /\
  (forall s, kompas_date_found (Detik_text.clean_text (Some s)) = false ->
             Dates.parse_kompas_time_text_to_wib s = Ok []) /\
  (forall s, existsb letter_w s = false \/ existsb is_digit s = false ->
             kompas_date_found (Detik_text.clean_text (Some s)) = false) /\
  Dates.detik_iso_to_wib (lit "not a date") = [] /\
  Dates.parse_kompas_time_text_to_wib (lit "not a date") = Ok [] /\
  Dates.detik_iso_to_wib (lit "17 Foo 2025, 09:46 WIB") = [] /\
  Dates.parse_kompas_time_text_to_wib (lit "17 Foo 2025, 09:46 WIB") = Ok [] /\
  (forall y m d hh mm ss,
      Datespec.valid_fields y m d hh mm ss = true ->
      Datespec.wib_era (Datespec.clock y m d hh mm ss) = true ->
      let s := Datespec.iso_text 32 y m d hh mm ss [] in
      Datespec.is_canonical s = true /\
      Dates.detik_iso_to_wib s
      = Datespec.canonical_text (Datespec.clock y m d hh mm ss + 25200) ++ lit " WIB" /\
      Dates.detik_iso_to_wib s <> s /\
      Dates.parse_kompas_time_text_to_wib s = Ok []).
Proof.
  split; [intros s H; apply (iso_to_wib_no_year s H)|].
  split; [exact iso_to_wib_day_out|].
  split; [exact parse_kompas_not_found|].
  split.
  { intros s [H|H].
    - exact (kompas_not_found_class letter_w s eq_refl needs_w_numeric needs_w_long H).
    - exact (kompas_not_found_class is_digit s eq_refl needs_digit_numeric needs_digit_long H). }
  split; [reflexivity|]. split; [vm_compute; reflexivity|].
  split; [vm_compute; reflexivity|]. split; [vm_compute; reflexivity|].
  intros y m d hh mm ss Hv He s.
  assert (He' : Datespec.wib_era (Datespec.clock y m d hh mm ss
                                  - Datespec.designator_seconds Datespec.Naive) = true).
  { cbn [Datespec.designator_seconds]. rewrite Z.sub_0_r. exact He. }
  destruct (iso_to_wib_text 32 y m d hh mm ss Datespec.Naive Hv eq_refl He') as [H1 _].
  cbv zeta in H1. cbn [Datespec.designator_seconds Datespec.designator_text] in H1.
  rewrite Z.sub_0_r in H1.
  assert (Hs : Datespec.is_canonical s = true) by apply is_canonical_iso_text.
  repeat split.
  - exact Hs.
  - exact H1.
  - fold s in H1. intros E. rewrite H1 in E.
    assert (Hc : Datespec.is_canonical
                   (Datespec.canonical_text (Datespec.clock y m d hh mm ss + 25200)) = true).
    { apply canonical_text_shape. unfold Datespec.wib_era in He.
      apply andb_true_iff in He. destruct He as [He _]. apply Z.leb_le in He. lia. }
    apply canonical_not_with_suffix in Hc. rewrite E, Hs in Hc. discriminate Hc.
  - apply parse_kompas_no_w. apply iso_text_no_w.
Qed.

Lemma C3_no_date_and_canonical_witness :
  starts_with_year (strip (lit " 17 Desember 2025 ")) = false /\
  Dates.detik_iso_to_wib (lit " 17 Desember 2025 ") = [] /\
  Dates.detik_iso_to_wib (lit "2025-02-31T09:46:00") = [] /\
  kompas_date_found (Detik_text.clean_text (Some (lit "31-02-2025 09:46 WIB"))) = false /\
  Dates.parse_kompas_time_text_to_wib (lit "31-02-2025 09:46 WIB") = Ok [] /\
  Datespec.valid_fields 2025 12 17 1 2 3 = true /\
  Datespec.wib_era (Datespec.clock 2025 12 17 1 2 3) = true /\
  Dates.detik_iso_to_wib (lit "2025-12-17 01:02:03") <> lit "2025-12-17 01:02:03".
Proof.
  destruct C3_no_date_and_canonical as (A1 & A2 & B1 & _ & _ & _ & _ & _ & Cn).
  split; [reflexivity|].
  split; [apply A1; reflexivity|].
  split.
  { refine (A2 84%N 2025 2 31 9 46 0 _ _ _ _ _ _)%Z; try lia.
    vm_compute. split; [reflexivity | discriminate]. }
  split; [vm_compute; reflexivity|].
  split; [apply B1; vm_compute; reflexivity|].
  split; [reflexivity|]. split; [reflexivity|].
  pose proof (Cn 2025 12 17 1 2 3 eq_refl eq_refl)%Z as H.
  cbv zeta in H. destruct H as (_ & _ & H & _). exact H.
Defined.

(** Beside claim C3: a text in digits whose day the month does not have,
    as [31/02/2025, 09:46 WIB], is found by the first pattern of
    [parse_kompas_time_text_to_wib], and [datetime], which the function
    calls outside any [try], raises [ValueError]; [iso_to_wib] has the same
    call inside its [try] and returns the empty string. *)
Example kompas_time_text_impossible_day :
  Dates.parse_kompas_time_text_to_wib (lit "31/02/2025, 09:46 WIB")
  = Raise (ValueError "day is out of range for month") /\
  Dates.detik_iso_to_wib (lit "2025-02-31T09:46:00") = [].
Proof. split; vm_compute; reflexivity. Qed.
(** ** The list parsers *)

Lemma str_eqb_eq a : forall b, str_eqb a b = true <-> a = b.
Proof.
  induction a as [|x a IH]; intros [|y b]; cbn [str_eqb]; try (split; [discriminate|discriminate]);
    try (split; reflexivity).
  rewrite andb_true_iff, chr_eqb_eq, IH. split.
  - intros [-> ->]. reflexivity.
  - intros H. inversion H. split; reflexivity.
Qed.

Lemma str_eqb_refl a : str_eqb a a = true.
Proof. apply str_eqb_eq. reflexivity. Qed.

Lemma existsb_str_In u seen : existsb (str_eqb u) seen = true <-> In u seen.
Proof.
  rewrite existsb_exists. split.
  - intros [x [Hin Hx]]. apply str_eqb_eq in Hx. subst. exact Hin.
  - intros Hin. exists u. split; [exact Hin | apply str_eqb_refl].
Qed.

Lemma existsb_str_not_In u seen : existsb (str_eqb u) seen = false <-> ~ In u seen.
Proof.
  rewrite <- existsb_str_In. split.
  - intros H H'. congruence.
  - intros H. destruct (existsb (str_eqb u) seen); [exfalso; apply H|]; reflexivity.
Qed.

Section Dedup.
Variable R : Type.
Variable url : R -> str.
Variable row_of_link : Dom.node -> result (option R).

(** The first loop returns the rows of the links taken, unless the body
    raises at a link. *)
Lemma collect_rows_taken links : forall rows,
  forallb (fun a => is_ok (row_of_link a)) links = true ->
  Listing.collect_rows row_of_link links rows = Ok (rows ++ taken row_of_link links).
Proof.
  induction links as [|a links IH]; intros rows H; cbn [Listing.collect_rows taken flat_map].
  - rewrite app_nil_r. reflexivity.
  - cbn [forallb] in H. apply andb_true_iff in H. destruct H as [Ha H].
    destruct (row_of_link a) as [[r|]|e]; cbn [bind]; [| |discriminate Ha].
    + rewrite (IH _ H). rewrite <- app_assoc. reflexivity.
    + rewrite (IH _ H). reflexivity.
Qed.

Lemma collect_rows_ok links : forall rows out,
  Listing.collect_rows row_of_link links rows = Ok out ->
  out = rows ++ taken row_of_link links.
Proof.
  induction links as [|a links IH]; intros rows out H; cbn [Listing.collect_rows taken flat_map] in *.
  - inversion H. rewrite app_nil_r. reflexivity.
  - destruct (row_of_link a) as [[r|]|e]; cbn [bind] in H; [| |discriminate H].
    + rewrite (IH _ _ H). rewrite <- app_assoc. reflexivity.
    + rewrite (IH _ _ H). reflexivity.
Qed.

(** The second loop appends the rows seen for the first time. *)
Lemma dedup_first_seen rows : forall seen out,
  Listing.dedup url rows seen out = out ++ first_seen url rows seen.
Proof.
  induction rows as [|r rows IH]; intros seen out; cbn [Listing.dedup first_seen].
  - rewrite app_nil_r. reflexivity.
  - destruct (existsb (str_eqb (url r)) seen).
    + apply IH.
    + rewrite IH, <- app_assoc. reflexivity.
Qed.

Lemma first_seen_subseq rows : forall seen, subseq (first_seen url rows seen) rows.
Proof.
  induction rows as [|r rows IH]; intros seen; cbn [first_seen].
  - constructor.
  - destruct (existsb (str_eqb (url r)) seen); constructor; apply IH.
Qed.

Lemma first_seen_fresh rows : forall seen r,
  In r (first_seen url rows seen) -> ~ In (url r) seen.
Proof.
  induction rows as [|r0 rows IH]; intros seen r H; cbn [first_seen] in H.
  - destruct H.
  - destruct (existsb (str_eqb (url r0)) seen) eqn:E.
    + apply (IH _ _ H).
    + destruct H as [H|H].
      * subst. apply existsb_str_not_In. exact E.
      * intros Hin. apply (IH _ _ H). right. exact Hin.
Qed.

Lemma first_seen_NoDup rows : forall seen, NoDup (map url (first_seen url rows seen)).
Proof.
  induction rows as [|r rows IH]; intros seen; cbn [first_seen].
  - constructor.
  - destruct (existsb (str_eqb (url r)) seen); [apply IH|].
    cbn [map]. constructor; [|apply IH].
    intros Hin. apply in_map_iff in Hin. destruct Hin as [x [Hx Hin]].
    apply first_seen_fresh in Hin. apply Hin. left. symmetry. exact Hx.
Qed.

Lemma first_seen_covers rows : forall seen r,
  In r rows -> In (url r) seen \/ In (url r) (map url (first_seen url rows seen)).
Proof.
  induction rows as [|r0 rows IH]; intros seen r H; [destruct H|].
  cbn [first_seen]. destruct (existsb (str_eqb (url r0)) seen) eqn:E.
  - destruct H as [H|H].
    + subst. left. apply existsb_str_In. exact E.
    + apply IH. exact H.
  - destruct H as [H|H].
    + subst. right. left. reflexivity.
    + destruct (IH (url r0 :: seen) r H) as [[Hs|Hs]|Hs].
      * right. left. exact Hs.
      * left. exact Hs.
      * right. right. exact Hs.
Qed.

Lemma first_seen_first rows : forall seen r,
  In r (first_seen url rows seen) -> first_with url rows r = Some r.
Proof.
  unfold first_with.
  induction rows as [|r0 rows IH]; intros seen r H; cbn [first_seen] in H; [destruct H|].
  cbn [find]. destruct (existsb (str_eqb (url r0)) seen) eqn:E.
  - destruct (str_eqb (url r0) (url r)) eqn:Eu.
    + exfalso. apply str_eqb_eq in Eu. apply (first_seen_fresh _ _ _ H).
      rewrite <- Eu. apply existsb_str_In. exact E.
    + apply (IH _ _ H).
  - destruct H as [H|H].
    + subst. rewrite str_eqb_refl. reflexivity.
    + destruct (str_eqb (url r0) (url r)) eqn:Eu.
      * exfalso. apply str_eqb_eq in Eu. apply (first_seen_fresh _ _ _ H).
        left. exact Eu.
      * apply (IH _ _ H).
Qed.

Lemma first_seen_In rows : forall seen r,
  In r (first_seen url rows seen) -> In r rows.
Proof.
  induction rows as [|r0 rows IH]; intros seen r H; cbn [first_seen] in H; [destruct H|].
  destruct (existsb (str_eqb (url r0)) seen).
  - right. apply (IH _ _ H).
  - destruct H as [H|H]; [left; exact H | right; apply (IH _ _ H)].
Qed.

(** As many rows are kept as there are distinct urls. *)
Lemma first_seen_length rows :
  List.length (first_seen url rows []) = distinct (map url rows).
Proof.
  unfold distinct. rewrite <- (length_map url (first_seen url rows [])).
  apply Nat.le_antisymm; apply NoDup_incl_length.
  - apply first_seen_NoDup.
  - intros u Hu. apply nodup_In. apply in_map_iff in Hu. destruct Hu as [r [Hr Hin]].
    apply in_map_iff. exists r. split; [exact Hr | apply (first_seen_In _ _ _ Hin)].
  - apply NoDup_nodup.
  - intros u Hu. apply nodup_In in Hu. apply in_map_iff in Hu. destruct Hu as [r [Hr Hin]].
    destruct (first_seen_covers rows [] r Hin) as [[]|H]. rewrite <- Hr. exact H.
Qed.

Lemma first_seen_deduplicated rows : deduplicated url rows (first_seen url rows []).
Proof.
  repeat split.
  - apply first_seen_subseq.
  - apply first_seen_NoDup.
  - intros r Hin. destruct (first_seen_covers rows [] r Hin) as [[]|H]. exact H.
  - intros r Hin. apply (first_seen_first _ _ _ Hin).
  - apply first_seen_length.
Qed.

Lemma parse_list_returns links :
  forallb (fun a => is_ok (row_of_link a)) links = true ->
  Listing.parse_list url row_of_link links = Ok (first_seen url (taken row_of_link links) []).
Proof.
  intros H. unfold Listing.parse_list. rewrite (collect_rows_taken _ _ H). cbn [bind app].
  rewrite dedup_first_seen. reflexivity.
Qed.

Lemma parse_list_ok links out :
  Listing.parse_list url row_of_link links = Ok out ->
  out = first_seen url (taken row_of_link links) [].
Proof.
  unfold Listing.parse_list. intros H. bind_ok H rows E. inversion H.
  rewrite (collect_rows_ok _ _ _ E), dedup_first_seen. reflexivity.
Qed.

Lemma taken_In links r :
  In r (taken row_of_link links) -> exists a, In a links /\ row_of_link a = Ok (Some r).
Proof.
  unfold taken. intros H. apply in_flat_map in H. destruct H as [a [Ha H]].
  exists a. split; [exact Ha|].
  destruct (row_of_link a) as [[x|]|e]; try destruct H as [H|[]]; try destruct H.
  subst. reflexivity.
Qed.

End Dedup.

(** The body of the loop of detik raises only where [normalize_url] does,
    and takes only links to articles. *)
Lemma detik_row_of_link_ok a :
  is_ok (Detik.row_of_link a) = href_ok Detik.normalize_url a.
Proof.
  unfold Detik.row_of_link, href_ok.
  destruct (Detik.normalize_url (Some (Dom.attr_or_empty a (lit "href")))) as [u|e];
    cbn [bind is_ok]; [|reflexivity].
  destruct (negb (Detik.is_article_url u)); [reflexivity|].
  destruct (negb (contains (lit "WIB") _)); [reflexivity|].
  destruct (Re.search Detik.list_re _); reflexivity.
Qed.

Lemma detik_row_of_link_article a r :
  Detik.row_of_link a = Ok (Some r) -> Detik.is_article_url (Detik.url r) = true.
Proof.
  unfold Detik.row_of_link. intros H. bind_ok H u E.
  destruct (Detik.is_article_url u) eqn:Ea; cbn [negb] in H; [|discriminate H].
  destruct (negb (contains (lit "WIB") _)); [discriminate H|].
  destruct (Re.search Detik.list_re _); [|discriminate H].
  inversion H. exact Ea.
Qed.

Lemma kompas_row_of_link_ok a :
  is_ok (Kompas.row_of_link a) = href_ok Kompas.normalize_url a.
Proof.
  unfold Kompas.row_of_link, href_ok.
  destruct (Kompas.normalize_url (Some (Dom.attr_or_empty a (lit "href")))) as [u|e];
    cbn [bind is_ok]; [|reflexivity].
  destruct (negb (Kompas.is_kompas_article_url u)); [reflexivity|].
  destruct (_ <? 8)%nat; [reflexivity|].
  destruct (startswith _ _); reflexivity.
Qed.

Lemma kompas_row_of_link_article a r :
  Kompas.row_of_link a = Ok (Some r) ->
  Kompas.is_kompas_article_url (Kompas.url r) = true.
Proof.
  unfold Kompas.row_of_link. intros H. bind_ok H u E.
  destruct (Kompas.is_kompas_article_url u) eqn:Ea; cbn [negb] in H; [|discriminate H].
  destruct (_ <? 8)%nat; [discriminate H|].
  destruct (startswith _ _); [discriminate H|].
  inversion H. exact Ea.
Qed.

Lemma forallb_ext_in (A : Type) (f g : A -> bool) l :
  (forall x, f x = g x) -> forallb f l = forallb g l.
Proof.
  intros H. induction l as [|x l IH]; cbn [forallb]; [reflexivity|].
  rewrite H, IH. reflexivity.
Qed.

(** Whenever the list parser of detik returns, its rows are those of the
    links taken, deduplicated, and all are links to articles. *)
Lemma detik_parse_tag_news_page_ok soup out :
  Detik.parse_tag_news_page soup = Ok out ->
  Forall (fun r => Detik.is_article_url (Detik.url r) = true) out /\
  deduplicated Detik.url (taken Detik.row_of_link (links_of soup)) out.
Proof.
  intros H. apply parse_list_ok in H. subst out. split.
  - apply Forall_forall. intros r Hin. apply first_seen_In in Hin.
    apply taken_In in Hin. destruct Hin as [a [_ Ha]].
    apply (detik_row_of_link_article _ _ Ha).
  - apply first_seen_deduplicated.
Qed.

Lemma kompas_parse_kompas_search_page_ok soup out :
  Kompas.parse_kompas_search_page soup = Ok out ->
  Forall (fun r => Kompas.is_kompas_article_url (Kompas.url r) = true) out /\
  deduplicated Kompas.url (taken Kompas.row_of_link (links_of soup)) out.
Proof.
  intros H. apply parse_list_ok in H. subst out. split.
  - apply Forall_forall. intros r Hin. apply first_seen_In in Hin.
    apply taken_In in Hin. destruct Hin as [a [_ Ha]].
    apply (kompas_row_of_link_article _ _ Ha).
  - apply first_seen_deduplicated.
Qed.




(** What the parsers return on these two pages. *)
Example detik_parse_tag_news_page_example :
  let d1 := Dom.Elem (lit "a")
              [(lit "href", lit "https://news.detik.com/berita/d-8183382/makan-bergizi")]
              [Dom.Text (lit "detikNews Rabu, 17 Des 2025 02:03 WIB Makan bergizi gratis")] in
  let d2 := Dom.Elem (lit "a")
              [(lit "href", lit "/jabar/berita/d-8183383/dapur-sekolah#komentar")]
              [Dom.Text (lit "detikJabar Rabu, 17 Des 2025 03:10 WIB Dapur sekolah")] in
  let page x y z := Dom.html [Dom.Elem (lit "body") [] [x; y; z]] in
  Detik.parse_tag_news_page (page d1 d2 d1) =
  Ok [Detik.Row (lit "Rabu, 17 Des 2025 02:03 WIB") (lit "Makan bergizi gratis")
                (lit "https://news.detik.com/berita/d-8183382/makan-bergizi");
      Detik.Row (lit "Rabu, 17 Des 2025 03:10 WIB") (lit "Dapur sekolah")
                (lit "https://www.detik.com/jabar/berita/d-8183383/dapur-sekolah")].
Proof. vm_compute. reflexivity. Qed.

Example kompas_parse_kompas_search_page_example :
  let k1 := Dom.Elem (lit "a")
              [(lit "href", lit "https://nasional.kompas.com/read/2025/12/17/09463351/mbg?utm_source=x")]
              [Dom.Text (lit "Makan bergizi gratis dimulai")] in
  let k2 := Dom.Elem (lit "a")
              [(lit "href", lit "https://nasional.kompas.com/read/2025/12/17/09463351/mbg")]
              [Dom.Text (lit "Makan bergizi gratis dimulai hari ini")] in
  let page x y z := Dom.html [Dom.Elem (lit "body") [] [x; y; z]] in
  Kompas.parse_kompas_search_page (page k1 k2 k1) =
  Ok [Kompas.Row (lit "Makan bergizi gratis dimulai")
                 (lit "https://nasional.kompas.com/read/2025/12/17/09463351/mbg")].
Proof. vm_compute. reflexivity. Qed.

(** ** The content of a detail page *)

Lemma startswith_eq p : forall s, startswith p s = true <-> exists b, s = p ++ b.
Proof.
  induction p as [|x p IH]; intros s; cbn [startswith].
  - split; [intros _; exists s; reflexivity | reflexivity].
  - destruct s as [|y s].
    + split; [discriminate | intros [b H]; discriminate H].
    + rewrite andb_true_iff, chr_eqb_eq, IH. split.
      * intros [-> [b ->]]. exists b. reflexivity.
      * intros [b H]. inversion H. split; [reflexivity | exists b; reflexivity].
Qed.

Lemma contains_eq p : forall s, contains p s = true <-> exists a b, s = a ++ p ++ b.
Proof.
  induction s as [|y s IH]; cbn [contains]; rewrite orb_true_iff, startswith_eq.
  - split.
    + intros [[b H]|H]; [exists [], b; exact H | discriminate H].
    + intros [a [b H]]. left. destruct a as [|z a]; [exists b; exact H | discriminate H].
  - rewrite IH. split.
    + intros [[b H]|[a [b H]]]; [exists [], b; exact H | exists (y :: a), b; rewrite H; reflexivity].
    + intros [a [b H]]. destruct a as [|z a].
      * left. exists b. exact H.
      * right. inversion H. exists a, b. reflexivity.
Qed.

(** A block that has no separator character does not reach across one. *)
Lemma startswith_app_sep x m : ~ In x m -> forall a b,
  startswith m (a ++ x :: b) = startswith m a.
Proof.
  induction m as [|y m IH]; intros Hx a b; [reflexivity|].
  destruct a as [|z a]; cbn [app startswith].
  - destruct (chr_eqb y x) eqn:E; [|reflexivity].
    apply chr_eqb_eq in E. exfalso. apply Hx. left. exact E.
  - rewrite IH; [reflexivity|]. intros H. apply Hx. right. exact H.
Qed.

Lemma contains_app_sep x m : m <> [] -> ~ In x m -> forall a b,
  contains m (a ++ x :: b) = true -> contains m a = true \/ contains m b = true.
Proof.
  intros Hm Hx a b. induction a as [|z a IH]; cbn [app]; intros H.
  - cbn [contains] in H. apply orb_true_iff in H. destruct H as [H|H]; [|right; exact H].
    pose proof (startswith_app_sep x m Hx [] b) as E. cbn [app] in E. rewrite E in H.
    destruct m; [contradiction Hm; reflexivity | discriminate H].
  - cbn [contains] in H. apply orb_true_iff in H. destruct H as [H|H].
    + pose proof (startswith_app_sep x m Hx (z :: a) b) as E. cbn [app] in E.
      rewrite E in H. left. cbn [contains]. rewrite H. reflexivity.
    + destruct (IH H) as [H'|H']; [left | right; exact H'].
      cbn [contains]. rewrite H'. apply orb_true_r.
Qed.

Lemma contains_nil m : m <> [] -> contains m [] = false.
Proof. destruct m; [intros H; contradiction H; reflexivity | reflexivity]. Qed.

(** A block without line feed that occurs in paragraphs joined by blank
    lines occurs in one of the paragraphs. *)
Lemma contains_join m ps : m <> [] -> ~ In 10%N m ->
  contains m (join blank_line ps) = true -> exists p, In p ps /\ contains m p = true.
Proof.
  intros Hm Hx. induction ps as [|p ps IH]; cbn [join]; intros H.
  - rewrite (contains_nil _ Hm) in H. discriminate H.
  - destruct ps as [|q ps].
    + exists p. split; [left; reflexivity | exact H].
    + unfold blank_line in H. cbn [app] in H.
      destruct (contains_app_sep _ _ Hm Hx _ _ H) as [H1|H1].
      * exists p. split; [left; reflexivity | exact H1].
      * destruct (contains_app_sep _ _ Hm Hx [] _ H1) as [H2|H2].
        -- rewrite (contains_nil _ Hm) in H2. discriminate H2.
        -- destruct (IH H2) as [p' [Hin Hp]]. exists p'. split; [right; exact Hin | exact Hp].
Qed.

Lemma upper_app a b : upper (a ++ b) = upper a ++ upper b.
Proof. apply map_app. Qed.

Lemma upper_join ps : upper (join blank_line ps) = join blank_line (map upper ps).
Proof.
  induction ps as [|p ps IH]; [reflexivity|].
  destruct ps as [|q ps]; [reflexivity|].
  change (join blank_line (p :: q :: ps)) with (p ++ blank_line ++ join blank_line (q :: ps)).
  rewrite !upper_app, IH. reflexivity.
Qed.

Lemma strip_inside s : exists a b, s = a ++ strip s ++ b.
Proof.
  destruct (lstrip_suffix s) as [a Ha]. destruct (rstrip_prefix (lstrip s)) as [b Hb].
  exists a, b. unfold strip. rewrite <- Hb. exact Ha.
Qed.

Lemma contains_upper_strip m s :
  contains m (upper (strip s)) = true -> contains m (upper s) = true.
Proof.
  intros H. apply contains_eq in H. destruct H as [a [b H]].
  destruct (strip_inside s) as [a' [b' Hs]].
  apply contains_eq. exists (upper a' ++ a), (b ++ upper b').
  rewrite Hs at 1. rewrite !upper_app, H, <- !app_assoc. reflexivity.
Qed.

(** The content that the detail parser of tribunnews returns has none of
    the marks, in whatever case of the letters. *)
Lemma tribun_content_no_mark soup u m :
  In m Tribun.marks ->
  contains m (upper (Tribun.content (Tribun.parse_detail_page soup u))) = false.
Proof.
  intros Hm. apply not_true_is_false. intros H.
  unfold Tribun.parse_detail_page in H. cbv zeta in H. cbn [Tribun.content] in H.
  apply contains_upper_strip in H. rewrite upper_join in H.
  assert (Hne : m <> [] /\ ~ In 10%N m).
  { unfold Tribun.marks in Hm. in_cases Hm; subst m; (split; [discriminate|]);
      intros Hin; vm_compute in Hin; repeat (destruct Hin as [Hin|Hin]; [discriminate Hin|]);
      exact Hin. }
  destruct Hne as [Hne Hlf].
  destruct (contains_join _ _ Hne Hlf H) as [p [Hin Hp]].
  apply in_map_iff in Hin. destruct Hin as [q [Hq Hin]]. subst p.
  unfold Tribun.paragraphs in Hin. apply filter_In in Hin. destruct Hin as [_ Hk].
  unfold Tribun.keep_paragraph in Hk. apply andb_true_iff in Hk. destruct Hk as [_ Hk].
  apply negb_true_iff in Hk.
  assert (E : existsb (fun x => contains x (upper q)) Tribun.marks = true).
  { apply existsb_exists. exists m. split; assumption. }
  rewrite E in Hk. discriminate Hk.
Qed.

Lemma clean_text_no_line_feed s : ~ In 10%N (Detik_text.clean_text s).
Proof.
  intros H. rewrite detik_clean_text_eq in H. apply In_strip in H.
  apply squeeze_space_only in H; [discriminate H | reflexivity].
Qed.

Lemma last_app_cons (A : Type) (a : list A) y b d d' : last (a ++ y :: b) d = last (y :: b) d'.
Proof.
  induction a as [|z a IH]; cbn [app].
  - revert y. induction b as [|w b IHb]; intros y; [reflexivity|].
    change (last (y :: w :: b) d) with (last (w :: b) d).
    change (last (y :: w :: b) d') with (last (w :: b) d'). apply IHb.
  - destruct (a ++ y :: b) eqn:E; [destruct a; discriminate E|].
    change (last (z :: a0 :: l) d) with (last (a0 :: l) d). exact IH.
Qed.

(** Paragraphs without white space at their ends, joined: no white space
    at the ends, so [strip] leaves the text as it is. *)
Lemma space_at_edge_join ps :
  Forall (fun p => p <> [] /\ space_at_edge p = false) ps ->
  space_at_edge (join blank_line ps) = false /\ (ps <> [] -> join blank_line ps <> []).
Proof.
  induction ps as [|p ps IH]; intros H; [split; [reflexivity | intros E; contradiction E; reflexivity]|].
  inversion H as [|? ? [Hp He] Hps]; subst.
  destruct ps as [|q ps]; [split; [exact He | intros _; exact Hp]|].
  destruct (IH Hps) as [IH1 IH2].
  change (join blank_line (p :: q :: ps)) with (p ++ blank_line ++ join blank_line (q :: ps)).
  assert (Hj : join blank_line (q :: ps) <> []) by (apply IH2; discriminate).
  destruct (join blank_line (q :: ps)) as [|y J] eqn:EJ; [contradiction Hj; reflexivity|].
  destruct p as [|x p]; [contradiction Hp; reflexivity|].
  split; [|discriminate].
  unfold space_at_edge in *. cbn [app] in *.
  apply orb_false_elim in He. destruct He as [Hx _].
  apply orb_false_elim in IH1. destruct IH1 as [_ Hl].
  rewrite Hx. cbn [orb].
  rewrite app_assoc.
  change (x :: (p ++ blank_line) ++ y :: J) with ((x :: p ++ blank_line) ++ y :: J).
  rewrite (last_app_cons _ (x :: p ++ blank_line) y J x y). exact Hl.
Qed.

Lemma detik_paragraphs_shape container :
  Forall (fun p => p <> [] /\ ~ In 10%N p /\ p <> lit "ADVERTISEMENT" /\
                   startswith (lit "baca juga:") (lower p) = false /\
                   space_at_edge p = false)
         (Detik.paragraphs container).
Proof.
  apply Forall_forall. intros p Hin. unfold Detik.paragraphs in Hin.
  apply filter_In in Hin. destruct Hin as [Hin Hk].
  apply in_map_iff in Hin. destruct Hin as [el [Hel _]].
  unfold Detik.keep_paragraph in Hk. apply andb_true_iff in Hk. destruct Hk as [Hk Hb].
  apply andb_true_iff in Hk. destruct Hk as [Ht Ha].
  apply negb_true_iff in Ha, Hb.
  repeat split.
  - intros E. rewrite E in Ht. discriminate Ht.
  - rewrite <- Hel. apply clean_text_no_line_feed.
  - intros E. rewrite E in Ha. vm_compute in Ha. discriminate Ha.
  - exact Hb.
  - rewrite <- Hel. apply detik_clean_text_no_space_at_edge.
Qed.

(** The content of detik: the paragraphs kept, or, when none is kept, all
    the text of the container. *)
Lemma detik_content_cases soup u :
  let container := Detik.pick_main_container soup in
  let c := Detik.content (Detik.parse_detail_page soup u) in
  (Detik.paragraphs container = [] /\
   c = Detik.clean_text (Some (Dom.get_text_strip (lit " ") container))) \/
  (Detik.paragraphs container <> [] /\
   c = join blank_line (Detik.paragraphs container)).
Proof.
  cbv zeta. unfold Detik.parse_detail_page. cbv zeta. cbn [Detik.content].
  pose proof (detik_paragraphs_shape (Detik.pick_main_container soup)) as Hs.
  destruct (Detik.paragraphs (Detik.pick_main_container soup)) as [|p ps] eqn:E.
  - left. split; reflexivity.
  - right. split; [discriminate|].
    assert (Hf : Forall (fun p => p <> [] /\ space_at_edge p = false) (p :: ps)).
    { eapply Forall_impl; [|exact Hs]. intros a [H1 [_ [_ [_ H5]]]]. split; assumption. }
    destruct (space_at_edge_join _ Hf) as [He Hn].
    rewrite (strip_id _ He).
    destruct (join blank_line (p :: ps)) as [|x j] eqn:Ej.
    + exfalso. apply Hn; [discriminate | reflexivity].
    + reflexivity.
Qed.

(** A page of detik whose only paragraph is the label: no paragraph is
    kept, the text of the container is taken as it is, and the record has
    the label as its content. And a paragraph that starts with the callout
    without the colon is kept. *)
Lemma C8_fallback_counterexample :
  let page ps :=
    Dom.html [Dom.Elem (lit "body") [] [Dom.Elem (lit "article") [] ps]] in
  let p (t : string) := Dom.Elem (lit "p") [] [Dom.Text (lit t)] in
  let u := lit "https://news.detik.com/berita/d-8183382/makan-bergizi" in
  let w := World (fun _ => Ok (page [p "ADVERTISEMENT"%string])) (lit "2025-12-17 10:00:00") in
  Detik.content (Detik.parse_detail_page (page [p "ADVERTISEMENT"%string]) u) = lit "ADVERTISEMENT" /\
  Detik_scrape.detail_step w [] (Detik_scrape.State None []) u =
    Ok (Detik_scrape.State (Some (lit "detik"))
          [Article (lit "detik") [] [] (lit "ADVERTISEMENT") [] u (lit "2025-12-17 10:00:00")]) /\
  Detik.content (Detik.parse_detail_page
                   (page [p "Dapur sekolah dibuka."%string; p "Baca juga berita lain"%string]) u) =
    lit "Dapur sekolah dibuka." ++ blank_line ++ lit "Baca juga berita lain".
Proof. vm_compute. repeat split. Qed.

(** Claim C8, amended. The content that the detail parser of detik returns is
    either the kept paragraphs joined by blank lines, where a kept paragraph
    is not empty, has no line feed, is not the label ADVERTISEMENT and does
    not start with [baca juga:] in whatever case; or, when no paragraph is
    kept, all the text of the container, with nothing removed. The content
    that the detail parser of tribunnews returns has none of the marks
    ADVERTISEMENT, IKLAN and BACA JUGA in whatever case of the letters. *)
Theorem C8_content_markers (soup : Dom.node) (u : str) :
  (let container := Detik.pick_main_container soup in
   let c := Detik.content (Detik.parse_detail_page soup u) in
   (Detik.paragraphs container = [] /\
    c = Detik.clean_text (Some (Dom.get_text_strip (lit " ") container))) \/
   (Detik.paragraphs container <> [] /\
    c = join blank_line (Detik.paragraphs container) /\
    Forall (fun p => p <> [] /\ ~ In 10%N p /\ p <> lit "ADVERTISEMENT" /\
                     startswith (lit "baca juga:") (lower p) = false)
           (Detik.paragraphs container))) /\
  existsb (fun m => contains m (upper (Tribun.content (Tribun.parse_detail_page soup u))))
          Tribun.marks = false.
Proof.
  split.
  - cbv zeta. destruct (detik_content_cases soup u) as [[H1 H2]|[H1 H2]].
    + left. split; assumption.
    + right. split; [exact H1|]. split; [exact H2|].
      eapply Forall_impl; [|apply detik_paragraphs_shape].
      intros a [Ha [Hb [Hc [Hd _]]]]. repeat split; assumption.
  - apply not_true_is_false. intros H. apply existsb_exists in H.
    destruct H as [m [Hm H]]. rewrite (tribun_content_no_mark soup u m Hm) in H.
    discriminate H.
Qed.

(** The orchestrator of tribunnews deletes the name of the site from the
    content afterwards, which can bring the halves of a mark together. *)
Example tribun_record_content_example :
  let page :=
    Dom.html
      [Dom.Elem (lit "body") []
         [Dom.Elem (lit "article") []
            [Dom.Elem (lit "p") [] [Dom.Text (lit "IKTribunnews.comLAN")]]]] in
  let u := lit "https://www.tribunnews.com/nasional/1234567/mbg?page=all" in
  let w := World (fun _ => Ok page) (lit "2025-12-17 10:00:00") in
  option_map a_content (Tribun.detail_step w u) = Some (lit "IKLAN").
Proof. vm_compute. reflexivity. Qed.

(** ** The second loop of the orchestrators *)

(** detik: with [sources] bound, a turn of the loop appends one record for
    the url, whatever happens. *)
Lemma detik_detail_step_bound w list_rows s o u :
  exists s' a,
    Detik_scrape.detail_step w list_rows (Detik_scrape.State (Some s) o) u
      = Ok (Detik_scrape.State (Some s') (o ++ [a])) /\
    a_url a = u.
Proof.
  unfold Detik_scrape.detail_step. cbv zeta.
  destruct (fetch w u) as [html|e].
  - cbn [Detik_scrape.out Detik_scrape.sources].
    destruct (Detik_scrape.tanggal_of _ _) as [t|e].
    + eexists _, _. split; reflexivity.
    + unfold Detik_scrape.handler. cbn [Detik_scrape.out Detik_scrape.sources].
      eexists _, _. split; reflexivity.
  - unfold Detik_scrape.handler. cbn [Detik_scrape.out Detik_scrape.sources].
    eexists _, _. split; reflexivity.
Qed.

Lemma detik_detail_loop_bound w list_rows urls : forall s o,
  exists s' o',
    Detik_scrape.detail_loop w list_rows (Detik_scrape.State (Some s) o) urls
      = Ok (Detik_scrape.State (Some s') (o ++ o')) /\
    map a_url o' = urls.
Proof.
  induction urls as [|u urls IH]; intros s o; cbn [Detik_scrape.detail_loop].
  - exists s, []. rewrite app_nil_r. split; reflexivity.
  - destruct (detik_detail_step_bound w list_rows s o u) as [s1 [a [E Ha]]].
    rewrite E. cbn [bind].
    destruct (IH s1 (o ++ [a])) as [s2 [o2 [E2 Ho2]]].
    exists s2, (a :: o2). rewrite E2, <- app_assoc. cbn [app map].
    rewrite Ha, Ho2. split; reflexivity.
Qed.

(** detik: the record of a url whose fetch raises, with [sources] bound. *)
Lemma detik_detail_step_degraded w list_rows s o u e :
  fetch w u = Raise e ->
  Detik_scrape.detail_step w list_rows (Detik_scrape.State (Some s) o) u
  = Ok (Detik_scrape.State (Some s)
          (o ++ [Article s
                   (Detik_scrape.base_get (Detik_scrape.base_of list_rows u) Detik.published_wib)
                   (Detik_scrape.base_get (Detik_scrape.base_of list_rows u) Detik.title_list)
                   [] [] u (now w)])).
Proof.
  intros H. unfold Detik_scrape.detail_step. cbv zeta. rewrite H. reflexivity.
Qed.

(** detik: without a value of [sources], the handler itself raises. *)
Lemma detik_detail_step_unbound w list_rows o u e :
  fetch w u = Raise e ->
  Detik_scrape.detail_step w list_rows (Detik_scrape.State None o) u
  = Raise (UnboundLocalError "sources").
Proof.
  intros H. unfold Detik_scrape.detail_step. cbv zeta. rewrite H. reflexivity.
Qed.

(** kompas: a turn of the loop gives the record of the url; when the body
    of the [try] raises, it is the record of the handler. *)
Lemma kompas_detail_step_url author w list_rows u :
  a_url (Kompas.detail_step author w list_rows u) = u.
Proof.
  unfold Kompas.detail_step. cbv zeta.
  destruct (Kompas.detail_row author w _ u) as [a|e] eqn:E; [|reflexivity].
  unfold Kompas.detail_row in E.
  destruct (fetch w u) as [html|]; cbn [bind] in E; [|discriminate E].
  destruct (Kompas.parse_detail_page author html u) as [d|]; cbn [bind] in E; [|discriminate E].
  cbv zeta in E.
  match type of E with bind ?m _ = _ => destruct m as [t|]; cbn [bind] in E end;
    [|discriminate E].
  inversion E. reflexivity.
Qed.

Lemma kompas_detail_step_degraded author w list_rows u e :
  Kompas.detail_row author w (Kompas.base_of list_rows u) u = Raise e ->
  Kompas.detail_step author w list_rows u
  = Article (lit "kompas") [] (Kompas.base_title (Kompas.base_of list_rows u)) [] [] u (now w).
Proof. intros H. unfold Kompas.detail_step. cbv zeta. rewrite H. reflexivity. Qed.

Lemma kompas_detail_row_fetch author w base u e :
  fetch w u = Raise e -> Kompas.detail_row author w base u = Raise e.
Proof. intros H. unfold Kompas.detail_row. rewrite H. reflexivity. Qed.

(** kompas: the second loop gives one record for each url. *)
Lemma kompas_scrape_urls author w query page_start page_end sort site_id last_date list_rows :
  Kompas.listing w (Kompas.list_url query sort site_id last_date)
    (N.to_nat (page_end + 1 - page_start)) page_start [] = Ok list_rows ->
  exists out,
    Kompas.scrape_kompas_search author w query page_start page_end sort site_id last_date
      = Ok out /\
    map a_url out = fromkeys (map Kompas.url list_rows) [].
Proof.
  intros H. unfold Kompas.scrape_kompas_search. rewrite H. cbn [bind].
  eexists. split; [reflexivity|].
  rewrite map_map. induction (fromkeys (map Kompas.url list_rows) []) as [|u l IH];
    [reflexivity|].
  cbn [map]. rewrite kompas_detail_step_url, IH. reflexivity.
Qed.

(** tribunnews: a url whose fetch raises gives no record. *)
Lemma tribun_detail_step_fetch w u e :
  fetch w u = Raise e -> Tribun.detail_step w u = None.
Proof. intros H. unfold Tribun.detail_step. rewrite H. reflexivity. Qed.

(** A run of tribunnews over one list page with one article whose page
    cannot be fetched: the url is collected, and the table is empty. *)
Lemma C1_tribunnews_drops_counterexample :
  let a := Dom.Elem (lit "a")
             [(lit "href", lit "https://www.tribunnews.com/nasional/1234567/makan-bergizi")]
             [Dom.Text (lit "Makan bergizi gratis dimulai")] in
  let list_page := Dom.html [Dom.Elem (lit "body") [] [a]] in
  let w := World (fun url => if str_eqb url (Tribun.list_url 1) then Ok list_page
                             else Raise (FetchError "timeout"))
                 (lit "2025-12-17 10:00:00") in
  Tribun.listing w 1 1 [] =
    [lit "https://www.tribunnews.com/nasional/1234567/makan-bergizi?page=all"] /\
  Tribun.scrape_tribun_tag w 1 1 = [].
Proof. vm_compute. split; reflexivity. Qed.

(** Claim C1, amended. Let the fetch of the detail page of a url raise. The
    orchestrator of kompas appends the degraded record of the url (title of
    the list, date, content and author empty, the url itself) and its run
    returns one record for each collected url. The orchestrator of detik,
    once its variable [sources] has a value, appends the degraded record of
    the url (date and title of the list, content and author empty, the url
    itself) and goes on: from such a state its loop returns one record for
    each url left. The orchestrator of tribunnews appends nothing for the
    url and goes on with the urls left. *)
Theorem C1_detail_errors (w : world) (u : str) (e : exn)
    (author : Dom.node -> result str)
    (kompas_rows : list Kompas.row) (detik_rows : list Detik.row) :
  fetch w u = Raise e ->
  (* kompas *)
  Kompas.detail_step author w kompas_rows u
    = Article (lit "kompas") [] (Kompas.base_title (Kompas.base_of kompas_rows u))
              [] [] u (now w) /\
  (forall urls, map a_url (map (Kompas.detail_step author w kompas_rows) urls) = urls) /\
  (* detik *)
  (forall s o rest,
     Detik_scrape.detail_loop w detik_rows (Detik_scrape.State (Some s) o) (u :: rest)
     = Detik_scrape.detail_loop w detik_rows
         (Detik_scrape.State (Some s)
            (o ++ [Article s
                     (Detik_scrape.base_get (Detik_scrape.base_of detik_rows u)
                                            Detik.published_wib)
                     (Detik_scrape.base_get (Detik_scrape.base_of detik_rows u)
                                            Detik.title_list)
                     [] [] u (now w)])) rest) /\
  (forall s o urls, exists s' o',
     Detik_scrape.detail_loop w detik_rows (Detik_scrape.State (Some s) o) urls
       = Ok (Detik_scrape.State (Some s') (o ++ o')) /\
     map a_url o' = urls) /\
  (* tribunnews *)
  (forall rest out, Tribun.detail_loop w (u :: rest) out = Tribun.detail_loop w rest out).
Proof.
  intros H. repeat split.
  - apply (kompas_detail_step_degraded author w kompas_rows u e).
    apply kompas_detail_row_fetch. exact H.
  - intros urls. rewrite map_map. induction urls as [|x l IH]; [reflexivity|].
    cbn [map]. rewrite kompas_detail_step_url, IH. reflexivity.
  - intros s o rest. cbn [Detik_scrape.detail_loop].
    rewrite (detik_detail_step_degraded w detik_rows s o u e H). reflexivity.
  - intros s o urls. apply detik_detail_loop_bound.
  - intros rest out. cbn [Tribun.detail_loop].
    rewrite (tribun_detail_step_fetch w u e H). reflexivity.
Qed.

(** A world in which no page can be fetched, and a url of each list. *)
Lemma C1_detail_errors_witness :
  let w := World (fun _ => Raise (FetchError "timeout")) (lit "2025-12-17 10:00:00") in
  let u := lit "https://nasional.kompas.com/read/2025/12/17/09463351/mbg" in
  let kompas_rows := [Kompas.Row (lit "Makan bergizi gratis dimulai") u] in
  let detik_rows := [Detik.Row (lit "Rabu, 17 Des 2025 02:03 WIB") (lit "Dapur sekolah") u] in
  fetch w u = Raise (FetchError "timeout") /\
  Kompas.detail_step (fun _ => Ok []) w kompas_rows u
    = Article (lit "kompas") [] (lit "Makan bergizi gratis dimulai") [] [] u (now w) /\
  Detik_scrape.detail_loop w detik_rows (Detik_scrape.State (Some (lit "detik")) []) [u]
    = Ok (Detik_scrape.State (Some (lit "detik"))
            [Article (lit "detik") (lit "Rabu, 17 Des 2025 02:03 WIB") (lit "Dapur sekolah")
                     [] [] u (now w)]) /\
  Tribun.detail_loop w [u] [] = [].
Proof.
  intros w u kompas_rows detik_rows.
  assert (H : fetch w u = Raise (FetchError "timeout")) by reflexivity.
  destruct (C1_detail_errors w u (FetchError "timeout") (fun _ => Ok []) kompas_rows detik_rows H)
    as [Hk [_ [Hd [_ Ht]]]].
  split; [exact H|]. split; [exact Hk|]. split.
  - rewrite (Hd (lit "detik") [] []). reflexivity.
  - rewrite (Ht [] []). reflexivity.
Defined.

(** ** The variable [sources] of the orchestrator of detik *)

(** Claim C10, refuted. When the fetch of the first url of the second loop
    raises, the variable [sources] has no value yet: the handler, which
    reads it, raises [UnboundLocalError], and the loop ends with that
    exception, with no record for any url. *)
Theorem C10_handler_reads_unbound_sources (w : world) (list_rows : list Detik.row)
    (u : str) (rest : list str) (e : exn) :
  fetch w u = Raise e ->
  Detik_scrape.handler w (Detik_scrape.State None []) (Detik_scrape.base_of list_rows u) u
    = Raise (UnboundLocalError "sources") /\
  Detik_scrape.detail_loop w list_rows (Detik_scrape.State None []) (u :: rest)
    = Raise (UnboundLocalError "sources").
Proof.
  intros H. split; [reflexivity|].
  cbn [Detik_scrape.detail_loop].
  rewrite (detik_detail_step_unbound w list_rows [] u e H). reflexivity.
Qed.

(** A run over one list page with two articles; no article page can be
    fetched. *)
Lemma C10_handler_reads_unbound_sources_witness :
  let row1 := Dom.Elem (lit "a")
                [(lit "href", lit "https://news.detik.com/berita/d-8183382/makan-bergizi")]
                [Dom.Text (lit "detikNews Rabu, 17 Des 2025 02:03 WIB Makan bergizi gratis")] in
  let row2 := Dom.Elem (lit "a")
                [(lit "href", lit "https://news.detik.com/berita/d-8183383/dapur-sekolah")]
                [Dom.Text (lit "detikNews Rabu, 17 Des 2025 03:10 WIB Dapur sekolah")] in
  let list_page := Dom.html [Dom.Elem (lit "body") [] [row1; row2]] in
  let w := World (fun url => if str_eqb url (Detik_scrape.list_url (lit "time") 1)
                             then Ok list_page
                             else Raise (FetchError "timeout"))
                 (lit "2025-12-17 10:00:00") in
  let u1 := lit "https://news.detik.com/berita/d-8183382/makan-bergizi" in
  let u2 := lit "https://news.detik.com/berita/d-8183383/dapur-sekolah" in
  fetch w u1 = Raise (FetchError "timeout") /\
  Detik_scrape.detail_loop w [] (Detik_scrape.State None []) [u1; u2]
    = Raise (UnboundLocalError "sources") /\
  Detik_scrape.scrape_tag_news w 1 1 (lit "time") = Raise (UnboundLocalError "sources").
Proof.
  intros row1 row2 list_page w u1 u2.
  assert (H : fetch w u1 = Raise (FetchError "timeout")) by (vm_compute; reflexivity).
  split; [exact H|]. split.
  - exact (proj2 (C10_handler_reads_unbound_sources w [] u1 [u2] (FetchError "timeout") H)).
  - vm_compute. reflexivity.
Defined.

(** ** The title of a record *)

(** The title that a detail parser returns: the metadata [og:title], else
    the text of the first heading. *)
Lemma detik_title_detail soup u :
  Detik.title_detail (Detik.parse_detail_page soup u)
  = or_else (Detik.extract_meta soup None (Some (lit "og:title")))
            match Dom.select_one [Dom.by_tag "h1"] soup with
            | Some h1 => Detik.clean_text (Some (Dom.get_text_strip (lit " ") h1))
            | None => []
            end.
Proof. reflexivity. Qed.

Lemma kompas_title_detail author soup u d :
  Kompas.parse_detail_page author soup u = Ok d ->
  Kompas.title_detail d
  = or_else (Kompas.extract_meta soup None (Some (lit "og:title")))
            match Dom.select_one [Dom.by_tag "h1"] soup with
            | Some h1 => Kompas.clean_text (Some (Dom.get_text_strip (lit " ") h1))
            | None => []
            end.
Proof.
  unfold Kompas.parse_detail_page. cbv zeta. intros H.
  destruct (author soup) as [a|]; cbn [bind] in H; [|discriminate H].
  inversion H. reflexivity.
Qed.

(** kompas: the title of a record is the title of the detail page, and the
    title of the list when that one is empty. *)
Lemma kompas_detail_row_title author w base u a :
  Kompas.detail_row author w base u = Ok a ->
  exists html d,
    fetch w u = Ok html /\ Kompas.parse_detail_page author html u = Ok d /\
    judul a = or_else (Kompas.title_detail d) (Kompas.base_title base).
Proof.
  unfold Kompas.detail_row. intros H.
  bind_ok H html E1. bind_ok H d E2. cbv zeta in H. bind_ok H t E3.
  exists html, d. inversion H. split; [reflexivity|]. split; [exact E2 | reflexivity].
Qed.

(** Claim C7, refuted for detik. When the page of a url is fetched and its date
    is read, the record that the orchestrator of detik appends has the
    title of the list, whatever the title of the detail page is. *)
Theorem C7_detik_title_from_list (w : world) (list_rows : list Detik.row)
    (st : Detik_scrape.state) (u : str) (html : Dom.node) (t : str) :
  fetch w u = Ok html ->
  Detik_scrape.tanggal_of (Detik.parse_detail_page html u) (Detik_scrape.base_of list_rows u)
    = Ok t ->
  exists a,
    Detik_scrape.detail_step w list_rows st u
      = Ok (Detik_scrape.State (Some (lit "detik")) (Detik_scrape.out st ++ [a])) /\
    judul a = Detik_scrape.base_get (Detik_scrape.base_of list_rows u) Detik.title_list.
Proof.
  intros Hf Ht. unfold Detik_scrape.detail_step. cbv zeta. rewrite Hf.
  cbn [Detik_scrape.out Detik_scrape.sources]. rewrite Ht.
  eexists. split; reflexivity.
Qed.

(** A page whose metadata and heading give the title D, listed with the
    title L: the record has L. *)
Lemma C7_detik_title_from_list_witness :
  let page :=
    Dom.html
      [Dom.Elem (lit "head") []
         [Dom.Elem (lit "meta") [(lit "property", lit "og:title"); (lit "content", lit "D")] [];
          Dom.Elem (lit "meta") [(lit "property", lit "article:published_time");
                                 (lit "content", lit "2025-12-17T02:03:00+07:00")] []];
       Dom.Elem (lit "body") []
         [Dom.Elem (lit "h1") [] [Dom.Text (lit "D")];
          Dom.Elem (lit "article") [] [Dom.Elem (lit "p") [] [Dom.Text (lit "Isi berita.")]]]] in
  let u := lit "https://news.detik.com/berita/d-8183382/makan-bergizi" in
  let w := World (fun _ => Ok page) (lit "2025-12-17 10:00:00") in
  let list_rows := [Detik.Row (lit "Rabu, 17 Des 2025 02:03 WIB") (lit "L") u] in
  Detik.title_detail (Detik.parse_detail_page page u) = lit "D" /\
  exists a,
    Detik_scrape.detail_step w list_rows (Detik_scrape.State None []) u
      = Ok (Detik_scrape.State (Some (lit "detik")) [a]) /\
    judul a = lit "L".
Proof.
  intros page u w list_rows. split; [vm_compute; reflexivity|].
  assert (Hf : fetch w u = Ok page) by reflexivity.
  assert (Ht : Detik_scrape.tanggal_of (Detik.parse_detail_page page u)
                 (Detik_scrape.base_of list_rows u) = Ok (lit "2025-12-17 02:03:00"))
    by (vm_compute; reflexivity).
  destruct (C7_detik_title_from_list w list_rows (Detik_scrape.State None []) u page _ Hf Ht)
    as [a [E Ha]].
  exists a. split; [exact E|]. rewrite Ha. vm_compute. reflexivity.
Defined.

(** The record of that turn of the loop. *)
Example detik_title_example :
  let page :=
    Dom.html
      [Dom.Elem (lit "head") []
         [Dom.Elem (lit "meta") [(lit "property", lit "og:title"); (lit "content", lit "D")] [];
          Dom.Elem (lit "meta") [(lit "property", lit "article:published_time");
                                 (lit "content", lit "2025-12-17T02:03:00+07:00")] []];
       Dom.Elem (lit "body") []
         [Dom.Elem (lit "h1") [] [Dom.Text (lit "D")];
          Dom.Elem (lit "article") [] [Dom.Elem (lit "p") [] [Dom.Text (lit "Isi berita.")]]]] in
  let u := lit "https://news.detik.com/berita/d-8183382/makan-bergizi" in
  let w := World (fun _ => Ok page) (lit "2025-12-17 10:00:00") in
  let list_rows := [Detik.Row (lit "Rabu, 17 Des 2025 02:03 WIB") (lit "L") u] in
  Detik_scrape.detail_step w list_rows (Detik_scrape.State None []) u
    = Ok (Detik_scrape.State (Some (lit "detik"))
            [Article (lit "detik") (lit "2025-12-17 02:03:00") (lit "L") (lit "Isi berita.")
                     [] u (lit "2025-12-17 10:00:00")]).
Proof. vm_compute. reflexivity. Qed.

(** The same page and list in a run of kompas: the record has D. *)
Example kompas_title_example :
  let page :=
    Dom.html
      [Dom.Elem (lit "head") []
         [Dom.Elem (lit "meta") [(lit "property", lit "og:title"); (lit "content", lit "D")] []];
       Dom.Elem (lit "body") []
         [Dom.Elem (lit "h1") [] [Dom.Text (lit "H")];
          Dom.Elem (lit "article") [] [Dom.Elem (lit "p") [] [Dom.Text (lit "Isi berita.")]]]] in
  let u := lit "https://nasional.kompas.com/read/2025/12/17/09463351/mbg" in
  let w := World (fun _ => Ok page) (lit "2025-12-17 10:00:00") in
  judul (Kompas.detail_step (fun _ => Ok []) w [Kompas.Row (lit "L") u] u) = lit "D".
Proof. vm_compute. reflexivity. Qed.

(** ** The classifier wrapper *)

(** The label of the second model is mapped into the closed set, a
    spelling that the map does not have to NEUTRAL. *)
Lemma label_map_closed l :
  In (Dates.dict_get Sentiment.label_map_indobert l (lit "NEUTRAL")) Sentiment.sentiment_labels.
Proof.
  unfold Sentiment.label_map_indobert, Sentiment.sentiment_labels.
  cbn [Dates.dict_get].
  repeat match goal with
         | |- context [if ?b then _ else _] => destruct b
         end; cbn [In]; auto.
Qed.

Lemma label_map_unknown l :
  ~ In l (map fst Sentiment.label_map_indobert) ->
  Dates.dict_get Sentiment.label_map_indobert l (lit "NEUTRAL") = lit "NEUTRAL".
Proof.
  unfold Sentiment.label_map_indobert. cbn [Dates.dict_get map fst]. intros H.
  repeat match goal with
         | |- context [if str_eqb ?k l then _ else _] =>
             let E := fresh "E" in
             destruct (str_eqb k l) eqn:E;
             [apply str_eqb_eq in E; exfalso; apply H; rewrite <- E; cbn [In]; tauto|]
         end.
  reflexivity.
Qed.

Section Wrapper.
Variable score : Type.
Variable zero : score.
Variable round4 : score -> score.

(** What the body of the [try] returns, when it returns. *)
Lemma analyze_ok m text judul v :
  Sentiment.analyze round4 m text judul = Ok v ->
  exists r1 l1 r2 l2,
    Sentiment.model_roberta m (firstn 512 text) = Ok (r1 :: l1) /\
    Sentiment.model_indobert m (firstn 512 text) = Ok (r2 :: l2) /\
    Sentiment.s1 v = upper (Sentiment.label r1) /\
    Sentiment.c1 v = round4 (Sentiment.p_score r1) /\
    Sentiment.s2 v = Dates.dict_get Sentiment.label_map_indobert
                       (lower (Sentiment.label r2)) (lit "NEUTRAL") /\
    Sentiment.c2 v = round4 (Sentiment.p_score r2).
Proof.
  unfold Sentiment.analyze. cbv zeta. intros H.
  bind_ok H l1 E1. destruct l1 as [|r1 l1]; cbn [Sentiment.first bind] in H; [discriminate H|].
  bind_ok H l2 E2. destruct l2 as [|r2 l2]; cbn [Sentiment.first bind] in H; [discriminate H|].
  bind_ok H res_t E3. bind_ok H t E4. inversion H.
  exists r1, l1, r2, l2. repeat split; assumption.
Qed.

Lemma analyze_dual_short load_models text judul :
  truthy text = false \/ (List.length (strip text) < 15)%nat ->
  Sentiment.analyze_dual zero round4 load_models text judul = Ok (Sentiment.fail_safe zero).
Proof.
  intros H. unfold Sentiment.analyze_dual.
  destruct H as [H|H].
  - rewrite H. reflexivity.
  - apply Nat.ltb_lt in H. rewrite H, orb_true_r. reflexivity.
Qed.

End Wrapper.

(** The first model answers with a label of the form LABEL_2, which the
    map of the second model knows and the code of the first does not: the
    first label returned is outside the closed set. *)
Lemma C9_first_label_counterexample :
  let answer := Sentiment.Prediction (lit "label_2") 9876%N in
  let m := Sentiment.Models (fun _ => Ok [answer]) (fun _ => Ok [answer])
                            (fun _ _ => Ok (Some [lit "Anggaran"; lit "Lainnya"])) in
  Sentiment.analyze_dual 0%N (fun x => x) (Ok m)
    (lit "Program makan bergizi gratis dimulai hari ini") (lit "Makan bergizi gratis")
  = Ok (Sentiment.Verdict (lit "LABEL_2") 9876%N (lit "POSITIVE") 9876%N (lit "Anggaran")) /\
  existsb (str_eqb (lit "LABEL_2")) Sentiment.sentiment_labels = false.
Proof. vm_compute. split; reflexivity. Qed.

(** Claim C9, amended. With the models loaded, [analyze_dual] returns, and
    never raises. The label of the second model is one of POSITIVE,
    NEGATIVE and NEUTRAL, an unknown spelling being mapped to NEUTRAL. The
    label of the first model is the raw label of the model in upper case,
    with no map and no default; or the whole answer is the fail-safe
    default. The answer is the fail-safe default when the content is empty
    or, stripped, shorter than 15 characters, and when a call of a model or
    the reading of its result raises. *)
Theorem C9_analyze_dual (score : Type) (zero : score) (round4 : score -> score)
    (m : Sentiment.models score) (text judul : str) :
  exists v,
    Sentiment.analyze_dual zero round4 (Ok m) text judul = Ok v /\
    In (Sentiment.s2 v) Sentiment.sentiment_labels /\
    (v = Sentiment.fail_safe zero \/
     exists r1 l1 r2 l2,
       Sentiment.model_roberta m (firstn 512 text) = Ok (r1 :: l1) /\
       Sentiment.model_indobert m (firstn 512 text) = Ok (r2 :: l2) /\
       Sentiment.s1 v = upper (Sentiment.label r1) /\
       (~ In (lower (Sentiment.label r2)) (map fst Sentiment.label_map_indobert) ->
        Sentiment.s2 v = lit "NEUTRAL")) /\
    (truthy text = false \/ (List.length (strip text) < 15)%nat ->
     v = Sentiment.fail_safe zero) /\
    (forall e, Sentiment.analyze round4 m text judul = Raise e ->
     v = Sentiment.fail_safe zero).
Proof.
  assert (Hfs : In (Sentiment.s2 (Sentiment.fail_safe zero)) Sentiment.sentiment_labels)
    by (cbn; auto).
  destruct (negb (truthy text) || (List.length (strip text) <? 15)%nat) eqn:Eshort.
  - exists (Sentiment.fail_safe zero). unfold Sentiment.analyze_dual. rewrite Eshort.
    split; [reflexivity|]. split; [exact Hfs|]. split; [left; reflexivity|].
    split; intros; reflexivity.
  - assert (Hlong : ~ (truthy text = false \/ (List.length (strip text) < 15)%nat)).
    { apply orb_false_elim in Eshort. destruct Eshort as [E1 E2].
      apply negb_false_iff in E1. apply Nat.ltb_ge in E2.
      intros [H|H]; [congruence | lia]. }
    unfold Sentiment.analyze_dual. rewrite Eshort. cbn [bind].
    destruct (Sentiment.analyze round4 m text judul) as [v|e] eqn:Ea.
    + exists v. split; [reflexivity|].
      destruct (analyze_ok _ _ _ _ _ _ Ea) as [r1 [l1 [r2 [l2 [H1 [H2 [H3 [_ [H5 _]]]]]]]]].
      split; [rewrite H5; apply label_map_closed|].
      split.
      * right. exists r1, l1, r2, l2. repeat split; try assumption.
        intros Hu. rewrite H5. apply label_map_unknown. exact Hu.
      * split; [intros H; contradiction (Hlong H) | intros e H; discriminate H].
    + exists (Sentiment.fail_safe zero). split; [reflexivity|].
      split; [exact Hfs|]. split; [left; reflexivity|].
      split; intros; reflexivity.
Qed.

(** A second model that answers with an unknown spelling and a topic model
    that raises. *)
Lemma C9_analyze_dual_witness :
  let text := lit "Program makan bergizi gratis dimulai hari ini" in
  let m1 := Sentiment.Models (fun _ => Ok [Sentiment.Prediction (lit "positive") 9876%N])
                             (fun _ => Ok [Sentiment.Prediction (lit "Mixed") 5000%N])
                             (fun _ _ => Ok None) in
  let m2 := Sentiment.Models (fun _ => Ok [Sentiment.Prediction (lit "positive") 9876%N])
                             (fun _ => Ok [Sentiment.Prediction (lit "Mixed") 5000%N])
                             (fun _ _ => Raise (ValueError "topic")) in
  Sentiment.analyze_dual 0%N (fun x => x) (Ok m1) text []
    = Ok (Sentiment.Verdict (lit "POSITIVE") 9876%N (lit "NEUTRAL") 5000%N (lit "Lainnya")) /\
  Sentiment.analyze_dual 0%N (fun x => x) (Ok m2) text [] = Ok (Sentiment.fail_safe 0%N) /\
  Sentiment.analyze_dual 0%N (fun x => x) (Ok m1) (lit "terlalu pendek") []
    = Ok (Sentiment.fail_safe 0%N).
Proof.
  intros text m1 m2. split; [vm_compute; reflexivity|]. split.
  - destruct (C9_analyze_dual N 0%N (fun x => x) m2 text []) as [v [E [_ [_ [_ Hr]]]]].
    rewrite E. f_equal. apply (Hr (ValueError "topic")). vm_compute. reflexivity.
  - destruct (C9_analyze_dual N 0%N (fun x => x) m1 (lit "terlalu pendek") [])
      as [v [E [_ [_ [Hs _]]]]].
    rewrite E. f_equal. apply Hs. right. vm_compute. lia.
Defined.

(** The models are loaded outside the [try]: an exception of the loading
    leaves the wrapper. *)
Example analyze_dual_load_raises :
  Sentiment.analyze_dual 0%N (fun x => x) (Raise (ValueError "load"))
    (lit "Program makan bergizi gratis dimulai hari ini") []
  = Raise (ValueError "load").
Proof. vm_compute. reflexivity. Qed.

(* ================================================================== *)
(** * Part III: further properties of the code *)
(* ================================================================== *)

(** ** Cleaned texts *)

(** Property X1. [clean_text] of detik (the same line in kompas, tribunnews
    and tempo): no text gives the empty text; a cleaned text has no two
    white-space characters in a row and none at its ends, its only
    white-space character is the space, and cleaning it again changes
    nothing. *)
Theorem X1_clean_text_normal_form (s : option str) :
  Detik_text.clean_text None = [] /\
  has_space_pair (Detik_text.clean_text s) = false /\
  space_at_edge (Detik_text.clean_text s) = false /\
  forallb (fun c => negb (is_space c) || chr_eqb c 32) (Detik_text.clean_text s) = true /\
  Detik_text.clean_text (Some (Detik_text.clean_text s)) = Detik_text.clean_text s.
Proof.
  split; [reflexivity|]. split; [apply detik_clean_text_no_space_pair|].
  split; [apply detik_clean_text_no_space_at_edge|].
  split; [|apply detik_clean_text_idempotent].
  apply forallb_forall. intros c Hc.
  destruct (is_space c) eqn:E; [|reflexivity]. cbn [negb orb].
  rewrite detik_clean_text_eq in Hc. apply In_strip in Hc.
  rewrite (squeeze_space_only _ _ _ Hc E). reflexivity.
Qed.

(** Property X2. [clean_text] of republika: a cleaned text is made of ASCII
    characters that are no control characters and are letters, digits, the
    underscore, the space or one of the punctuation marks kept; it has no two
    spaces in a row and none at its ends; and cleaning it again changes
    nothing. *)
Theorem X2_republika_clean_text (s : option str) :
  Republika_text.clean_text None = [] /\
  forallb (fun c => in_range 32 126 c && Republika_text.kept c &&
                    (negb (is_space c) || chr_eqb c 32))
          (Republika_text.clean_text s) = true /\
  has_space_pair (Republika_text.clean_text s) = false /\
  space_at_edge (Republika_text.clean_text s) = false /\
  Republika_text.clean_text (Some (Republika_text.clean_text s))
    = Republika_text.clean_text s.
Proof.
  split; [reflexivity|]. split.
  - apply forallb_forall. intros c Hc.
    destruct (republika_clean_text_chars s c Hc) as [Ha [Hb [Hu Hs]]].
    unfold Republika_text.non_ascii in Ha. apply negb_false_iff in Ha.
    unfold Republika_text.control in Hb. apply orb_false_elim in Hb. destruct Hb as [Hb1 Hb2].
    unfold Republika_text.unwanted in Hu. apply negb_false_iff in Hu. rewrite Hu.
    assert (Hr : in_range 32 126 c = true).
    { unfold in_range in *. apply andb_true_iff in Ha. destruct Ha as [_ Ha].
      apply N.leb_le in Ha. apply andb_true_iff. split; apply N.leb_le.
      - destruct (N.leb_spec 0 c) as [H0|H0]; [|lia]. cbn [andb] in Hb1.
        apply N.leb_gt in Hb1. lia.
      - destruct (N.leb_spec 127 c) as [H0|H0]; [|lia]. cbn [andb] in Hb2.
        apply N.leb_gt in Hb2. lia. }
    rewrite Hr. cbn [andb].
    destruct (is_space c) eqn:E; [|reflexivity]. rewrite (Hs eq_refl). reflexivity.
  - split; [apply republika_clean_text_no_space_pair|].
    split; [apply republika_clean_text_no_space_at_edge|].
    apply republika_clean_text_idempotent.
Qed.

(** ** [normalize_url] of tribunnews and of republika *)

Lemma no_delimiter_no_question a :
  forallb (fun c => negb (Url.delimiter c)) a = true -> ~ In Url.question a.
Proof.
  intros H Hin. rewrite forallb_forall in H. specialize (H _ Hin).
  discriminate H.
Qed.

Lemma scheme_chars_no_question a :
  forallb Url.scheme_char a = true -> ~ In Url.question (lower a).
Proof.
  intros H Hin. unfold lower in Hin. apply in_map_iff in Hin.
  destruct Hin as [x [Hx Hin]]. rewrite forallb_forall in H. specialize (H _ Hin).
  unfold Url.scheme_char, lower_chr, is_alpha_ascii, is_upper_ascii, is_lower_ascii,
    is_digit_ascii, in_range, chr_eqb, Url.question in *.
  destruct (65 <=? x)%N eqn:E1, (x <=? 90)%N eqn:E2; simpl in Hx;
    repeat match goal with
           | H : (_ <=? _)%N = true |- _ => apply N.leb_le in H
           | H : (_ <=? _)%N = false |- _ => apply N.leb_gt in H
           end; try lia.
  all: subst x; vm_compute in H; discriminate.
Qed.

(** The components that [urlparse] returns have no question mark, the
    query and the fragment apart. *)
Lemma urlparse_no_question url p :
  Url.urlparse url [] = Ok p ->
  ~ In Url.question (Url.scheme p) /\ ~ In Url.question (Url.netloc p) /\
  ~ In Url.question (Url.path p) /\ ~ In Url.question (Url.params p).
Proof.
  unfold Url.urlparse. intros H. bind_ok H q E.
  assert (Hq : ~ In Url.question (Url.scheme q) /\ ~ In Url.question (Url.netloc q) /\
               ~ In Url.question (Url.path q) /\ Url.params q = []).
  { clear H. revert E. unfold Url.urlsplit.
    change (Url.remove_unsafe (Url.strip_c0 [])) with (@nil char).
    destruct (Url.split_scheme [] (Url.remove_unsafe (Url.lstrip_c0 url))) as [sch u1] eqn:Es.
    assert (Hsch : ~ In Url.question sch).
    { apply split_scheme_spec in Es. destruct Es as [[-> _]|[a [-> [Ha _]]]];
        [intros [] | apply scheme_chars_no_question; exact Ha]. }
    intros E. bind_ok E nu En. destruct nu as [nl u2].
    assert (Hnet : ~ In Url.question nl).
    { destruct (startswith [Url.slash; Url.slash] u1).
      - destruct (Url.splitnetloc (skipn 2 u1)) as [a b] eqn:Ea.
        destruct (Url.check_brackets a); cbn [bind] in En; inversion En; subst.
        apply splitnetloc_spec in Ea. apply no_delimiter_no_question. apply Ea.
      - inversion En. intros []. }
    destruct (Url.cut Url.hash u2) as [[a b]|] eqn:Eh.
    - destruct (Url.cut Url.question a) as [[a1 a2]|] eqn:Eq; inversion E; subst; cbn.
      + apply cut_some in Eq. destruct Eq as [_ Eq]. repeat split; assumption.
      + apply cut_none in Eq. repeat split; assumption.
    - destruct (Url.cut Url.question u2) as [[a1 a2]|] eqn:Eq; inversion E; subst; cbn.
      + apply cut_some in Eq. destruct Eq as [_ Eq]. repeat split; assumption.
      + apply cut_none in Eq. repeat split; assumption. }
  destruct Hq as (H1 & H2 & H3 & H4).
  destruct (Url.mem (Url.scheme q) Url.uses_params && existsb (chr_eqb Url.semicolon) (Url.path q)).
  - destruct (Url.splitparams (Url.path q)) as [a b] eqn:Es. inversion H; subst; cbn.
    repeat split; try assumption; intros Hin; apply H3;
      apply (splitparams_In _ _ _ _ Es); [left | right]; exact Hin.
  - inversion H; subst. rewrite H4. repeat split; try assumption. intros [].
Qed.

Lemma urlunparse_no_question p :
  ~ In Url.question (Url.scheme p) -> ~ In Url.question (Url.netloc p) ->
  ~ In Url.question (Url.path p) -> ~ In Url.question (Url.params p) ->
  Url.query p = [] -> Url.fragment p = [] ->
  ~ In Url.question (Url.urlunparse p).
Proof.
  intros H1 H2 H3 H4 H5 H6. unfold Url.urlunparse. rewrite H5, H6. cbn [truthy].
  intros Hin.
  repeat match type of Hin with
         | context [if ?b then _ else _] => destruct b
         end;
    in_cases Hin; solve [contradiction | discriminate Hin].
Qed.

(** Property X3. [normalize_url] of republika, whatever the base: a falsy
    reference gives the empty text, and a result has neither a question mark
    nor a hash sign, so neither query nor fragment. *)
Theorem X3_republika_normalize_url (u : option str) (base_url : str) :
  (match u with
   | None | Some [] => Republika_url.normalize_url u base_url = Ok []
   | _ => True
   end) /\
  match Republika_url.normalize_url u base_url with
  | Ok r => existsb (fun c => chr_eqb c Url.question || chr_eqb c Url.hash) r = false
  | Raise e => True
  end.
Proof.
  split; [destruct u as [[|x u]|]; [reflexivity | exact I | reflexivity]|].
  destruct (Republika_url.normalize_url u base_url) as [r|e] eqn:E; [|exact I].
  apply not_true_is_false. intros Hex. apply existsb_exists in Hex.
  destruct Hex as [c [Hin Hc]].
  unfold Republika_url.normalize_url in E. destruct u as [[|x u]|];
    try (inversion E; subst; destruct Hin).
  bind_ok E u1 E1. bind_ok E pu E2. inversion E; subst. clear E.
  pose proof (urlparse_no_hash _ _ E2) as (A1 & A2 & A3 & A4 & _).
  pose proof (urlparse_no_question _ _ E2) as (B1 & B2 & B3 & B4).
  apply orb_true_iff in Hc. destruct Hc as [Hc|Hc]; apply chr_eqb_eq in Hc; subst c.
  - revert Hin. apply urlunparse_no_question; cbn; auto.
  - revert Hin. apply urlunparse_no_hash; cbn; auto.
Qed.

(** An article reference of republika with tracking query and fragment. *)
Example republika_normalize_url_example :
  Republika_url.normalize_url
    (Some (lit "/berita/t7x1ab/makan-bergizi?utm_source=x&page=2#komentar"))
    Republika_url.BASE_URL
  = Ok (lit "https://republika.co.id/berita/t7x1ab/makan-bergizi").
Proof. vm_compute. reflexivity. Qed.

Lemma tribun_normalize_url_no_fragment u r :
  Tribun.normalize_url u = Ok r -> ~ In Url.hash r.
Proof.
  unfold Tribun.normalize_url. destruct u as [[|x u]|];
    try (intros H; inversion H; intros []).
  intros H. bind_ok H u1 E1. bind_ok H p E2.
  inversion H; subst. apply urlparse_no_hash in E2.
  destruct E2 as (H1 & H2 & H3 & H4 & H5).
  apply urlunparse_no_hash; cbn; auto.
Qed.

Lemma tribun_normalize_url_relative u :
  one_slash_reference u = true ->
  exists r, Tribun.normalize_url (Some u) = Ok r /\
            startswith (lit "https://www.tribunnews.com/") r = true.
Proof.
  intros Hu.
  assert (Hh : plain_host (lit "www.tribunnews.com") = true) by reflexivity.
  destruct (normalize_one_slash _ u Hh Hu) as (u1 & pa & prm & q & f & Hj & Hp).
  pose proof (one_slash_starts u Hu) as Hu1.
  unfold Tribun.normalize_url.
  destruct u as [|x u]; [discriminate Hu1|].
  rewrite Hu1. change Tribun.BASE with (lit "https://" ++ lit "www.tribunnews.com").
  rewrite Hj. cbn [bind]. rewrite Hp. cbn [bind].
  unfold Url.replace_fragment. cbn [Url.scheme Url.netloc Url.path Url.params Url.query].
  destruct (urlunparse_absolute (lit "www.tribunnews.com") (Url.slash :: pa) prm q []
              eq_refl eq_refl) as [w' Hw].
  rewrite Hw. eexists. split; [reflexivity|].
  change (lit "https://" ++ lit "www.tribunnews.com" ++ Url.slash :: w')
    with (lit "https://www.tribunnews.com/" ++ w').
  apply startswith_app.
Qed.

(** ** The loops over the list pages *)

Lemma kompas_listing_step w f count pg acc :
  Kompas.listing w f (S count) pg acc
  = (rows <- kompas_page w f pg ;;
     match rows with
     | [] => Ok acc
     | _ => Kompas.listing w f count (pg + 1)%N (acc ++ rows)
     end).
Proof.
  cbn [Kompas.listing]. unfold kompas_page.
  destruct (fetch w (f pg)); reflexivity.
Qed.

Lemma detik_listing_step w sortby count pg acc :
  Detik_scrape.listing w sortby (S count) pg acc
  = (rows <- detik_page w sortby pg ;;
     match rows with
     | [] => Ok acc
     | _ => Detik_scrape.listing w sortby count (pg + 1)%N
              (acc ++ filter Detik_scrape.not_video rows)
     end).
Proof.
  cbn [Detik_scrape.listing]. unfold detik_page.
  destruct (fetch w (Detik_scrape.list_url sortby pg)); reflexivity.
Qed.

Lemma kompas_listing_pages w f n : forall pg rows acc count,
  pages (kompas_page w f) n pg = Some rows ->
  (count = n -> Kompas.listing w f count pg acc = Ok (acc ++ rows)) /\
  ((n < count)%nat -> kompas_page w f (pg + N.of_nat n) = Ok [] ->
   Kompas.listing w f count pg acc = Ok (acc ++ rows)) /\
  ((n < count)%nat -> forall e, kompas_page w f (pg + N.of_nat n) = Raise e ->
   Kompas.listing w f count pg acc = Raise e).
Proof.
  induction n as [|n IH]; intros pg rows acc count H.
  - cbn [pages] in H. inversion H. subst rows. rewrite app_nil_r, N.add_0_r.
    split; [intros ->; reflexivity|].
    split; intros Hc; (destruct count as [|count]; [lia|]); rewrite kompas_listing_step.
    + intros ->. reflexivity.
    + intros e ->. reflexivity.
  - cbn [pages] in H.
    destruct (kompas_page w f pg) as [[|r rs]|] eqn:Ep; try discriminate H.
    destruct (pages (kompas_page w f) n (pg + 1)%N) as [rows'|] eqn:En; [|discriminate H].
    inversion H. subst rows. clear H.
    destruct (IH (pg + 1)%N rows' (acc ++ r :: rs) (pred count) En) as [I1 [I2 I3]].
    replace (pg + N.of_nat (S n))%N with (pg + 1 + N.of_nat n)%N by lia.
    pose proof (app_assoc acc (r :: rs) rows') as Ha. cbn [app] in Ha |- *. rewrite Ha.
    split; [|split]; intros Hc; (destruct count as [|count]; [lia|]);
      rewrite kompas_listing_step, Ep; cbn [bind Nat.pred] in *.
    + apply I1. lia.
    + apply I2. lia.
    + apply I3. lia.
Qed.

Lemma detik_listing_pages w sortby n : forall pg rows acc count,
  pages (detik_page w sortby) n pg = Some rows ->
  (count = n ->
   Detik_scrape.listing w sortby count pg acc
   = Ok (acc ++ filter Detik_scrape.not_video rows)) /\
  ((n < count)%nat -> detik_page w sortby (pg + N.of_nat n) = Ok [] ->
   Detik_scrape.listing w sortby count pg acc
   = Ok (acc ++ filter Detik_scrape.not_video rows)) /\
  ((n < count)%nat -> forall e, detik_page w sortby (pg + N.of_nat n) = Raise e ->
   Detik_scrape.listing w sortby count pg acc = Raise e).
Proof.
  induction n as [|n IH]; intros pg rows acc count H.
  - cbn [pages] in H. inversion H. subst rows. cbn [filter]. rewrite app_nil_r, N.add_0_r.
    split; [intros ->; reflexivity|].
    split; intros Hc; (destruct count as [|count]; [lia|]); rewrite detik_listing_step.
    + intros ->. reflexivity.
    + intros e ->. reflexivity.
  - cbn [pages] in H.
    destruct (detik_page w sortby pg) as [[|r rs]|] eqn:Ep; try discriminate H.
    destruct (pages (detik_page w sortby) n (pg + 1)%N) as [rows'|] eqn:En; [|discriminate H].
    assert (Hr : rows = (r :: rs) ++ rows') by (inversion H; reflexivity).
    rewrite Hr. clear H Hr.
    destruct (IH (pg + 1)%N rows' (acc ++ filter Detik_scrape.not_video (r :: rs))
                 (pred count) En) as [I1 [I2 I3]].
    replace (pg + N.of_nat (S n))%N with (pg + 1 + N.of_nat n)%N by lia.
    rewrite filter_app, (app_assoc acc _ _).
    split; [|split]; intros Hc; (destruct count as [|count]; [lia|]);
      rewrite detik_listing_step, Ep; cbn [bind Nat.pred] in *.
    + apply I1. lia.
    + apply I2. lia.
    + apply I3. lia.
Qed.

(** Property X4. The first loop of detik and, apart from it, that of
    kompas. When the first [n] pages of a site are read without exception
    and each has rows, the loop over [count] pages collects their rows in
    order (detik: those whose title has not the word video) if [count] is
    [n] or if the next page has no row: the first page without rows ends
    the loop; and if reading the next page raises, the loop ends with that
    exception, which nothing catches. *)
Theorem X4_list_phase_pages :
  (forall (w : world) (sortby : str) (n count : nat) (pg : N) (drows : list Detik.row),
     pages (detik_page w sortby) n pg = Some drows ->
     (n <= count)%nat ->
     ((count = n \/ detik_page w sortby (pg + N.of_nat n) = Ok []) ->
      Detik_scrape.listing w sortby count pg []
      = Ok (filter (fun r => no_video (Detik.title_list r)) drows)) /\
     (forall e, (n < count)%nat -> detik_page w sortby (pg + N.of_nat n) = Raise e ->
      Detik_scrape.listing w sortby count pg [] = Raise e)) /\
  (forall (w : world) (list_url : N -> str) (n count : nat) (pg : N)
          (krows : list Kompas.row),
     pages (kompas_page w list_url) n pg = Some krows ->
     (n <= count)%nat ->
     ((count = n \/ kompas_page w list_url (pg + N.of_nat n) = Ok []) ->
      Kompas.listing w list_url count pg [] = Ok krows) /\
     (forall e, (n < count)%nat -> kompas_page w list_url (pg + N.of_nat n) = Raise e ->
      Kompas.listing w list_url count pg [] = Raise e)).
Proof.
  split.
  - intros w sortby n count pg drows Hd Hn.
    destruct (detik_listing_pages w sortby n pg drows [] count Hd) as [D1 [D2 D3]].
    split.
    + intros [H|H]; [exact (D1 H)|].
      destruct (Nat.eq_dec count n) as [E|E]; [exact (D1 E) | apply D2; [lia | exact H]].
    + intros e Hc He. exact (D3 Hc e He).
  - intros w list_url n count pg krows Hk Hn.
    destruct (kompas_listing_pages w list_url n pg krows [] count Hk) as [K1 [K2 K3]].
    split.
    + intros [H|H]; [exact (K1 H)|].
      destruct (Nat.eq_dec count n) as [E|E]; [exact (K1 E) | apply K2; [lia | exact H]].
    + intros e Hc He. exact (K3 Hc e He).
Qed.

(** A world with one list page of detik, after which the pages are empty,
    and one list page of kompas, after which reading fails: the loop of
    detik ends at its empty page, that of kompas raises. *)
Lemma X4_list_phase_pages_witness :
  let d1 := Dom.Elem (lit "a")
              [(lit "href", lit "https://news.detik.com/berita/d-8183382/makan-bergizi")]
              [Dom.Text (lit "detikNews Rabu, 17 Des 2025 02:03 WIB Makan bergizi gratis")] in
  let d2 := Dom.Elem (lit "a")
              [(lit "href", lit "https://20.detik.com/detikupdate/d-8183390/mbg")]
              [Dom.Text (lit "20Detik Rabu, 17 Des 2025 04:00 WIB Video: dapur MBG")] in
  let k1 := Dom.Elem (lit "a")
              [(lit "href", lit "https://nasional.kompas.com/read/2025/12/17/09463351/mbg")]
              [Dom.Text (lit "Makan bergizi gratis dimulai")] in
  let kompas_url := Kompas.list_url (lit "mbg") (lit "latest") (lit "all") (lit "all") in
  let w := World (fun url =>
                    if str_eqb url (Detik_scrape.list_url (lit "time") 1)
                    then Ok (Dom.html [Dom.Elem (lit "body") [] [d1; d2]])
                    else if str_eqb url (kompas_url 1%N)
                    then Ok (Dom.html [Dom.Elem (lit "body") [] [k1]])
                    else if startswith Detik_scrape.TAG_URL url
                    then Ok (Dom.html [])
                    else Raise (FetchError "timeout"))
                 (lit "2025-12-17 10:00:00") in
  Detik_scrape.listing w (lit "time") 3 1 []
    = Ok [Detik.Row (lit "Rabu, 17 Des 2025 02:03 WIB") (lit "Makan bergizi gratis")
                    (lit "https://news.detik.com/berita/d-8183382/makan-bergizi")] /\
  Kompas.listing w kompas_url 1 1 []
    = Ok [Kompas.Row (lit "Makan bergizi gratis dimulai")
                     (lit "https://nasional.kompas.com/read/2025/12/17/09463351/mbg")] /\
  Kompas.listing w kompas_url 3 1 [] = Raise (FetchError "timeout").
Proof.
  intros d1 d2 k1 kompas_url w.
  assert (Hd : pages (detik_page w (lit "time")) 1 1
               = Some [Detik.Row (lit "Rabu, 17 Des 2025 02:03 WIB")
                                 (lit "Makan bergizi gratis")
                                 (lit "https://news.detik.com/berita/d-8183382/makan-bergizi");
                       Detik.Row (lit "Rabu, 17 Des 2025 04:00 WIB")
                                 (lit "Video: dapur MBG")
                                 (lit "https://20.detik.com/detikupdate/d-8183390/mbg")])
    by (vm_compute; reflexivity).
  assert (Hk : pages (kompas_page w kompas_url) 1 1
               = Some [Kompas.Row (lit "Makan bergizi gratis dimulai")
                         (lit "https://nasional.kompas.com/read/2025/12/17/09463351/mbg")])
    by (vm_compute; reflexivity).
  assert (Hle : (1 <= 3)%nat) by lia.
  destruct (proj1 X4_list_phase_pages w (lit "time") 1 3 1%N _ Hd Hle) as [D _].
  destruct (proj2 X4_list_phase_pages w kompas_url 1 1 1%N _ Hk (le_n 1)) as [K1 _].
  destruct (proj2 X4_list_phase_pages w kompas_url 1 3 1%N _ Hk Hle) as [_ K3].
  split; [|split].
  - rewrite D; [vm_compute; reflexivity | right; vm_compute; reflexivity].
  - rewrite K1; [reflexivity | left; reflexivity].
  - apply K3; [lia | vm_compute; reflexivity].
Defined.

(** ** The urls of a run *)

Lemma fromkeys_first_seen urls : forall seen,
  fromkeys urls seen = first_seen (fun u => u) urls seen.
Proof.
  induction urls as [|u urls IH]; intros seen; cbn [fromkeys first_seen]; [reflexivity|].
  destruct (existsb (str_eqb u) seen); [apply IH | rewrite IH; reflexivity].
Qed.

Lemma fromkeys_NoDup urls : NoDup (fromkeys urls []).
Proof.
  rewrite fromkeys_first_seen.
  rewrite <- (map_id (first_seen (fun u => u) urls [])).
  apply (first_seen_NoDup str (fun u => u)).
Qed.

Lemma fromkeys_In urls u : In u (fromkeys urls []) <-> In u urls.
Proof.
  rewrite fromkeys_first_seen. split.
  - apply first_seen_In.
  - intros H. destruct (first_seen_covers str (fun u => u) urls [] u H) as [[]|H'].
    rewrite map_id in H'. exact H'.
Qed.

Lemma fromkeys_subseq urls : subseq (fromkeys urls []) urls.
Proof. rewrite fromkeys_first_seen. apply first_seen_subseq. Qed.

Lemma fromkeys_length urls : List.length (fromkeys urls []) = distinct urls.
Proof.
  rewrite fromkeys_first_seen, (first_seen_length str (fun u => u)), map_id. reflexivity.
Qed.

Lemma find_some_url (R : Type) (url : R -> str) rows u :
  In u (map url rows) ->
  exists r, find (fun x => str_eqb (url x) u) rows = Some r /\ In r rows /\ url r = u.
Proof.
  intros H. apply in_map_iff in H. destruct H as [r0 [Hu Hin]].
  destruct (find (fun x => str_eqb (url x) u) rows) as [r|] eqn:E.
  - apply find_some in E. destruct E as [E1 E2]. apply str_eqb_eq in E2.
    exists r. repeat split; assumption.
  - exfalso. apply (find_none _ _ E) in Hin. rewrite Hu, str_eqb_refl in Hin.
    discriminate Hin.
Qed.

(** kompas: the record of a url; its source and its time stamp. *)
Lemma kompas_detail_step_fields author w list_rows u :
  sumber (Kompas.detail_step author w list_rows u) = lit "kompas" /\
  created_at (Kompas.detail_step author w list_rows u) = now w.
Proof.
  unfold Kompas.detail_step. cbv zeta.
  destruct (Kompas.detail_row author w _ u) as [a|e] eqn:E; [|split; reflexivity].
  unfold Kompas.detail_row in E.
  bind_ok E html E1. bind_ok E d E2. cbv zeta in E. bind_ok E t E3.
  inversion E. split; reflexivity.
Qed.

(** Property X5. A run of kompas whose first loop returns: the run returns
    a table with exactly one record for each distinct url of the list rows,
    in the order in which the urls were first seen, whatever happens on the
    detail pages; each record has the source kompas and the time stamp of
    the run. *)
Theorem X5_kompas_run_records (author : Dom.node -> result str) (w : world)
    (query sort site_id last_date : str) (page_start page_end : N)
    (list_rows : list Kompas.row) :
  Kompas.listing w (Kompas.list_url query sort site_id last_date)
    (N.to_nat (page_end + 1 - page_start)) page_start [] = Ok list_rows ->
  exists out,
    Kompas.scrape_kompas_search author w query page_start page_end sort site_id last_date
      = Ok out /\
    map a_url out = fromkeys (map Kompas.url list_rows) [] /\
    NoDup (map a_url out) /\
    List.length out = distinct (map Kompas.url list_rows) /\
    (forall r, In r list_rows -> In (Kompas.url r) (map a_url out)) /\
    Forall (fun a => sumber a = lit "kompas" /\ created_at a = now w) out.
Proof.
  intros H.
  destruct (kompas_scrape_urls author w query page_start page_end sort site_id last_date
              list_rows H) as [out [E Hu]].
  exists out. split; [exact E|]. split; [exact Hu|].
  split; [rewrite Hu; apply fromkeys_NoDup|].
  split; [rewrite <- (length_map a_url), Hu; apply fromkeys_length|].
  split.
  - intros r Hr. rewrite Hu. apply fromkeys_In. apply in_map. exact Hr.
  - unfold Kompas.scrape_kompas_search in E. rewrite H in E. cbn [bind] in E.
    inversion E. apply Forall_forall. intros a Ha. apply in_map_iff in Ha.
    destruct Ha as [u [<- _]]. apply kompas_detail_step_fields.
Qed.

(** A run of kompas over one list page with two links to one article; the
    page of the article cannot be fetched. *)
Lemma X5_kompas_run_records_witness :
  let k1 := Dom.Elem (lit "a")
              [(lit "href", lit "https://nasional.kompas.com/read/2025/12/17/09463351/mbg")]
              [Dom.Text (lit "Makan bergizi gratis dimulai")] in
  let kompas_url := Kompas.list_url (lit "mbg") (lit "latest") (lit "all") (lit "all") in
  let w := World (fun url => if str_eqb url (kompas_url 1%N)
                             then Ok (Dom.html [Dom.Elem (lit "body") [] [k1; k1]])
                             else Raise (FetchError "timeout"))
                 (lit "2025-12-17 10:00:00") in
  exists out,
    Kompas.scrape_kompas_search (fun _ => Ok []) w (lit "mbg") 1 1
      (lit "latest") (lit "all") (lit "all") = Ok out /\
    map a_url out = [lit "https://nasional.kompas.com/read/2025/12/17/09463351/mbg"].
Proof.
  intros k1 kompas_url w.
  assert (H : Kompas.listing w kompas_url (N.to_nat (1 + 1 - 1)) 1 []
              = Ok [Kompas.Row (lit "Makan bergizi gratis dimulai")
                      (lit "https://nasional.kompas.com/read/2025/12/17/09463351/mbg")])
    by (vm_compute; reflexivity).
  destruct (X5_kompas_run_records (fun _ => Ok []) w (lit "mbg") (lit "latest") (lit "all")
              (lit "all") 1 1 _ H) as [out [E [Hu _]]].
  exists out. split; [exact E|]. rewrite Hu. vm_compute. reflexivity.
Defined.

(** detik: a turn of the second loop when the variable [sources] has the
    name of the site, or when the page is fetched. *)
Lemma detik_detail_step_record w list_rows so o u :
  (so = Some (lit "detik") \/ (so = None /\ is_ok (fetch w u) = true)) ->
  exists a,
    Detik_scrape.detail_step w list_rows (Detik_scrape.State so o) u
      = Ok (Detik_scrape.State (Some (lit "detik")) (o ++ [a])) /\
    a_url a = u /\ sumber a = lit "detik" /\ created_at a = now w /\
    judul a = Detik_scrape.base_get (Detik_scrape.base_of list_rows u) Detik.title_list.
Proof.
  intros H. unfold Detik_scrape.detail_step. cbv zeta.
  destruct (fetch w u) as [html|e].
  - cbn [Detik_scrape.out Detik_scrape.sources].
    destruct (Detik_scrape.tanggal_of _ _) as [t|e].
    + eexists. split; [reflexivity|]. repeat split.
    + unfold Detik_scrape.handler. cbn [Detik_scrape.out Detik_scrape.sources].
      eexists. split; [reflexivity|]. repeat split.
  - destruct H as [->|[_ H]]; [|discriminate H].
    unfold Detik_scrape.handler. cbn [Detik_scrape.out Detik_scrape.sources].
    eexists. split; [reflexivity|]. repeat split.
Qed.

Lemma detik_detail_loop_records w list_rows urls : forall o,
  exists o',
    Detik_scrape.detail_loop w list_rows (Detik_scrape.State (Some (lit "detik")) o) urls
      = Ok (Detik_scrape.State (Some (lit "detik")) (o ++ o')) /\
    map a_url o' = urls /\
    Forall (fun a => sumber a = lit "detik" /\ created_at a = now w /\
                     judul a = Detik_scrape.base_get
                                 (Detik_scrape.base_of list_rows (a_url a)) Detik.title_list) o'.
Proof.
  induction urls as [|u urls IH]; intros o; cbn [Detik_scrape.detail_loop].
  - exists []. rewrite app_nil_r. repeat split. constructor.
  - destruct (detik_detail_step_record w list_rows (Some (lit "detik")) o u (or_introl eq_refl))
      as [a [E [Ha [Hs [Hc Hj]]]]].
    rewrite E. cbn [bind]. destruct (IH (o ++ [a])) as [o2 [E2 [Hu Hf]]].
    exists (a :: o2). rewrite E2, <- app_assoc. cbn [app map]. rewrite Ha, Hu.
    repeat split. constructor; [|exact Hf]. rewrite Ha. repeat split; assumption.
Qed.

Lemma detik_listing_no_video w sortby count : forall pg acc rows,
  Forall (fun r => no_video (Detik.title_list r) = true) acc ->
  Detik_scrape.listing w sortby count pg acc = Ok rows ->
  Forall (fun r => no_video (Detik.title_list r) = true) rows.
Proof.
  induction count as [|count IH]; intros pg acc rows Ha H.
  - cbn [Detik_scrape.listing] in H. inversion H. subst. exact Ha.
  - rewrite detik_listing_step in H. bind_ok H r E.
    destruct r as [|r0 r]; [inversion H; subst; exact Ha|].
    apply (IH (pg + 1)%N (acc ++ filter Detik_scrape.not_video (r0 :: r)) rows); [|exact H].
    apply Forall_app. split; [exact Ha|].
    apply Forall_forall. intros x Hx. apply filter_In in Hx. apply Hx.
Qed.

(** Property X6. A run of detik whose first loop returns and in which the
    page of the first url is fetched (or no url is collected): the run
    returns a table with exactly one record for each distinct url of the
    list rows, in first-seen order; each record has the source detik, the
    time stamp of the run and the title of the list, that of the first list
    row with the url of the record, and no title has the word video, in
    whatever case. *)
Theorem X6_detik_run_records (w : world) (page_start page_end : N) (sortby : str)
    (list_rows : list Detik.row) :
  Detik_scrape.listing w sortby (N.to_nat (page_end + 1 - page_start)) page_start []
    = Ok list_rows ->
  match fromkeys (map Detik.url list_rows) [] with
  | [] => True
  | u :: _ => is_ok (fetch w u) = true
  end ->
  exists out,
    Detik_scrape.scrape_tag_news w page_start page_end sortby = Ok out /\
    map a_url out = fromkeys (map Detik.url list_rows) [] /\
    NoDup (map a_url out) /\
    Forall (fun a => sumber a = lit "detik" /\ created_at a = now w /\
                     (exists r, Detik_scrape.base_of list_rows (a_url a) = Some r /\
                                In r list_rows /\ Detik.url r = a_url a /\
                                judul a = Detik.title_list r) /\
                     no_video (judul a) = true) out.
Proof.
  intros Hl Hf.
  pose proof (detik_listing_no_video w sortby _ _ [] list_rows (Forall_nil _) Hl) as Hv.
  assert (Hrec : exists o',
             Detik_scrape.detail_loop w list_rows (Detik_scrape.State None [])
               (fromkeys (map Detik.url list_rows) [])
               = Ok (Detik_scrape.State
                       (match fromkeys (map Detik.url list_rows) [] with
                        | [] => None | _ => Some (lit "detik") end) o') /\
             map a_url o' = fromkeys (map Detik.url list_rows) [] /\
             Forall (fun a => sumber a = lit "detik" /\ created_at a = now w /\
                              judul a = Detik_scrape.base_get
                                          (Detik_scrape.base_of list_rows (a_url a))
                                          Detik.title_list) o').
  { destruct (fromkeys (map Detik.url list_rows) []) as [|u urls].
    - exists []. repeat split. constructor.
    - cbn [Detik_scrape.detail_loop].
      destruct (detik_detail_step_record w list_rows None [] u (or_intror (conj eq_refl Hf)))
        as [a [E [Ha [Hs [Hc Hj]]]]].
      rewrite E. cbn [bind app].
      destruct (detik_detail_loop_records w list_rows urls [a]) as [o2 [E2 [Hu Hf2]]].
      exists (a :: o2). rewrite E2. cbn [app map]. rewrite Ha, Hu. repeat split.
      constructor; [|exact Hf2]. rewrite Ha. repeat split; assumption. }
  destruct Hrec as [out [E [Hu Hfa]]].
  exists out. unfold Detik_scrape.scrape_tag_news. rewrite Hl. cbn [bind]. rewrite E.
  cbn [bind Detik_scrape.out]. split; [reflexivity|]. split; [exact Hu|].
  split; [rewrite Hu; apply fromkeys_NoDup|].
  apply Forall_forall. intros a Ha. rewrite Forall_forall in Hfa.
  destruct (Hfa a Ha) as [H1 [H2 H3]]. split; [exact H1|]. split; [exact H2|].
  assert (Hin : In (a_url a) (map Detik.url list_rows)).
  { apply fromkeys_In. rewrite <- Hu. apply in_map. exact Ha. }
  destruct (find_some_url _ Detik.url list_rows (a_url a) Hin) as [r [Er [Hr Hur]]].
  assert (Hj : judul a = Detik.title_list r).
  { rewrite H3. unfold Detik_scrape.base_of. rewrite Er. reflexivity. }
  split.
  - exists r. repeat split; assumption.
  - rewrite Hj. rewrite Forall_forall in Hv. apply Hv. exact Hr.
Qed.

(** A run of detik over one list page with an article and a video; the page
    of the article is fetched. *)
Lemma X6_detik_run_records_witness :
  let d1 := Dom.Elem (lit "a")
              [(lit "href", lit "https://news.detik.com/berita/d-8183382/makan-bergizi")]
              [Dom.Text (lit "detikNews Rabu, 17 Des 2025 02:03 WIB Makan bergizi gratis")] in
  let d2 := Dom.Elem (lit "a")
              [(lit "href", lit "https://20.detik.com/detikupdate/d-8183390/mbg")]
              [Dom.Text (lit "20Detik Rabu, 17 Des 2025 04:00 WIB Video: dapur MBG")] in
  let article := Dom.html [Dom.Elem (lit "body") []
                   [Dom.Elem (lit "article") []
                      [Dom.Elem (lit "p") [] [Dom.Text (lit "Isi berita.")]]]] in
  let w := World (fun url => if str_eqb url (Detik_scrape.list_url (lit "time") 1)
                             then Ok (Dom.html [Dom.Elem (lit "body") [] [d1; d2]])
                             else Ok article)
                 (lit "2025-12-17 10:00:00") in
  exists out,
    Detik_scrape.scrape_tag_news w 1 1 (lit "time") = Ok out /\
    map a_url out = [lit "https://news.detik.com/berita/d-8183382/makan-bergizi"] /\
    map judul out = [lit "Makan bergizi gratis"].
Proof.
  intros d1 d2 article w.
  assert (H : Detik_scrape.listing w (lit "time") (N.to_nat (1 + 1 - 1)) 1 []
              = Ok [Detik.Row (lit "Rabu, 17 Des 2025 02:03 WIB") (lit "Makan bergizi gratis")
                      (lit "https://news.detik.com/berita/d-8183382/makan-bergizi")])
    by (vm_compute; reflexivity).
  destruct (X6_detik_run_records w 1 1 (lit "time") _ H) as [out [E [Hu [_ Hfa]]]];
    [vm_compute; reflexivity|].
  assert (Hu1 : map a_url out = [lit "https://news.detik.com/berita/d-8183382/makan-bergizi"])
    by (rewrite Hu; vm_compute; reflexivity).
  exists out. split; [exact E|]. split; [exact Hu1|].
  destruct out as [|a [|b out]]; try discriminate Hu1.
  injection Hu1 as Ha. inversion Hfa as [|? ? [_ [_ [[r [Hb [_ [_ Hj]]]] _]]] _].
  cbn [map]. rewrite Hj. rewrite Ha in Hb. vm_compute in Hb.
  injection Hb as <-. reflexivity.
Defined.

(** tribunnews: the second loop appends the records of the urls whose page
    is fetched. *)
Lemma tribun_detail_loop_records w urls : forall out,
  exists out',
    Tribun.detail_loop w urls out = out ++ out' /\
    map a_url out' = filter (fun u => is_ok (fetch w u)) urls /\
    Forall (fun a => sumber a = lit "tribunnews" /\ created_at a = now w /\
                     space_at_edge (judul a) = false /\
                     space_at_edge (a_content a) = false) out'.
Proof.
  induction urls as [|u urls IH]; intros out; cbn [Tribun.detail_loop filter].
  - exists []. rewrite app_nil_r. repeat split. constructor.
  - unfold Tribun.detail_step. destruct (fetch w u) as [html|e]; cbn [is_ok].
    + destruct (IH (out ++ [Article (lit "tribunnews")
                      (Tribun.published_final (Tribun.parse_detail_page html u))
                      (strip (replace (lit "Tribunnews.com") []
                                (Tribun.title_detail (Tribun.parse_detail_page html u))))
                      (strip (replace (lit "Tribunnews.com") []
                                (Tribun.content (Tribun.parse_detail_page html u))))
                      (Tribun.author (Tribun.parse_detail_page html u)) u (now w)]))
        as [o2 [E [Hu Hf]]].
      eexists (_ :: o2). rewrite E, <- app_assoc. cbn [app map]. rewrite Hu.
      repeat split. constructor; [|exact Hf].
      cbn [sumber created_at judul a_content]. repeat split; apply space_at_edge_strip.
    + destruct (IH out) as [o2 [E [Hu Hf]]]. exists o2. repeat split; assumption.
Qed.

(** Property X7. A run of tribunnews always returns a table: it has one
    record for each collected distinct url whose page is fetched, in the
    order of the urls, and none for the others; no url is there twice; each
    record has the source tribunnews and the time stamp of the run, and its
    title and content have no white space at their ends. *)
Theorem X7_tribun_run_records (w : world) (page_start page_end : N) :
  let urls :=
    fromkeys (Tribun.listing w (N.to_nat (page_end + 1 - page_start)) page_start []) [] in
  let out := Tribun.scrape_tribun_tag w page_start page_end in
  map a_url out = filter (fun u => is_ok (fetch w u)) urls /\
  NoDup (map a_url out) /\
  Forall (fun a => sumber a = lit "tribunnews" /\ created_at a = now w /\
                   space_at_edge (judul a) = false /\
                   space_at_edge (a_content a) = false) out.
Proof.
  cbv zeta. unfold Tribun.scrape_tribun_tag. cbv zeta.
  destruct (tribun_detail_loop_records w
              (fromkeys (Tribun.listing w (N.to_nat (page_end + 1 - page_start))
                           page_start []) []) []) as [out [E [Hu Hf]]].
  rewrite E. cbn [app]. split; [exact Hu|]. split; [|exact Hf].
  rewrite Hu. apply NoDup_filter. apply fromkeys_NoDup.
Qed.

(** ** The date of a record *)

Lemma is_canonical_no_w (s : str) : Datespec.is_canonical s = true -> ~ In 87%N s.
Proof.
  unfold Datespec.is_canonical.
  do 20 (destruct s as [|? s]; try discriminate).
  intros H Hin. cbn [forallb] in H.
  repeat match goal with
         | H : (_ && _)%bool = true |- _ => apply andb_true_iff in H; destruct H
         end.
  in_cases Hin; subst;
    match goal with
    | H : is_digit_ascii 87 = true |- _ => discriminate H
    | H : chr_eqb 87 _ = true |- _ => discriminate H
    end.
Qed.

(** Deleting the suffix from a text that has not the letter W. *)
Lemma replace_wib_suffix (s : str) :
  ~ In 87%N s -> replace (lit " WIB") [] (s ++ lit " WIB") = s.
Proof.
  unfold replace. induction s as [|x s IH]; intros H; [reflexivity|].
  cbn [app replace_go].
  assert (E : startswith (lit " WIB") (x :: s ++ lit " WIB") = false).
  { change (lit " WIB") with [32; 87; 73; 66]%N. cbn [startswith].
    destruct s as [|y s]; cbn [app].
    - apply andb_false_r.
    - destruct (chr_eqb 87 y) eqn:Ey; [|apply andb_false_r].
      apply chr_eqb_eq in Ey. exfalso. apply H. right. left. symmetry. exact Ey. }
  rewrite E. f_equal. apply IH. intros Hin. apply H. right. exact Hin.
Qed.

(** Property X8. The date of a record of detik and of kompas, when the page
    gives the time of publication as an ISO text of valid fields, with or
    without designator, of the WIB era: it is the clock time of Jakarta,
    seven hours ahead of UTC, in the shape [YYYY-MM-DD HH:MM:SS], without
    the letters WIB; the date of the list or of the page is not looked at. *)
Theorem X8_record_date_from_iso (sep : char) (y m d hh mm ss : Z) (z : Datespec.designator)
    (dd : Detik.detail) (base : option Detik.row)
    (author : Dom.node -> result str) (w : world) (kbase : option Kompas.row)
    (u : str) (html : Dom.node) (kd : Kompas.detail) :
  Datespec.valid_fields y m d hh mm ss = true ->
  Datespec.valid_designator z = true ->
  Datespec.wib_era (Datespec.clock y m d hh mm ss - Datespec.designator_seconds z) = true ->
  let text := Datespec.iso_text sep y m d hh mm ss (Datespec.designator_text z) in
  let local := (Datespec.clock y m d hh mm ss - Datespec.designator_seconds z + 25200)%Z in
  Detik.published_time_iso dd = text ->
  fetch w u = Ok html ->
  Kompas.parse_detail_page author html u = Ok kd ->
  Kompas.published_time_iso kd = text ->
  Detik_scrape.tanggal_of dd base = Ok (Datespec.canonical_text local) /\
  (exists a, Kompas.detail_row author w kbase u = Ok a /\
             tanggal a = Datespec.canonical_text local) /\
  Datespec.is_canonical (Datespec.canonical_text local) = true.
Proof.
  intros Hv Hz He text local Hd Hf Hp Hk.
  destruct (iso_to_wib_text sep y m d hh mm ss z Hv Hz He) as [H1 _].
  fold text in H1. fold local in H1.
  assert (Hc : Datespec.is_canonical (Datespec.canonical_text local) = true).
  { apply canonical_text_shape. subst local.
    unfold Datespec.wib_era in He. apply andb_true_iff in He. destruct He as [He _].
    apply Z.leb_le in He. lia. }
  assert (Ht : truthy (Datespec.canonical_text local ++ lit " WIB") = true).
  { destruct (Datespec.canonical_text local); reflexivity. }
  split; [|split; [|exact Hc]].
  - unfold Detik_scrape.tanggal_of. cbv zeta. rewrite Hd, H1, Ht.
    rewrite (replace_wib_suffix _ (is_canonical_no_w _ Hc)). reflexivity.
  - unfold Kompas.detail_row. rewrite Hf. cbn [bind]. rewrite Hp. cbn [bind]. cbv zeta.
    rewrite Hk, H1, Ht. cbn [bind].
    rewrite (replace_wib_suffix _ (is_canonical_no_w _ Hc)).
    eexists. split; reflexivity.
Qed.

(** A page of each site with the time 01:02:03 at five and a half hours
    west of Greenwich. *)
Lemma X8_record_date_from_iso_witness :
  let page :=
    Dom.html
      [Dom.Elem (lit "head") []
         [Dom.Elem (lit "meta") [(lit "property", lit "article:published_time");
                                 (lit "content", lit "2025-12-17T01:02:03-05:30")] []];
       Dom.Elem (lit "body") []
         [Dom.Elem (lit "article") [] [Dom.Elem (lit "p") [] [Dom.Text (lit "Isi berita.")]]]] in
  let u := lit "https://nasional.kompas.com/read/2025/12/17/09463351/mbg" in
  let w := World (fun _ => Ok page) (lit "2025-12-17 10:00:00") in
  Detik_scrape.tanggal_of (Detik.parse_detail_page page u) None
    = Ok (lit "2025-12-17 13:32:03") /\
  exists a, Kompas.detail_row (fun _ => Ok []) w None u = Ok a /\
            tanggal a = lit "2025-12-17 13:32:03".
Proof.
  intros page u w.
  assert (Hk : exists kd, Kompas.parse_detail_page (fun _ => Ok []) page u = Ok kd /\
                          Kompas.published_time_iso kd = lit "2025-12-17T01:02:03-05:30").
  { eexists. split; vm_compute; reflexivity. }
  destruct Hk as [kd [Hp Hk]].
  pose proof (X8_record_date_from_iso 84 2025 12 17 1 2 3 (Datespec.Offset true 5 30)
                (Detik.parse_detail_page page u) None (fun _ => Ok []) w None u page kd
                eq_refl eq_refl eq_refl) as H.
  cbv zeta in H.
  destruct (H eq_refl eq_refl Hp Hk) as [H1 [H2 _]].
  split; [exact H1 | exact H2].
Defined.

(** ** The blocks taken out of a container *)

(** Induction on a tree, with the property for the children. *)
Lemma node_induction (P : Dom.node -> Prop) :
  (forall s, P (Dom.Text s)) ->
  (forall t a cs, Forall P cs -> P (Dom.Elem t a cs)) ->
  forall n, P n.
Proof.
  intros Ht He. fix IH 1. intros [s|t a cs]; [apply Ht|].
  apply He. induction cs as [|c cs IHcs]; constructor; [apply IH | exact IHcs].
Qed.

(** A selector looks at the tag and the attributes of an element only. *)
Lemma matches_remove_all sel f n :
  Dom.matches sel (Dom.remove_all f n) = Dom.matches sel n.
Proof. destruct n; reflexivity. Qed.

Lemma matches_unwrap_all sel f n :
  Dom.matches sel (Dom.unwrap_all f n) = Dom.matches sel n.
Proof. destruct n; reflexivity. Qed.

Lemma tag_is_unwrap_all t f n :
  Dom.tag_is t (Dom.unwrap_all f n) = Dom.tag_is t n.
Proof. destruct n; reflexivity. Qed.

(** The elements of a tree without the elements that [f] takes: what is
    left of elements that [f] does not take. *)
Lemma descendants_remove_all f n : forall d,
  In d (Dom.descendants (Dom.remove_all f n)) ->
  exists d0, In d0 (Dom.descendants n) /\ f d0 = false /\ d = Dom.remove_all f d0.
Proof.
  induction n as [s|t a cs IH] using node_induction; intros d Hd; [destruct Hd|].
  cbn [Dom.remove_all Dom.descendants] in Hd |- *.
  apply in_flat_map in Hd. destruct Hd as [c' [Hc' Hd]].
  apply in_flat_map in Hc'. destruct Hc' as [c [Hc Hc']].
  rewrite Forall_forall in IH. specialize (IH c Hc).
  destruct c as [s|t' a' cs']; [destruct Hc' as [<-|[]]; destruct Hd|].
  destruct (f (Dom.Elem t' a' cs')) eqn:Ef; [destruct Hc'|].
  destruct Hc' as [<-|[]].
  change (In d (Dom.remove_all f (Dom.Elem t' a' cs')
                :: Dom.descendants (Dom.remove_all f (Dom.Elem t' a' cs')))) in Hd.
  destruct Hd as [<-|Hd].
  - exists (Dom.Elem t' a' cs'). split; [|split; [exact Ef | reflexivity]].
    apply in_flat_map. exists (Dom.Elem t' a' cs'). split; [exact Hc | left; reflexivity].
  - destruct (IH d Hd) as [d0 [H0 [Hf He]]]. exists d0. split; [|split; assumption].
    apply in_flat_map. exists (Dom.Elem t' a' cs'). split; [exact Hc | right; exact H0].
Qed.

(** The elements of a tree in which the elements that [f] takes give way to
    their children. *)
Lemma descendants_unwrap_all f n : forall d,
  In d (Dom.descendants (Dom.unwrap_all f n)) ->
  exists d0, In d0 (Dom.descendants n) /\ f d0 = false /\ d = Dom.unwrap_all f d0.
Proof.
  induction n as [s|t a cs IH] using node_induction; intros d Hd; [destruct Hd|].
  cbn [Dom.unwrap_all Dom.descendants] in Hd |- *.
  apply in_flat_map in Hd. destruct Hd as [c' [Hc' Hd]].
  apply in_flat_map in Hc'. destruct Hc' as [c [Hc Hc']].
  rewrite Forall_forall in IH. specialize (IH c Hc).
  destruct c as [s|t' a' cs']; [destruct Hc' as [<-|[]]; destruct Hd|].
  assert (Hsub : forall x, In x (Dom.descendants (Dom.Elem t' a' cs')) ->
                           In x (flat_map (fun c => match c with
                                                    | Dom.Text _ => []
                                                    | Dom.Elem _ _ _ => c :: Dom.descendants c
                                                    end) cs)).
  { intros x Hx. apply in_flat_map. exists (Dom.Elem t' a' cs').
    split; [exact Hc | right; exact Hx]. }
  destruct (f (Dom.Elem t' a' cs')) eqn:Ef.
  - (* the element gives way: [c'] is a child of what is left of it *)
    assert (Hin : In d (Dom.descendants (Dom.unwrap_all f (Dom.Elem t' a' cs')))).
    { destruct (Dom.unwrap_all f (Dom.Elem t' a' cs')) as [s|t2 a2 cs2] eqn:Eu;
        [destruct Hc'|].
      cbn [Dom.children] in Hc'. cbn [Dom.descendants]. apply in_flat_map.
      exists c'. split; [exact Hc' | exact Hd]. }
    destruct (IH d Hin) as [d0 [H0 [Hf He]]]. exists d0.
    split; [apply Hsub; exact H0 | split; assumption].
  - destruct Hc' as [<-|[]].
    change (In d (Dom.unwrap_all f (Dom.Elem t' a' cs')
                  :: Dom.descendants (Dom.unwrap_all f (Dom.Elem t' a' cs')))) in Hd.
    destruct Hd as [<-|Hd].
    + exists (Dom.Elem t' a' cs'). split; [|split; [exact Ef | reflexivity]].
      apply in_flat_map. exists (Dom.Elem t' a' cs'). split; [exact Hc | left; reflexivity].
    + destruct (IH d Hd) as [d0 [H0 [Hf He]]]. exists d0.
      split; [apply Hsub; exact H0 | split; assumption].
Qed.

Lemma remove_all_clean sel n d :
  In d (Dom.descendants (Dom.remove_all (Dom.matches sel) n)) -> Dom.matches sel d = false.
Proof.
  intros H. apply descendants_remove_all in H. destruct H as [d0 [_ [Hf ->]]].
  rewrite matches_remove_all. exact Hf.
Qed.

Lemma remove_all_keeps_clean sel f n :
  (forall d, In d (Dom.descendants n) -> Dom.matches sel d = false) ->
  forall d, In d (Dom.descendants (Dom.remove_all f n)) -> Dom.matches sel d = false.
Proof.
  intros Hn d H. apply descendants_remove_all in H. destruct H as [d0 [H0 [_ ->]]].
  rewrite matches_remove_all. apply Hn. exact H0.
Qed.

Lemma fold_remove_keeps_clean sel sels : forall n,
  (forall d, In d (Dom.descendants n) -> Dom.matches sel d = false) ->
  forall d,
    In d (Dom.descendants
            (fold_left (fun c s => Dom.remove_all (Dom.matches s) c) sels n)) ->
    Dom.matches sel d = false.
Proof.
  induction sels as [|s sels IH]; intros n Hn; cbn [fold_left]; [exact Hn|].
  apply IH. apply remove_all_keeps_clean. exact Hn.
Qed.

Lemma fold_remove_clean sels : forall n sel d,
  In sel sels ->
  In d (Dom.descendants
          (fold_left (fun c s => Dom.remove_all (Dom.matches s) c) sels n)) ->
  Dom.matches sel d = false.
Proof.
  induction sels as [|s sels IH]; intros n sel d Hs; [destruct Hs|].
  cbn [fold_left]. destruct Hs as [<-|Hs].
  - apply fold_remove_keeps_clean. intros d0. apply remove_all_clean.
  - apply IH. exact Hs.
Qed.

Lemma taken_by_remove_all sels f n :
  taken_by sels (Dom.remove_all f n) = taken_by sels n.
Proof.
  unfold taken_by. induction sels as [|sel sels IH]; [reflexivity|].
  cbn [existsb]. rewrite matches_remove_all, IH. reflexivity.
Qed.

(** Property X9. The tree from which the detail parser of kompas reads the
    paragraphs has no link element and no element that one of the selectors
    of the blocks takes (related and read-also blocks, script, style), at
    any depth; the tree of tribunnews has no element that one of its
    selectors takes (script, style, noscript, the classes ads and
    baca-juga). When the author is read, the content of kompas is made of
    the paragraphs of that tree or, if there is none, of all its text; the
    content of tribunnews is made of the paragraphs of its tree. *)
Theorem X9_content_tree (author : Dom.node -> result str) (soup : Dom.node) (u a : str) :
  author soup = Ok a ->
  forallb (fun d => negb (Dom.tag_is (lit "a") d) &&
                    negb (taken_by Kompas.removed_selectors d))
          (Dom.descendants (kompas_content_tree soup)) = true /\
  forallb (fun d => negb (taken_by Tribun.removed_selectors d))
          (Dom.descendants (tribun_content_tree soup)) = true /\
  (exists d,
     Kompas.parse_detail_page author soup u = Ok d /\
     Kompas.author d = a /\
     Kompas.content d
     = or_else (strip (join blank_line (Kompas.paragraphs (kompas_content_tree soup))))
               (Kompas.clean_text
                  (Some (Dom.get_text_strip (lit " ") (kompas_content_tree soup))))) /\
  Tribun.content (Tribun.parse_detail_page soup u)
  = strip (join blank_line (Tribun.paragraphs (tribun_content_tree soup))).
Proof.
  intros Ha. split; [|split; [|split]].
  - apply forallb_forall. intros d Hd. unfold kompas_content_tree in Hd.
    apply descendants_unwrap_all in Hd. destruct Hd as [d0 [H0 [Hf ->]]].
    rewrite tag_is_unwrap_all, Hf. cbn [negb andb].
    apply negb_true_iff. apply not_true_is_false. intros Ht.
    unfold taken_by in Ht. apply existsb_exists in Ht. destruct Ht as [sel [Hs Hm]].
    rewrite matches_unwrap_all in Hm.
    unfold Kompas.without_blocks in H0.
    rewrite (fold_remove_clean _ _ sel d0 Hs H0) in Hm. discriminate Hm.
  - apply forallb_forall. intros d Hd. unfold tribun_content_tree in Hd.
    apply descendants_remove_all in Hd. destruct Hd as [d0 [_ [Hf ->]]].
    apply negb_true_iff.
    rewrite taken_by_remove_all. exact Hf.
  - unfold Kompas.parse_detail_page. cbv zeta. rewrite Ha. cbn [bind].
    eexists. split; [reflexivity|]. split; reflexivity.
  - reflexivity.
Qed.

(** A page with a link, a script and a read-also block in its article. *)
Lemma X9_content_tree_witness :
  let page :=
    Dom.html
      [Dom.Elem (lit "body") []
         [Dom.Elem (lit "article") []
            [Dom.Elem (lit "p") []
               [Dom.Text (lit "Dapur "); Dom.Elem (lit "a") [(lit "href", lit "/tag/mbg")]
                                           [Dom.Text (lit "MBG")];
                Dom.Text (lit " dibuka.")];
             Dom.Elem (lit "script") [] [];
             Dom.Elem (lit "div") [(lit "class", lit "baca-juga")]
               [Dom.Elem (lit "p") [] [Dom.Text (lit "Berita lain")]]]]] in
  let u := lit "https://nasional.kompas.com/read/2025/12/17/09463351/mbg" in
  (exists d, Kompas.parse_detail_page (fun _ => Ok (lit "Rina")) page u = Ok d /\
             Kompas.author d = lit "Rina" /\ Kompas.content d = lit "Dapur MBG dibuka.") /\
  Tribun.content (Tribun.parse_detail_page page u) = lit "Dapur MBG dibuka.".
Proof.
  intros page u.
  destruct (X9_content_tree (fun _ => Ok (lit "Rina")) page u (lit "Rina") eq_refl)
    as [_ [_ [[d [E [Ha Hc]]] Ht]]].
  split.
  - exists d. split; [exact E|]. split; [exact Ha|]. rewrite Hc. vm_compute. reflexivity.
  - rewrite Ht. vm_compute. reflexivity.
Defined.

(** ** The list parser of tribunnews *)

Lemma tribun_row_of_link_article a u :
  Tribun.row_of_link a = Ok (Some u) ->
  Tribun.is_tribun_article_url u = Ok true /\ ~ In Url.hash u.
Proof.
  unfold Tribun.row_of_link. intros H. bind_ok H href E. bind_ok H ok E2.
  destruct ok; cbn [negb] in H; [|discriminate H].
  destruct (negb (truthy _) || _ || _); [discriminate H|].
  inversion H; subst. split; [exact E2|].
  apply (tribun_normalize_url_no_fragment _ _ E).
Qed.



(** What the parser returns on that page. *)
Example tribun_parse_tag_page_example :
  let link (href title : string) :=
    Dom.Elem (lit "a") [(lit "href", lit href)] [Dom.Text (lit title)] in
  let page :=
    Dom.html
      [Dom.Elem (lit "body") []
         [Dom.Elem (lit "div") [(lit "id", lit "boxright_fix")]
            [link "https://www.tribunnews.com/nasional/7654321/berita-terkini"%string
                  "Berita terkini hari ini"%string];
          Dom.Elem (lit "h3") []
            [link "/nasional/1234567/makan-bergizi#komentar"%string
                  "Makan bergizi gratis dimulai"%string];
          link "https://www.tribunnews.com/nasional/1234567/makan-bergizi"%string
               "Makan bergizi gratis dimulai"%string;
          link "https://www.tribunnews.com/nasional/1234568/video-dapur"%string
               "Video dapur makan bergizi"%string]] in
  Tribun.parse_tag_page page
  = Ok [lit "https://www.tribunnews.com/nasional/1234567/makan-bergizi"].
Proof. vm_compute. reflexivity. Qed.

(** ** The page ranges of the command line of republika *)

Lemma contains_single (c : char) (s : str) : contains [c] s = true <-> In c s.
Proof.
  induction s as [|x s IH]; cbn [contains startswith].
  - split; [discriminate | intros []].
  - rewrite orb_true_iff, IH, andb_true_r, chr_eqb_eq. split.
    + intros [->|H]; [left; reflexivity | right; exact H].
    + intros [->|H]; [left; reflexivity | right; exact H].
Qed.

(** A character of a text that is not the separator is in one of the parts. *)
Lemma split_In (sep c : char) (s : str) :
  In c s -> c <> sep -> exists p, In p (Url.split sep s) /\ In c p.
Proof.
  induction s as [|x s IH]; intros Hin Hc; [destruct Hin|].
  cbn [Url.split]. destruct (chr_eqb x sep) eqn:E.
  - apply chr_eqb_eq in E. subst x.
    destruct Hin as [->|Hin]; [contradiction Hc; reflexivity|].
    destruct (IH Hin Hc) as [p [Hp Hcp]]. exists p. split; [right; exact Hp | exact Hcp].
  - destruct Hin as [->|Hin].
    + destruct (Url.split sep s) as [|p ps]; eexists; (split; [left; reflexivity | left; reflexivity]).
    + destruct (IH Hin Hc) as [p [Hp Hcp]].
      destruct (Url.split sep s) as [|q ps]; [destruct Hp|].
      destruct Hp as [->|Hp].
      * exists (x :: p). split; [left; reflexivity | right; exact Hcp].
      * exists p. split; [right; exact Hp | exact Hcp].
Qed.

(** The parts of a text have not the separator. *)
Lemma split_no_sep (sep : char) (s : str) :
  forall p, In p (Url.split sep s) -> ~ In sep p.
Proof.
  induction s as [|x s IH]; intros p Hp; cbn [Url.split] in Hp.
  - destruct Hp as [<-|[]]. intros [].
  - destruct (chr_eqb x sep) eqn:E.
    + destruct Hp as [<-|Hp]; [intros [] | apply (IH p Hp)].
    + destruct (Url.split sep s) as [|q ps] eqn:Es.
      * destruct Hp as [<-|[]]. intros [H|[]]. subst x.
        rewrite (proj2 (chr_eqb_eq sep sep) eq_refl) in E. discriminate E.
      * destruct Hp as [<-|Hp]; [|apply IH; right; exact Hp].
        intros [H|H]; [subst x; rewrite (proj2 (chr_eqb_eq sep sep) eq_refl) in E;
                       discriminate E|].
        apply (IH q (or_introl eq_refl) H).
Qed.

Lemma scan_stops (c : char) (s : str) :
  is_digit_ascii c = false -> chr_eqb c 95 = false -> In c s ->
  forall prev acc n, Page_range.scan s prev acc n = None.
Proof.
  intros Hd Hu. induction s as [|x s IH]; intros Hin prev acc n; [destruct Hin|].
  cbn [Page_range.scan]. destruct Hin as [->|Hin].
  - rewrite Hd, Hu. reflexivity.
  - destruct (is_digit_ascii x); [apply IH; exact Hin|].
    destruct (chr_eqb x 95); [|reflexivity].
    destruct prev as [p|]; [|reflexivity].
    destruct (chr_eqb p 95); [reflexivity | apply IH; exact Hin].
Qed.

Lemma lstrip_c_In (c : char) (s : str) :
  Page_range.c_space c = false -> In c s -> In c (Page_range.lstrip_c s).
Proof.
  intros Hc. induction s as [|x s IH]; intros Hin; [destruct Hin|].
  cbn [Page_range.lstrip_c]. destruct (Page_range.c_space x) eqn:E; [|exact Hin].
  destruct Hin as [->|Hin]; [rewrite Hc in E; discriminate E | apply IH; exact Hin].
Qed.

(** [int] raises nothing but [ValueError], and raises on a text with a
    comma. *)
Lemma int_raises s e : Page_range.int s = Raise e -> exists msg, e = ValueError msg.
Proof.
  unfold Page_range.int. cbv zeta.
  destruct (match rev _ with [] => _ | _ :: _ => _ end) as [neg body].
  destruct (Page_range.scan body None 0 0) as [[v n]|];
    [|intros H; inversion H; eexists; reflexivity].
  destruct (n =? 0)%nat; [intros H; inversion H; eexists; reflexivity|].
  destruct (4300 <? n)%nat; intros H; inversion H. eexists; reflexivity.
Qed.

Lemma int_comma s : In 44%N s -> exists msg, Page_range.int s = Raise (ValueError msg).
Proof.
  intros Hin.
  assert (H1 : In 44%N (rev (Page_range.lstrip_c (rev (Page_range.lstrip_c
                              (Page_range.to_ascii s)))))).
  { apply in_rev. rewrite rev_involutive. apply lstrip_c_In; [reflexivity|].
    apply -> in_rev. apply lstrip_c_In; [reflexivity|].
    unfold Page_range.to_ascii. apply in_map_iff. exists 44%N. split; [reflexivity | exact Hin]. }
  unfold Page_range.int. cbv zeta.
  destruct (rev _) as [|c rest] eqn:E; [destruct H1|].
  assert (Hs : forall body, In 44%N body -> exists msg,
             match Page_range.scan body None 0 0 with
             | Some (v, n) =>
                 if (n =? 0)%nat then Raise Page_range.invalid_literal
                 else if (4300 <? n)%nat
                      then Raise (ValueError
                             "Exceeds the limit (4300 digits) for integer string conversion")
                      else Ok v
             | None => Raise Page_range.invalid_literal
             end = Raise (ValueError msg)).
  { intros body Hb. rewrite (scan_stops 44%N body eq_refl eq_refl Hb). eexists. reflexivity. }
  destruct (chr_eqb c 45) eqn:E1.
  - apply chr_eqb_eq in E1. subst c. destruct H1 as [H1|H1]; [discriminate H1|].
    rewrite (scan_stops 44%N rest eq_refl eq_refl H1). eexists. reflexivity.
  - destruct (chr_eqb c 43) eqn:E2.
    + apply chr_eqb_eq in E2. subst c. destruct H1 as [H1|H1]; [discriminate H1|].
      rewrite (scan_stops 44%N rest eq_refl eq_refl H1). eexists. reflexivity.
    + rewrite (scan_stops 44%N (c :: rest) eq_refl eq_refl H1). eexists. reflexivity.
Qed.

Lemma unpack2_raises parts e :
  Page_range.unpack2 parts = Raise e -> exists msg, e = ValueError msg.
Proof.
  unfold Page_range.unpack2. destruct parts as [|p0 [|p1 [|p2 rest]]];
    try (intros H; inversion H; eexists; reflexivity).
  - destruct (Page_range.int p0) eqn:E0; cbn [bind]; intros H; inversion H; subst;
      [eexists; reflexivity | apply (int_raises _ _ E0)].
  - destruct (Page_range.int p0) eqn:E0; cbn [bind];
      [|intros H; inversion H; subst; apply (int_raises _ _ E0)].
    destruct (Page_range.int p1) eqn:E1; cbn [bind]; intros H; inversion H; subst.
    apply (int_raises _ _ E1).
  - destruct (Page_range.int p0) eqn:E0; cbn [bind];
      [|intros H; inversion H; subst; apply (int_raises _ _ E0)].
    destruct (Page_range.int p1) eqn:E1; cbn [bind];
      [|intros H; inversion H; subst; apply (int_raises _ _ E1)].
    destruct (Page_range.int p2) eqn:E2; cbn [bind]; intros H; inversion H; subst;
      [eexists; reflexivity | apply (int_raises _ _ E2)].
Qed.

Lemma unpack2_ok parts r :
  Page_range.unpack2 parts = Ok r ->
  exists p0 p1, parts = [p0; p1] /\ Page_range.int p0 = Ok (fst r) /\
                Page_range.int p1 = Ok (snd r).
Proof.
  unfold Page_range.unpack2. destruct parts as [|p0 [|p1 [|p2 rest]]]; try discriminate.
  - destruct (Page_range.int p0); discriminate.
  - intros H. bind_ok H a E0. bind_ok H b E1. inversion H. exists p0, p1.
    split; [reflexivity|]. split; [exact E0 | exact E1].
  - intros H. bind_ok H a E0. bind_ok H b E1.
    destruct (Page_range.int p2); discriminate H.
Qed.

Lemma ranges_loop_single parts : forall acc rs,
  (forall p, In p parts -> ~ In 45%N p) ->
  Forall (fun r : Z * Z => fst r = snd r) acc ->
  Page_range.ranges_loop parts acc = Ok rs ->
  Forall (fun r : Z * Z => fst r = snd r) rs.
Proof.
  induction parts as [|p parts IH]; intros acc rs Hp Ha H; cbn [Page_range.ranges_loop] in H.
  - inversion H. subst. exact Ha.
  - assert (E : contains (lit "-") p = false).
    { apply not_true_is_false. intros C. apply (contains_single 45%N) in C.
      apply (Hp p (or_introl eq_refl) C). }
    rewrite E in H. bind_ok H page Ei.
    apply (IH _ _ (fun q Hq => Hp q (or_intror Hq))) in H; [exact H|].
    apply Forall_app. split; [exact Ha | constructor; [reflexivity | constructor]].
Qed.

Lemma ranges_loop_raises parts : forall acc e,
  Page_range.ranges_loop parts acc = Raise e -> exists msg, e = ValueError msg.
Proof.
  induction parts as [|p parts IH]; intros acc e H; cbn [Page_range.ranges_loop] in H;
    [discriminate H|].
  destruct (contains (lit "-") p).
  - destruct (Page_range.unpack2 (Url.split 45 p)) eqn:E; cbn [bind] in H;
      [apply (IH _ _ H) | inversion H; subst; apply (unpack2_raises _ _ E)].
  - destruct (Page_range.int p) eqn:E; cbn [bind] in H;
      [apply (IH _ _ H) | inversion H; subst; apply (int_raises _ _ E)].
Qed.

(** Property X11. [parse_page_range] on any text: it returns a list of
    ranges only for a text with a comma and no dash, and every range of the
    list is then a single page; it returns a pair only for a text that has
    not both a dash and a comma, so that the form [1-3,5-7] of several
    ranges is always refused; and it raises nothing but [ValueError]. *)
Theorem X11_parse_page_range_cases (page_str : str) :
  match Page_range.parse_page_range page_str with
  | Ok (Page_range.Ranges ranges) =>
      ~ In 45%N page_str /\ In 44%N page_str /\
      Forall (fun r => fst r = snd r) ranges
  | Ok (Page_range.Single start end_) => ~ (In 45%N page_str /\ In 44%N page_str)
  | Raise e => exists msg, e = ValueError msg
  end.
Proof.
  unfold Page_range.parse_page_range.
  destruct (contains (lit "-") page_str) eqn:Ed.
  - destruct (Page_range.unpack2 (Url.split 45 page_str)) as [r|e] eqn:E; cbn [bind];
      [|apply (unpack2_raises _ _ E)].
    intros [_ Hc]. apply unpack2_ok in E. destruct E as [p0 [p1 [Es [E0 E1]]]].
    assert (N44 : (44 : char) <> 45%N) by discriminate.
    destruct (split_In 45%N 44%N page_str Hc N44) as [p [Hp Hcp]].
    rewrite Es in Hp. destruct (int_comma p Hcp) as [msg Hm].
    destruct Hp as [<-|[<-|[]]]; rewrite Hm in *; discriminate.
  - assert (Hnd : ~ In 45%N page_str).
    { intros C. apply (contains_single 45%N) in C.
      change [45%N] with (lit "-") in C. rewrite C in Ed. discriminate Ed. }
    destruct (contains (lit ",") page_str) eqn:Ec.
    + destruct (Page_range.ranges_loop (Url.split 44 page_str) []) as [rs|e] eqn:E;
        cbn [bind]; [|apply (ranges_loop_raises _ _ _ E)].
      split; [exact Hnd|]. split; [apply (contains_single 44%N); exact Ec|].
      apply (ranges_loop_single (Url.split 44 page_str) [] rs); [|constructor|exact E].
      intros p Hp C. apply Hnd.
      clear - Hp C. revert p Hp C. induction page_str as [|x s IH]; intros p Hp C.
      * destruct Hp as [<-|[]]. destruct C.
      * cbn [Url.split] in Hp. destruct (chr_eqb x 44).
        -- destruct Hp as [<-|Hp]; [destruct C | right; apply (IH p Hp C)].
        -- destruct (Url.split 44 s) as [|q ps] eqn:Es.
           ++ destruct Hp as [<-|[]]. destruct C as [C|[]]. left. exact C.
           ++ destruct Hp as [<-|Hp].
              ** destruct C as [C|C]; [left; exact C | right; apply (IH q (or_introl eq_refl) C)].
              ** right. apply (IH p (or_intror Hp) C).
    + destruct (Page_range.int page_str) as [page|e] eqn:E; cbn [bind];
        [|apply (int_raises _ _ E)].
      intros [C _]. exact (Hnd C).
Qed.

(** The decimal text of a number: digits, whose value is the number. *)

Lemma decimal_digit_spec (n : N) :
  is_digit_ascii (48 + n mod 10)%N = true /\
  Datetime.digit_value (48 + n mod 10)%N = Z.of_N (n mod 10).
Proof.
  assert (H : (n mod 10 < 10)%N) by (apply N.mod_lt; discriminate).
  set (m := (n mod 10)%N) in *. clearbody m.
  assert (Hd : is_digit_ascii (48 + m)%N = true).
  { unfold is_digit_ascii, in_range. apply andb_true_iff. split; apply N.leb_le; lia. }
  split; [exact Hd|].
  rewrite (digit_value_ascii _ Hd). lia.
Qed.

Lemma decimal_go_spec fuel : forall n t,
  (n < 2 ^ N.of_nat fuel)%N ->
  exists ds,
    decimal_go fuel n t = ds ++ t /\
    Forall (fun c => is_digit_ascii c = true) ds /\
    fold_left decimal_step ds 0%Z = Z.of_N n /\
    (fuel <> O -> ds <> []).
Proof.
  induction fuel as [|fuel IH]; intros n t Hn.
  - exists []. cbn in Hn. assert (n = 0%N) by lia. subst n.
    repeat split; [constructor | intros H; contradiction H; reflexivity].
  - cbn [decimal_go]. destruct (decimal_digit_spec n) as [Hd Hv].
    destruct (N.ltb_spec n 10) as [Hlt|Hge].
    + exists [(48 + n mod 10)%N]. split; [reflexivity|].
      split; [constructor; [exact Hd | constructor]|].
      split; [|discriminate].
      cbn [fold_left]. unfold decimal_step. rewrite Hv, N.mod_small by exact Hlt. lia.
    + assert (Hq : (n / 10 < 2 ^ N.of_nat fuel)%N).
      { rewrite Nat2N.inj_succ, N.pow_succ_r' in Hn.
        apply N.Div0.div_lt_upper_bound. lia. }
      destruct (IH (n / 10)%N ((48 + n mod 10)%N :: t) Hq) as [ds [E [Hf [Hval _]]]].
      exists (ds ++ [(48 + n mod 10)%N]). rewrite E, <- app_assoc.
      split; [reflexivity|].
      split; [apply Forall_app; split; [exact Hf | constructor; [exact Hd | constructor]]|].
      split; [|destruct ds; discriminate].
      rewrite fold_left_app. cbn [fold_left]. unfold decimal_step at 1.
      rewrite Hval, Hv. rewrite N2Z.inj_mod, N2Z.inj_div.
      pose proof (Z.div_mod (Z.of_N n) 10). lia.
Qed.

Lemma decimal_spec n :
  Forall (fun c => is_digit_ascii c = true) (decimal n) /\
  fold_left decimal_step (decimal n) 0%Z = Z.of_N n /\ decimal n <> [].
Proof.
  unfold decimal.
  assert (Hn : (n < 2 ^ N.of_nat (S (N.to_nat (N.log2 n))))%N).
  { rewrite Nat2N.inj_succ, N2Nat.id. destruct n as [|p]; [reflexivity|].
    apply N.log2_spec. reflexivity. }
  destruct (decimal_go_spec _ n [] Hn) as [ds [E [Hf [Hv Hne]]]].
  rewrite E, app_nil_r. repeat split; [exact Hf | exact Hv | apply Hne; discriminate].
Qed.

Lemma scan_digits ds : forall prev acc n,
  Forall (fun c => is_digit_ascii c = true) ds ->
  match prev with Some p => chr_eqb p 95 = false | None => True end ->
  Page_range.scan ds prev acc n
  = Some (fold_left decimal_step ds acc, (n + List.length ds)%nat).
Proof.
  induction ds as [|c ds IH]; intros prev acc n Hf Hp; cbn [Page_range.scan fold_left].
  - rewrite Nat.add_0_r. destruct prev as [p|]; [rewrite Hp|]; reflexivity.
  - inversion Hf as [|? ? Hc Hds]; subst. rewrite Hc.
    rewrite (IH (Some c) _ (S n) Hds).
    + cbn [List.length]. rewrite Nat.add_succ_r. reflexivity.
    + unfold is_digit_ascii, in_range in Hc. apply andb_true_iff in Hc.
      destruct Hc as [_ Hc]. apply N.leb_le in Hc.
      apply N.eqb_neq. lia.
Qed.

Lemma digit_facts c :
  is_digit_ascii c = true ->
  (c <? 127)%N = true /\ Page_range.c_space c = false /\
  chr_eqb c 45 = false /\ chr_eqb c 43 = false /\ chr_eqb c 44 = false.
Proof.
  unfold is_digit_ascii, in_range, Page_range.c_space, in_range, chr_eqb. intros H.
  apply andb_true_iff in H. destruct H as [H1 H2]. apply N.leb_le in H1, H2.
  repeat split; try (apply N.ltb_lt; lia); try (apply N.eqb_neq; lia).
  apply orb_false_iff. split; [apply N.eqb_neq; lia|].
  apply andb_false_iff. right. apply N.leb_gt. lia.
Qed.

(** [int] on a text of digits. *)
Lemma int_digits ds :
  Forall (fun c => is_digit_ascii c = true) ds -> ds <> [] ->
  (List.length ds <= 4300)%nat ->
  Page_range.int ds = Ok (fold_left decimal_step ds 0%Z).
Proof.
  intros Hf Hne Hlen. unfold Page_range.int. cbv zeta.
  assert (Ha : Page_range.to_ascii ds = ds).
  { unfold Page_range.to_ascii. rewrite <- (map_id ds) at 2. apply map_ext_in.
    intros c Hc. rewrite Forall_forall in Hf.
    destruct (digit_facts c (Hf c Hc)) as [-> _]. reflexivity. }
  assert (Hl : forall l, Forall (fun c => is_digit_ascii c = true) l ->
                         Page_range.lstrip_c l = l).
  { intros [|c l] Hfl; [reflexivity|]. inversion Hfl; subst. cbn [Page_range.lstrip_c].
    destruct (digit_facts c H1) as [_ [-> _]]. reflexivity. }
  rewrite Ha, (Hl ds Hf), (Hl (rev ds)), rev_involutive
    by (apply Forall_rev; exact Hf).
  destruct ds as [|c ds]; [contradiction Hne; reflexivity|].
  inversion Hf as [|? ? Hc Hds]; subst.
  destruct (digit_facts c Hc) as [_ [_ [-> [-> _]]]].
  rewrite (scan_digits (c :: ds) None 0%Z 0 Hf I). cbn [Nat.add].
  cbn [List.length] in *. cbn [Nat.eqb].
  destruct (Nat.ltb_spec 4300 (S (List.length ds))) as [H|H]; [lia | reflexivity].
Qed.

Lemma split_no_sep_whole (sep : char) (s : str) : ~ In sep s -> Url.split sep s = [s].
Proof.
  induction s as [|x s IH]; intros H; [reflexivity|].
  cbn [Url.split]. destruct (chr_eqb x sep) eqn:E.
  - apply chr_eqb_eq in E. exfalso. apply H. left. exact E.
  - rewrite IH; [reflexivity|]. intros Hin. apply H. right. exact Hin.
Qed.

Lemma split_app_sep (sep : char) (a b : str) :
  ~ In sep a -> Url.split sep (a ++ sep :: b) = a :: Url.split sep b.
Proof.
  induction a as [|x a IH]; intros H; cbn [app Url.split].
  - rewrite (proj2 (chr_eqb_eq sep sep) eq_refl). reflexivity.
  - destruct (chr_eqb x sep) eqn:E.
    + apply chr_eqb_eq in E. exfalso. apply H. left. exact E.
    + rewrite IH; [reflexivity|]. intros Hin. apply H. right. exact Hin.
Qed.

Lemma digits_no (c : char) ds :
  is_digit_ascii c = false -> Forall (fun x => is_digit_ascii x = true) ds -> ~ In c ds.
Proof.
  intros Hc Hf Hin. rewrite Forall_forall in Hf. rewrite (Hf c Hin) in Hc. discriminate Hc.
Qed.

(** Property X12. [parse_page_range] reads back what the decimal notation
    writes: the text of [a], a dash and the text of [b] gives the pair
    [(a, b)], and the text of [a] alone the pair [(a, a)], for numbers of
    4300 digits at most (beyond which [int] refuses a text). *)
Theorem X12_parse_page_range_decimal (a b : N) :
  (List.length (decimal a) <= 4300)%nat ->
  (List.length (decimal b) <= 4300)%nat ->
  Page_range.parse_page_range (decimal a ++ lit "-" ++ decimal b)
    = Ok (Page_range.Single (Z.of_N a) (Z.of_N b)) /\
  Page_range.parse_page_range (decimal a)
    = Ok (Page_range.Single (Z.of_N a) (Z.of_N a)).
Proof.
  intros Ha Hb.
  destruct (decimal_spec a) as [Fa [Va Na]]. destruct (decimal_spec b) as [Fb [Vb Nb]].
  pose proof (int_digits _ Fa Na Ha) as Ia. pose proof (int_digits _ Fb Nb Hb) as Ib.
  rewrite Va in Ia. rewrite Vb in Ib.
  assert (Da : ~ In 45%N (decimal a)) by (apply digits_no; [reflexivity | exact Fa]).
  assert (Db : ~ In 45%N (decimal b)) by (apply digits_no; [reflexivity | exact Fb]).
  assert (Ca : ~ In 44%N (decimal a)) by (apply digits_no; [reflexivity | exact Fa]).
  unfold Page_range.parse_page_range. split.
  - assert (E : contains (lit "-") (decimal a ++ lit "-" ++ decimal b) = true).
    { apply (contains_single 45%N). apply in_or_app. right. left. reflexivity. }
    rewrite E. change (lit "-" ++ decimal b) with (45%N :: decimal b).
    rewrite (split_app_sep 45%N _ _ Da), (split_no_sep_whole 45%N _ Db).
    unfold Page_range.unpack2. rewrite Ia. cbn [bind]. rewrite Ib. reflexivity.
  - assert (E1 : contains (lit "-") (decimal a) = false).
    { apply not_true_is_false. intros C. apply (contains_single 45%N) in C. exact (Da C). }
    assert (E2 : contains (lit ",") (decimal a) = false).
    { apply not_true_is_false. intros C. apply (contains_single 44%N) in C. exact (Ca C). }
    rewrite E1, E2, Ia. reflexivity.
Qed.

(** The pages 1 to 5. *)
Lemma X12_parse_page_range_decimal_witness :
  Page_range.parse_page_range (lit "1-5") = Ok (Page_range.Single 1 5) /\
  Page_range.parse_page_range (lit "1") = Ok (Page_range.Single 1 1).
Proof.
  assert (H1 : (List.length (decimal 1) <= 4300)%nat) by (vm_compute; lia).
  assert (H5 : (List.length (decimal 5) <= 4300)%nat) by (vm_compute; lia).
  exact (X12_parse_page_range_decimal 1 5 H1 H5).
Defined.


(** ** Percent-encoding and decoding *)

Ltac nlia := zify; Z.to_euclidean_division_equations; lia.

Lemma Ok_inj (A : Type) (a b : A) : Ok a = Ok b -> a = b.
Proof. intros H. inversion H. reflexivity. Qed.

(** Decoding the bytes of a character gives the character back. *)
Lemma utf8_decode_encode_chr c bs r :
  Url.utf8_encode_chr c = Ok bs -> Url.utf8_decode (bs ++ r) = c :: Url.utf8_decode r.
Proof.
  unfold Url.utf8_encode_chr, in_range.
  destruct (N.ltb_spec c 128) as [H1|H1].
  { intros H; apply Ok_inj in H; subst bs. cbn [app Url.utf8_decode].
    rewrite (proj2 (N.ltb_lt c 128) H1). reflexivity. }
  destruct (N.ltb_spec c 2048) as [H2|H2].
  { intros H; apply Ok_inj in H; subst bs. cbn [app].
    set (b1 := (192 + c / 64)%N). set (b2 := (128 + c mod 64)%N).
    assert (T1 : (b1 <? 128)%N = false) by (apply N.ltb_ge; subst b1; nlia).
    assert (T2 : (b1 <? 194)%N = false) by (apply N.ltb_ge; subst b1; nlia).
    assert (T3 : (b1 <? 224)%N = true) by (apply N.ltb_lt; subst b1; nlia).
    assert (T4 : Url.continuation b2 = true).
    { unfold Url.continuation, in_range. apply andb_true_iff.
      split; apply N.leb_le; subst b2; nlia. }
    assert (V : ((b1 - 192) * 64 + (b2 - 128))%N = c) by (subst b1 b2; nlia).
    clearbody b1 b2. cbn [Url.utf8_decode]. rewrite T1, T2, T3, T4, V. reflexivity. }
  destruct (N.ltb_spec c 65536) as [H3|H3].
  { destruct ((55296 <=? c)%N && (c <=? 57343)%N) eqn:Es; [discriminate|].
    assert (Hs : (c < 55296 \/ 57343 < c)%N).
    { apply andb_false_iff in Es. destruct Es as [Es|Es]; apply N.leb_gt in Es; lia. }
    intros H; apply Ok_inj in H; subst bs. cbn [app].
    set (b1 := (224 + c / 4096)%N). set (b2 := (128 + (c / 64) mod 64)%N).
    set (b3 := (128 + c mod 64)%N).
    assert (T1 : (b1 <? 128)%N = false) by (apply N.ltb_ge; subst b1; nlia).
    assert (T2 : (b1 <? 194)%N = false) by (apply N.ltb_ge; subst b1; nlia).
    assert (T3 : (b1 <? 224)%N = false) by (apply N.ltb_ge; subst b1; nlia).
    assert (T4 : (b1 <? 240)%N = true) by (apply N.ltb_lt; subst b1; nlia).
    assert (T5 : Url.continuation b2 = true).
    { unfold Url.continuation, in_range. apply andb_true_iff.
      split; apply N.leb_le; subst b2; nlia. }
    assert (T6 : (if (b2 <? 160)%N then (b1 =? 224)%N else (b1 =? 237)%N) = false).
    { destruct (N.ltb_spec b2 160); apply N.eqb_neq; subst b1 b2; nlia. }
    assert (T7 : Url.continuation b3 = true).
    { unfold Url.continuation, in_range. apply andb_true_iff.
      split; apply N.leb_le; subst b3; nlia. }
    assert (V : ((b1 - 224) * 4096 + (b2 - 128) * 64 + (b3 - 128))%N = c)
      by (subst b1 b2 b3; nlia).
    clearbody b1 b2 b3. cbn [Url.utf8_decode].
    rewrite T1, T2, T3, T4, T5, T6, T7, V. reflexivity. }
  destruct (N.ltb_spec c 1114112) as [H4|H4]; [|discriminate].
  intros H; apply Ok_inj in H; subst bs. cbn [app].
  set (b1 := (240 + c / 262144)%N). set (b2 := (128 + (c / 4096) mod 64)%N).
  set (b3 := (128 + (c / 64) mod 64)%N). set (b4 := (128 + c mod 64)%N).
  assert (T1 : (b1 <? 128)%N = false) by (apply N.ltb_ge; subst b1; nlia).
  assert (T2 : (b1 <? 194)%N = false) by (apply N.ltb_ge; subst b1; nlia).
  assert (T3 : (b1 <? 224)%N = false) by (apply N.ltb_ge; subst b1; nlia).
  assert (T4 : (b1 <? 240)%N = false) by (apply N.ltb_ge; subst b1; nlia).
  assert (T4' : (b1 <? 245)%N = true) by (apply N.ltb_lt; subst b1; nlia).
  assert (T5 : Url.continuation b2 = true).
  { unfold Url.continuation, in_range. apply andb_true_iff.
    split; apply N.leb_le; subst b2; nlia. }
  assert (T6 : (if (b2 <? 144)%N then (b1 =? 240)%N else (b1 =? 244)%N) = false).
  { destruct (N.ltb_spec b2 144); apply N.eqb_neq; subst b1 b2; nlia. }
  assert (T7 : Url.continuation b3 = true).
  { unfold Url.continuation, in_range. apply andb_true_iff.
    split; apply N.leb_le; subst b3; nlia. }
  assert (T8 : Url.continuation b4 = true).
  { unfold Url.continuation, in_range. apply andb_true_iff.
    split; apply N.leb_le; subst b4; nlia. }
  assert (V : ((b1 - 240) * 262144 + (b2 - 128) * 4096 + (b3 - 128) * 64 + (b4 - 128))%N = c)
    by (subst b1 b2 b3 b4; nlia).
  clearbody b1 b2 b3 b4. cbn [Url.utf8_decode].
  rewrite T1, T2, T3, T4, T4', T5, T6, T7, T8, V. reflexivity.
Qed.

Lemma utf8_decode_encode s : forall bs,
  Url.utf8_encode s = Ok bs -> Url.utf8_decode bs = s.
Proof.
  induction s as [|c s IH]; intros bs H; cbn [Url.utf8_encode] in H.
  - inversion H. reflexivity.
  - bind_ok H b E1. bind_ok H bs' E2. inversion H; subst.
    rewrite (utf8_decode_encode_chr _ _ _ E1), (IH _ eq_refl). reflexivity.
Qed.

(** The bytes of an encoded text are bytes. *)
Lemma utf8_encode_chr_bytes c bs :
  Url.utf8_encode_chr c = Ok bs -> Forall (fun b => (b < 256)%N) bs.
Proof.
  unfold Url.utf8_encode_chr, in_range.
  destruct (N.ltb_spec c 128);
    [intros E; apply Ok_inj in E; subst bs; repeat constructor; lia|].
  destruct (N.ltb_spec c 2048);
    [intros E; apply Ok_inj in E; subst bs; repeat constructor; nlia|].
  destruct (N.ltb_spec c 65536).
  { destruct ((55296 <=? c)%N && (c <=? 57343)%N); [discriminate|].
    intros E; apply Ok_inj in E; subst bs; repeat constructor; nlia. }
  destruct (N.ltb_spec c 1114112); [|discriminate].
  intros E; apply Ok_inj in E; subst bs; repeat constructor; nlia.
Qed.

Lemma utf8_encode_bytes s : forall bs,
  Url.utf8_encode s = Ok bs -> Forall (fun b => (b < 256)%N) bs.
Proof.
  induction s as [|c s IH]; intros bs H; cbn [Url.utf8_encode] in H.
  - inversion H. constructor.
  - bind_ok H b E1. bind_ok H bs' E2. inversion H; subst.
    apply Forall_app. split; [apply (utf8_encode_chr_bytes _ _ E1) | apply (IH _ eq_refl)].
Qed.

Lemma hexval_hexdigit n : (n < 16)%N -> Url.hexval (Url.hexdigit n) = Some n.
Proof.
  intros H. unfold Url.hexval, Url.hexdigit, is_digit_ascii, in_range.
  destruct (N.ltb_spec n 10) as [H1|H1].
  - rewrite (proj2 (N.leb_le 48 (48 + n)%N)), (proj2 (N.leb_le (48 + n)%N 57)) by lia.
    cbn [andb]. f_equal. lia.
  - rewrite (proj2 (N.leb_gt (55 + n)%N 57)) by lia. rewrite andb_false_r.
    rewrite (proj2 (N.leb_gt 97 (55 + n)%N)) by lia. cbn [andb].
    rewrite (proj2 (N.leb_le 65 (55 + n)%N)), (proj2 (N.leb_le (55 + n)%N 70)) by lia.
    cbn [andb]. f_equal. lia.
Qed.


Lemma hexdigit_quoted n : (n < 16)%N -> quoted_char (Url.hexdigit n) = true /\
                                         chr_eqb (Url.hexdigit n) Url.percent = false.
Proof.
  intros H. unfold Url.hexdigit, quoted_char, chr_eqb, Url.equals, Url.ampersand,
    Url.plus_sign, Url.hash, Url.percent.
  destruct (N.ltb_spec n 10); split;
    repeat (apply andb_true_iff; split);
    try (apply N.ltb_lt; lia); rewrite ?negb_true_iff; apply N.eqb_neq; lia.
Qed.

Lemma always_safe_facts b :
  Url.always_safe b = true ->
  quoted_char b = true /\ chr_eqb b Url.percent = false.
Proof.
  unfold Url.always_safe, quoted_char, is_alpha_ascii, is_upper_ascii, is_lower_ascii,
    is_digit_ascii, in_range, chr_eqb, Url.equals, Url.ampersand, Url.plus_sign, Url.hash,
    Url.percent.
  intros H.
  assert (Hb : (65 <= b <= 90 \/ 97 <= b <= 122 \/ 48 <= b <= 57 \/
                b = 95 \/ b = 46 \/ b = 45 \/ b = 126)%N).
  { repeat match type of H with
           | (_ || _)%bool = true => apply orb_true_iff in H; destruct H as [H|H]
           end;
      repeat match goal with
             | H : (_ && _)%bool = true |- _ => apply andb_true_iff in H; destruct H
             | H : (_ <=? _)%N = true |- _ => apply N.leb_le in H
             | H : (_ =? _)%N = true |- _ => apply N.eqb_eq in H
             end; lia. }
  clear H. split;
    repeat (apply andb_true_iff; split);
    try (apply N.ltb_lt; lia); rewrite ?negb_true_iff; apply N.eqb_neq; lia.
Qed.

(** The text of a byte, plus signs turned into spaces, is read back as the
    byte. *)
Lemma unquote_byte b t :
  (b < 256)%N ->
  Url.unquote_to_bytes (Url.plus_to_space (Url.quote_plus_byte b) ++ t)
  = b :: Url.unquote_to_bytes t.
Proof.
  intros Hb. unfold Url.quote_plus_byte.
  destruct (Url.always_safe b) eqn:Es.
  - destruct (always_safe_facts b Es) as [Hq Hp].
    unfold quoted_char in Hq. repeat (apply andb_true_iff in Hq; destruct Hq as [Hq ?]).
    cbn [Url.plus_to_space map app Url.unquote_to_bytes].
    match goal with H : negb (chr_eqb b Url.plus_sign) = true |- _ =>
      apply negb_true_iff in H; rewrite H end.
    rewrite Hp. reflexivity.
  - destruct (chr_eqb b Url.space) eqn:E.
    + apply chr_eqb_eq in E. subst b. reflexivity.
    + assert (H1 : (b / 16 < 16)%N) by nlia.
      assert (H2 : (b mod 16 < 16)%N) by nlia.
      destruct (hexdigit_quoted _ H1) as [Q1 P1]. destruct (hexdigit_quoted _ H2) as [Q2 P2].
      unfold quoted_char in Q1, Q2.
      repeat (apply andb_true_iff in Q1; destruct Q1 as [Q1 ?]).
      repeat (apply andb_true_iff in Q2; destruct Q2 as [Q2 ?]).
      repeat match goal with H : negb _ = true |- _ => apply negb_true_iff in H end.
      cbn [Url.plus_to_space map app].
      change (chr_eqb Url.percent Url.plus_sign) with false. cbv iota.
      repeat match goal with
             | H : chr_eqb (Url.hexdigit _) Url.plus_sign = false |- _ => rewrite H; clear H
             end.
      cbn [Url.unquote_to_bytes].
      change (chr_eqb Url.percent Url.percent) with true. cbv iota.
      rewrite (hexval_hexdigit _ H1), (hexval_hexdigit _ H2). f_equal. nlia.
Qed.

Lemma plus_to_space_app a b :
  Url.plus_to_space (a ++ b) = Url.plus_to_space a ++ Url.plus_to_space b.
Proof. apply map_app. Qed.

Lemma unquote_bytes bs :
  Forall (fun b => (b < 256)%N) bs ->
  Url.unquote_to_bytes (Url.plus_to_space (flat_map Url.quote_plus_byte bs)) = bs.
Proof.
  induction 1 as [|b bs Hb Hbs IH]; [reflexivity|].
  cbn [flat_map]. rewrite plus_to_space_app, (unquote_byte b _ Hb), IH. reflexivity.
Qed.

(** The characters of an encoded text. *)
Lemma quote_plus_byte_chars b c :
  (b < 256)%N -> In c (Url.quote_plus_byte b) ->
  (c <? 128)%N = true /\ c <> Url.equals /\ c <> Url.ampersand /\ c <> Url.hash.
Proof.
  intros Hb. unfold Url.quote_plus_byte.
  assert (Hq : forall x, quoted_char x = true ->
               (x <? 128)%N = true /\ x <> Url.equals /\ x <> Url.ampersand /\ x <> Url.hash).
  { intros x Hx. unfold quoted_char in Hx.
    repeat (apply andb_true_iff in Hx; destruct Hx as [Hx ?]).
    repeat match goal with H : negb _ = true |- _ => apply negb_true_iff in H end.
    repeat split; try assumption; intros ->;
      match goal with H : chr_eqb ?a ?a = false |- _ =>
        rewrite (proj2 (chr_eqb_eq a a) eq_refl) in H; discriminate H end. }
  destruct (Url.always_safe b) eqn:Es.
  - intros [<-|[]]. apply Hq. apply (always_safe_facts b Es).
  - destruct (chr_eqb b Url.space).
    + intros [<-|[]]. repeat split; discriminate.
    + intros [<-|[<-|[<-|[]]]].
      * repeat split; discriminate.
      * apply Hq. apply hexdigit_quoted. nlia.
      * apply Hq. apply hexdigit_quoted. nlia.
Qed.

Lemma quote_plus_chars s q c :
  Url.quote_plus s = Ok q -> In c q ->
  (c <? 128)%N = true /\ c <> Url.equals /\ c <> Url.ampersand /\ c <> Url.hash.
Proof.
  unfold Url.quote_plus. intros H Hin. bind_ok H bs E. apply Ok_inj in H. subst q.
  apply in_flat_map in Hin. destruct Hin as [b [Hb Hc]].
  pose proof (utf8_encode_bytes _ _ E) as Hf. rewrite Forall_forall in Hf.
  apply (quote_plus_byte_chars b c (Hf b Hb) Hc).
Qed.

Lemma utf8_decode_ascii t :
  Forall (fun c => (c <? 128)%N = true) t -> Url.utf8_decode t = t.
Proof.
  induction 1 as [|c t Hc Ht IH]; [reflexivity|].
  cbn [Url.utf8_decode]. rewrite Hc, IH. reflexivity.
Qed.

Lemma unquote_to_bytes_plain t :
  existsb (chr_eqb Url.percent) t = false -> Url.unquote_to_bytes t = t.
Proof.
  induction t as [|c t IH]; intros H; [reflexivity|].
  cbn [existsb] in H. apply orb_false_elim in H. destruct H as [H1 H2].
  cbn [Url.unquote_to_bytes].
  assert (E : chr_eqb c Url.percent = false).
  { destruct (chr_eqb c Url.percent) eqn:E; [|reflexivity].
    apply chr_eqb_eq in E. subst c. discriminate H1. }
  rewrite E, (IH H2). reflexivity.
Qed.

Lemma ascii_blocks_ascii t :
  t <> [] -> Forall (fun c => (c <? 128)%N = true) t -> Url.ascii_blocks t = [(true, t)].
Proof.
  intros Hne Hf. induction Hf as [|c t Hc Ht IH]; [contradiction Hne; reflexivity|].
  cbn [Url.ascii_blocks]. rewrite Hc. destruct t as [|d t]; [reflexivity|].
  rewrite IH by discriminate. reflexivity.
Qed.

(** [unquote] on an ASCII text. *)
Lemma unquote_ascii t :
  Forall (fun c => (c <? 128)%N = true) t ->
  Url.unquote t = Url.utf8_decode (Url.unquote_to_bytes t).
Proof.
  intros Hf. unfold Url.unquote.
  destruct (existsb (chr_eqb Url.percent) t) eqn:E; cbn [negb].
  - assert (Hne : t <> []) by (intros ->; discriminate E).
    rewrite (ascii_blocks_ascii t Hne Hf). cbn [flat_map fst snd]. apply app_nil_r.
  - rewrite (unquote_to_bytes_plain t E), (utf8_decode_ascii t Hf). reflexivity.
Qed.

(** Property of the library: decoding what [quote_plus] wrote gives the text
    back. *)
Lemma unquote_quote_plus s q :
  Url.quote_plus s = Ok q -> Url.unquote (Url.plus_to_space q) = s.
Proof.
  intros H. pose proof H as H0. unfold Url.quote_plus in H. bind_ok H bs E.
  apply Ok_inj in H. subst q.
  rewrite unquote_ascii.
  - rewrite (unquote_bytes bs (utf8_encode_bytes _ _ E)). apply (utf8_decode_encode _ _ E).
  - apply Forall_forall. intros c Hc. unfold Url.plus_to_space in Hc.
    apply in_map_iff in Hc. destruct Hc as [x [Hx Hin]].
    destruct (quote_plus_chars _ _ x H0 Hin) as [Hlt _].
    destruct (chr_eqb x Url.plus_sign); subst c; [reflexivity | exact Hlt].
Qed.

Lemma cut_app (c : char) (a b : str) :
  ~ In c a -> Url.cut c (a ++ c :: b) = Some (a, b).
Proof.
  induction a as [|x a IH]; intros H; cbn [app Url.cut].
  - rewrite (proj2 (chr_eqb_eq c c) eq_refl). reflexivity.
  - destruct (chr_eqb x c) eqn:E.
    + apply chr_eqb_eq in E. exfalso. apply H. left. exact E.
    + rewrite IH; [reflexivity|]. intros Hin. apply H. right. exact Hin.
Qed.

Lemma split_join (c : char) (fields : list str) :
  fields <> [] -> (forall f, In f fields -> ~ In c f) ->
  Url.split c (join [c] fields) = fields.
Proof.
  induction fields as [|f fs IH]; intros Hne Hf; [contradiction Hne; reflexivity|].
  destruct fs as [|g fs].
  - cbn [join]. apply split_no_sep_whole. apply Hf. left. reflexivity.
  - change (join [c] (f :: g :: fs)) with (f ++ c :: join [c] (g :: fs)).
    rewrite split_app_sep by (apply Hf; left; reflexivity).
    rewrite IH; [reflexivity | discriminate |].
    intros h Hh. apply Hf. right. exact Hh.
Qed.

(** The fields that [urlencode] writes: each is a key, an equals sign and a
    value, has no ampersand, and is read back as the pair. *)
Lemma encode_fields_spec pairs :
  forall l, Url.encode_fields pairs = Ok l ->
  List.length l = List.length pairs /\
  (forall f, In f l -> ~ In Url.ampersand f /\ ~ In Url.hash f /\ f <> []) /\
  map Url.parse_field l = pairs.
Proof.
  induction pairs as [|[k v] rest IH]; intros l H; cbn [Url.encode_fields] in H.
  - apply Ok_inj in H. subst l. split; [reflexivity|]. split; [intros g []|reflexivity].
  - bind_ok H k' Ek. bind_ok H v' Ev. bind_ok H l' El. apply Ok_inj in H. subst l.
    destruct (IH l' eq_refl) as [Hlen [Hf Hm]].
    assert (Hc : forall c, In c (k' ++ [Url.equals] ++ v') ->
                 c <> Url.ampersand /\ c <> Url.hash).
    { intros c Hc. apply in_app_or in Hc. destruct Hc as [Hc|[<-|Hc]].
      - destruct (quote_plus_chars _ _ c Ek Hc) as [_ [_ [? ?]]]. split; assumption.
      - split; discriminate.
      - destruct (quote_plus_chars _ _ c Ev Hc) as [_ [_ [? ?]]]. split; assumption. }
    split; [cbn [List.length]; rewrite Hlen; reflexivity|]. split.
    + intros f [<-|Hin]; [|apply (Hf f Hin)].
      split; [|split].
      * intros Hin. apply (proj1 (Hc _ Hin)). reflexivity.
      * intros Hin. apply (proj2 (Hc _ Hin)). reflexivity.
      * destruct k'; discriminate.
    + cbn [map]. rewrite Hm. f_equal.
      unfold Url.parse_field. cbn [app]. rewrite cut_app.
      * rewrite (unquote_quote_plus _ _ Ek), (unquote_quote_plus _ _ Ev). reflexivity.
      * intros Hin. destruct (quote_plus_chars _ _ _ Ek Hin) as [_ [He _]].
        apply He. reflexivity.
Qed.

Lemma filter_truthy_all (l : list str) :
  (forall f, In f l -> f <> []) -> filter truthy l = l.
Proof.
  induction l as [|f l IH]; intros H; [reflexivity|].
  cbn [filter]. destruct f as [|x f].
  - exfalso. apply (H []); [left|]; reflexivity.
  - cbn [truthy]. rewrite IH; [reflexivity|]. intros g Hg. apply H. right. exact Hg.
Qed.

(** Round trip of the library: [parse_qsl] reads back the pairs that
    [urlencode] wrote, in their order. *)
Lemma parse_qsl_urlencode pairs q :
  Url.urlencode pairs = Ok q -> Url.parse_qsl q = pairs.
Proof.
  unfold Url.urlencode. intros H. bind_ok H l E. apply Ok_inj in H. subst q.
  destruct (encode_fields_spec pairs l E) as [Hlen [Hf Hm]].
  destruct l as [|f l].
  - destruct pairs; [reflexivity | discriminate Hlen].
  - unfold Url.parse_qsl.
    assert (Hq : truthy (join [Url.ampersand] (f :: l)) = true).
    { assert (Hne : f <> []) by (apply Hf; left; reflexivity).
      destruct f as [|x f]; [contradiction Hne; reflexivity|].
      destruct l; reflexivity. }
    rewrite Hq. rewrite split_join.
    + rewrite filter_truthy_all; [exact Hm|]. intros g Hg. apply (Hf g Hg).
    + discriminate.
    + intros g Hg. apply (Hf g Hg).
Qed.

Lemma urlencode_empty pairs q :
  Url.urlencode pairs = Ok q -> (q = [] <-> pairs = []).
Proof.
  intros H. pose proof (parse_qsl_urlencode _ _ H) as Hp. split.
  - intros ->. symmetry. exact Hp.
  - intros ->. vm_compute in H. apply Ok_inj in H. symmetry. exact H.
Qed.

Lemma filter_idem (A : Type) (f : A -> bool) (l : list A) : filter f (filter f l) = filter f l.
Proof.
  induction l as [|x l IH]; [reflexivity|]. cbn [filter].
  destruct (f x) eqn:E; [cbn [filter]; rewrite E, IH; reflexivity | exact IH].
Qed.

(** Property X13. [normalize_url] of kompas on a URL with a query: the query
    it writes holds exactly the pairs of the given query whose key is no
    tracking key, in their order and with their keys and values as decoded:
    reading it back with [parse_qsl] gives those pairs; no tracking key is
    left; and the written query is a fixed point of the rewriting. *)
Theorem X13_kompas_query_round_trip x u r :
  Kompas_url.normalize_url (Some (x :: u)) = Ok r ->
  exists u1 p,
    (if startswith (lit "/") (x :: u) then Url.urljoin Kompas_url.BASE (x :: u)
     else Ok (x :: u)) = Ok u1 /\
    Url.urlparse u1 [] = Ok p /\
    (Url.query p = [] \/
     exists q,
       r = Url.urlunparse (Url.replace_query (Url.replace_fragment p []) q) /\
       Url.parse_qsl q = filter (fun kv => negb (Kompas_url.is_tracking (fst kv)))
                                (Url.parse_qsl (Url.query p)) /\
       Forall (fun kv => Kompas_url.is_tracking (fst kv) = false) (Url.parse_qsl q) /\
       Url.urlencode (Kompas_url.keep_loop (Url.parse_qsl q) []) = Ok q).
Proof.
  intros H. destruct (kompas_normalize_url_query x u r H) as [u1 [p [E1 [E2 Hq]]]].
  exists u1, p. split; [exact E1|]. split; [exact E2|].
  destruct Hq as [[Hq _]|[_ [q [Eq Hr]]]]; [left; exact Hq|].
  right. exists q. pose proof (parse_qsl_urlencode _ _ Eq) as Hp.
  split; [exact Hr|]. split; [exact Hp|]. split.
  - rewrite Hp. apply Forall_forall. intros kv Hin. apply filter_In in Hin.
    destruct Hin as [_ Hn]. apply negb_true_iff in Hn. exact Hn.
  - rewrite keep_loop_filter. cbn [app]. rewrite Hp, filter_idem. exact Eq.
Qed.

Lemma X13_kompas_query_round_trip_witness :
  exists u1 p,
    (if startswith (lit "/") (lit "/read/2025/12/17/09463351/x?page=all&utm_campaign=q&b=2%20c&fbclid=1#c")
     then Url.urljoin Kompas_url.BASE (lit "/read/2025/12/17/09463351/x?page=all&utm_campaign=q&b=2%20c&fbclid=1#c")
     else Ok (lit "/read/2025/12/17/09463351/x?page=all&utm_campaign=q&b=2%20c&fbclid=1#c")) = Ok u1 /\
    Url.urlparse u1 [] = Ok p /\
    (Url.query p = [] \/
     exists q,
       lit "https://www.kompas.com/read/2025/12/17/09463351/x?page=all&b=2+c"
       = Url.urlunparse (Url.replace_query (Url.replace_fragment p []) q) /\
       Url.parse_qsl q = filter (fun kv => negb (Kompas_url.is_tracking (fst kv)))
                                (Url.parse_qsl (Url.query p)) /\
       Forall (fun kv => Kompas_url.is_tracking (fst kv) = false) (Url.parse_qsl q) /\
       Url.urlencode (Kompas_url.keep_loop (Url.parse_qsl q) []) = Ok q).
Proof.
  apply (X13_kompas_query_round_trip 47%N
           (lit "read/2025/12/17/09463351/x?page=all&utm_campaign=q&b=2%20c&fbclid=1#c")).
  vm_compute. reflexivity.
Defined.

(** ** [add_page_all] of tribunnews: the query it writes *)

Lemma utf8_decode_nonempty bs : bs <> [] -> Url.utf8_decode bs <> [].
Proof.
  destruct bs as [|b r]; [intros H; contradiction H; reflexivity|]. intros _.
  cbn [Url.utf8_decode].
  repeat match goal with
         | |- context [if ?b then _ else _] => destruct b
         | |- context [match ?r with [] => _ | _ :: _ => _ end] => destruct r
         end; discriminate.
Qed.

Lemma unquote_to_bytes_nonempty s : s <> [] -> Url.unquote_to_bytes s <> [].
Proof.
  destruct s as [|c s]; [intros H; contradiction H; reflexivity|]. intros _.
  cbn [Url.unquote_to_bytes].
  repeat match goal with
         | |- context [if ?b then _ else _] => destruct b
         | |- context [match ?r with [] => _ | _ :: _ => _ end] => destruct r
         | |- context [match ?r with Some _ => _ | None => _ end] => destruct r
         end; discriminate.
Qed.

Lemma ascii_blocks_head c s :
  exists a blk rest, Url.ascii_blocks (c :: s) = (a, c :: blk) :: rest.
Proof.
  cbn [Url.ascii_blocks]. destruct (Url.ascii_blocks s) as [|[a' blk] rest].
  - eexists _, _, _. reflexivity.
  - destruct (Bool.eqb _ a'); eexists _, _, _; reflexivity.
Qed.

Lemma unquote_nonempty s : s <> [] -> Url.unquote s <> [].
Proof.
  intros Hne. unfold Url.unquote.
  destruct (negb (existsb (chr_eqb Url.percent) s)); [exact Hne|].
  destruct s as [|c s]; [contradiction Hne; reflexivity|].
  destruct (ascii_blocks_head c s) as [a [blk [rest E]]]. rewrite E.
  cbn [flat_map fst snd]. intros H. apply app_eq_nil in H. destruct H as [H _].
  destruct a.
  - revert H. apply utf8_decode_nonempty. apply unquote_to_bytes_nonempty. discriminate.
  - discriminate H.
Qed.

Lemma Ok_inj_some (A : Type) (a b : A) : Some a = Some b -> a = b.
Proof. intros H. inversion H. reflexivity. Qed.

Lemma plus_to_space_nonempty s : s <> [] -> Url.plus_to_space s <> [].
Proof. destruct s; [intros H; contradiction H; reflexivity | discriminate]. Qed.


Lemma dict_add_keys d k v :
  map fst (Tribun.dict_add d k v)
  = if existsb (str_eqb k) (map fst d) then map fst d else map fst d ++ [k].
Proof.
  induction d as [|[k' vs] d IH]; [reflexivity|].
  cbn [Tribun.dict_add map fst existsb].
  destruct (str_eqb k' k) eqn:E.
  - apply str_eqb_eq in E. subst k'. rewrite str_eqb_refl. reflexivity.
  - assert (E' : str_eqb k k' = false).
    { destruct (str_eqb k k') eqn:E'; [|reflexivity].
      apply str_eqb_eq in E'. subst k'. rewrite str_eqb_refl in E. discriminate E. }
    rewrite E'. cbn [orb map fst]. rewrite IH.
    destruct (existsb (str_eqb k) (map fst d)); reflexivity.
Qed.

Lemma NoDup_snoc (A : Type) (l : list A) (x : A) : NoDup l -> ~ In x l -> NoDup (l ++ [x]).
Proof.
  induction 1 as [|y l Hy Hl IH]; intros Hx; cbn [app].
  - constructor; [intros []|constructor].
  - constructor.
    + intros Hin. apply in_app_or in Hin. destruct Hin as [Hin|[->|[]]].
      * exact (Hy Hin).
      * apply Hx. left. reflexivity.
    + apply IH. intros Hin. apply Hx. right. exact Hin.
Qed.

Lemma dict_add_ok d k v : v <> [] -> qs_ok d -> qs_ok (Tribun.dict_add d k v).
Proof.
  intros Hv [Hk Hd]. split.
  - rewrite dict_add_keys. destruct (existsb (str_eqb k) (map fst d)) eqn:E; [exact Hk|].
    apply NoDup_snoc; [exact Hk|]. intros Hin. apply existsb_str_In in Hin.
    rewrite Hin in E. discriminate E.
  - clear Hk. induction Hd as [|[k' vs] d [H1 H2] Hd IH]; cbn [Tribun.dict_add].
    + constructor; [|constructor]. cbn [snd]. split; [discriminate|].
      constructor; [exact Hv | constructor].
    + cbn [snd] in H1, H2. destruct (str_eqb k' k).
      * constructor; [|exact Hd]. cbn [snd]. split.
        -- destruct vs; discriminate.
        -- apply Forall_app. split; [exact H2|]. constructor; [exact Hv | constructor].
      * constructor; [|exact IH]. cbn [snd]. split; assumption.
Qed.

Lemma parse_qs_field_value f k v : Tribun.parse_qs_field f = Some (k, v) -> v <> [].
Proof.
  unfold Tribun.parse_qs_field. destruct (Url.cut Url.equals f) as [[n w]|]; [|discriminate].
  destruct w as [|c w]; cbn [truthy]; [discriminate|]. intros H.
  apply Ok_inj_some in H. apply (f_equal snd) in H. cbn [snd] in H. subst v.
  apply unquote_nonempty. apply plus_to_space_nonempty. discriminate.
Qed.

Lemma parse_qs_fold_ok l :
  forall d, qs_ok d ->
  qs_ok (fold_left (fun d f => match Tribun.parse_qs_field f with
                               | Some (k, v) => Tribun.dict_add d k v
                               | None => d
                               end) l d).
Proof.
  induction l as [|f l IH]; intros d Hd; [exact Hd|].
  cbn [fold_left]. apply IH.
  destruct (Tribun.parse_qs_field f) as [[k v]|] eqn:E; [|exact Hd].
  apply dict_add_ok; [|exact Hd]. apply (parse_qs_field_value _ _ _ E).
Qed.

Lemma parse_qs_ok q : qs_ok (Tribun.parse_qs q).
Proof.
  assert (H0 : qs_ok []) by (split; constructor).
  unfold Tribun.parse_qs. destruct (truthy q); [|exact H0].
  apply parse_qs_fold_ok. exact H0.
Qed.

Lemma dict_set_keys d k vs :
  map fst (Tribun.dict_set d k vs)
  = if existsb (str_eqb k) (map fst d) then map fst d else map fst d ++ [k].
Proof.
  induction d as [|[k' vs'] d IH]; [reflexivity|].
  cbn [Tribun.dict_set map fst existsb].
  destruct (str_eqb k' k) eqn:E.
  - apply str_eqb_eq in E. subst k'. rewrite str_eqb_refl. reflexivity.
  - assert (E' : str_eqb k k' = false).
    { destruct (str_eqb k k') eqn:E'; [|reflexivity].
      apply str_eqb_eq in E'. subst k'. rewrite str_eqb_refl in E. discriminate E. }
    rewrite E'. cbn [orb map fst]. rewrite IH.
    destruct (existsb (str_eqb k) (map fst d)); reflexivity.
Qed.

Lemma dict_set_ok d k v : v <> [] -> qs_ok d -> qs_ok (Tribun.dict_set d k [v]).
Proof.
  intros Hv [Hk Hd]. split.
  - rewrite dict_set_keys. destruct (existsb (str_eqb k) (map fst d)) eqn:E; [exact Hk|].
    apply NoDup_snoc; [exact Hk|]. intros Hin. apply existsb_str_In in Hin.
    rewrite Hin in E. discriminate E.
  - clear Hk. induction Hd as [|[k' vs] d [H1 H2] Hd IH]; cbn [Tribun.dict_set].
    + constructor; [|constructor]. cbn [snd]. split; [discriminate|].
      constructor; [exact Hv | constructor].
    + cbn [snd] in H1, H2. destruct (str_eqb k' k).
      * constructor; [|exact Hd]. cbn [snd]. split; [discriminate|].
        constructor; [exact Hv | constructor].
      * constructor; [|exact IH]. cbn [snd]. split; assumption.
Qed.

Lemma dict_add_fresh d k v :
  ~ In k (map fst d) -> Tribun.dict_add d k v = d ++ [(k, [v])].
Proof.
  induction d as [|[k' vs] d IH]; intros H; [reflexivity|].
  cbn [Tribun.dict_add app]. destruct (str_eqb k' k) eqn:E.
  - apply str_eqb_eq in E. exfalso. apply H. left. exact E.
  - rewrite IH; [reflexivity|]. intros Hin. apply H. right. exact Hin.
Qed.

Lemma quote_plus_nonempty s q : Url.quote_plus s = Ok q -> s <> [] -> q <> [].
Proof.
  intros H Hs ->. apply Hs. symmetry. apply (unquote_quote_plus _ _ H).
Qed.

(** The fields of [urlencode], read by [parse_qs]: pairs with different
    keys and values that are not empty are read back one by one. *)
Lemma parse_qs_fold_encode pairs :
  forall l d, Url.encode_fields pairs = Ok l ->
  NoDup (map fst d ++ map fst pairs) ->
  Forall (fun kv : str * str => snd kv <> []) pairs ->
  fold_left (fun d f => match Tribun.parse_qs_field f with
                        | Some (k, v) => Tribun.dict_add d k v
                        | None => d
                        end) l d
  = d ++ map (fun kv : str * str => (fst kv, [snd kv])) pairs.
Proof.
  induction pairs as [|[k v] rest IH]; intros l d H Hnd Hv; cbn [Url.encode_fields] in H.
  - apply Ok_inj in H. subst l. cbn [fold_left map]. rewrite app_nil_r. reflexivity.
  - bind_ok H k' Ek. bind_ok H v' Ev. bind_ok H l' El. apply Ok_inj in H. subst l.
    inversion Hv as [|? ? Hv1 Hv2]; subst. cbn [snd] in Hv1.
    cbn [fold_left].
    assert (Ef : Tribun.parse_qs_field (k' ++ [Url.equals] ++ v') = Some (k, v)).
    { unfold Tribun.parse_qs_field. cbn [app]. rewrite cut_app.
      - pose proof (quote_plus_nonempty _ _ Ev Hv1) as Hne.
        destruct v' as [|c v']; [contradiction Hne; reflexivity|]. cbn [truthy].
        rewrite (unquote_quote_plus _ _ Ek), (unquote_quote_plus _ _ Ev). reflexivity.
      - intros Hin. destruct (quote_plus_chars _ _ _ Ek Hin) as [_ [He _]].
        apply He. reflexivity. }
    rewrite Ef. cbn [map fst] in Hnd.
    rewrite dict_add_fresh.
    + rewrite (IH l' _ eq_refl).
      * rewrite <- app_assoc. reflexivity.
      * rewrite map_app. cbn [map fst]. rewrite <- app_assoc. exact Hnd.
      * exact Hv2.
    + apply NoDup_remove_2 in Hnd. intros Hin. apply Hnd. apply in_or_app. left. exact Hin.
Qed.

Lemma parse_qs_urlencode pairs q :
  Url.urlencode pairs = Ok q ->
  NoDup (map fst pairs) ->
  Forall (fun kv : str * str => snd kv <> []) pairs ->
  Tribun.parse_qs q = map (fun kv : str * str => (fst kv, [snd kv])) pairs.
Proof.
  intros H Hnd Hv. pose proof H as H0. unfold Url.urlencode in H. bind_ok H l E.
  apply Ok_inj in H. subst q.
  destruct pairs as [|p pairs].
  - cbn in E. apply Ok_inj in E. subst l. reflexivity.
  - destruct (encode_fields_spec _ l E) as [Hlen [Hf Hm]].
    destruct l as [|f l]; [discriminate Hlen|].
    unfold Tribun.parse_qs.
    assert (Hq : truthy (join [Url.ampersand] (f :: l)) = true).
    { assert (Hne : f <> []) by (apply Hf; left; reflexivity).
      destruct f as [|x f]; [contradiction Hne; reflexivity|].
      destruct l; reflexivity. }
    rewrite Hq, split_join.
    + apply (parse_qs_fold_encode _ _ [] E); assumption.
    + discriminate.
    + intros g Hg. apply (Hf g Hg).
Qed.

Lemma dict_get_set_same d k vs dflt :
  Dates.dict_get (map (fun kv : str * list str => (fst kv, [hd [] (snd kv)]))
                      (Tribun.dict_set d k [vs])) k dflt = [vs].
Proof.
  induction d as [|[k' vs'] d IH]; cbn [Tribun.dict_set].
  - cbn [map fst snd Dates.dict_get hd]. rewrite str_eqb_refl. reflexivity.
  - destruct (str_eqb k' k) eqn:E; cbn [map fst snd Dates.dict_get hd]; rewrite E.
    + reflexivity.
    + exact IH.
Qed.

Lemma dict_get_set_other d k vs k0 :
  k0 <> k ->
  Forall (fun kv : str * list str => snd kv <> []) d ->
  Dates.dict_get (map (fun kv : str * list str => (fst kv, [hd [] (snd kv)]))
                      (Tribun.dict_set d k vs)) k0 []
  = firstn 1 (Dates.dict_get d k0 []).
Proof.
  intros Hk Hd. induction Hd as [|[k' vs'] d H Hd IH]; cbn [Tribun.dict_set].
  - cbn [map fst snd Dates.dict_get].
    destruct (str_eqb k k0) eqn:E; [|reflexivity].
    apply str_eqb_eq in E. contradiction Hk. symmetry. exact E.
  - cbn [snd] in H. destruct (str_eqb k' k) eqn:E; cbn [map fst snd Dates.dict_get].
    + apply str_eqb_eq in E. subst k'.
      destruct (str_eqb k k0) eqn:E0.
      * apply str_eqb_eq in E0. contradiction Hk. symmetry. exact E0.
      * clear IH. induction d as [|[k1 v1] d IHd]; [reflexivity|].
        inversion Hd as [|? ? Hv1 Hd']; subst. cbn [snd] in Hv1.
        cbn [map fst snd Dates.dict_get]. destruct (str_eqb k1 k0).
        -- destruct v1; [contradiction Hv1; reflexivity | reflexivity].
        -- apply IHd. exact Hd'.
    + destruct (str_eqb k' k0).
      * destruct vs'; [contradiction H; reflexivity | reflexivity].
      * exact IH.
Qed.

(** Property X14. [add_page_all] of tribunnews returns the URL as it is when
    the first value of its [page] key is [all]; otherwise the query it writes,
    read back with [parse_qs], has the keys of the given query in their order
    ([page] added last when it was not there), each with one value: [all] for
    [page], and for every other key the first of its values. *)
Theorem X14_tribun_add_page_all url r :
  Tribun.add_page_all url = Ok r ->
  (url = [] /\ r = []) \/
  exists pu,
    Url.urlparse url [] = Ok pu /\
    ((hd [] (Dates.dict_get (Tribun.parse_qs (Url.query pu)) (lit "page") [[]]) = lit "all" /\
      r = url) \/
     (hd [] (Dates.dict_get (Tribun.parse_qs (Url.query pu)) (lit "page") [[]]) <> lit "all" /\
      exists q,
        r = Url.urlunparse (Url.replace_query pu q) /\
        Tribun.parse_qs q
        = map (fun kv : str * list str => (fst kv, [hd [] (snd kv)]))
              (Tribun.dict_set (Tribun.parse_qs (Url.query pu)) (lit "page") [lit "all"]) /\
        Dates.dict_get (Tribun.parse_qs q) (lit "page") [[]] = [lit "all"] /\
        forall k, k <> lit "page" ->
          Dates.dict_get (Tribun.parse_qs q) k []
          = firstn 1 (Dates.dict_get (Tribun.parse_qs (Url.query pu)) k []))).
Proof.
  unfold Tribun.add_page_all. intros H.
  destruct url as [|c url]; cbn [truthy negb] in H.
  - left. apply Ok_inj in H. subst r. split; reflexivity.
  - right. bind_ok H pu E. exists pu. split; [reflexivity|].
    set (qs := Tribun.parse_qs (Url.query pu)) in *.
    destruct (str_eqb (hd [] (Dates.dict_get qs (lit "page") [[]])) (lit "all")) eqn:Ep.
    + left. apply str_eqb_eq in Ep. apply Ok_inj in H. split; [exact Ep | symmetry; exact H].
    + right. split.
      { intros Heq. rewrite Heq in Ep. vm_compute in Ep. discriminate Ep. }
      bind_ok H q Eqq. apply Ok_inj in H. exists q. split; [symmetry; exact H|].
      assert (Hok : qs_ok (Tribun.dict_set qs (lit "page") [lit "all"])).
      { apply dict_set_ok; [discriminate | apply parse_qs_ok]. }
      destruct Hok as [Hk Hv].
      assert (Hp : Tribun.parse_qs q
                   = map (fun kv : str * list str => (fst kv, [hd [] (snd kv)]))
                         (Tribun.dict_set qs (lit "page") [lit "all"])).
      { rewrite (parse_qs_urlencode _ _ Eqq).
        - rewrite map_map. reflexivity.
        - rewrite map_map. cbn [fst]. exact Hk.
        - apply Forall_forall. intros kv Hin. apply in_map_iff in Hin.
          destruct Hin as [[k vs] [<- Hin]]. cbn [snd].
          rewrite Forall_forall in Hv. destruct (Hv _ Hin) as [H1 H2]. cbn [snd] in H1, H2.
          destruct vs as [|v vs]; [contradiction H1; reflexivity|].
          cbn [hd]. inversion H2; assumption. }
      split; [exact Hp|]. rewrite Hp. split.
      * apply dict_get_set_same.
      * intros k Hkk. apply dict_get_set_other; [exact Hkk|].
        destruct (parse_qs_ok (Url.query pu)) as [_ Hv0]. fold qs in Hv0.
        apply Forall_forall. intros kv Hin. rewrite Forall_forall in Hv0.
        apply (proj1 (Hv0 _ Hin)).
Qed.

Lemma X14_tribun_add_page_all_witness :
  (lit "https://www.tribunnews.com/nasional/7769612/x?b=1&b=2&c=x+y" = []
   /\ lit "https://www.tribunnews.com/nasional/7769612/x?b=1&c=x+y&page=all" = []) \/
  exists pu,
    Url.urlparse (lit "https://www.tribunnews.com/nasional/7769612/x?b=1&b=2&c=x+y") [] = Ok pu /\
    ((hd [] (Dates.dict_get (Tribun.parse_qs (Url.query pu)) (lit "page") [[]]) = lit "all" /\
      lit "https://www.tribunnews.com/nasional/7769612/x?b=1&c=x+y&page=all"
      = lit "https://www.tribunnews.com/nasional/7769612/x?b=1&b=2&c=x+y") \/
     (hd [] (Dates.dict_get (Tribun.parse_qs (Url.query pu)) (lit "page") [[]]) <> lit "all" /\
      exists q,
        lit "https://www.tribunnews.com/nasional/7769612/x?b=1&c=x+y&page=all"
        = Url.urlunparse (Url.replace_query pu q) /\
        Tribun.parse_qs q
        = map (fun kv : str * list str => (fst kv, [hd [] (snd kv)]))
              (Tribun.dict_set (Tribun.parse_qs (Url.query pu)) (lit "page") [lit "all"]) /\
        Dates.dict_get (Tribun.parse_qs q) (lit "page") [[]] = [lit "all"] /\
        forall k, k <> lit "page" ->
          Dates.dict_get (Tribun.parse_qs q) k []
          = firstn 1 (Dates.dict_get (Tribun.parse_qs (Url.query pu)) k []))).
Proof.
  apply (X14_tribun_add_page_all
           (lit "https://www.tribunnews.com/nasional/7769612/x?b=1&b=2&c=x+y")).
  vm_compute. reflexivity.
Defined.

(** ** The date that tribunnews shows *)

Lemma run_seq (A : Type) a b pre s c (k : Re.cont A) :
  Re.run (Re.Seq a b) pre s c k
  = Re.run a pre s c (fun pre' s' c' => Re.run b pre' s' c' k).
Proof. reflexivity. Qed.

Lemma run_bol_nil (A : Type) s c (k : Re.cont A) : Re.run Re.Bol [] s c k = k [] s c.
Proof. reflexivity. Qed.

Lemma run_chr (A : Type) p pre x s c (k : Re.cont A) :
  Re.run (Re.Chr p) pre (x :: s) c k = if p x then k (x :: pre) s c else None.
Proof. reflexivity. Qed.

(** A greedy block of a class, followed by a continuation that accepts the
    text after the longest block, consumes the longest block. *)
Lemma rep_class_to (A : Type) (p : char -> bool) (lo : nat) (k : Re.cont A) (rest : str)
      (c : Re.caps) (v : A) :
  match rest with [] => True | x :: _ => p x = false end ->
  forall blk fuel n pre,
    forallb p blk = true ->
    lo <= n + List.length blk ->
    List.length (blk ++ rest) < fuel ->
    k (rev blk ++ pre) rest c = Some v ->
    Re.rep_loop (fun pre' s' c' k' => Re.run (Re.Chr p) pre' s' c' k')
                lo None true k fuel n pre (blk ++ rest) c = Some v.
Proof.
  intros Hrest. induction blk as [|x blk IH]; intros fuel n pre Hp Hlo Hf Hk.
  - destruct fuel as [|fuel]; [cbn [List.length] in Hf; lia|].
    cbn [app rev List.length] in *. cbn [Re.rep_loop Re.below].
    assert (Hm : Re.run (Re.Chr p) pre rest c
                   (fun pre' s' c' =>
                      if Nat.ltb (List.length s') (List.length rest)
                      then Re.rep_loop (fun pre' s' c' k' => Re.run (Re.Chr p) pre' s' c' k')
                             lo None true k fuel (S n) pre' s' c'
                      else None) = None).
    { cbn [Re.run]. destruct rest as [|y rest]; [reflexivity|]. rewrite Hrest. reflexivity. }
    rewrite Hm. rewrite (proj2 (Nat.leb_le lo n)) by lia. exact Hk.
  - destruct fuel as [|fuel]; [cbn [List.length] in Hf; lia|].
    cbn [forallb] in Hp. apply andb_true_iff in Hp. destruct Hp as [Hx Hp].
    cbn [app List.length] in Hf, Hlo.
    cbn [app Re.rep_loop Re.below Re.run]. rewrite Hx.
    rewrite (proj2 (Nat.ltb_lt _ _)) by (cbn [List.length]; lia).
    assert (E : Re.rep_loop (fun pre' s' c' k' => Re.run (Re.Chr p) pre' s' c' k')
                  lo None true k fuel (S n) (x :: pre) (blk ++ rest) c = Some v).
    { apply (IH fuel (S n) (x :: pre) Hp); [lia | lia |].
      cbn [rev] in Hk. rewrite <- app_assoc in Hk. exact Hk. }
    cbn [Re.run] in E. rewrite E. reflexivity.
Qed.

Lemma firstn_front (A : Type) (a b : list A) :
  firstn (List.length (a ++ b) - List.length b) (a ++ b) = a.
Proof.
  rewrite length_app. replace (List.length a + List.length b - List.length b)
    with (List.length a + 0) by lia.
  rewrite firstn_app_2. cbn [firstn]. apply app_nil_r.
Qed.

(** The name of the day, a comma and white space at the start of a text. *)
Lemma day_name_match (dayname sp rest : str) :
  dayname <> [] -> forallb is_alpha_ascii dayname = true ->
  forallb is_space sp = true ->
  match rest with [] => True | x :: _ => is_space x = false end ->
  Re.match_here Tribun.day_name_re [] (dayname ++ [44%N] ++ sp ++ rest)
  = Some (Re.Mtch [] (dayname ++ [44%N] ++ sp) rest []).
Proof.
  intros Hne Ha Hs Hrest. unfold Re.match_here.
  change Tribun.day_name_re
    with (Re.Seq Re.Bol (Re.Seq (Re.plus (Re.Chr is_alpha_ascii))
                                (Re.Seq (Re.c1 44) (Re.star Re.ws)))).
  rewrite run_seq, run_bol_nil, run_seq. unfold Re.plus. rewrite run_rep.
  apply rep_class_to.
  - reflexivity.
  - exact Ha.
  - destruct dayname; [contradiction Hne; reflexivity | cbn [List.length]; lia].
  - lia.
  - rewrite run_seq. cbn [app]. unfold Re.c1 at 1. rewrite run_chr.
    change (chr_eqb 44 44) with true. cbv iota.
    unfold Re.star, Re.ws. rewrite run_rep.
    apply rep_class_to.
    + exact Hrest.
    + exact Hs.
    + lia.
    + lia.
    + f_equal. f_equal.
      replace (dayname ++ 44%N :: sp ++ rest) with ((dayname ++ [44%N] ++ sp) ++ rest)
        by (rewrite <- !app_assoc; reflexivity).
      apply firstn_front.
Qed.

Lemma sub_from_bol (r : Re.re) (repl : str) :
  forall fuel pre s, pre <> [] -> Re.sub_from (Re.Seq Re.Bol r) repl fuel pre s = s.
Proof.
  induction fuel as [|fuel IH]; intros pre s Hpre; [reflexivity|].
  cbn [Re.sub_from]. unfold Re.match_here. rewrite run_seq.
  destruct pre as [|y pre]; [contradiction Hpre; reflexivity|].
  cbn [Re.run]. destruct s as [|x s]; [reflexivity|].
  rewrite IH by discriminate. reflexivity.
Qed.

Lemma sub_day_name (dayname sp rest : str) :
  dayname <> [] -> forallb is_alpha_ascii dayname = true ->
  forallb is_space sp = true ->
  match rest with [] => True | x :: _ => is_space x = false end ->
  Re.sub Tribun.day_name_re [] (dayname ++ [44%N] ++ sp ++ rest) = rest.
Proof.
  intros Hne Ha Hs Hrest. unfold Re.sub. cbn [Re.sub_from].
  rewrite (day_name_match dayname sp rest Hne Ha Hs Hrest). cbn [Re.m_text Re.m_after].
  destruct dayname as [|x dn]; [contradiction Hne; reflexivity|]. cbn [app].
  change Tribun.day_name_re
    with (Re.Seq Re.Bol (Re.Seq (Re.plus (Re.Chr is_alpha_ascii))
                                (Re.Seq (Re.c1 44) (Re.star Re.ws)))).
  apply sub_from_bol. rewrite app_nil_r. intros H. apply (f_equal (@rev char)) in H.
  rewrite rev_involutive in H. discriminate H.
Qed.

(** A text that starts with no letter has no name of a day to drop. *)
Lemma sub_day_name_none (c : char) (s : str) :
  is_alpha_ascii c = false -> Re.sub Tribun.day_name_re [] (c :: s) = c :: s.
Proof.
  intros Hc. unfold Re.sub. cbn [Re.sub_from].
  change Tribun.day_name_re
    with (Re.Seq Re.Bol (Re.Seq (Re.plus (Re.Chr is_alpha_ascii))
                                (Re.Seq (Re.c1 44) (Re.star Re.ws)))).
  assert (E : Re.match_here
                (Re.Seq Re.Bol (Re.Seq (Re.plus (Re.Chr is_alpha_ascii))
                                       (Re.Seq (Re.c1 44) (Re.star Re.ws)))) [] (c :: s) = None).
  { unfold Re.match_here. rewrite run_seq, run_bol_nil, run_seq.
    unfold Re.plus. rewrite run_rep. cbn [Re.rep_loop Re.below Nat.leb].
    rewrite run_chr, Hc. reflexivity. }
  rewrite E. f_equal. apply sub_from_bol. discriminate.
Qed.

Lemma replace_wib_end (s : str) :
  ~ In 87%N s -> replace (lit "WIB") [] (s ++ lit "WIB") = s.
Proof.
  unfold replace. induction s as [|x s IH]; intros H; [reflexivity|].
  cbn [app replace_go].
  assert (E : startswith (lit "WIB") (x :: s ++ lit "WIB") = false).
  { change (lit "WIB") with [87; 73; 66]%N. cbn [startswith].
    destruct (chr_eqb 87 x) eqn:Ex; [|reflexivity].
    apply chr_eqb_eq in Ex. exfalso. apply H. left. symmetry. exact Ex. }
  rewrite E. f_equal. apply IH. intros Hin. apply H. right. exact Hin.
Qed.

Lemma words_go_word (w : str) :
  forallb (fun c => negb (is_space c)) w = true ->
  forall cur s, words_go cur (w ++ s) = words_go (rev w ++ cur) s.
Proof.
  induction w as [|x w IH]; intros Hw cur s; [reflexivity|].
  cbn [forallb] in Hw. apply andb_true_iff in Hw. destruct Hw as [Hx Hw].
  apply negb_true_iff in Hx. cbn [app words_go rev]. rewrite Hx, (IH Hw).
  rewrite <- app_assoc. reflexivity.
Qed.

Lemma words_go_sep (w s : str) :
  w <> [] -> forallb (fun c => negb (is_space c)) w = true ->
  words_go [] (w ++ 32%N :: s) = w :: words_go [] s.
Proof.
  intros Hne Hw. rewrite (words_go_word w Hw), app_nil_r. cbn [words_go].
  change (is_space 32) with true. cbv iota.
  destruct (rev w) as [|y r] eqn:E.
  - apply (f_equal (@rev char)) in E. rewrite rev_involutive in E. contradiction.
  - rewrite <- E, rev_involutive. reflexivity.
Qed.

Lemma words_go_end (w : str) :
  w <> [] -> forallb (fun c => negb (is_space c)) w = true -> words_go [] w = [w].
Proof.
  intros Hne Hw. rewrite <- (app_nil_r w) at 1. rewrite (words_go_word w Hw), app_nil_r.
  cbn [words_go]. destruct (rev w) as [|y r] eqn:E.
  - apply (f_equal (@rev char)) in E. rewrite rev_involutive in E. contradiction.
  - rewrite <- E, rev_involutive. reflexivity.
Qed.

Lemma digit_word_facts c :
  is_digit_ascii c = true ->
  is_space c = false /\ c <> 87%N /\ c <> 58%N /\ is_alpha_ascii c = false /\
  chr_eqb c 43 = false /\ chr_eqb c 45 = false.
Proof.
  unfold is_digit_ascii, in_range. intros H. apply andb_true_iff in H.
  destruct H as [H1 H2]. apply N.leb_le in H1. apply N.leb_le in H2.
  assert (Hc : In c [48; 49; 50; 51; 52; 53; 54; 55; 56; 57]%N).
  { cbn [In]. lia. }
  cbn [In] in Hc.
  repeat (destruct Hc as [<-|Hc]; [repeat split; (reflexivity || discriminate)|]).
  destruct Hc.
Qed.

Lemma digits_word (ds : str) :
  forallb is_digit_ascii ds = true ->
  forallb (fun c => negb (is_space c)) ds = true /\ ~ In 87%N ds /\ ~ In 58%N ds.
Proof.
  intros H. rewrite forallb_forall in H. split; [|split].
  - apply forallb_forall. intros c Hc. apply negb_true_iff.
    apply (digit_word_facts c (H c Hc)).
  - intros Hin. apply (proj1 (proj2 (digit_word_facts _ (H _ Hin)))). reflexivity.
  - intros Hin. apply (proj1 (proj2 (proj2 (digit_word_facts _ (H _ Hin))))). reflexivity.
Qed.

Lemma months_facts m mm :
  In (m, mm) Tribun.months ->
  Dates.dict_get Tribun.months m (lit "01") = mm /\ m <> [] /\
  forallb (fun c => negb (is_space c)) m = true /\ ~ In 87%N m.
Proof.
  unfold Tribun.months. cbn [In]. intros H.
  repeat (destruct H as [H|H];
          [apply (f_equal (fun p => (fst p, snd p))) in H; cbn [fst snd] in H;
           injection H as <- <-;
           (split; [reflexivity|]); (split; [discriminate|]); (split; [reflexivity|]);
           cbn [In lit]; vm_compute; intros C;
           repeat (destruct C as [C|C]; [discriminate C|]); exact C|]).
  destruct H.
Qed.

Lemma zfill2_digits (d : str) :
  forallb is_digit_ascii d = true ->
  Tribun.zfill2 d = if (List.length d =? 1)%nat then 48%N :: d else d.
Proof.
  intros H. destruct d as [|c [|c' d]]; [reflexivity | | reflexivity].
  cbn [forallb] in H. rewrite andb_true_r in H.
  destruct (digit_word_facts c H) as [_ [_ [_ [_ [H1 H2]]]]].
  cbn [Tribun.zfill2 List.length Nat.eqb]. rewrite H1, H2. reflexivity.
Qed.

Lemma forallb_app_true (A : Type) (f : A -> bool) (a b : list A) :
  forallb f a = true -> forallb f b = true -> forallb f (a ++ b) = true.
Proof. intros Ha Hb. rewrite forallb_app, Ha, Hb. reflexivity. Qed.

(** The date as tribunnews shows it, without the name of the day. *)
Lemma tribun_parse_shown (d m mm y hh mi : str) :
  d <> [] -> forallb is_digit_ascii d = true ->
  In (m, mm) Tribun.months ->
  y <> [] -> forallb is_digit_ascii y = true ->
  hh <> [] -> forallb is_digit_ascii hh = true ->
  mi <> [] -> forallb is_digit_ascii mi = true ->
  let shown := d ++ lit " " ++ m ++ lit " " ++ y ++ lit " " ++ hh ++ lit ":" ++ mi ++ lit " WIB" in
  shown <> [] /\
  match shown with [] => True | x :: _ => is_space x = false /\ is_alpha_ascii x = false end /\
  (let s := strip (replace (lit "WIB") [] shown) in
   match words s with
   | p0 :: p1 :: p2 :: p3 :: _ =>
       p2 ++ lit "-" ++ Dates.dict_get Tribun.months p1 (lit "01") ++ lit "-" ++
       Tribun.zfill2 p0 ++ lit " " ++
       (if (List.length (Url.split Url.colon p3) =? 2)%nat then p3 ++ lit ":00" else p3)
   | _ => []
   end)
  = y ++ lit "-" ++ mm ++ lit "-" ++
    (if (List.length d =? 1)%nat then lit "0" ++ d else d) ++ lit " " ++
    hh ++ lit ":" ++ mi ++ lit ":00".
Proof.
  intros Hd Fd Hm Hy Fy Hh Fh Hi Fi shown.
  destruct (digits_word d Fd) as [Wd [Vd _]]. destruct (digits_word y Fy) as [Wy [Vy _]].
  destruct (digits_word hh Fh) as [Wh [Vh Ch]]. destruct (digits_word mi Fi) as [Wi [Vi Ci]].
  destruct (months_facts m mm Hm) as [Gm [Nm [Wm Vm]]].
  set (t := hh ++ lit ":" ++ mi).
  assert (Wt : forallb (fun c => negb (is_space c)) t = true).
  { unfold t. apply forallb_app_true; [exact Wh|]. apply forallb_app_true; [reflexivity | exact Wi]. }
  assert (Nt : t <> []) by (unfold t; destruct hh; [contradiction Hh; reflexivity | discriminate]).
  set (body := d ++ lit " " ++ m ++ lit " " ++ y ++ lit " " ++ t).
  assert (Es : shown = (body ++ lit " ") ++ lit "WIB").
  { unfold shown, body, t. rewrite <- !app_assoc. reflexivity. }
  split; [|split].
  - unfold shown. destruct d; [contradiction Hd; reflexivity | discriminate].
  - unfold shown. destruct d as [|c d]; [contradiction Hd; reflexivity|]. cbn [app].
    cbn [forallb] in Fd. apply andb_true_iff in Fd. destruct Fd as [Fc _].
    destruct (digit_word_facts c Fc) as [? [_ [_ [? _]]]]. split; assumption.
  - cbv zeta. rewrite Es. rewrite replace_wib_end.
    2:{ unfold body, t. intros Hin. rewrite !in_app_iff in Hin.
        repeat match type of Hin with _ \/ _ => destruct Hin as [Hin|Hin] end;
          first [exact (Vd Hin) | exact (Vm Hin) | exact (Vy Hin) | exact (Vh Hin)
                | exact (Vi Hin)
                | (vm_compute in Hin;
                   repeat (destruct Hin as [Hin|Hin]; [discriminate Hin|]); exact Hin)]. }
    assert (Est : strip (body ++ lit " ") = body).
    { unfold strip.
      assert (El : lstrip (body ++ lit " ") = body ++ lit " ").
      { unfold body. destruct d as [|c d]; [contradiction Hd; reflexivity|]. cbn [app lstrip].
        cbn [forallb] in Fd. apply andb_true_iff in Fd. destruct Fd as [Fc _].
        destruct (digit_word_facts c Fc) as [Sc _]. rewrite Sc. reflexivity. }
      rewrite El. unfold rstrip. rewrite rev_app_distr. change (lit " ") with [32%N].
      cbn [rev app].
      change (lstrip (32%N :: rev body)) with (lstrip (rev body)).
      fold (rstrip body).
      assert (Hb : exists a x, body = a ++ [x] /\ is_space x = false).
      { destruct (exists_last Nt) as [a [x Ex]]. exists (d ++ lit " " ++ m ++ lit " " ++ y ++ lit " " ++ a), x.
        split.
        - unfold body. rewrite Ex, <- !app_assoc. reflexivity.
        - rewrite forallb_forall in Wt. specialize (Wt x). rewrite Ex in Wt.
          apply negb_true_iff. apply Wt. apply in_or_app. right. left. reflexivity. }
      destruct Hb as [a [x [Eb Hx]]]. rewrite Eb. unfold rstrip.
      rewrite rev_app_distr. cbn [rev app lstrip]. rewrite Hx.
      cbn [rev]. rewrite rev_involutive. reflexivity. }
    rewrite Est. unfold words, body.
    change (lit " ") with [32%N]. cbn [app].
    rewrite (words_go_sep d _ Hd Wd), (words_go_sep m _ Nm Wm), (words_go_sep y _ Hy Wy),
      (words_go_end t Nt Wt).
    rewrite Gm, (zfill2_digits d Fd).
    assert (Esp : Url.split Url.colon t = [hh; mi]).
    { unfold t. change (lit ":" ++ mi) with (Url.colon :: mi).
      rewrite (split_app_sep Url.colon hh mi Ch), (split_no_sep_whole Url.colon mi Ci).
      reflexivity. }
    rewrite Esp. cbn [List.length Nat.eqb]. unfold t. rewrite <- !app_assoc. reflexivity.
Qed.

(** Property X15. The date that a page of tribunnews shows, as in
    [Rabu, 7 Desember 2025 09:46 WIB]: the name of the day, the day in
    digits, one of the twelve names of the months, the year, hours and
    minutes, [WIB]. [parse_indo_date] gives it as year, number of the month,
    day filled to two digits, and the time with [:00] for the seconds, with
    or without the name of the day; and this is the date of the detail of a
    page whose first [time span] element shows it, whatever the page says
    elsewhere. *)
Theorem X15_tribun_displayed_date (dayname d m mm y hh mi : str) :
  dayname <> [] -> forallb is_alpha_ascii dayname = true ->
  d <> [] -> forallb is_digit_ascii d = true ->
  In (m, mm) Tribun.months ->
  y <> [] -> forallb is_digit_ascii y = true ->
  hh <> [] -> forallb is_digit_ascii hh = true ->
  mi <> [] -> forallb is_digit_ascii mi = true ->
  let shown := d ++ lit " " ++ m ++ lit " " ++ y ++ lit " " ++ hh ++ lit ":" ++ mi ++ lit " WIB" in
  let date := y ++ lit "-" ++ mm ++ lit "-" ++
              (if (List.length d =? 1)%nat then lit "0" ++ d else d) ++ lit " " ++
              hh ++ lit ":" ++ mi ++ lit ":00" in
  Tribun.parse_indo_date (dayname ++ lit ", " ++ shown) = date /\
  Tribun.parse_indo_date shown = date /\
  forall soup time_el u,
    hd_error (Dom.select_below (Dom.by_tag "time") (Dom.by_tag "span") soup) = Some time_el ->
    Dom.get_text_strip [] time_el = dayname ++ lit ", " ++ shown ->
    Tribun.published_final (Tribun.parse_detail_page soup u) = date.
Proof.
  intros Hn Fn Hd Fd Hm Hy Fy Hh Fh Hi Fi shown date.
  destruct (tribun_parse_shown d m mm y hh mi Hd Fd Hm Hy Fy Hh Fh Hi Fi) as [Hs [Hx E]].
  fold shown in Hs, Hx, E. fold date in E. cbv zeta in E.
  assert (E1 : Tribun.parse_indo_date (dayname ++ lit ", " ++ shown) = date).
  { unfold Tribun.parse_indo_date.
    assert (Ht : truthy (dayname ++ lit ", " ++ shown) = true).
    { destruct dayname; [contradiction Hn; reflexivity | reflexivity]. }
    assert (Es : Re.sub Tribun.day_name_re [] (dayname ++ lit ", " ++ shown) = shown).
    { apply (sub_day_name dayname [32%N] shown Hn Fn eq_refl).
      destruct shown; [exact I | apply Hx]. }
    rewrite Ht, Es. exact E. }
  assert (E2 : Tribun.parse_indo_date shown = date).
  { unfold Tribun.parse_indo_date. destruct shown as [|c s] eqn:Esh; [contradiction Hs; reflexivity|].
    cbn [truthy negb]. rewrite (sub_day_name_none c s (proj2 Hx)). exact E. }
  split; [exact E1|]. split; [exact E2|].
  intros soup time_el u Hel Htxt. unfold Tribun.parse_detail_page. cbn [Tribun.published_final].
  rewrite Hel, Htxt, E1.
  assert (Hdate : truthy date = true).
  { unfold date. destruct y; [contradiction Hy; reflexivity | reflexivity]. }
  rewrite Hdate. reflexivity.
Qed.

Lemma X15_tribun_displayed_date_witness :
  Tribun.parse_indo_date (lit "Rabu, 7 Desember 2025 09:46 WIB") = lit "2025-12-07 09:46:00" /\
  Tribun.parse_indo_date (lit "7 Desember 2025 09:46 WIB") = lit "2025-12-07 09:46:00" /\
  forall soup time_el u,
    hd_error (Dom.select_below (Dom.by_tag "time") (Dom.by_tag "span") soup) = Some time_el ->
    Dom.get_text_strip [] time_el = lit "Rabu, 7 Desember 2025 09:46 WIB" ->
    Tribun.published_final (Tribun.parse_detail_page soup u) = lit "2025-12-07 09:46:00".
Proof.
  apply (X15_tribun_displayed_date (lit "Rabu") (lit "7") (lit "Desember") (lit "12")
           (lit "2025") (lit "09") (lit "46")); try discriminate; try reflexivity.
  cbn [Tribun.months In]. do 11 right. left. reflexivity.
Defined.

(** An unknown name of a month is taken for January, and a text of four
    words is taken for a date. *)
Example tribun_parse_indo_date_unknown_month :
  Tribun.parse_indo_date (lit "Rabu, 17 Des 2025 09:46 WIB") = lit "2025-01-17 09:46:00" /\
  Tribun.parse_indo_date (lit "dibaca 12 ribu kali") = lit "ribu-01-dibaca kali".
Proof. split; vm_compute; reflexivity. Qed.

(** ** The address of a search page of republika *)

Lemma cut_absent (c : char) (s : str) : ~ In c s -> Url.cut c s = None.
Proof.
  induction s as [|x s IH]; intros H; [reflexivity|].
  cbn [Url.cut]. destruct (chr_eqb x c) eqn:E.
  - apply chr_eqb_eq in E. exfalso. apply H. left. exact E.
  - rewrite IH; [reflexivity|]. intros Hin. apply H. right. exact Hin.
Qed.

Lemma quote_plus_byte_written b c :
  (b < 256)%N -> In c (Url.quote_plus_byte b) -> written_char c.
Proof.
  intros Hb. unfold Url.quote_plus_byte, written_char.
  destruct (Url.always_safe b) eqn:Es.
  - intros [<-|[]].
    unfold Url.always_safe, is_alpha_ascii, is_upper_ascii, is_lower_ascii,
      is_digit_ascii, in_range, chr_eqb in Es.
    repeat match type of Es with
           | (_ || _)%bool = true => apply orb_true_iff in Es; destruct Es as [Es|Es]
           end;
      repeat match goal with
             | H : (_ && _)%bool = true |- _ => apply andb_true_iff in H; destruct H
             | H : (_ <=? _)%N = true |- _ => apply N.leb_le in H
             | H : (_ =? _)%N = true |- _ => apply N.eqb_eq in H
             end; lia.
  - destruct (chr_eqb b Url.space).
    + intros [<-|[]]. unfold Url.plus_sign. lia.
    + assert (H1 : (b / 16 < 16)%N) by nlia.
      assert (H2 : (b mod 16 < 16)%N) by nlia.
      unfold Url.hexdigit, Url.percent.
      intros [<-|[<-|[<-|[]]]]; [lia | |].
      * set (m := (b / 16)%N) in *. clearbody m. destruct (N.ltb_spec m 10); lia.
      * set (m := (b mod 16)%N) in *. clearbody m. destruct (N.ltb_spec m 10); lia.
Qed.

Lemma quote_plus_written s q :
  Url.quote_plus s = Ok q -> Forall written_char q.
Proof.
  unfold Url.quote_plus. intros H. bind_ok H bs E. apply Ok_inj in H. subst q.
  apply Forall_forall. intros c Hin. apply in_flat_map in Hin. destruct Hin as [b [Hb Hc]].
  pose proof (utf8_encode_bytes _ _ E) as Hf. rewrite Forall_forall in Hf.
  apply (quote_plus_byte_written b c (Hf b Hb) Hc).
Qed.

Lemma date_char_written (s : str) : forallb date_char s = true -> Forall written_char s.
Proof.
  intros H. apply Forall_forall. intros c Hin. rewrite forallb_forall in H.
  specialize (H c Hin). unfold date_char, is_digit_ascii, in_range, chr_eqb in H.
  apply orb_true_iff in H. unfold written_char. destruct H as [H|H].
  - apply andb_true_iff in H. destruct H as [H1 H2].
    apply N.leb_le in H1. apply N.leb_le in H2. lia.
  - apply N.eqb_eq in H. lia.
Qed.

Lemma digits_written (s : str) :
  Forall (fun c => is_digit_ascii c = true) s -> Forall written_char s.
Proof.
  intros H. apply date_char_written. apply forallb_forall. intros c Hin.
  rewrite Forall_forall in H. unfold date_char. rewrite (H c Hin). reflexivity.
Qed.

(** A written character is none of the characters that cut an address. *)
Lemma written_char_facts c :
  written_char c ->
  Url.unsafe c = false /\ c <> Url.hash /\ c <> Url.question /\ c <> Url.semicolon /\
  c <> Url.ampersand /\ c <> Url.slash.
Proof.
  unfold written_char, Url.unsafe, chr_eqb, Url.hash, Url.question, Url.semicolon,
    Url.ampersand, Url.slash.
  intros H. split.
  - rewrite !orb_false_iff. repeat split; apply N.eqb_neq; lia.
  - repeat split; lia.
Qed.

Lemma date_value (s : str) :
  forallb date_char s = true ->
  ~ In Url.equals s /\ Url.unquote (Url.plus_to_space s) = s.
Proof.
  intros H.
  assert (Hc : forall c, In c s -> c <> Url.equals /\ c <> Url.plus_sign /\ c <> Url.percent).
  { intros c Hin. rewrite forallb_forall in H. specialize (H c Hin).
    unfold date_char, is_digit_ascii, in_range, chr_eqb in H. apply orb_true_iff in H.
    unfold Url.equals, Url.plus_sign, Url.percent. destruct H as [H|H].
    - apply andb_true_iff in H. destruct H as [H1 H2].
      apply N.leb_le in H1. apply N.leb_le in H2. lia.
    - apply N.eqb_eq in H. lia. }
  split.
  - intros Hin. apply (proj1 (Hc _ Hin)). reflexivity.
  - assert (Ep : Url.plus_to_space s = s).
    { unfold Url.plus_to_space. rewrite <- (map_id s) at 2. apply map_ext_in.
      intros c Hin. destruct (chr_eqb c Url.plus_sign) eqn:E; [|reflexivity].
      apply chr_eqb_eq in E. exfalso. apply (proj1 (proj2 (Hc _ Hin))). exact E. }
    rewrite Ep. unfold Url.unquote.
    assert (Ee : existsb (chr_eqb Url.percent) s = false).
    { apply not_true_is_false. intros E. apply existsb_chr_In in E.
      apply (proj2 (proj2 (Hc _ E))). reflexivity. }
    rewrite Ee. reflexivity.
Qed.

Lemma Forall_not_In (P : char -> Prop) (c : char) (s : str) :
  Forall P s -> ~ P c -> ~ In c s.
Proof. intros H Hc Hin. rewrite Forall_forall in H. exact (Hc (H c Hin)). Qed.

Lemma remove_unsafe_id (s : str) :
  Forall (fun c => Url.unsafe c = false) s -> Url.remove_unsafe s = s.
Proof. intros H. apply filter_plain. apply Forall_forall. exact H. Qed.

Lemma parse_field_pair (k v k' v' : str) :
  ~ In Url.equals k' ->
  Url.unquote (Url.plus_to_space k') = k -> Url.unquote (Url.plus_to_space v') = v ->
  Url.parse_field (k' ++ Url.equals :: v') = (k, v).
Proof.
  intros Hk Ek Ev. unfold Url.parse_field. rewrite (cut_app _ _ _ Hk), Ek, Ev. reflexivity.
Qed.

Lemma written_no (c : char) (s : str) :
  Forall written_char s -> ~ written_char c -> ~ In c s.
Proof. apply Forall_not_In. Qed.

(** Property X16. The address of a search page of republika, for any
    keyword that [quote_plus] takes and dates written with digits and
    dashes: [urlparse] reads it as an address of the host with the path of
    the page and no fragment, and its query, read with [parse_qsl], is the
    keyword as given under [q], then [latest_date], [startdate] and
    [enddate]: no character of the keyword can end the field or the query. *)
Theorem X16_republika_search_url (keyword : str) (page : N) (startdate enddate url : str) :
  Republika_search.search_url keyword page startdate enddate = Ok url ->
  forallb date_char startdate = true ->
  forallb date_char enddate = true ->
  exists p,
    Url.urlparse url [] = Ok p /\
    Url.scheme p = lit "https" /\
    Url.netloc p = lit "republika.co.id" /\
    Url.path p = lit "/search/v3/all/" ++ decimal page ++ lit "/" /\
    Url.fragment p = [] /\
    Url.parse_qsl (Url.query p)
    = [(lit "q", keyword); (lit "latest_date", lit "custom");
       (lit "startdate", startdate); (lit "enddate", enddate)].
Proof.
  unfold Republika_search.search_url. intros H Hs He. bind_ok H q Eq_. apply Ok_inj in H.
  pose proof (quote_plus_written _ _ Eq_) as Wq.
  pose proof (date_char_written _ Hs) as Ws. pose proof (date_char_written _ He) as We.
  destruct (decimal_spec page) as [Fd _]. pose proof (digits_written _ Fd) as Wd.
  set (h := lit "republika.co.id").
  set (pa := lit "/search/v3/all/" ++ decimal page ++ lit "/").
  set (f1 := lit "q" ++ Url.equals :: q).
  set (f2 := lit "latest_date=custom").
  set (f3 := lit "startdate" ++ Url.equals :: startdate).
  set (f4 := lit "enddate" ++ Url.equals :: enddate).
  set (qry := f1 ++ Url.ampersand :: f2 ++ Url.ampersand :: f3 ++ Url.ampersand :: f4).
  assert (Eu : url = lit "https://" ++ h ++ (pa ++ Url.question :: qry)).
  { rewrite <- H. unfold h, pa, qry, f1, f2, f3, f4, Republika_url.BASE_URL.
    do 6 (rewrite <- ?app_assoc; cbn [app]). reflexivity. }
  assert (Lit : forall l : str,
            forallb (fun c => negb (Url.unsafe c) && negb (chr_eqb c Url.hash)) l = true ->
            Forall (fun c => Url.unsafe c = false /\ c <> Url.hash) l).
  { intros l Hl. apply Forall_forall. intros c Hin. rewrite forallb_forall in Hl.
    specialize (Hl c Hin). apply andb_true_iff in Hl. destruct Hl as [H1 H2].
    apply negb_true_iff in H1. apply negb_true_iff in H2. split; [exact H1|].
    intros ->. discriminate H2. }
  assert (Wr : forall l : str, Forall written_char l ->
                 Forall (fun c => Url.unsafe c = false /\ c <> Url.hash) l).
  { intros l Hl. apply Forall_forall. intros c Hin. rewrite Forall_forall in Hl.
    destruct (written_char_facts c (Hl c Hin)) as [H1 [H2 _]]. split; assumption. }
  assert (Nq : ~ written_char Url.question) by (unfold written_char, Url.question; lia).
  assert (Nsc : ~ written_char Url.semicolon) by (unfold written_char, Url.semicolon; lia).
  assert (Na : ~ written_char Url.ampersand) by (unfold written_char, Url.ampersand; lia).
  assert (Fpa : Forall (fun c => Url.unsafe c = false /\ c <> Url.hash) pa).
  { unfold pa. apply Forall_app. split; [apply Lit; reflexivity|].
    apply Forall_app. split; [apply Wr; exact Wd | apply Lit; reflexivity]. }
  assert (Fq : Forall (fun c => Url.unsafe c = false /\ c <> Url.hash) (Url.question :: qry)).
  { unfold qry, f1, f2, f3, f4.
    constructor; [split; [reflexivity | discriminate]|].
    repeat first [ apply Forall_app; split
                 | apply Forall_cons; [split; [reflexivity | discriminate]|]
                 | (apply Lit; reflexivity)
                 | (apply Wr; assumption) ]. }
  assert (Ft : Forall (fun c => Url.unsafe c = false /\ c <> Url.hash)
                      (pa ++ Url.question :: qry)).
  { apply Forall_app. split; assumption. }
  assert (Npa : forall c, ~ written_char c -> c <> Url.slash -> ~ In c pa).
  { intros c Hc Hsl Hin. unfold pa in Hin. rewrite !in_app_iff in Hin.
    destruct Hin as [Hin|[Hin|Hin]].
    - assert (Hin' : written_char c \/ c = Url.slash).
      { vm_compute in Hin. unfold written_char.
        repeat (destruct Hin as [Hin|Hin]; [subst c; first [right; reflexivity | left; lia]|]).
        destruct Hin. }
      destruct Hin' as [Hw|Hw]; [exact (Hc Hw) | exact (Hsl Hw)].
    - rewrite Forall_forall in Wd. exact (Hc (Wd c Hin)).
    - destruct Hin as [Hin|[]]. apply Hsl. symmetry. exact Hin. }
  assert (Esplit : Url.urlsplit url []
                   = Ok (Url.Parsed (lit "https") h pa [] qry [])).
  { rewrite Eu. destruct (urlsplit_absolute h (pa ++ Url.question :: qry) eq_refl) as [E|E].
    - rewrite E. change (Url.check_brackets h) with (Ok tt : result unit). cbn [bind].
      rewrite remove_unsafe_id
        by (apply Forall_forall; intros c Hin; rewrite Forall_forall in Ft; apply (Ft c Hin)).
      rewrite (cut_absent Url.hash).
      + rewrite (cut_app Url.question pa qry); [reflexivity|].
        apply Npa; [exact Nq | discriminate].
      + intros Hin. rewrite Forall_forall in Ft. apply (proj2 (Ft _ Hin)). reflexivity.
    - exfalso. rewrite remove_unsafe_id in E
        by (apply Forall_forall; intros c Hin; rewrite Forall_forall in Ft; apply (Ft c Hin)).
      unfold pa in E. vm_compute in E. discriminate E. }
  exists (Url.Parsed (lit "https") h pa [] qry []). split.
  - unfold Url.urlparse. rewrite Esplit. cbn [bind Url.scheme Url.path].
    assert (Esc : existsb (chr_eqb Url.semicolon) pa = false).
    { apply not_true_is_false. intros C. apply existsb_chr_In in C. revert C.
      apply Npa; [exact Nsc | discriminate]. }
    rewrite Esc, andb_false_r. reflexivity.
  - cbn [Url.scheme Url.netloc Url.path Url.fragment Url.query].
    split; [reflexivity|]. split; [reflexivity|]. split; [reflexivity|].
    split; [reflexivity|].
    unfold Url.parse_qsl. assert (Tq : truthy qry = true) by reflexivity. rewrite Tq.
    assert (N1 : ~ In Url.ampersand f1).
    { unfold f1. intros Hin. apply in_app_or in Hin. destruct Hin as [Hin|[Hin|Hin]].
      - vm_compute in Hin. destruct Hin as [Hin|[]]. discriminate Hin.
      - discriminate Hin.
      - revert Hin. apply written_no; assumption. }
    assert (N2 : ~ In Url.ampersand f2).
    { unfold f2. intros Hin. vm_compute in Hin.
      repeat (destruct Hin as [Hin|Hin]; [discriminate Hin|]). exact Hin. }
    assert (N3 : ~ In Url.ampersand f3).
    { unfold f3. intros Hin. apply in_app_or in Hin. destruct Hin as [Hin|[Hin|Hin]].
      - vm_compute in Hin. repeat (destruct Hin as [Hin|Hin]; [discriminate Hin|]). exact Hin.
      - discriminate Hin.
      - revert Hin. apply written_no; assumption. }
    assert (N4 : ~ In Url.ampersand f4).
    { unfold f4. intros Hin. apply in_app_or in Hin. destruct Hin as [Hin|[Hin|Hin]].
      - vm_compute in Hin. repeat (destruct Hin as [Hin|Hin]; [discriminate Hin|]). exact Hin.
      - discriminate Hin.
      - revert Hin. apply written_no; assumption. }
    unfold qry.
    rewrite (split_app_sep _ _ _ N1), (split_app_sep _ _ _ N2), (split_app_sep _ _ _ N3),
      (split_no_sep_whole _ _ N4).
    assert (T1 : truthy f1 = true) by reflexivity.
    assert (T2 : truthy f2 = true) by reflexivity.
    assert (T3 : truthy f3 = true) by reflexivity.
    assert (T4 : truthy f4 = true) by reflexivity.
    cbn [filter]. rewrite T1, T2, T3, T4. cbn [map].
    destruct (date_value _ Hs) as [_ Us]. destruct (date_value _ He) as [_ Ue].
    unfold f1, f3, f4.
    rewrite (parse_field_pair (lit "q") keyword (lit "q") q);
      [| vm_compute; intros [C|[]]; discriminate C | reflexivity
       | apply (unquote_quote_plus _ _ Eq_)].
    rewrite (parse_field_pair (lit "startdate") startdate (lit "startdate") startdate);
      [| vm_compute; intros C; repeat (destruct C as [C|C]; [discriminate C|]); exact C
       | reflexivity | exact Us].
    rewrite (parse_field_pair (lit "enddate") enddate (lit "enddate") enddate);
      [| vm_compute; intros C; repeat (destruct C as [C|C]; [discriminate C|]); exact C
       | reflexivity | exact Ue].
    reflexivity.
Qed.

Lemma X16_republika_search_url_witness :
  exists p,
    Url.urlparse
      (lit "https://republika.co.id/search/v3/all/2/?q=makan+bergizi+%26+gratis%3F&latest_date=custom&startdate=2025-01-01&enddate=2025-12-31")
      [] = Ok p /\
    Url.scheme p = lit "https" /\
    Url.netloc p = lit "republika.co.id" /\
    Url.path p = lit "/search/v3/all/" ++ decimal 2 ++ lit "/" /\
    Url.fragment p = [] /\
    Url.parse_qsl (Url.query p)
    = [(lit "q", lit "makan bergizi & gratis?"); (lit "latest_date", lit "custom");
       (lit "startdate", lit "2025-01-01"); (lit "enddate", lit "2025-12-31")].
Proof.
  apply (X16_republika_search_url (lit "makan bergizi & gratis?") 2
           (lit "2025-01-01") (lit "2025-12-31")); vm_compute; reflexivity.
Defined.

(** The dates go into the address as they are: a date with an ampersand
    adds a field to the query. *)
Example republika_search_url_date_field :
  match Republika_search.search_url (lit "mbg") 1 (lit "2025-01-01&q=x") (lit "2025-12-31") with
  | Ok url =>
      match Url.urlparse url [] with
      | Ok p => Url.parse_qsl (Url.query p)
                = [(lit "q", lit "mbg"); (lit "latest_date", lit "custom");
                   (lit "startdate", lit "2025-01-01"); (lit "q", lit "x");
                   (lit "enddate", lit "2025-12-31")]
      | Raise _ => False
      end
  | Raise _ => False
  end.
Proof. vm_compute. reflexivity. Qed.

(** ** The titles and the authors of the records are clean *)

Lemma clean_clean_text o : clean (Detik_text.clean_text o).
Proof. apply detik_clean_text_idempotent. Qed.

Lemma clean_nil : clean [].
Proof. reflexivity. Qed.

Lemma detik_meta_content_clean key value soup c :
  Detik.meta_content key value soup = Some c -> clean c.
Proof.
  unfold Detik.meta_content.
  destruct (Dom.find_with_attr "meta" key value soup) as [m|]; [|discriminate].
  destruct (Dom.attr m (lit "content")) as [x|]; [|discriminate].
  destruct (truthy x); [|discriminate].
  intros H. apply Ok_inj_some in H. subst c. apply clean_clean_text.
Qed.

Lemma detik_extract_meta_clean soup name prop : clean (Detik.extract_meta soup name prop).
Proof.
  unfold Detik.extract_meta.
  destruct (match prop with
            | Some p => if truthy p then Detik.meta_content (lit "property") p soup else None
            | None => None
            end) as [c|] eqn:E1.
  - destruct prop as [p|]; [|discriminate E1]. destruct (truthy p); [|discriminate E1].
    apply (detik_meta_content_clean _ _ _ _ E1).
  - destruct (match name with
              | Some n => if truthy n then Detik.meta_content (lit "name") n soup else None
              | None => None
              end) as [c|] eqn:E2; [|apply clean_nil].
    destruct name as [n|]; [|discriminate E2]. destruct (truthy n); [|discriminate E2].
    apply (detik_meta_content_clean _ _ _ _ E2).
Qed.

Lemma detik_detail_clean soup u :
  clean (Detik.title_detail (Detik.parse_detail_page soup u)) /\
  clean (Detik.author (Detik.parse_detail_page soup u)).
Proof.
  unfold Detik.parse_detail_page. cbn [Detik.title_detail Detik.author]. split.
  - destruct (truthy (Detik.extract_meta soup None (Some (lit "og:title")))).
    + apply detik_extract_meta_clean.
    + destruct (Dom.select_one [Dom.by_tag "h1"] soup); [apply clean_clean_text | apply clean_nil].
  - destruct (truthy (Detik.extract_meta soup (Some (lit "author")) None)).
    + apply detik_extract_meta_clean.
    + destruct (Re.search Detik.author_re _); [apply clean_clean_text|].
      apply detik_extract_meta_clean.
Qed.

Lemma kompas_detail_title_clean author soup u d :
  Kompas.parse_detail_page author soup u = Ok d -> clean (Kompas.title_detail d).
Proof.
  unfold Kompas.parse_detail_page. intros H. bind_ok H a E. apply Ok_inj in H. subst d.
  cbn [Kompas.title_detail]. unfold Kompas.extract_meta.
  destruct (truthy (Detik.extract_meta soup None (Some (lit "og:title")))).
  - apply detik_extract_meta_clean.
  - destruct (Dom.select_one [Dom.by_tag "h1"] soup); [apply clean_clean_text | apply clean_nil].
Qed.

Lemma detik_row_of_link_clean a r :
  Detik.row_of_link a = Ok (Some r) -> clean (Detik.title_list r).
Proof.
  unfold Detik.row_of_link. intros H. bind_ok H u E.
  destruct (negb (Detik.is_article_url u)); [discriminate H|].
  destruct (negb (contains (lit "WIB") _)); [discriminate H|].
  destruct (Re.search Detik.list_re _) as [m|]; [|discriminate H].
  apply Ok_inj in H. apply Ok_inj_some in H. subst r. cbn [Detik.title_list].
  apply clean_clean_text.
Qed.

Lemma kompas_row_of_link_clean a r :
  Kompas.row_of_link a = Ok (Some r) -> clean (Kompas.title_list r).
Proof.
  unfold Kompas.row_of_link. intros H. bind_ok H u E.
  destruct (negb (Kompas.is_kompas_article_url u)); [discriminate H|].
  destruct (List.length _ <? 8)%nat; [discriminate H|].
  destruct (startswith (lit "baca juga") _); [discriminate H|].
  apply Ok_inj in H. apply Ok_inj_some in H. subst r. cbn [Kompas.title_list].
  apply clean_clean_text.
Qed.

Lemma parse_list_rows (R : Type) (url : R -> str) (row_of_link : Dom.node -> result (option R))
      (Q : R -> Prop) links out :
  (forall a r, row_of_link a = Ok (Some r) -> Q r) ->
  Listing.parse_list url row_of_link links = Ok out -> Forall Q out.
Proof.
  intros HQ H. apply parse_list_ok in H. subst out. apply Forall_forall. intros r Hin.
  apply first_seen_In in Hin. apply taken_In in Hin. destruct Hin as [a [_ Ha]].
  apply (HQ a r Ha).
Qed.

Lemma detik_listing_clean w sortby count : forall pg acc rows,
  Forall (fun r => clean (Detik.title_list r)) acc ->
  Detik_scrape.listing w sortby count pg acc = Ok rows ->
  Forall (fun r => clean (Detik.title_list r)) rows.
Proof.
  induction count as [|count IH]; intros pg acc rows Hacc H; cbn [Detik_scrape.listing] in H.
  - apply Ok_inj in H. subst rows. exact Hacc.
  - bind_ok H html E1. bind_ok H rs E2.
    pose proof (parse_list_rows _ _ _ (fun r => clean (Detik.title_list r)) _ _
                  detik_row_of_link_clean E2) as Hrs.
    destruct rs as [|r rs]; [apply Ok_inj in H; subst rows; exact Hacc|].
    assert (Hf : Forall (fun r => clean (Detik.title_list r))
                        (filter Detik_scrape.not_video (r :: rs))).
    { apply Forall_forall. intros x Hx. apply filter_In in Hx. destruct Hx as [Hx _].
      rewrite Forall_forall in Hrs. apply (Hrs x Hx). }
    apply (IH _ _ _ (proj2 (Forall_app _ _ _) (conj Hacc Hf)) H).
Qed.

Lemma kompas_listing_clean w f count : forall pg acc rows,
  Forall (fun r => clean (Kompas.title_list r)) acc ->
  Kompas.listing w f count pg acc = Ok rows ->
  Forall (fun r => clean (Kompas.title_list r)) rows.
Proof.
  induction count as [|count IH]; intros pg acc rows Hacc H; cbn [Kompas.listing] in H.
  - apply Ok_inj in H. subst rows. exact Hacc.
  - bind_ok H html E1. bind_ok H rs E2.
    pose proof (parse_list_rows _ _ _ (fun r => clean (Kompas.title_list r)) _ _
                  kompas_row_of_link_clean E2) as Hrs.
    destruct rs as [|r rs]; [apply Ok_inj in H; subst rows; exact Hacc|].
    apply (IH _ _ _ (proj2 (Forall_app _ _ _) (conj Hacc Hrs)) H).
Qed.

Lemma find_Forall (R : Type) (Q : R -> Prop) (f : R -> bool) rows r :
  Forall Q rows -> find f rows = Some r -> Q r.
Proof.
  intros HQ H. apply find_some in H. rewrite Forall_forall in HQ. apply HQ. apply H.
Qed.

Lemma detik_base_title_clean list_rows u :
  Forall (fun r => clean (Detik.title_list r)) list_rows ->
  clean (Detik_scrape.base_get (Detik_scrape.base_of list_rows u) Detik.title_list).
Proof.
  intros H. unfold Detik_scrape.base_of.
  destruct (find _ list_rows) as [r|] eqn:E; cbn [Detik_scrape.base_get]; [|apply clean_nil].
  apply (find_Forall _ (fun r => clean (Detik.title_list r)) _ _ _ H E).
Qed.

Lemma detik_handler_clean w st base u st' :
  clean (Detik_scrape.base_get base Detik.title_list) ->
  Forall (fun a => clean (judul a) /\ clean (a_author a)) (Detik_scrape.out st) ->
  Detik_scrape.handler w st base u = Ok st' ->
  Forall (fun a => clean (judul a) /\ clean (a_author a)) (Detik_scrape.out st').
Proof.
  unfold Detik_scrape.handler. intros Hb Ho H.
  destruct (Detik_scrape.sources st) as [s|]; [|discriminate H].
  apply Ok_inj in H. subst st'. cbn [Detik_scrape.out].
  apply Forall_app. split; [exact Ho|]. constructor; [|constructor].
  cbn [judul a_author]. split; [exact Hb | apply clean_nil].
Qed.

Lemma detik_detail_step_clean w list_rows st u st' :
  Forall (fun r => clean (Detik.title_list r)) list_rows ->
  Forall (fun a => clean (judul a) /\ clean (a_author a)) (Detik_scrape.out st) ->
  Detik_scrape.detail_step w list_rows st u = Ok st' ->
  Forall (fun a => clean (judul a) /\ clean (a_author a)) (Detik_scrape.out st').
Proof.
  intros Hr Ho H. unfold Detik_scrape.detail_step in H.
  pose proof (detik_base_title_clean list_rows u Hr) as Hb.
  destruct (fetch w u) as [html|e].
  - destruct (Detik_scrape.tanggal_of _ _) as [t|e].
    + apply Ok_inj in H. subst st'. cbn [Detik_scrape.out Detik_scrape.sources].
      apply Forall_app. split; [exact Ho|]. constructor; [|constructor].
      cbn [judul a_author]. split; [exact Hb | apply detik_detail_clean].
    + apply (detik_handler_clean _ _ _ _ _ Hb) in H; [exact H | exact Ho].
  - apply (detik_handler_clean _ _ _ _ _ Hb Ho H).
Qed.

Lemma detik_detail_loop_clean w list_rows urls : forall st st',
  Forall (fun r => clean (Detik.title_list r)) list_rows ->
  Forall (fun a => clean (judul a) /\ clean (a_author a)) (Detik_scrape.out st) ->
  Detik_scrape.detail_loop w list_rows st urls = Ok st' ->
  Forall (fun a => clean (judul a) /\ clean (a_author a)) (Detik_scrape.out st').
Proof.
  induction urls as [|u urls IH]; intros st st' Hr Ho H; cbn [Detik_scrape.detail_loop] in H.
  - apply Ok_inj in H. subst st'. exact Ho.
  - bind_ok H st1 E. apply (IH st1 st' Hr); [|exact H].
    apply (detik_detail_step_clean _ _ _ _ _ Hr Ho E).
Qed.

Lemma kompas_detail_step_clean author w list_rows u :
  Forall (fun r => clean (Kompas.title_list r)) list_rows ->
  clean (judul (Kompas.detail_step author w list_rows u)).
Proof.
  intros Hr. unfold Kompas.detail_step.
  assert (Hb : clean (Kompas.base_title (Kompas.base_of list_rows u))).
  { unfold Kompas.base_of. destruct (find _ list_rows) as [r|] eqn:E; cbn [Kompas.base_title];
      [|apply clean_nil].
    apply (find_Forall _ (fun r => clean (Kompas.title_list r)) _ _ _ Hr E). }
  destruct (Kompas.detail_row author w _ u) as [a|e] eqn:E; [|exact Hb].
  unfold Kompas.detail_row in E. bind_ok E html E1. bind_ok E d E2. bind_ok E t E3.
  apply Ok_inj in E. subst a. cbn [judul]. unfold or_else.
  destruct (truthy (Kompas.title_detail d)); [|exact Hb].
  apply (kompas_detail_title_clean _ _ _ _ E2).
Qed.

(** Property X17. The titles of the records of a run of detik and of a run
    of kompas, and the authors of the records of detik, are texts that
    [clean_text] leaves as they are: by the first property, they have no
    white space at their ends, no two spaces in a row and no white space
    other than the space. This holds for the records of the handlers as
    well. *)
Theorem X17_record_titles_clean :
  (forall (w : world) (page_start page_end : N) (sortby : str) (out : list article),
     Detik_scrape.scrape_tag_news w page_start page_end sortby = Ok out ->
     Forall (fun a => clean (judul a) /\ clean (a_author a)) out) /\
  (forall (author : Dom.node -> result str) (w : world) (query sort site_id last_date : str)
          (page_start page_end : N) (out : list article),
     Kompas.scrape_kompas_search author w query page_start page_end sort site_id last_date
       = Ok out ->
     Forall (fun a => clean (judul a)) out).
Proof.
  split.
  - intros w ps pe sortby out H. unfold Detik_scrape.scrape_tag_news in H.
    bind_ok H rows E1. bind_ok H st E2. apply Ok_inj in H. subst out.
    pose proof (detik_listing_clean _ _ _ _ _ _ (Forall_nil _) E1) as Hr.
    apply (detik_detail_loop_clean w rows _ (Detik_scrape.State None []) st Hr
             (Forall_nil _) E2).
  - intros author w q sort site last ps pe out H. unfold Kompas.scrape_kompas_search in H.
    bind_ok H rows E1. apply Ok_inj in H. subst out.
    pose proof (kompas_listing_clean _ _ _ _ _ _ (Forall_nil _) E1) as Hr.
    apply Forall_forall. intros a Hin. apply in_map_iff in Hin.
    destruct Hin as [u [<- _]]. apply (kompas_detail_step_clean _ _ _ _ Hr).
Qed.

(** A run of detik over a list page with an article whose link has spaces
    in a row: the title and the author of the record are clean. *)
Lemma X17_record_titles_clean_witness :
  let d1 := Dom.Elem (lit "a")
              [(lit "href", lit "https://news.detik.com/berita/d-8183382/makan-bergizi")]
              [Dom.Text (lit "detikNews  Rabu, 17 Des 2025 02:03 WIB   Makan  bergizi gratis ")] in
  let article := Dom.html [Dom.Elem (lit "head") []
                             [Dom.Elem (lit "meta")
                                [(lit "name", lit "author"); (lit "content", lit " Tim   detikcom ")]
                                []];
                           Dom.Elem (lit "body") []
                             [Dom.Elem (lit "article") []
                                [Dom.Elem (lit "p") [] [Dom.Text (lit "Isi berita.")]]]] in
  let w := World (fun url => if str_eqb url (Detik_scrape.list_url (lit "time") 1)
                             then Ok (Dom.html [Dom.Elem (lit "body") [] [d1]])
                             else Ok article)
                 (lit "2025-12-17 10:00:00") in
  exists out,
    Detik_scrape.scrape_tag_news w 1 1 (lit "time") = Ok out /\
    map judul out = [lit "Makan bergizi gratis"] /\
    map a_author out = [lit "Tim detikcom"] /\
    Forall (fun a => clean (judul a) /\ clean (a_author a)) out.
Proof.
  intros d1 article w. eexists. split; [vm_compute; reflexivity|].
  split; [vm_compute; reflexivity|]. split; [vm_compute; reflexivity|].
  apply (proj1 X17_record_titles_clean w 1%N 1%N (lit "time")). vm_compute. reflexivity.
Defined.

(** ** The text of the word cloud: no link is left *)

Lemma dropwhile_suffix_length p (s : str) :
  List.length s - List.length (dropwhile p s) <= List.length s.
Proof. lia. Qed.

Lemma run_alt (A : Type) a b pre s c (k : Re.cont A) :
  Re.run (Re.Alt a b) pre s c k
  = match Re.run a pre s c k with
    | Some v => Some v
    | None => Re.run b pre s c k
    end.
Proof. reflexivity. Qed.

(** Four given characters and a greedy block of a class, in front of a
    continuation that accepts everything. *)
Lemma run_text4_plus (A : Type) (a1 a2 a3 a4 : char) (p : char -> bool)
      (G : str -> Re.caps -> A) pre s c :
  Re.run (Re.Seq (Re.text [a1; a2; a3; a4]) (Re.plus (Re.Chr p))) pre s c
         (fun _ s' c' => Some (G s' c'))
  = match s with
    | x1 :: x2 :: x3 :: x4 :: rest =>
        if chr_eqb a1 x1 && chr_eqb a2 x2 && chr_eqb a3 x3 && chr_eqb a4 x4
        then if Nat.leb 1 (List.length rest - List.length (dropwhile p rest))
             then Some (G (dropwhile p rest) c) else None
        else None
    | _ => None
    end.
Proof.
  rewrite run_seq. cbn [Re.text]. rewrite !run_seq. unfold Re.c1.
  destruct s as [|x1 s]; [reflexivity|]. rewrite (run_chr A (chr_eqb a1) pre x1 s c).
  destruct (chr_eqb a1 x1); cbn [andb];
    [|destruct s as [|x2 [|x3 [|x4 rest]]]; reflexivity].
  rewrite run_seq.
  destruct s as [|x2 s]; [reflexivity|]. rewrite (run_chr A (chr_eqb a2) _ x2 s c).
  destruct (chr_eqb a2 x2); cbn [andb]; [|destruct s as [|x3 [|x4 rest]]; reflexivity].
  rewrite run_seq.
  destruct s as [|x3 s]; [reflexivity|]. rewrite (run_chr A (chr_eqb a3) _ x3 s c).
  destruct (chr_eqb a3 x3); cbn [andb]; [|destruct s as [|x4 rest]; reflexivity].
  destruct s as [|x4 rest]; [reflexivity|]. rewrite (run_chr A (chr_eqb a4) _ x4 rest c).
  destruct (chr_eqb a4 x4); cbn [andb]; [|reflexivity].
  unfold Re.plus. rewrite run_rep. rewrite rep_class_greedy by lia. reflexivity.
Qed.

Lemma block_leb (p : char -> bool) (rest : str) :
  Nat.leb 1 (List.length rest - List.length (dropwhile p rest))
  = match rest with [] => false | y :: _ => p y end.
Proof.
  destruct rest as [|y r]; [reflexivity|]. cbn [dropwhile]. destruct (p y).
  - pose proof (dropwhile_length p r). apply Nat.leb_le. cbn [List.length]. lia.
  - apply Nat.leb_gt. lia.
Qed.

Lemma str_eqb4 (a1 a2 a3 a4 x1 x2 x3 x4 : char) :
  str_eqb [x1; x2; x3; x4] [a1; a2; a3; a4]
  = chr_eqb a1 x1 && chr_eqb a2 x2 && chr_eqb a3 x3 && chr_eqb a4 x4.
Proof.
  cbn [str_eqb]. unfold chr_eqb. rewrite andb_true_r.
  rewrite (N.eqb_sym x1), (N.eqb_sym x2), (N.eqb_sym x3), (N.eqb_sym x4).
  rewrite !andb_assoc. reflexivity.
Qed.

(** Where [url_re] matches, and what it leaves. *)
Lemma match_url_cases pre s :
  (starts_url s = false /\ Re.match_here App.url_re pre s = None) \/
  (starts_url s = true /\
   exists txt rest c,
     Re.match_here App.url_re pre s = Some (Re.Mtch pre txt rest c) /\
     txt <> [] /\ List.length rest < List.length s).
Proof.
  unfold Re.match_here, App.url_re. rewrite run_alt.
  change (lit "http") with [104; 116; 116; 112]%N.
  change (lit "www.") with [119; 119; 119; 46]%N.
  unfold Re.nws.
  rewrite !run_text4_plus
    with (G := fun s' c => Re.Mtch pre (firstn (List.length s - List.length s') s) s' c).
  destruct s as [|x1 [|x2 [|x3 [|x4 rest]]]]; try (left; split; reflexivity).
  unfold starts_url.
  change (lit "http") with [104; 116; 116; 112]%N.
  change (lit "www.") with [119; 119; 119; 46]%N.
  rewrite !str_eqb4, !block_leb.
  assert (Hlen : forall r : str, List.length (dropwhile (fun c => negb (is_space c)) r)
                                 < List.length (x1 :: x2 :: x3 :: x4 :: r)).
  { intros r. pose proof (dropwhile_length (fun c => negb (is_space c)) r).
    cbn [List.length]. lia. }
  assert (Htxt : forall r' : str,
             List.length r' < List.length (x1 :: x2 :: x3 :: x4 :: rest) ->
             firstn (List.length (x1 :: x2 :: x3 :: x4 :: rest) - List.length r')
                    (x1 :: x2 :: x3 :: x4 :: rest) <> []).
  { intros r' Hr.
    destruct (List.length (x1 :: x2 :: x3 :: x4 :: rest) - List.length r') eqn:E; [lia|].
    discriminate. }
  destruct rest as [|y r].
  - left.
    destruct (chr_eqb 104 x1 && chr_eqb 116 x2 && chr_eqb 116 x3 && chr_eqb 112 x4);
      destruct (chr_eqb 119 x1 && chr_eqb 119 x2 && chr_eqb 119 x3 && chr_eqb 46 x4);
      split; reflexivity.
  - destruct (negb (is_space y)) eqn:Ey.
    + destruct (chr_eqb 104 x1 && chr_eqb 116 x2 && chr_eqb 116 x3 && chr_eqb 112 x4).
      * right. split; [reflexivity|]. eexists _, _, _. split; [reflexivity|].
        split; [apply Htxt; apply Hlen | apply Hlen].
      * destruct (chr_eqb 119 x1 && chr_eqb 119 x2 && chr_eqb 119 x3 && chr_eqb 46 x4).
        -- right. split; [reflexivity|]. eexists _, _, _. split; [reflexivity|].
           split; [apply Htxt; apply Hlen | apply Hlen].
        -- left. split; reflexivity.
    + left. rewrite !andb_false_r.
      destruct (chr_eqb 104 x1 && chr_eqb 116 x2 && chr_eqb 116 x3 && chr_eqb 112 x4);
        destruct (chr_eqb 119 x1 && chr_eqb 119 x2 && chr_eqb 119 x3 && chr_eqb 46 x4);
        split; reflexivity.
Qed.

(** A start of a link is five characters that are no white space, whatever
    follows them. *)
Lemma starts_url_true s :
  starts_url s = true ->
  exists w r, s = w ++ r /\ List.length w = 5 /\
              forallb (fun c => negb (is_space c)) w = true /\
              forall r', starts_url (w ++ r') = true.
Proof.
  destruct s as [|a [|b [|c [|d [|y r]]]]]; try discriminate.
  intros H. exists [a; b; c; d; y], r. split; [reflexivity|]. split; [reflexivity|].
  split; [|intros r'; exact H].
  unfold starts_url in H. apply andb_true_iff in H. destruct H as [H Hy].
  cbn [forallb]. rewrite Hy, andb_true_r.
  apply orb_true_iff in H. destruct H as [H|H]; apply str_eqb_eq in H;
    inversion H; subst; reflexivity.
Qed.

Lemma starts_url_space r : starts_url (32%N :: r) = false.
Proof. destruct r as [|b [|c [|d [|y r]]]]; reflexivity. Qed.

(** What [re.sub] with a space copies: a start of the result without white
    space is a start of the text. *)
Lemma sub_nonspace_prefix (r : Re.re) (w : str) :
  forallb (fun c => negb (is_space c)) w = true ->
  forall fuel pre s o,
    List.length s < fuel ->
    Re.sub_from r (lit " ") fuel pre s = w ++ o -> exists s', s = w ++ s'.
Proof.
  induction w as [|c w IH]; intros Hw fuel pre s o Hf H; [exists s; reflexivity|].
  cbn [forallb] in Hw. apply andb_true_iff in Hw. destruct Hw as [Hc Hw].
  destruct fuel as [|fuel]; [lia|]. cbn [Re.sub_from] in H.
  assert (Hsp : forall t : str, lit " " ++ t = (c :: w) ++ o -> False).
  { intros t Ht. change (lit " " ++ t) with (32%N :: t) in Ht. cbn [app] in Ht.
    inversion Ht; subst. discriminate Hc. }
  destruct (Re.match_here r pre s) as [m|].
  - destruct (Re.m_text m).
    + destruct s as [|x s]; [|exfalso; apply (Hsp _ H)].
      exfalso. apply (Hsp []). rewrite app_nil_r. exact H.
    + exfalso. apply (Hsp _ H).
  - destruct s as [|x s]; [discriminate H|]. cbn [app] in H. inversion H; subst.
    cbn [List.length] in Hf.
    match goal with E : Re.sub_from _ _ _ _ ?s0 = _ |- _ =>
      assert (Hlt : List.length s0 < fuel) by lia;
      destruct (IH Hw fuel _ s0 _ Hlt E) as [s' Es] end.
    exists s'. cbn [app]. rewrite Es. reflexivity.
Qed.

(** After the links are replaced, no place of the text starts a link. *)
Lemma sub_url_free :
  forall fuel pre s,
    List.length s < fuel -> url_free (Re.sub_from App.url_re (lit " ") fuel pre s).
Proof.
  induction fuel as [|fuel IH]; intros pre s Hf; [lia|].
  cbn [Re.sub_from].
  destruct (match_url_cases pre s) as [[Hs E]|[Hs [txt [rest [c [E [Ht Hl]]]]]]]; rewrite E.
  - destruct s as [|x s]; [intros a b Hab; destruct a, b; try discriminate Hab; reflexivity|].
    cbn [List.length] in Hf.
    intros a b Hab. destruct a as [|y a]; cbn [app] in Hab.
    + subst b.
      destruct (starts_url (x :: Re.sub_from App.url_re (lit " ") fuel (x :: pre) s)) eqn:Eu;
        [|reflexivity].
      destruct (starts_url_true _ Eu) as [w [r [Ew [Hlen [Hw Hall]]]]].
      destruct w as [|z w]; [discriminate Hlen|]. cbn [app] in Ew. inversion Ew; subst z.
      cbn [forallb] in Hw. apply andb_true_iff in Hw. destruct Hw as [_ Hw].
      match goal with E' : Re.sub_from _ _ _ _ ?s0 = _ |- _ =>
        assert (Hlt : List.length s0 < fuel) by lia;
        destruct (sub_nonspace_prefix _ w Hw fuel _ s0 _ Hlt E') as [s' Es] end.
      rewrite Es in Hs. change (x :: w ++ s') with ((x :: w) ++ s') in Hs.
      rewrite Hall in Hs. discriminate Hs.
    + injection Hab as Hx Hab'.
      assert (Hlt : List.length s < fuel) by lia. apply (IH (x :: pre) s Hlt a b Hab').
  - cbn [Re.m_text Re.m_after]. destruct txt as [|t txt]; [contradiction Ht; reflexivity|].
    change (lit " " ++ ?t) with (32%N :: t).
    intros a b Hab. destruct a as [|y a]; cbn [app] in Hab.
    + subst b. apply starts_url_space.
    + injection Hab as Hx Hab'.
      assert (Hlt : List.length rest < fuel) by lia. apply (IH _ rest Hlt a b Hab').
Qed.

Lemma starts_url_app b z : starts_url b = true -> starts_url (b ++ z) = true.
Proof.
  intros H. destruct (starts_url_true _ H) as [w [r [Ew [_ [_ Hall]]]]]. subst b.
  rewrite <- app_assoc. apply Hall.
Qed.

Lemma url_free_part a m z : url_free (a ++ m ++ z) -> url_free m.
Proof.
  intros H a0 b Hm. destruct (starts_url b) eqn:E; [|reflexivity].
  rewrite <- (H (a ++ a0) (b ++ z)).
  - symmetry. apply starts_url_app. exact E.
  - rewrite Hm, <- !app_assoc. reflexivity.
Qed.

Lemma url_free_strip t : url_free t -> url_free (strip t).
Proof.
  intros H. unfold strip. destruct (lstrip_suffix t) as [w1 E1].
  destruct (rstrip_prefix (lstrip t)) as [w2 E2].
  apply (url_free_part w1 _ w2). rewrite <- E2, <- E1. exact H.
Qed.

Lemma squeeze_nonspace_prefix (w : str) :
  forallb (fun c => negb (is_space c)) w = true ->
  forall t o, squeeze is_space (lit " ") false t = w ++ o -> exists t', t = w ++ t'.
Proof.
  induction w as [|c w IH]; intros Hw t o H; [exists t; reflexivity|].
  cbn [forallb] in Hw. apply andb_true_iff in Hw. destruct Hw as [Hc Hw].
  destruct t as [|x t]; [discriminate H|]. cbn [squeeze] in H.
  destruct (is_space x) eqn:Ex.
  - change (lit " " ++ ?t) with (32%N :: t) in H. cbn [app] in H. inversion H; subst.
    discriminate Hc.
  - cbn [app] in H. inversion H; subst. destruct (IH Hw t o) as [t' Et]; [assumption|].
    exists t'. cbn [app]. rewrite Et. reflexivity.
Qed.

Lemma url_free_squeeze t : forall inrun,
  url_free t -> url_free (squeeze is_space (lit " ") inrun t).
Proof.
  induction t as [|x t IH]; intros inrun H; [exact H|].
  assert (Ht : url_free t).
  { intros a b Hab. apply (H (x :: a) b). cbn [app]. rewrite Hab. reflexivity. }
  cbn [squeeze]. destruct (is_space x) eqn:Ex.
  - destruct inrun; [apply IH; exact Ht|].
    change (lit " " ++ ?t) with (32%N :: t).
    intros a b Hab. destruct a as [|y a]; cbn [app] in Hab.
    + subst b. apply starts_url_space.
    + injection Hab as Hx Hab'. apply (IH true Ht a b Hab').
  - intros a b Hab. destruct a as [|y a]; cbn [app] in Hab.
    + subst b.
      destruct (starts_url (x :: squeeze is_space (lit " ") false t)) eqn:Eu; [|reflexivity].
      destruct (starts_url_true _ Eu) as [w [r [Ew [Hlen [Hw Hall]]]]].
      destruct w as [|z w]; [discriminate Hlen|]. cbn [app] in Ew. inversion Ew; subst z.
      cbn [forallb] in Hw. apply andb_true_iff in Hw. destruct Hw as [_ Hw].
      match goal with E' : squeeze _ _ _ _ = _ |- _ =>
        destruct (squeeze_nonspace_prefix w Hw _ _ E') as [t' Et] end.
      rewrite <- (H [] (x :: t) eq_refl). rewrite Et.
      change (x :: w ++ t') with ((x :: w) ++ t'). symmetry. apply Hall.
    + injection Hab as Hx Hab'. apply (IH false Ht a b Hab').
Qed.

Lemma url_free_search t : forall pre, url_free t -> Re.search_from App.url_re pre t = None.
Proof.
  induction t as [|x t IH]; intros pre H; cbn [Re.search_from].
  - destruct (match_url_cases pre []) as [[_ E]|[Hs _]]; [rewrite E; reflexivity|].
    discriminate Hs.
  - destruct (match_url_cases pre (x :: t)) as [[_ E]|[Hs _]].
    + rewrite E. apply IH. intros a b Hab. apply (H (x :: a) b). cbn [app].
      rewrite Hab. reflexivity.
    + rewrite (H [] (x :: t) eq_refl) in Hs. discriminate Hs.
Qed.

(** Where a pattern is not found, [re.sub] changes nothing. *)
Lemma sub_no_match (r : Re.re) (repl : str) :
  forall fuel pre s, Re.search_from r pre s = None -> Re.sub_from r repl fuel pre s = s.
Proof.
  induction fuel as [|fuel IH]; intros pre s H; [reflexivity|].
  cbn [Re.sub_from]. destruct s as [|x s]; cbn [Re.search_from] in H.
  - destruct (Re.match_here r pre []); [discriminate H | reflexivity].
  - destruct (Re.match_here r pre (x :: s)); [discriminate H|].
    rewrite (IH _ _ H). reflexivity.
Qed.

Lemma normalize_text_eq s :
  App.normalize_text s
  = Detik_text.clean_text
      (Some (Re.sub App.url_re (lit " ") (match s with Some x => x | None => [] end))).
Proof. reflexivity. Qed.

(** Property X18. [normalize_text] of the dashboard, on any text or [None]:
    the pattern of the links, [http\S+|www\.\S+], is found nowhere in its
    result; the result is a text that [clean_text] leaves as it is; and
    [normalize_text] leaves it as it is. *)
Theorem X18_normalize_text (s : option str) :
  Re.search App.url_re (App.normalize_text s) = None /\
  clean (App.normalize_text s) /\
  App.normalize_text (Some (App.normalize_text s)) = App.normalize_text s.
Proof.
  assert (H1 : Re.search App.url_re (App.normalize_text s) = None).
  { rewrite normalize_text_eq, detik_clean_text_eq. unfold Re.search.
    apply url_free_search. apply url_free_strip. apply url_free_squeeze.
    unfold Re.sub. apply sub_url_free. lia. }
  assert (H2 : clean (App.normalize_text s)).
  { rewrite normalize_text_eq. apply clean_clean_text. }
  split; [exact H1|]. split; [exact H2|].
  rewrite (normalize_text_eq (Some _)). unfold Re.sub at 1.
  rewrite sub_no_match by exact H1. exact H2.
Qed.

(** A link inside a word and a link at the end. *)
Example normalize_text_example :
  App.normalize_text (Some (lit "Menu  MBG lihat:https://t.co/x1  dan www.detik.com"))
  = lit "Menu MBG lihat: dan" /\
  App.normalize_text (Some (lit "http www. selesai")) = lit "http www. selesai".
Proof. split; vm_compute; reflexivity. Qed.

(** ** The matcher on a text of a given form *)

Lemma run_grp (A : Type) i a pre s c (k : Re.cont A) :
  Re.run (Re.Grp i a) pre s c k
  = Re.run a pre s c (fun pre' s' c' =>
      k pre' s' ((i, firstn (List.length s - List.length s') s) :: c')).
Proof. reflexivity. Qed.

Lemma run_wordb (A : Type) pre s c (k : Re.cont A) :
  Re.run Re.Wordb pre s c k = if Re.word_boundary pre s then k pre s c else None.
Proof. reflexivity. Qed.

Lemma run_eol_nil (A : Type) pre c (k : Re.cont A) : Re.run Re.Eol pre [] c k = k pre [] c.
Proof. reflexivity. Qed.

Lemma chr_eqb_refl c : chr_eqb c c = true.
Proof. apply chr_eqb_eq. reflexivity. Qed.

Lemma run_c1 (A : Type) x pre s c (k : Re.cont A) :
  Re.run (Re.c1 x) pre (x :: s) c k = k (x :: pre) s c.
Proof. unfold Re.c1. rewrite run_chr, chr_eqb_refl. reflexivity. Qed.

(** A literal text in front of the subject is consumed. *)
Lemma run_text (A : Type) (t : str) :
  forall pre s c (k : Re.cont A),
    Re.run (Re.text t) pre (t ++ s) c k = k (rev t ++ pre) s c.
Proof.
  induction t as [|x t IH]; intros pre s c k; [reflexivity|].
  destruct t as [|y t].
  - cbn [Re.text app rev]. apply run_c1.
  - change (Re.text (x :: y :: t)) with (Re.Seq (Re.c1 x) (Re.text (y :: t))).
    rewrite run_seq. change ((x :: y :: t) ++ s) with (x :: (y :: t) ++ s).
    rewrite run_c1, IH. cbn [rev]. rewrite <- !app_assoc. reflexivity.
Qed.

Lemma run_text_end (A : Type) (t : str) pre c (k : Re.cont A) :
  Re.run (Re.text t) pre t c k = k (rev t ++ pre) [] c.
Proof. rewrite <- (app_nil_r t) at 2. apply run_text. Qed.

(** A greedy block of a class with bounds, in front of a continuation that
    accepts the text after the block: the block is consumed when it is the
    longest that the class or the upper bound allows. *)
Lemma rep_class_bounded (A : Type) (p : char -> bool) (lo : nat) (hi : option nat)
      (k : Re.cont A) (rest : str) (c : Re.caps) (v : A) :
  forall blk fuel n pre,
    forallb p blk = true ->
    (match rest with [] => True | x :: _ => p x = false end \/
     hi = Some (n + List.length blk)) ->
    lo <= n + List.length blk ->
    match hi with Some h => n + List.length blk <= h | None => True end ->
    List.length (blk ++ rest) < fuel ->
    k (rev blk ++ pre) rest c = Some v ->
    Re.rep_loop (fun pre' s' c' k' => Re.run (Re.Chr p) pre' s' c' k')
                lo hi true k fuel n pre (blk ++ rest) c = Some v.
Proof.
  induction blk as [|x blk IH]; intros fuel n pre Hp Hend Hlo Hhi Hf Hk.
  - destruct fuel as [|fuel]; [cbn [List.length] in Hf; lia|].
    cbn [app rev List.length] in *. cbn [Re.rep_loop].
    assert (Hm : (if Re.below hi n
                  then Re.run (Re.Chr p) pre rest c
                         (fun pre' s' c' =>
                            if Nat.ltb (List.length s') (List.length rest)
                            then Re.rep_loop
                                   (fun pre' s' c' k' => Re.run (Re.Chr p) pre' s' c' k')
                                   lo hi true k fuel (S n) pre' s' c'
                            else None)
                  else None) = None).
    { destruct Hend as [Hr|Hh].
      - destruct (Re.below hi n); [|reflexivity].
        destruct rest as [|y rest]; [reflexivity|]. rewrite run_chr, Hr. reflexivity.
      - rewrite Hh. cbn [Re.below]. replace (n + 0) with n by lia.
        rewrite Nat.ltb_irrefl. reflexivity. }
    rewrite Hm. rewrite (proj2 (Nat.leb_le lo n)) by lia. exact Hk.
  - destruct fuel as [|fuel]; [cbn [List.length] in Hf; lia|].
    cbn [forallb] in Hp. apply andb_true_iff in Hp. destruct Hp as [Hx Hp].
    cbn [app List.length] in Hf, Hlo, Hhi, Hend.
    cbn [app Re.rep_loop].
    assert (Hb : Re.below hi n = true).
    { destruct hi as [h|]; [|reflexivity]. cbn [Re.below]. apply Nat.ltb_lt. lia. }
    rewrite Hb, run_chr, Hx.
    rewrite (proj2 (Nat.ltb_lt _ _)) by (cbn [List.length]; lia).
    assert (E : Re.rep_loop (fun pre' s' c' k' => Re.run (Re.Chr p) pre' s' c' k')
                  lo hi true k fuel (S n) (x :: pre) (blk ++ rest) c = Some v).
    { apply (IH fuel (S n) (x :: pre) Hp); [| lia | | lia |].
      - destruct Hend as [Hr|Hh]; [left; exact Hr | right].
        rewrite Hh. f_equal. lia.
      - destruct hi as [h|]; [lia | exact I].
      - cbn [rev] in Hk. rewrite <- app_assoc in Hk. exact Hk. }
    rewrite E. reflexivity.
Qed.

(** A repetition of at least one character of a class fails on a text that
    starts with none. *)
Lemma rep_class_none (A : Type) (p : char -> bool) (lo : nat) (hi : option nat) (g : bool)
      (k : Re.cont A) (s : str) (c : Re.caps) fuel pre :
  1 <= lo ->
  match s with [] => True | x :: _ => p x = false end ->
  Re.rep_loop (fun pre' s' c' k' => Re.run (Re.Chr p) pre' s' c' k')
              lo hi g k fuel 0 pre s c = None.
Proof.
  intros Hlo Hs.
  assert (Hstop : Nat.leb lo 0 = false) by (apply Nat.leb_gt; lia).
  destruct fuel as [|fuel]; cbn [Re.rep_loop]; rewrite Hstop.
  - destruct g; reflexivity.
  - assert (Hm : (if Re.below hi 0
                  then Re.run (Re.Chr p) pre s c
                         (fun pre' s' c' =>
                            if Nat.ltb (List.length s') (List.length s)
                            then Re.rep_loop
                                   (fun pre' s' c' k' => Re.run (Re.Chr p) pre' s' c' k')
                                   lo hi g k fuel 1 pre' s' c'
                            else None)
                  else None) = None).
    { destruct (Re.below hi 0); [|reflexivity].
      destruct s as [|y s]; [reflexivity|]. rewrite run_chr, Hs. reflexivity. }
    rewrite Hm. destruct g; reflexivity.
Qed.

(** The search goes over the places where the pattern does not match. *)
Lemma search_from_skip (r : Re.re) (s : str) :
  forall a pre,
    (forall a1 x a2, a = a1 ++ x :: a2 ->
       Re.match_here r (rev a1 ++ pre) (x :: a2 ++ s) = None) ->
    Re.search_from r pre (a ++ s) = Re.search_from r (rev a ++ pre) s.
Proof.
  induction a as [|x a IH]; intros pre H; [reflexivity|].
  cbn [app]. 
  assert (E : Re.search_from r pre (x :: a ++ s) = Re.search_from r (x :: pre) (a ++ s)).
  { cbn [Re.search_from]. pose proof (H [] x a eq_refl) as H0. cbn [rev app] in H0.
    rewrite H0. reflexivity. }
  rewrite E, IH.
  - cbn [rev]. rewrite <- app_assoc. reflexivity.
  - intros a1 y a2 Ha. specialize (H (x :: a1) y a2). cbn [rev app] in H.
    rewrite <- app_assoc in H. apply H. rewrite Ha. reflexivity.
Qed.

Lemma search_from_here (r : Re.re) pre s m :
  Re.match_here r pre s = Some m -> Re.search_from r pre s = Some m.
Proof. intros H. destruct s; cbn [Re.search_from]; rewrite H; reflexivity. Qed.

(** ** The date of the list of detik, read again by the orchestrator *)

Lemma fallback_none pre x s :
  is_digit x = false ->
  Re.match_here Detik_scrape.fallback_date_re pre (x :: s) = None.
Proof.
  intros Hx. unfold Re.match_here, Detik_scrape.fallback_date_re. cbn [Re.seq].
  rewrite run_seq, run_wordb. destruct (Re.word_boundary pre (x :: s)); [|reflexivity].
  rewrite run_seq, run_grp. unfold Re.between, Re.dg. rewrite run_rep.
  apply rep_class_none; [lia | exact Hx].
Qed.

Lemma digit_is_word c : is_digit_ascii c = true -> is_word c = true.
Proof.
  intros H. unfold is_word. rewrite H. rewrite orb_true_r. reflexivity.
Qed.

Lemma alpha_facts c :
  is_alpha_ascii c = true -> is_word c = true /\ is_digit c = false /\ is_space c = false.
Proof.
  intros H. split; [unfold is_word; rewrite H; reflexivity|].
  unfold is_alpha_ascii, is_upper_ascii, is_lower_ascii, in_range in H.
  assert (Hc : (65 <= c <= 122)%N).
  { apply orb_true_iff in H. destruct H as [H|H]; apply andb_true_iff in H;
      destruct H as [H1 H2]; apply N.leb_le in H1; apply N.leb_le in H2; lia. }
  split.
  - rewrite is_digit_below by lia.
    unfold is_digit_ascii, in_range. apply andb_false_iff. right. apply N.leb_gt. lia.
  - unfold is_space, in_range, chr_eqb.
    repeat (apply orb_false_iff; split);
      first [apply N.eqb_neq; lia
            | apply andb_false_iff; first [left; apply N.leb_gt; lia | right; apply N.leb_gt; lia]].
Qed.

(** The pattern of the orchestrator on a date of the list, after the name
    of the day: the five groups. *)
Lemma fallback_match pre (dt mon yt ht mt : str) :
  match pre with [] => True | x :: _ => is_word x = false end ->
  dt <> [] -> forallb is_digit_ascii dt = true -> List.length dt <= 2 ->
  mon <> [] -> forallb is_word mon = true ->
  forallb is_digit_ascii yt = true -> List.length yt = 4 ->
  forallb is_digit_ascii ht = true -> List.length ht = 2 ->
  forallb is_digit_ascii mt = true -> List.length mt = 2 ->
  exists m,
    Re.match_here Detik_scrape.fallback_date_re pre
      (dt ++ 32%N :: mon ++ 32%N :: yt ++ 32%N :: ht ++ 58%N :: mt ++ lit " WIB") = Some m /\
    Re.group (Re.m_caps m) 1 = dt /\ Re.group (Re.m_caps m) 2 = mon /\
    Re.group (Re.m_caps m) 3 = yt /\ Re.group (Re.m_caps m) 4 = ht /\
    Re.group (Re.m_caps m) 5 = mt.
Proof.
  intros Hpre Hd Fd Ld Hm Fm Fy Ly Fh Lh Fi Li.
  assert (Hwb : Re.word_boundary pre
                  (dt ++ 32%N :: mon ++ 32%N :: yt ++ 32%N :: ht ++ 58%N :: mt ++ lit " WIB")
                = true).
  { unfold Re.word_boundary. destruct dt as [|d1 dt]; [contradiction Hd; reflexivity|].
    cbn [forallb] in Fd. apply andb_true_iff in Fd. destruct Fd as [F1 _].
    cbn [app]. rewrite (digit_is_word _ F1).
    destruct pre as [|x pre]; [reflexivity|]. rewrite Hpre. reflexivity. }
  assert (Nd : 1 <= List.length dt) by (destruct dt; [contradiction Hd; reflexivity | cbn; lia]).
  assert (Nm : 1 <= List.length mon)
    by (destruct mon; [contradiction Hm; reflexivity | cbn; lia]).
  eexists. split.
  - unfold Re.match_here, Detik_scrape.fallback_date_re. cbn [Re.seq].
    rewrite run_seq, run_wordb, Hwb.
    rewrite run_seq, run_grp. unfold Re.between, Re.dg. rewrite run_rep.
    apply rep_class_bounded; [exact (forallb_digit_ascii _ Fd) | left; reflexivity | lia | cbn; lia | lia |].
    rewrite run_seq, run_c1.
    rewrite run_seq, run_grp. unfold Re.plus, Re.wd. rewrite run_rep.
    apply rep_class_bounded; [exact Fm | left; reflexivity | lia | exact I | lia |].
    rewrite run_seq, run_c1.
    rewrite run_seq, run_grp. unfold Re.times, Re.dg. rewrite run_rep.
    apply rep_class_bounded;
      [exact (forallb_digit_ascii _ Fy) | left; reflexivity | lia | cbn; lia | lia |].
    rewrite run_seq, run_c1.
    rewrite run_seq, run_grp. unfold Re.times, Re.dg. rewrite run_rep.
    apply rep_class_bounded;
      [exact (forallb_digit_ascii _ Fh) | left; reflexivity | lia | cbn; lia | lia |].
    rewrite run_seq, run_c1.
    rewrite run_seq, run_grp. unfold Re.times, Re.dg. rewrite run_rep.
    apply rep_class_bounded;
      [exact (forallb_digit_ascii _ Fi) | left; reflexivity | lia | cbn; lia | lia |].
    rewrite run_seq, run_text_end, run_wordb. reflexivity.
  - cbn [Re.m_caps Re.group Nat.eqb]. repeat split; apply firstn_front.
Qed.

Lemma pad2_digits n :
  forallb is_digit_ascii (Datetime.pad2 n) = true /\ List.length (Datetime.pad2 n) = 2.
Proof.
  unfold Datetime.pad2. cbn [forallb List.length]. rewrite !digit_is_digit. split; reflexivity.
Qed.

Lemma pad4_digits n :
  forallb is_digit_ascii (Datetime.pad4 n) = true /\ List.length (Datetime.pad4 n) = 4.
Proof.
  unfold Datetime.pad4. cbn [forallb List.length]. rewrite !digit_is_digit. split; reflexivity.
Qed.

Lemma int_pad2 n : (0 <= n <= 99)%Z -> Datetime.int (Datetime.pad2 n) = n.
Proof.
  intros H. unfold Datetime.int, Datetime.pad2. cbn [Datetime.int_of_digits].
  rewrite !digit_value_digit. zify; Z.to_euclidean_division_equations; lia.
Qed.

Lemma int_pad4 n : (0 <= n <= 9999)%Z -> Datetime.int (Datetime.pad4 n) = n.
Proof.
  intros H. unfold Datetime.int, Datetime.pad4. cbn [Datetime.int_of_digits].
  rewrite !digit_value_digit. zify; Z.to_euclidean_division_equations; lia.
Qed.

Lemma int_digit n : (0 <= n <= 9)%Z -> Datetime.int [Datetime.digit n] = n.
Proof.
  intros H. unfold Datetime.int. cbn [Datetime.int_of_digits].
  rewrite digit_value_digit. zify; Z.to_euclidean_division_equations; lia.
Qed.

Lemma make_ok y m d hh mi tz :
  (1 <= y <= 9999)%Z -> (1 <= m <= 12)%Z -> (1 <= d <= Datetime.days_in_month y m)%Z ->
  (0 <= hh <= 23)%Z -> (0 <= mi <= 59)%Z ->
  Datetime.make y m d hh mi 0 tz = Ok (Datetime.Datetime y m d hh mi 0 tz).
Proof.
  intros Hy Hm Hd Hh Hi. unfold Datetime.make, Datetime.check_fields.
  assert (T : forall a b c : Z, (a <= b <= c)%Z -> ((a <=? b) && (b <=? c))%Z = true).
  { intros a b c [H1 H2]. apply andb_true_iff. split; apply Z.leb_le; assumption. }
  rewrite (T _ _ _ Hy), (T _ _ _ Hm), (T _ _ _ Hd), (T _ _ _ Hh), (T _ _ _ Hi).
  reflexivity.
Qed.

Lemma year_text_pad4 y : (1000 <= y)%Z -> Datetime.year_text y = Datetime.pad4 y.
Proof.
  intros H. unfold Datetime.year_text.
  rewrite (proj2 (Z.ltb_ge y 10)), (proj2 (Z.ltb_ge y 100)), (proj2 (Z.ltb_ge y 1000)) by lia.
  reflexivity.
Qed.

(** Property X19. The date of a record of detik when the page gives no time
    that [iso_to_wib] reads: a date of the list of the form
    [Rabu, 17 Des 2025 02:03 WIB] (a name of the day in letters, the day in
    one or two digits, a month in letters whose first three are a key of
    the table, a year of four digits, hours and minutes) is turned into
    [2025-12-17 02:03:00], for a day that the month has; and this is the
    date of the record that the step of the loop appends. *)
Theorem X19_detik_list_date (dow mon daytext : str) (y m d hh mi : Z) (r : Detik.row) :
  forallb is_alpha_ascii dow = true ->
  mon <> [] -> forallb is_alpha_ascii mon = true ->
  Dates.dict_get Detik_scrape.bulan_map (firstn 3 mon) (lit "01") = Datetime.pad2 m ->
  (1 <= m <= 12)%Z ->
  (1000 <= y <= 9999)%Z -> (1 <= d <= Datetime.days_in_month y m)%Z ->
  (0 <= hh <= 23)%Z -> (0 <= mi <= 59)%Z ->
  (daytext = Datetime.pad2 d \/ ((d <= 9)%Z /\ daytext = [Datetime.digit d])) ->
  Detik.published_wib r
  = dow ++ lit ", " ++ daytext ++ lit " " ++ mon ++ lit " " ++ Datetime.pad4 y ++ lit " " ++
    Datetime.pad2 hh ++ lit ":" ++ Datetime.pad2 mi ++ lit " WIB" ->
  let date := Datetime.pad4 y ++ lit "-" ++ Datetime.pad2 m ++ lit "-" ++ Datetime.pad2 d ++
              lit " " ++ Datetime.pad2 hh ++ lit ":" ++ Datetime.pad2 mi ++ lit ":00" in
  (forall det,
     Dates.detik_iso_to_wib (Detik.published_time_iso det) = [] ->
     Detik_scrape.tanggal_of det (Some r) = Ok date) /\
  (forall w list_rows st u html,
     fetch w u = Ok html ->
     Detik_scrape.base_of list_rows u = Some r ->
     Dates.detik_iso_to_wib (Detik.published_time_iso (Detik.parse_detail_page html u)) = [] ->
     exists a,
       Detik_scrape.detail_step w list_rows st u
       = Ok (Detik_scrape.State (Some (lit "detik")) (Detik_scrape.out st ++ [a])) /\
       tanggal a = date /\ judul a = Detik.title_list r /\ a_url a = u).
Proof.
  intros Fdow Hmon Fmon Hbln Hm Hy Hd Hh Hi Hday Hpw date.
  assert (Hdate : forall det,
            Dates.detik_iso_to_wib (Detik.published_time_iso det) = [] ->
            Detik_scrape.tanggal_of det (Some r) = Ok date).
  { intros det Hiso. unfold Detik_scrape.tanggal_of. rewrite Hiso. cbn [truthy].
    cbn [Detik_scrape.base_get]. rewrite Hpw.
    assert (Fw : forallb is_word mon = true).
    { apply forallb_forall. intros c Hc. rewrite forallb_forall in Fmon.
      apply (alpha_facts c (Fmon c Hc)). }
    assert (Dt : daytext <> [] /\ forallb is_digit_ascii daytext = true /\
                 List.length daytext <= 2 /\ Datetime.int daytext = d).
    { destruct Hday as [->|[H9 ->]].
      - destruct (pad2_digits d) as [F L]. repeat split;
          [discriminate | exact F | rewrite L; lia | apply int_pad2].
        assert (Datetime.days_in_month y m <= 31)%Z.
        { unfold Datetime.days_in_month.
          repeat match goal with |- context [if ?b then _ else _] => destruct b end; lia. }
        lia.
      - repeat split; [discriminate | | cbn; lia | apply int_digit; lia].
        cbn [forallb]. rewrite digit_is_digit. reflexivity. }
    destruct Dt as [Nd [Fd [Ld Id]]].
    destruct (pad4_digits y) as [Fy Ly]. destruct (pad2_digits hh) as [Fh Lh].
    destruct (pad2_digits mi) as [Fi Li].
    set (pre := rev (dow ++ [44%N; 32%N])).
    assert (Hpre : match pre with [] => True | x :: _ => is_word x = false end).
    { unfold pre. rewrite rev_app_distr. reflexivity. }
    destruct (fallback_match pre daytext mon (Datetime.pad4 y) (Datetime.pad2 hh)
                (Datetime.pad2 mi) Hpre Nd Fd Ld Hmon Fw Fy Ly Fh Lh Fi Li)
      as [mt [Em [G1 [G2 [G3 [G4 G5]]]]]].
    assert (Es : Re.search Detik_scrape.fallback_date_re
                   (dow ++ lit ", " ++ daytext ++ lit " " ++ mon ++ lit " " ++
                    Datetime.pad4 y ++ lit " " ++ Datetime.pad2 hh ++ lit ":" ++
                    Datetime.pad2 mi ++ lit " WIB") = Some mt).
    { unfold Re.search.
      change (dow ++ lit ", " ++ daytext ++ lit " " ++ mon ++ lit " " ++
              Datetime.pad4 y ++ lit " " ++ Datetime.pad2 hh ++ lit ":" ++
              Datetime.pad2 mi ++ lit " WIB")
        with (dow ++ [44%N; 32%N] ++
              (daytext ++ 32%N :: mon ++ 32%N :: Datetime.pad4 y ++ 32%N ::
               Datetime.pad2 hh ++ 58%N :: Datetime.pad2 mi ++ lit " WIB")).
      rewrite app_assoc. rewrite search_from_skip.
      - rewrite app_nil_r. apply search_from_here. exact Em.
      - intros a1 x a2 Ha. apply fallback_none.
        assert (Hin : In x (a1 ++ x :: a2)) by (apply in_or_app; right; left; reflexivity).
        rewrite <- Ha in Hin. apply in_app_or in Hin. destruct Hin as [Hin|[<-|[<-|[]]]]; try reflexivity.
        rewrite forallb_forall in Fdow. apply (alpha_facts x (Fdow x Hin)). }
    rewrite Es. cbv zeta. rewrite G1, G2, G3, G4, G5, Hbln, Id.
    rewrite int_pad4, !int_pad2 by lia.
    rewrite make_ok by lia. cbn [bind]. f_equal.
    unfold Datetime.strftime, date.
    cbn [Datetime.year Datetime.month Datetime.day Datetime.hour Datetime.minute
         Datetime.second].
    rewrite year_text_pad4 by lia. reflexivity. }
  split; [exact Hdate|].
  intros w list_rows st u html Hf Hb Hiso. unfold Detik_scrape.detail_step.
  rewrite Hb, Hf, (Hdate _ Hiso). cbn [Detik_scrape.sources Detik_scrape.out].
  eexists. split; [reflexivity|]. cbn [tanggal judul a_url Detik_scrape.base_get].
  repeat split.
Qed.

Lemma X19_detik_list_date_witness :
  Detik_scrape.tanggal_of
    (Detik.Detail (lit "https://news.detik.com/berita/d-8183382/makan-bergizi")
                  (lit "Makan bergizi gratis") [] [] (lit "Isi berita."))
    (Some (Detik.Row (lit "Rabu, 7 Desember 2025 02:03 WIB") (lit "Makan bergizi gratis")
                     (lit "https://news.detik.com/berita/d-8183382/makan-bergizi")))
  = Ok (lit "2025-12-07 02:03:00").
Proof.
  refine (proj1 (X19_detik_list_date (lit "Rabu") (lit "Desember") (lit "7")
                   2025 12 7 2 3 _ _ _ _ _ _ _ _ _ _ _ _) _ _).
  - reflexivity.
  - discriminate.
  - reflexivity.
  - reflexivity.
  - lia.
  - lia.
  - vm_compute. split; discriminate.
  - lia.
  - lia.
  - right. split; [lia | reflexivity].
  - reflexivity.
  - reflexivity.
Defined.

(** ** The row of a link of the list of detik *)

Lemma rep_class_end_none (A : Type) (p : char -> bool) (lo : nat) (hi : option nat)
      (k : Re.cont A) (rest : str) (c : Re.caps) fuel n pre :
  match rest with [] => True | x :: _ => p x = false end ->
  k pre rest c = None ->
  Re.rep_loop (fun pre' s' c' k' => Re.run (Re.Chr p) pre' s' c' k')
              lo hi true k fuel n pre rest c = None.
Proof.
  intros Hrest Hk.
  assert (Hstop : (if Nat.leb lo n then k pre rest c else None) = None)
    by (destruct (Nat.leb lo n); [exact Hk | reflexivity]).
  destruct fuel as [|fuel]; cbn [Re.rep_loop]; rewrite Hstop; [reflexivity|].
  assert (Hm : (if Re.below hi n
                then Re.run (Re.Chr p) pre rest c
                       (fun pre' s' c' =>
                          if Nat.ltb (List.length s') (List.length rest)
                          then Re.rep_loop
                                 (fun pre' s' c' k' => Re.run (Re.Chr p) pre' s' c' k')
                                 lo hi true k fuel (S n) pre' s' c'
                          else None)
                else None) = None).
  { destruct (Re.below hi n); [|reflexivity].
    destruct rest as [|y rest]; [reflexivity|]. rewrite run_chr, Hrest. reflexivity. }
  rewrite Hm. reflexivity.
Qed.

(** A greedy block of a class whose last character is wanted by what
    follows: the block is given back by one character. *)
Lemma rep_class_backtrack (A : Type) (p : char -> bool) (lo : nat) (k : Re.cont A)
      (x : char) (rest : str) (c : Re.caps) (v : A) :
  p x = true ->
  match rest with [] => True | y :: _ => p y = false end ->
  forall blk fuel n pre,
    forallb p blk = true ->
    lo <= n + List.length blk ->
    List.length (blk ++ x :: rest) < fuel ->
    k (x :: rev blk ++ pre) rest c = None ->
    k (rev blk ++ pre) (x :: rest) c = Some v ->
    Re.rep_loop (fun pre' s' c' k' => Re.run (Re.Chr p) pre' s' c' k')
                lo None true k fuel n pre (blk ++ x :: rest) c = Some v.
Proof.
  intros Hx Hrest. induction blk as [|y blk IH]; intros fuel n pre Hp Hlo Hf Hnone Hk.
  - destruct fuel as [|fuel]; [cbn [List.length] in Hf; lia|].
    cbn [app rev List.length] in *. cbn [Re.rep_loop Re.below]. rewrite run_chr, Hx.
    rewrite (proj2 (Nat.ltb_lt _ _)) by (cbn [List.length]; lia).
    rewrite (rep_class_end_none A p lo None k rest c fuel (S n) (x :: pre) Hrest Hnone).
    rewrite (proj2 (Nat.leb_le lo n)) by lia. exact Hk.
  - destruct fuel as [|fuel]; [cbn [List.length] in Hf; lia|].
    cbn [forallb] in Hp. apply andb_true_iff in Hp. destruct Hp as [Hy Hp].
    cbn [app List.length] in Hf, Hlo.
    cbn [app Re.rep_loop Re.below]. rewrite run_chr, Hy.
    rewrite (proj2 (Nat.ltb_lt _ _)) by (cbn [List.length]; lia).
    assert (E : Re.rep_loop (fun pre' s' c' k' => Re.run (Re.Chr p) pre' s' c' k')
                  lo None true k fuel (S n) (y :: pre) (blk ++ x :: rest) c = Some v).
    { apply (IH fuel (S n) (y :: pre) Hp); [lia | lia | |].
      - cbn [rev] in Hnone. rewrite <- app_assoc in Hnone. exact Hnone.
      - cbn [rev] in Hk. rewrite <- app_assoc in Hk. exact Hk. }
    rewrite E. reflexivity.
Qed.

Lemma run_bol_some (A : Type) x pre s c (k : Re.cont A) :
  Re.run Re.Bol (x :: pre) s c k = None.
Proof. reflexivity. Qed.

Lemma firstn_front_cons (A : Type) (a b : list A) (x : A) :
  firstn (List.length (a ++ x :: b) - List.length b) (a ++ x :: b) = a ++ [x].
Proof.
  replace (a ++ x :: b) with ((a ++ [x]) ++ b) by (rewrite <- app_assoc; reflexivity).
  apply firstn_front.
Qed.

(** The pattern of the list on a text of a link: the five groups. *)
Lemma list_re_match (channel dow daytext mon yt ht mt title : str) :
  channel <> [] -> forallb (fun c => negb (is_space c)) channel = true ->
  dow <> [] -> forallb (fun c => negb (is_space c)) dow = true ->
  daytext <> [] -> forallb is_digit_ascii daytext = true -> List.length daytext <= 2 ->
  mon <> [] -> forallb (fun c => negb (is_space c)) mon = true ->
  forallb is_digit_ascii yt = true -> List.length yt = 4 ->
  forallb is_digit_ascii ht = true -> List.length ht = 2 ->
  forallb is_digit_ascii mt = true -> List.length mt = 2 ->
  title <> [] -> forallb (fun c => negb (chr_eqb c 10)) title = true ->
  match title with [] => True | x :: _ => is_space x = false end ->
  exists m,
    Re.search Detik.list_re
      (channel ++ 32%N :: dow ++ 44%N :: 32%N :: daytext ++ 32%N :: mon ++ 32%N :: yt ++
       32%N :: ht ++ 58%N :: mt ++ 32%N :: lit "WIB" ++ 32%N :: title) = Some m /\
    Re.group (Re.m_caps m) 2 = dow /\
    Re.group (Re.m_caps m) 3 = daytext ++ 32%N :: mon ++ 32%N :: yt /\
    Re.group (Re.m_caps m) 4 = ht ++ 58%N :: mt /\
    Re.group (Re.m_caps m) 5 = title.
Proof.
  intros Hc Fc Hw Fw Hd Fd Ld Hm Fm Fy Ly Fh Lh Fi Li Ht Ft Hts.
  assert (N1 : forall l : str, l <> [] -> 1 <= List.length l)
    by (intros l Hl; destruct l; [contradiction Hl; reflexivity | cbn; lia]).
  assert (Sd : forall (l r : str), l <> [] -> forallb is_digit_ascii l = true ->
                 match l ++ r with [] => True | x :: _ => is_space x = false end).
  { intros l r Hl Fl. destruct l as [|x l]; [contradiction Hl; reflexivity|].
    cbn [forallb] in Fl. apply andb_true_iff in Fl. destruct Fl as [Fx _].
    cbn [app]. apply (digit_word_facts x Fx). }
  assert (Sn : forall (l r : str), l <> [] -> forallb (fun c => negb (is_space c)) l = true ->
                 match l ++ r with [] => True | x :: _ => is_space x = false end).
  { intros l r Hl Fl. destruct l as [|x l]; [contradiction Hl; reflexivity|].
    cbn [forallb] in Fl. apply andb_true_iff in Fl. destruct Fl as [Fx _].
    cbn [app]. apply negb_true_iff. exact Fx. }
  assert (Ly' : yt <> []) by (intros ->; discriminate Ly).
  assert (Lh' : ht <> []) by (intros ->; discriminate Lh).
  assert (Li' : mt <> []) by (intros ->; discriminate Li).
  eexists. split.
  - unfold Re.search. apply search_from_here.
    unfold Re.match_here, Detik.list_re. cbn [Re.seq].
    rewrite run_seq, run_bol_nil.
    (* the channel *)
    rewrite run_seq, run_grp. unfold Re.plus at 1. unfold Re.nws at 1. rewrite run_rep.
    apply rep_class_bounded; [exact Fc | left; reflexivity | apply N1; exact Hc | exact I | lia |].
    rewrite run_seq. unfold Re.plus at 1. unfold Re.ws at 1. rewrite run_rep.
    apply (rep_class_bounded _ _ _ _ _ _ _ _ [32%N]);
      [reflexivity | left; apply (Sn dow _ Hw Fw) | cbn; lia | exact I | cbn [app List.length]; lia |].
    (* the day of the week, which gives back the comma *)
    rewrite run_seq, run_grp. unfold Re.plus at 1. unfold Re.nws at 1. rewrite run_rep.
    apply rep_class_backtrack;
      [reflexivity | reflexivity | exact Fw | apply N1; exact Hw
      | apply Nat.lt_succ_diag_r | reflexivity |].
    rewrite run_seq, run_c1.
    rewrite run_seq. unfold Re.plus at 1. unfold Re.ws at 1. rewrite run_rep.
    apply (rep_class_bounded _ _ _ _ _ _ _ _ [32%N]);
      [reflexivity | left; apply (Sd daytext _ Hd Fd) | cbn; lia | exact I
      | cbn [app List.length]; lia |].
    (* the date *)
    rewrite run_seq, run_grp. cbn [Re.seq]. rewrite run_seq.
    unfold Re.between, Re.dg. rewrite run_rep.
    apply rep_class_bounded; [exact (forallb_digit_ascii _ Fd) | left; reflexivity | apply N1; exact Hd | cbn; lia | lia |].
    rewrite run_seq. unfold Re.plus at 1. unfold Re.ws at 1. rewrite run_rep.
    apply (rep_class_bounded _ _ _ _ _ _ _ _ [32%N]);
      [reflexivity | left; apply (Sn mon _ Hm Fm) | cbn; lia | exact I
      | cbn [app List.length]; lia |].
    rewrite run_seq. unfold Re.plus at 1. unfold Re.nws at 1. rewrite run_rep.
    apply rep_class_bounded; [exact Fm | left; reflexivity | apply N1; exact Hm | exact I | lia |].
    rewrite run_seq. unfold Re.plus at 1. unfold Re.ws at 1. rewrite run_rep.
    apply (rep_class_bounded _ _ _ _ _ _ _ _ [32%N]);
      [reflexivity | left; apply (Sd yt _ Ly' Fy) | cbn; lia | exact I
      | cbn [app List.length]; lia |].
    unfold Re.times at 1. unfold Re.dg. rewrite run_rep.
    apply rep_class_bounded; [exact (forallb_digit_ascii _ Fy) | left; reflexivity | lia | cbn; lia | lia |].
    rewrite run_seq. unfold Re.plus at 1. unfold Re.ws at 1. rewrite run_rep.
    apply (rep_class_bounded _ _ _ _ _ _ _ _ [32%N]);
      [reflexivity | left; apply (Sd ht _ Lh' Fh) | cbn; lia | exact I
      | cbn [app List.length]; lia |].
    (* the time *)
    rewrite run_seq, run_grp. cbn [Re.seq]. rewrite run_seq.
    unfold Re.times at 1. unfold Re.dg. rewrite run_rep.
    apply rep_class_bounded; [exact (forallb_digit_ascii _ Fh) | left; reflexivity | lia | cbn; lia | lia |].
    rewrite run_seq, run_c1.
    unfold Re.times at 1. unfold Re.dg. rewrite run_rep.
    apply rep_class_bounded; [exact (forallb_digit_ascii _ Fi) | left; reflexivity | lia | cbn; lia | lia |].
    rewrite run_seq. unfold Re.plus at 1. unfold Re.ws at 1. rewrite run_rep.
    apply (rep_class_bounded _ _ _ _ _ _ _ _ [32%N]);
      [reflexivity | left; reflexivity | cbn; lia | exact I | cbn [app List.length]; lia |].
    rewrite run_seq, run_text.
    rewrite run_seq. unfold Re.plus at 1. unfold Re.ws at 1. rewrite run_rep.
    apply (rep_class_bounded _ _ _ _ _ _ _ _ [32%N]);
      [reflexivity | left; destruct title; [exact I | exact Hts] | cbn; lia | exact I
      | cbn [app List.length]; lia |].
    (* the title *)
    rewrite run_seq, run_grp. unfold Re.plus, Re.dot. rewrite run_rep.
    rewrite <- (app_nil_r title) at 1 2.
    apply rep_class_bounded; [exact Ft | left; exact I | apply N1; exact Ht | exact I | lia |].
    rewrite run_eol_nil. reflexivity.
  - cbn [Re.m_caps Re.group Nat.eqb]. split; [apply firstn_front|].
    split; [|split].
    + replace (daytext ++ 32%N :: mon ++ 32%N :: yt ++ 32%N :: ht ++ 58%N :: mt ++ 32%N ::
               lit "WIB" ++ 32%N :: title)
        with ((daytext ++ 32%N :: mon ++ 32%N :: yt) ++
              32%N :: ht ++ 58%N :: mt ++ 32%N :: lit "WIB" ++ 32%N :: title).
      * apply firstn_front.
      * rewrite <- app_assoc. cbn [app]. rewrite <- app_assoc. reflexivity.
    + replace (ht ++ 58%N :: mt ++ 32%N :: lit "WIB" ++ 32%N :: title)
        with ((ht ++ 58%N :: mt) ++ 32%N :: lit "WIB" ++ 32%N :: title).
      * apply firstn_front.
      * rewrite <- app_assoc. reflexivity.
    + rewrite ?app_nil_r. cbn [List.length]. rewrite Nat.sub_0_r. apply firstn_all.
Qed.

(** Property X20. The row that the list parser of detik makes of a link to
    an article whose cleaned text has the form that the list shows,
    [detikNews Rabu, 17 Des 2025 02:03 WIB Makan bergizi gratis]: a word for
    the channel, a word and a comma for the day, the day in one or two
    digits, a word for the month, a year of four digits, hours and minutes
    of two digits, [WIB] and a title. The row has the date from the day to
    [WIB], without the channel, and the cleaned title. *)
Theorem X20_detik_list_row (a : Dom.node) (u : str)
    (channel dow daytext mon yt ht mt title : str) :
  Detik.normalize_url (Some (Dom.attr_or_empty a (lit "href"))) = Ok u ->
  Detik.is_article_url u = true ->
  channel <> [] -> forallb (fun c => negb (is_space c)) channel = true ->
  dow <> [] -> forallb (fun c => negb (is_space c)) dow = true ->
  daytext <> [] -> forallb is_digit_ascii daytext = true -> List.length daytext <= 2 ->
  mon <> [] -> forallb (fun c => negb (is_space c)) mon = true ->
  forallb is_digit_ascii yt = true -> List.length yt = 4 ->
  forallb is_digit_ascii ht = true -> List.length ht = 2 ->
  forallb is_digit_ascii mt = true -> List.length mt = 2 ->
  title <> [] ->
  Detik.clean_text (Some (Dom.get_text_strip (lit " ") a))
  = channel ++ lit " " ++ dow ++ lit ", " ++ daytext ++ lit " " ++ mon ++ lit " " ++ yt ++
    lit " " ++ ht ++ lit ":" ++ mt ++ lit " WIB " ++ title ->
  Detik.row_of_link a
  = Ok (Some (Detik.Row (dow ++ lit ", " ++ daytext ++ lit " " ++ mon ++ lit " " ++ yt ++
                         lit " " ++ ht ++ lit ":" ++ mt ++ lit " WIB")
                        (Detik.clean_text (Some title)) u)).
Proof.
  intros Hu Ha Hc Fc Hw Fw Hd Fd Ld Hm Fm Fy Ly Fh Lh Fi Li Ht Htext.
  set (T := channel ++ lit " " ++ dow ++ lit ", " ++ daytext ++ lit " " ++ mon ++ lit " " ++
            yt ++ lit " " ++ ht ++ lit ":" ++ mt ++ lit " WIB " ++ title) in *.
  assert (Hpair : has_space_pair T = false).
  { rewrite <- Htext. apply detik_clean_text_no_space_pair. }
  assert (Hsp : forall c, In c T -> is_space c = true -> c = 32%N).
  { intros c Hin Hs. rewrite <- Htext in Hin. unfold Detik.clean_text in Hin.
    rewrite detik_clean_text_eq in Hin. apply In_strip in Hin.
    apply (squeeze_space_only _ _ _ Hin Hs). }
  assert (ET : T = (channel ++ lit " " ++ dow ++ lit ", " ++ daytext ++ lit " " ++ mon ++
                    lit " " ++ yt ++ lit " " ++ ht ++ lit ":" ++ mt ++ lit " WIB") ++
                   32%N :: title).
  { unfold T. rewrite <- ?app_assoc. reflexivity. }
  assert (Ft : forallb (fun c => negb (chr_eqb c 10)) title = true).
  { apply forallb_forall. intros c Hin. apply negb_true_iff.
    destruct (chr_eqb c 10) eqn:E; [|reflexivity]. apply chr_eqb_eq in E. subst c.
    assert (Hin' : In 10%N T) by (rewrite ET; apply in_or_app; right; right; exact Hin).
    discriminate (Hsp _ Hin' eq_refl). }
  assert (Hts : match title with [] => True | x :: _ => is_space x = false end).
  { destruct title as [|x r]; [exact I|]. rewrite ET in Hpair.
    apply has_space_pair_app_r in Hpair. rewrite has_space_pair_cons in Hpair.
    apply orb_false_elim in Hpair. destruct Hpair as [Hp _].
    change (is_space 32) with true in Hp. exact Hp. }
  destruct (list_re_match channel dow daytext mon yt ht mt title
              Hc Fc Hw Fw Hd Fd Ld Hm Fm Fy Ly Fh Lh Fi Li Ht Ft Hts)
    as [m [Em [G2 [G3 [G4 G5]]]]].
  change (channel ++ 32%N :: dow ++ 44%N :: 32%N :: daytext ++ 32%N :: mon ++ 32%N :: yt ++
          32%N :: ht ++ 58%N :: mt ++ 32%N :: lit "WIB" ++ 32%N :: title) with T in Em.
  unfold Detik.row_of_link. rewrite Hu. cbn [bind]. rewrite Ha. cbn [negb].
  rewrite Htext.
  assert (Hwib : contains (lit "WIB") T = true).
  { apply contains_eq.
    exists (channel ++ lit " " ++ dow ++ lit ", " ++ daytext ++ lit " " ++ mon ++ lit " " ++
            yt ++ lit " " ++ ht ++ lit ":" ++ mt ++ lit " "), (32%N :: title).
    unfold T. rewrite <- ?app_assoc. reflexivity. }
  rewrite Hwib. cbn [negb]. rewrite Em. cbv zeta. rewrite G2, G3, G4, G5.
  do 3 f_equal. repeat (rewrite <- ?app_assoc; cbn [app]). reflexivity.
Qed.

Lemma X20_detik_list_row_witness :
  let a := Dom.Elem (lit "a")
             [(lit "href", lit "https://news.detik.com/berita/d-8183382/makan-bergizi")]
             [Dom.Text (lit " detikNews  Rabu, 17 Des 2025 02:03 WIB  Makan bergizi   gratis")] in
  Detik.row_of_link a
  = Ok (Some (Detik.Row (lit "Rabu, 17 Des 2025 02:03 WIB") (lit "Makan bergizi gratis")
                        (lit "https://news.detik.com/berita/d-8183382/makan-bergizi"))).
Proof.
  intros a.
  refine (X20_detik_list_row a (lit "https://news.detik.com/berita/d-8183382/makan-bergizi")
            (lit "detikNews") (lit "Rabu") (lit "17") (lit "Des") (lit "2025") (lit "02")
            (lit "03") (lit "Makan bergizi gratis")
            _ _ _ _ _ _ _ _ _ _ _ _ _ _ _ _ _ _ _);
    first [vm_compute; reflexivity | discriminate | (vm_compute; lia)].
Defined.

(** ** The time that a page of kompas shows, in digits *)

Lemma numeric_none pre x s :
  is_digit x = false -> Re.match_here Dates.numeric_re pre (x :: s) = None.
Proof.
  intros Hx. unfold Re.match_here, Dates.numeric_re. cbn [Re.seq].
  rewrite run_seq, run_grp. unfold Re.times, Re.dg. rewrite run_rep.
  apply rep_class_none; [lia | exact Hx].
Qed.

Lemma numeric_match pre (dt mt yt ht it rest : str) :
  forallb is_digit_ascii dt = true -> List.length dt = 2 ->
  forallb is_digit_ascii mt = true -> List.length mt = 2 ->
  forallb is_digit_ascii yt = true -> List.length yt = 4 ->
  forallb is_digit_ascii ht = true -> List.length ht = 2 ->
  forallb is_digit_ascii it = true -> List.length it = 2 ->
  exists m,
    Re.match_here Dates.numeric_re pre
      (dt ++ 47%N :: mt ++ 47%N :: yt ++ 44%N :: 32%N :: ht ++ 58%N :: it ++ 32%N ::
       lit "WIB" ++ rest) = Some m /\
    Re.group (Re.m_caps m) 1 = dt /\ Re.group (Re.m_caps m) 2 = mt /\
    Re.group (Re.m_caps m) 3 = yt /\ Re.group (Re.m_caps m) 4 = ht /\
    Re.group (Re.m_caps m) 5 = it.
Proof.
  intros Fd Ld Fm Lm Fy Ly Fh Lh Fi Li.
  assert (Sd : forall (l r : str), l <> [] -> forallb is_digit_ascii l = true ->
                 match l ++ r with [] => True | x :: _ => is_space x = false end).
  { intros l r Hl Fl. destruct l as [|x l]; [contradiction Hl; reflexivity|].
    cbn [forallb] in Fl. apply andb_true_iff in Fl. destruct Fl as [Fx _].
    cbn [app]. apply (digit_word_facts x Fx). }
  assert (Lh' : ht <> []) by (intros ->; discriminate Lh).
  eexists. split.
  - unfold Re.match_here, Dates.numeric_re. cbn [Re.seq].
    rewrite run_seq, run_grp. unfold Re.times at 1. unfold Re.dg. rewrite run_rep.
    apply rep_class_bounded; [exact (forallb_digit_ascii _ Fd) | left; reflexivity | lia | cbn; lia | lia |].
    rewrite run_seq, run_c1.
    rewrite run_seq, run_grp. unfold Re.times at 1. rewrite run_rep.
    apply rep_class_bounded; [exact (forallb_digit_ascii _ Fm) | left; reflexivity | lia | cbn; lia | lia |].
    rewrite run_seq, run_c1.
    rewrite run_seq, run_grp. unfold Re.times at 1. rewrite run_rep.
    apply rep_class_bounded; [exact (forallb_digit_ascii _ Fy) | left; reflexivity | lia | cbn; lia | lia |].
    rewrite run_seq, run_c1.
    rewrite run_seq. unfold Re.star at 1. unfold Re.ws at 1. rewrite run_rep.
    apply (rep_class_bounded _ _ _ _ _ _ _ _ [32%N]);
      [reflexivity | left; apply (Sd ht _ Lh' Fh) | cbn; lia | exact I
      | apply Nat.lt_succ_diag_r |].
    rewrite run_seq, run_grp. unfold Re.times at 1. rewrite run_rep.
    apply rep_class_bounded; [exact (forallb_digit_ascii _ Fh) | left; reflexivity | lia | cbn; lia | lia |].
    rewrite run_seq, run_c1.
    rewrite run_seq, run_grp. unfold Re.times at 1. rewrite run_rep.
    apply rep_class_bounded; [exact (forallb_digit_ascii _ Fi) | left; reflexivity | lia | cbn; lia | lia |].
    rewrite run_seq. unfold Re.star at 1. unfold Re.ws at 1. rewrite run_rep.
    apply (rep_class_bounded _ _ _ _ _ _ _ _ [32%N]);
      [reflexivity | left; reflexivity | cbn; lia | exact I | apply Nat.lt_succ_diag_r |].
    rewrite run_text. reflexivity.
  - cbn [Re.m_caps Re.group Nat.eqb]. repeat split; apply firstn_front.
Qed.

(** Property X21. The time that a page of kompas shows in digits, as in
    [Kompas.com - 17/12/2025, 09:46 WIB], after a text without a decimal
    digit of any script (the class [\d] has them all):
    [parse_kompas_time_text_to_wib] gives [2025-12-17 09:46:00], for a day
    that the month has and a year of four digits; and this is the date of
    the record of a page that gives no time that [iso_to_wib] reads. *)
Theorem X21_kompas_shown_time (text before after : str) (y m d hh mi : Z) :
  text <> [] ->
  forallb (fun c => negb (is_digit c)) before = true ->
  (1000 <= y <= 9999)%Z -> (1 <= m <= 12)%Z -> (1 <= d <= Datetime.days_in_month y m)%Z ->
  (0 <= hh <= 23)%Z -> (0 <= mi <= 59)%Z ->
  Detik_text.clean_text (Some text)
  = before ++ Datetime.pad2 d ++ lit "/" ++ Datetime.pad2 m ++ lit "/" ++ Datetime.pad4 y ++
    lit ", " ++ Datetime.pad2 hh ++ lit ":" ++ Datetime.pad2 mi ++ lit " WIB" ++ after ->
  let date := Datetime.pad4 y ++ lit "-" ++ Datetime.pad2 m ++ lit "-" ++ Datetime.pad2 d ++
              lit " " ++ Datetime.pad2 hh ++ lit ":" ++ Datetime.pad2 mi ++ lit ":00" in
  Dates.parse_kompas_time_text_to_wib text = Ok date /\
  (forall author w base u html det,
     fetch w u = Ok html ->
     Kompas.parse_detail_page author html u = Ok det ->
     Dates.detik_iso_to_wib (Kompas.published_time_iso det) = [] ->
     Kompas.published_time_text det = text ->
     exists a, Kompas.detail_row author w base u = Ok a /\ tanggal a = date /\ a_url a = u).
Proof.
  intros Ht Fb Hy Hm Hd Hh Hi Hclean date.
  assert (Hdate : Dates.parse_kompas_time_text_to_wib text = Ok date).
  { unfold Dates.parse_kompas_time_text_to_wib.
    destruct text as [|t0 text0] eqn:Etext; [contradiction Ht; reflexivity|].
    cbn [truthy negb]. rewrite <- Etext in *. rewrite Hclean.
    destruct (pad2_digits d) as [Fd Ld]. destruct (pad2_digits m) as [Fm Lm].
    destruct (pad4_digits y) as [Fy Ly]. destruct (pad2_digits hh) as [Fh Lh].
    destruct (pad2_digits mi) as [Fi Li].
    destruct (numeric_match (rev before) (Datetime.pad2 d) (Datetime.pad2 m) (Datetime.pad4 y)
                (Datetime.pad2 hh) (Datetime.pad2 mi) after Fd Ld Fm Lm Fy Ly Fh Lh Fi Li)
      as [mt [Em [G1 [G2 [G3 [G4 G5]]]]]].
    assert (Es : Re.search Dates.numeric_re
                   (before ++ Datetime.pad2 d ++ lit "/" ++ Datetime.pad2 m ++ lit "/" ++
                    Datetime.pad4 y ++ lit ", " ++ Datetime.pad2 hh ++ lit ":" ++
                    Datetime.pad2 mi ++ lit " WIB" ++ after) = Some mt).
    { unfold Re.search. rewrite search_from_skip.
      - rewrite app_nil_r. apply search_from_here. exact Em.
      - intros a1 x a2 Ha. apply numeric_none.
        assert (Hin : In x (a1 ++ x :: a2)) by (apply in_or_app; right; left; reflexivity).
        rewrite <- Ha in Hin. rewrite forallb_forall in Fb.
        apply negb_true_iff. apply (Fb x Hin). }
    rewrite Es. cbv zeta. rewrite G1, G2, G3, G4, G5.
    assert (Hd31 : (Datetime.days_in_month y m <= 31)%Z).
    { unfold Datetime.days_in_month.
      repeat match goal with |- context [if ?b then _ else _] => destruct b end; lia. }
    rewrite int_pad4, !int_pad2 by lia.
    rewrite make_ok by lia. cbn [bind]. f_equal.
    unfold Datetime.strftime, date.
    cbn [Datetime.year Datetime.month Datetime.day Datetime.hour Datetime.minute
         Datetime.second].
    rewrite year_text_pad4 by lia. reflexivity. }
  split; [exact Hdate|].
  intros author w base u html det Hf Hp Hiso Htxt. unfold Kompas.detail_row.
  rewrite Hf. cbn [bind]. rewrite Hp. cbn [bind]. rewrite Hiso. cbn [truthy].
  rewrite Htxt, Hdate. cbn [bind]. eexists. split; [reflexivity|]. split; reflexivity.
Qed.

Lemma X21_kompas_shown_time_witness :
  Dates.parse_kompas_time_text_to_wib (lit "Kompas.com -  17/12/2025, 09:46 WIB ")
  = Ok (lit "2025-12-17 09:46:00").
Proof.
  refine (proj1 (X21_kompas_shown_time (lit "Kompas.com -  17/12/2025, 09:46 WIB ")
                   (lit "Kompas.com - ") [] 2025 12 17 9 46 _ _ _ _ _ _ _ _)).
  - discriminate.
  - reflexivity.
  - lia.
  - lia.
  - vm_compute. split; discriminate.
  - lia.
  - lia.
  - vm_compute. reflexivity.
Defined.

(** The digits of other scripts are digits for the patterns and for
    [int]: a time in Arabic-Indic digits in front of the one in ASCII digits
    is the one that is read, and the sign for Kelvin is a letter k for a
    pattern under [re.IGNORECASE] and for [lower]. *)
Example kompas_time_other_digits :
  Dates.parse_kompas_time_text_to_wib
    ([1633; 1639; 47; 1633; 1634; 47; 1634; 1632; 1634; 1636; 44; 32;
      1632; 1641; 58; 1636; 1638]%N ++ lit " WIB 17/12/2025, 09:46 WIB")
  = Ok (lit "2024-12-17 09:46:00") /\
  Dates.parse_kompas_time_text_to_wib
    ([1633; 32; 79; 107; 116; 32; 1634; 1632; 1634; 1632; 32; 1632; 1633; 58;
      1632; 1632]%N ++ lit " WIB")
  = Ok (lit "2020-10-01 01:00:00") /\
  Dates.parse_kompas_time_text_to_wib (lit "17 O" ++ [8490%N] ++ lit "T 2025 09:46 WIB")
  = Ok (lit "2025-10-17 09:46:00") /\
  Republika_dates.waktu_terbit
    ([1633; 32; 77; 101; 105; 32; 1634; 1632; 1634; 1632; 32; 1633; 58; 1632; 1632; 32]%N ++
     lit "5 Maret 2024, 14:30")
  = lit "2020-05-01 01:00:00".
Proof. repeat split; vm_compute; reflexivity. Qed.

(** A time in digits whose day the month does not have, as
    [31/02/2025, 09:46 WIB]: the first pattern finds it, and the constructor
    of [datetime], which [parse_kompas_time_text_to_wib] calls outside any
    [try], raises. *)
Lemma kompas_time_text_day_out (text before after : str) (y m d hh mi : Z) :
  text <> [] ->
  forallb (fun c => negb (is_digit c)) before = true ->
  (1 <= y <= 9999)%Z -> (1 <= m <= 12)%Z -> (Datetime.days_in_month y m < d <= 99)%Z ->
  (0 <= hh <= 99)%Z -> (0 <= mi <= 99)%Z ->
  Detik_text.clean_text (Some text)
  = before ++ Datetime.pad2 d ++ lit "/" ++ Datetime.pad2 m ++ lit "/" ++ Datetime.pad4 y ++
    lit ", " ++ Datetime.pad2 hh ++ lit ":" ++ Datetime.pad2 mi ++ lit " WIB" ++ after ->
  Dates.parse_kompas_time_text_to_wib text
  = Raise (ValueError "day is out of range for month").
Proof.
  intros Ht Fb Hy Hm Hd Hh Hi Hclean.
  unfold Dates.parse_kompas_time_text_to_wib.
  destruct text as [|t0 text0] eqn:Etext; [contradiction Ht; reflexivity|].
  cbn [truthy negb]. rewrite <- Etext in *. rewrite Hclean.
  destruct (pad2_digits d) as [Fd Ld]. destruct (pad2_digits m) as [Fm Lm].
  destruct (pad4_digits y) as [Fy Ly]. destruct (pad2_digits hh) as [Fh Lh].
  destruct (pad2_digits mi) as [Fi Li].
  destruct (numeric_match (rev before) (Datetime.pad2 d) (Datetime.pad2 m) (Datetime.pad4 y)
              (Datetime.pad2 hh) (Datetime.pad2 mi) after Fd Ld Fm Lm Fy Ly Fh Lh Fi Li)
    as [mt [Em [G1 [G2 [G3 [G4 G5]]]]]].
  assert (Es : Re.search Dates.numeric_re
                 (before ++ Datetime.pad2 d ++ lit "/" ++ Datetime.pad2 m ++ lit "/" ++
                  Datetime.pad4 y ++ lit ", " ++ Datetime.pad2 hh ++ lit ":" ++
                  Datetime.pad2 mi ++ lit " WIB" ++ after) = Some mt).
  { unfold Re.search. rewrite search_from_skip.
    - rewrite app_nil_r. apply search_from_here. exact Em.
    - intros a1 x a2 Ha. apply numeric_none.
      assert (Hin : In x (a1 ++ x :: a2)) by (apply in_or_app; right; left; reflexivity).
      rewrite <- Ha in Hin. rewrite forallb_forall in Fb.
      apply negb_true_iff. apply (Fb x Hin). }
  rewrite Es. cbv zeta. rewrite G1, G2, G3, G4, G5.
  assert (H0 : (0 <= Datetime.days_in_month y m)%Z).
  { unfold Datetime.days_in_month.
    repeat match goal with |- context [if ?b then _ else _] => destruct b end; lia. }
  rewrite int_pad4, !int_pad2 by lia.
  rewrite make_day_out by lia. reflexivity.
Qed.

(** ** The dates of republika *)

Lemma make_ok_s y m d hh mi ss tz :
  (1 <= y <= 9999)%Z -> (1 <= m <= 12)%Z -> (1 <= d <= Datetime.days_in_month y m)%Z ->
  (0 <= hh <= 23)%Z -> (0 <= mi <= 59)%Z -> (0 <= ss <= 59)%Z ->
  Datetime.make y m d hh mi ss tz = Ok (Datetime.Datetime y m d hh mi ss tz).
Proof.
  intros Hy Hm Hd Hh Hi Hs. unfold Datetime.make, Datetime.check_fields.
  assert (T : forall a b c : Z, (a <= b <= c)%Z -> ((a <=? b) && (b <=? c))%Z = true).
  { intros a b c [H1 H2]. apply andb_true_iff. split; apply Z.leb_le; assumption. }
  rewrite (T _ _ _ Hy), (T _ _ _ Hm), (T _ _ _ Hd), (T _ _ _ Hh), (T _ _ _ Hi), (T _ _ _ Hs).
  reflexivity.
Qed.

Lemma days_in_month_le y m : (Datetime.days_in_month y m <= 31)%Z.
Proof.
  unfold Datetime.days_in_month.
  repeat match goal with |- context [if ?b then _ else _] => destruct b end; lia.
Qed.

Lemma republika_months_facts mon m :
  In (mon, m) Republika_dates.months ->
  Dates.dict_get Republika_dates.months mon 0%Z = m /\ (1 <= m <= 12)%Z /\
  mon <> [] /\ forallb is_word mon = true.
Proof.
  unfold Republika_dates.months. cbn [In]. intros H.
  repeat (destruct H as [H|H];
          [apply (f_equal (fun p => (fst p, snd p))) in H; cbn [fst snd] in H;
           injection H as <- <-;
           (split; [reflexivity|]); (split; [lia|]); (split; [discriminate|]);
           reflexivity|]).
  destruct H.
Qed.

Lemma needs_space_pattern1 : needs is_space Republika_dates.pattern1.
Proof.
  unfold Republika_dates.pattern1. cbn [Re.seq].
  apply needs_seq_r. apply needs_seq_l. unfold Re.plus. apply needs_rep; [lia|].
  apply needs_chr. intros x Hx. exact Hx.
Qed.

Lemma pattern1_none pre x s :
  is_digit x = false -> Re.match_here Republika_dates.pattern1 pre (x :: s) = None.
Proof.
  intros Hx. unfold Re.match_here, Republika_dates.pattern1. cbn [Re.seq].
  rewrite run_seq, run_grp. unfold Re.between, Re.dg. rewrite run_rep.
  apply rep_class_none; [lia | exact Hx].
Qed.

(** The first pattern on a date in words: the five groups. *)
Lemma pattern1_match pre (dt mon yt sep ht it rest : str) :
  dt <> [] -> forallb is_digit_ascii dt = true -> List.length dt <= 2 ->
  mon <> [] -> forallb is_word mon = true ->
  forallb is_digit_ascii yt = true -> List.length yt = 4 ->
  (sep = [] \/ sep = [44%N]) ->
  ht <> [] -> forallb is_digit_ascii ht = true -> List.length ht <= 2 ->
  forallb is_digit_ascii it = true -> List.length it = 2 ->
  exists m,
    Re.match_here Republika_dates.pattern1 pre
      (dt ++ 32%N :: mon ++ 32%N :: yt ++ sep ++ 32%N :: ht ++ 58%N :: it ++ rest) = Some m /\
    Re.group (Re.m_caps m) 1 = dt /\ Re.group (Re.m_caps m) 2 = mon /\
    Re.group (Re.m_caps m) 3 = yt /\ Re.group (Re.m_caps m) 4 = ht /\
    Re.group (Re.m_caps m) 5 = it.
Proof.
  intros Hd Fd Ld Hm Fm Fy Ly Hsep Hh Fh Lh Fi Li.
  assert (N1 : forall l : str, l <> [] -> 1 <= List.length l)
    by (intros l Hl; destruct l; [contradiction Hl; reflexivity | cbn; lia]).
  assert (Sd : forall (l r : str), l <> [] -> forallb is_digit_ascii l = true ->
                 match l ++ r with [] => True | x :: _ => is_space x = false end).
  { intros l r Hl Fl. destruct l as [|x l]; [contradiction Hl; reflexivity|].
    cbn [forallb] in Fl. apply andb_true_iff in Fl. destruct Fl as [Fx _].
    cbn [app]. apply (digit_word_facts x Fx). }
  assert (Sw : match mon ++ 32%N :: yt ++ sep ++ 32%N :: ht ++ 58%N :: it ++ rest with
               | [] => True | x :: _ => is_space x = false end).
  { destruct mon as [|x mon]; [contradiction Hm; reflexivity|]. cbn [app].
    cbn [forallb] in Fm. apply andb_true_iff in Fm. destruct Fm as [Fx _].
    destruct (is_space x) eqn:E; [|reflexivity].
    unfold is_word in Fx. rewrite E in Fx. cbn [negb] in Fx. rewrite andb_false_r in Fx.
    rewrite orb_false_r in Fx.
    assert (Hs : is_space x = true) by exact E.
    unfold is_space, in_range, chr_eqb in Hs.
    assert (Hx : (9 <= x <= 13 \/ 28 <= x <= 32 \/ x = 133 \/ x = 160 \/ 255 < x)%N).
    { repeat match type of Hs with
             | (_ || _)%bool = true => apply orb_true_iff in Hs; destruct Hs as [Hs|Hs]
             end;
        repeat match goal with
               | H : (_ && _)%bool = true |- _ => apply andb_true_iff in H; destruct H
               | H : (_ <=? _)%N = true |- _ => apply N.leb_le in H
               | H : (_ =? _)%N = true |- _ => apply N.eqb_eq in H
               end; lia. }
    exfalso. revert Fx.
    unfold is_alpha_ascii, is_upper_ascii, is_lower_ascii, is_digit_ascii, in_range, chr_eqb.
    intros Fx.
    repeat match type of Fx with
           | (_ || _)%bool = true => apply orb_true_iff in Fx; destruct Fx as [Fx|Fx]
           end;
      repeat match goal with
             | H : (_ && _)%bool = true |- _ => apply andb_true_iff in H; destruct H
             | H : (_ <=? _)%N = true |- _ => apply N.leb_le in H
             | H : (_ =? _)%N = true |- _ => apply N.eqb_eq in H
             end; lia. }
  assert (Ly' : yt <> []) by (intros ->; discriminate Ly).
  eexists. split.
  - unfold Re.match_here, Republika_dates.pattern1. cbn [Re.seq].
    rewrite run_seq, run_grp. unfold Re.between at 1. unfold Re.dg. rewrite run_rep.
    apply rep_class_bounded; [exact (forallb_digit_ascii _ Fd) | left; reflexivity | apply N1; exact Hd | cbn; lia | lia |].
    rewrite run_seq. unfold Re.plus at 1. unfold Re.ws at 1. rewrite run_rep.
    apply (rep_class_bounded _ _ _ _ _ _ _ _ [32%N]);
      [reflexivity | left; exact Sw | cbn; lia | exact I | apply Nat.lt_succ_diag_r |].
    rewrite run_seq, run_grp. unfold Re.plus at 1. unfold Re.wd. rewrite run_rep.
    apply rep_class_bounded; [exact Fm | left; reflexivity | apply N1; exact Hm | exact I | lia |].
    rewrite run_seq. unfold Re.plus at 1. unfold Re.ws at 1. rewrite run_rep.
    apply (rep_class_bounded _ _ _ _ _ _ _ _ [32%N]);
      [reflexivity | left; apply (Sd yt _ Ly' Fy) | cbn; lia | exact I
      | apply Nat.lt_succ_diag_r |].
    rewrite run_seq, run_grp. unfold Re.times at 1. rewrite run_rep.
    apply rep_class_bounded;
      [exact (forallb_digit_ascii _ Fy) | right; rewrite Ly; reflexivity | lia | cbn; lia | lia |].
    rewrite run_seq. unfold Re.between at 1. unfold Re.c1 at 1. rewrite run_rep.
    apply rep_class_bounded;
      [destruct Hsep as [->| ->]; reflexivity | left; reflexivity | lia
      | destruct Hsep as [->| ->]; cbn; lia | lia |].
    rewrite run_seq. unfold Re.plus at 1. unfold Re.ws at 1. rewrite run_rep.
    apply (rep_class_bounded _ _ _ _ _ _ _ _ [32%N]);
      [reflexivity | left; apply (Sd ht _ Hh Fh) | cbn; lia | exact I
      | apply Nat.lt_succ_diag_r |].
    rewrite run_seq, run_grp. unfold Re.between at 1. rewrite run_rep.
    apply rep_class_bounded; [exact (forallb_digit_ascii _ Fh) | left; reflexivity | apply N1; exact Hh | cbn; lia | lia |].
    rewrite run_seq, run_c1.
    rewrite run_grp. unfold Re.times at 1. rewrite run_rep.
    apply rep_class_bounded;
      [exact (forallb_digit_ascii _ Fi) | right; rewrite Li; reflexivity | lia | cbn; lia | lia |].
    reflexivity.
  - cbn [Re.m_caps Re.group Nat.eqb]. repeat split; apply firstn_front.
Qed.

(** The second pattern at the start of an ISO text: the six groups. *)
Lemma pattern2_match pre (yt mt dt ht it st rest : str) (sep : char) :
  forallb is_digit_ascii yt = true -> List.length yt = 4 ->
  forallb is_digit_ascii mt = true -> List.length mt = 2 ->
  forallb is_digit_ascii dt = true -> List.length dt = 2 ->
  (chr_eqb sep 84 || is_space sep) = true ->
  forallb is_digit_ascii ht = true -> List.length ht = 2 ->
  forallb is_digit_ascii it = true -> List.length it = 2 ->
  forallb is_digit_ascii st = true -> List.length st = 2 ->
  exists m,
    Re.match_here Republika_dates.pattern2 pre
      (yt ++ 45%N :: mt ++ 45%N :: dt ++ sep :: ht ++ 58%N :: it ++ 58%N :: st ++ rest)
    = Some m /\
    Re.group (Re.m_caps m) 1 = yt /\ Re.group (Re.m_caps m) 2 = mt /\
    Re.group (Re.m_caps m) 3 = dt /\ Re.group (Re.m_caps m) 4 = ht /\
    Re.group (Re.m_caps m) 5 = it /\ Re.group (Re.m_caps m) 6 = st.
Proof.
  intros Fy Ly Fm Lm Fd Ld Hsep Fh Lh Fi Li Fs Ls.
  eexists. split.
  - unfold Re.match_here, Republika_dates.pattern2. cbn [Re.seq].
    rewrite run_seq, run_grp. unfold Re.times at 1. unfold Re.dg. rewrite run_rep.
    apply rep_class_bounded; [exact (forallb_digit_ascii _ Fy) | left; reflexivity | lia | cbn; lia | lia |].
    rewrite run_seq, run_c1.
    rewrite run_seq, run_grp. unfold Re.times at 1. rewrite run_rep.
    apply rep_class_bounded; [exact (forallb_digit_ascii _ Fm) | left; reflexivity | lia | cbn; lia | lia |].
    rewrite run_seq, run_c1.
    rewrite run_seq, run_grp. unfold Re.times at 1. rewrite run_rep.
    apply rep_class_bounded;
      [exact (forallb_digit_ascii _ Fd) | right; rewrite Ld; reflexivity | lia | cbn; lia | lia |].
    rewrite run_seq, run_chr, Hsep.
    rewrite run_seq, run_grp. unfold Re.times at 1. rewrite run_rep.
    apply rep_class_bounded; [exact (forallb_digit_ascii _ Fh) | left; reflexivity | lia | cbn; lia | lia |].
    rewrite run_seq, run_c1.
    rewrite run_seq, run_grp. unfold Re.times at 1. rewrite run_rep.
    apply rep_class_bounded; [exact (forallb_digit_ascii _ Fi) | left; reflexivity | lia | cbn; lia | lia |].
    rewrite run_seq, run_c1.
    rewrite run_grp. unfold Re.times at 1. rewrite run_rep.
    apply rep_class_bounded;
      [exact (forallb_digit_ascii _ Fs) | right; rewrite Ls; reflexivity | lia | cbn; lia | lia |].
    reflexivity.
  - cbn [Re.m_caps Re.group Nat.eqb]. repeat split; apply firstn_front.
Qed.

Lemma small_number_text (t : str) (n : Z) :
  (0 <= n <= 99)%Z ->
  (t = Datetime.pad2 n \/ ((n <= 9)%Z /\ t = [Datetime.digit n])) ->
  t <> [] /\ forallb is_digit_ascii t = true /\ List.length t <= 2 /\ Datetime.int t = n.
Proof.
  intros Hn [->|[H9 ->]].
  - destruct (pad2_digits n) as [F L]. repeat split;
      [discriminate | exact F | rewrite L; lia | apply int_pad2; exact Hn].
  - repeat split; [discriminate | | cbn; lia | apply int_digit; lia].
    cbn [forallb]. rewrite digit_is_digit. reflexivity.
Qed.

(** Property X22. [parse_indo_date] of republika, as [extract_republika_article]
    formats its result. A date in words, [15 Maret 2024, 14:30] (after a
    text without a decimal digit of any script; the comma may be missing;
    the day and the hour in one or two digits; one of the twelve names of
    the months), gives
    [2024-03-15 14:30:00]. An ISO text [2024-03-15T14:30:00] followed by a
    text without white space, such as [Z] or an offset, gives the same date
    and time as written: what follows the seconds is not read, so that a
    time given in UTC is stored as if it were the time of Jakarta. *)
Theorem X22_republika_dates :
  (forall (before daytext mon sep hourtext after : str) (y m d hh mi : Z),
     forallb (fun c => negb (is_digit c)) before = true ->
     In (mon, m) Republika_dates.months ->
     (sep = [] \/ sep = lit ",") ->
     (1000 <= y <= 9999)%Z -> (1 <= d <= Datetime.days_in_month y m)%Z ->
     (0 <= hh <= 23)%Z -> (0 <= mi <= 59)%Z ->
     (daytext = Datetime.pad2 d \/ ((d <= 9)%Z /\ daytext = [Datetime.digit d])) ->
     (hourtext = Datetime.pad2 hh \/ ((hh <= 9)%Z /\ hourtext = [Datetime.digit hh])) ->
     Republika_dates.waktu_terbit
       (before ++ daytext ++ lit " " ++ mon ++ lit " " ++ Datetime.pad4 y ++ sep ++ lit " " ++
        hourtext ++ lit ":" ++ Datetime.pad2 mi ++ after)
     = Datetime.pad4 y ++ lit "-" ++ Datetime.pad2 m ++ lit "-" ++ Datetime.pad2 d ++
       lit " " ++ Datetime.pad2 hh ++ lit ":" ++ Datetime.pad2 mi ++ lit ":00") /\
  (forall (rest : str) (y m d hh mi ss : Z),
     existsb is_space rest = false ->
     (1000 <= y <= 9999)%Z -> (1 <= m <= 12)%Z -> (1 <= d <= Datetime.days_in_month y m)%Z ->
     (0 <= hh <= 23)%Z -> (0 <= mi <= 59)%Z -> (0 <= ss <= 59)%Z ->
     Republika_dates.waktu_terbit
       (Datetime.pad4 y ++ lit "-" ++ Datetime.pad2 m ++ lit "-" ++ Datetime.pad2 d ++
        lit "T" ++ Datetime.pad2 hh ++ lit ":" ++ Datetime.pad2 mi ++ lit ":" ++
        Datetime.pad2 ss ++ rest)
     = Datetime.pad4 y ++ lit "-" ++ Datetime.pad2 m ++ lit "-" ++ Datetime.pad2 d ++
       lit " " ++ Datetime.pad2 hh ++ lit ":" ++ Datetime.pad2 mi ++ lit ":" ++
       Datetime.pad2 ss).
Proof.
  split.
  - intros before daytext mon sep hourtext after y m d hh mi Fb Hmon Hsep Hy Hd Hh Hi Hday Hhour.
    destruct (republika_months_facts mon m Hmon) as [Gm [Hm [Nm Fm]]].
    pose proof (days_in_month_le y m) as H31.
    destruct (small_number_text daytext d ltac:(lia) Hday) as [Nd [Fd [Ld Id]]].
    destruct (small_number_text hourtext hh ltac:(lia) Hhour) as [Nh [Fh [Lh Ih]]].
    destruct (pad4_digits y) as [Fy Ly]. destruct (pad2_digits mi) as [Fi Li].
    assert (Hsep' : sep = [] \/ sep = [44%N]) by exact Hsep.
    destruct (pattern1_match (rev before) daytext mon (Datetime.pad4 y) sep hourtext
                (Datetime.pad2 mi) after Nd Fd Ld Nm Fm Fy Ly Hsep' Nh Fh Lh Fi Li)
      as [mt [Em [G1 [G2 [G3 [G4 G5]]]]]].
    set (text := before ++ daytext ++ lit " " ++ mon ++ lit " " ++ Datetime.pad4 y ++ sep ++
                 lit " " ++ hourtext ++ lit ":" ++ Datetime.pad2 mi ++ after).
    assert (Es : Re.search Republika_dates.pattern1 text = Some mt).
    { unfold Re.search, text. rewrite search_from_skip.
      - rewrite app_nil_r. apply search_from_here. exact Em.
      - intros a1 x a2 Ha. apply pattern1_none.
        assert (Hin : In x (a1 ++ x :: a2)) by (apply in_or_app; right; left; reflexivity).
        rewrite <- Ha in Hin. rewrite forallb_forall in Fb.
        apply negb_true_iff. apply (Fb x Hin). }
    assert (Tt : truthy text = true).
    { unfold text. destruct before; [|reflexivity].
      destruct daytext; [contradiction Nd; reflexivity | reflexivity]. }
    unfold Republika_dates.waktu_terbit, Republika_dates.parse_indo_date.
    rewrite Tt. cbn [negb]. unfold Republika_dates.parse_body. rewrite Es. cbv zeta.
    rewrite G1, G2, G3, G4, G5, Gm, Id, Ih.
    rewrite (proj2 (Z.eqb_neq m 0)) by lia.
    rewrite int_pad4, int_pad2 by lia. rewrite make_ok by lia. cbn [bind].
    unfold Datetime.strftime.
    cbn [Datetime.year Datetime.month Datetime.day Datetime.hour Datetime.minute
         Datetime.second].
    rewrite year_text_pad4 by lia. reflexivity.
  - intros rest y m d hh mi ss Hrest Hy Hm Hd Hh Hi Hs.
    pose proof (days_in_month_le y m) as H31.
    destruct (pad4_digits y) as [Fy Ly]. destruct (pad2_digits m) as [Fm Lm].
    destruct (pad2_digits d) as [Fd Ld]. destruct (pad2_digits hh) as [Fh Lh].
    destruct (pad2_digits mi) as [Fi Li]. destruct (pad2_digits ss) as [Fs Ls].
    destruct (pattern2_match [] (Datetime.pad4 y) (Datetime.pad2 m) (Datetime.pad2 d)
                (Datetime.pad2 hh) (Datetime.pad2 mi) (Datetime.pad2 ss) rest 84%N
                Fy Ly Fm Lm Fd Ld eq_refl Fh Lh Fi Li Fs Ls)
      as [mt [Em [G1 [G2 [G3 [G4 [G5 G6]]]]]]].
    set (text := Datetime.pad4 y ++ lit "-" ++ Datetime.pad2 m ++ lit "-" ++ Datetime.pad2 d ++
                 lit "T" ++ Datetime.pad2 hh ++ lit ":" ++ Datetime.pad2 mi ++ lit ":" ++
                 Datetime.pad2 ss ++ rest).
    assert (E2 : Re.search Republika_dates.pattern2 text = Some mt).
    { unfold Re.search. apply search_from_here. exact Em. }
    assert (E1 : Re.search Republika_dates.pattern1 text = None).
    { unfold Re.search. apply (search_needs is_space _ needs_space_pattern1).
      unfold text. rewrite !existsb_app.
      assert (Dg : forall l : str, forallb is_digit_ascii l = true -> existsb is_space l = false).
      { intros l Fl. apply not_true_is_false. intros E. apply existsb_exists in E.
        destruct E as [c [Hc Hsp]]. rewrite forallb_forall in Fl.
        destruct (digit_word_facts c (Fl c Hc)) as [Hn _]. rewrite Hn in Hsp.
        discriminate Hsp. }
      rewrite (Dg _ Fy), (Dg _ Fm), (Dg _ Fd), (Dg _ Fh), (Dg _ Fi), (Dg _ Fs), Hrest.
      reflexivity. }
    assert (Tt : truthy text = true) by reflexivity.
    unfold Republika_dates.waktu_terbit, Republika_dates.parse_indo_date.
    rewrite Tt. cbn [negb]. unfold Republika_dates.parse_body. rewrite E1, E2. cbv zeta.
    rewrite G1, G2, G3, G4, G5, G6.
    rewrite int_pad4, !int_pad2 by lia. rewrite make_ok_s by lia. cbn [bind].
    unfold Datetime.strftime.
    cbn [Datetime.year Datetime.month Datetime.day Datetime.hour Datetime.minute
         Datetime.second].
    rewrite year_text_pad4 by lia. reflexivity.
Qed.

Lemma X22_republika_dates_witness :
  Republika_dates.waktu_terbit (lit "Jumat, 5 Maret 2024, 14:30 WIB") = lit "2024-03-05 14:30:00" /\
  Republika_dates.waktu_terbit (lit "2024-03-15T14:30:00+00:00") = lit "2024-03-15 14:30:00".
Proof.
  split.
  - refine (proj1 X22_republika_dates (lit "Jumat, ") (lit "5") (lit "Maret") (lit ",")
              (lit "14") (lit " WIB") 2024%Z 3%Z 5%Z 14%Z 30%Z _ _ _ _ _ _ _ _ _).
    + reflexivity.
    + cbn [Republika_dates.months In]. do 2 right. left. reflexivity.
    + right. reflexivity.
    + lia.
    + vm_compute. split; discriminate.
    + lia.
    + lia.
    + right. split; [lia | reflexivity].
    + left. reflexivity.
  - refine (proj2 X22_republika_dates (lit "+00:00") 2024%Z 3%Z 15%Z 14%Z 30%Z 0%Z _ _ _ _ _ _ _).
    + reflexivity.
    + lia.
    + lia.
    + vm_compute. split; discriminate.
    + lia.
    + lia.
    + lia.
Defined.

(** ** The time that a page of kompas shows, in words *)

(** A lazy block of a class: it grows as long as what follows fails. *)
Lemma rep_class_lazy (A : Type) (p : char -> bool) (lo : nat) (k : Re.cont A)
      (rest : str) (c : Re.caps) (v : A) :
  forall blk fuel n pre,
    forallb p blk = true ->
    (forall b1 x b2, blk = b1 ++ x :: b2 ->
       k (rev b1 ++ pre) (x :: b2 ++ rest) c = None) ->
    lo <= n ->
    List.length (blk ++ rest) < fuel ->
    k (rev blk ++ pre) rest c = Some v ->
    Re.rep_loop (fun pre' s' c' k' => Re.run (Re.Chr p) pre' s' c' k')
                lo None false k fuel n pre (blk ++ rest) c = Some v.
Proof.
  induction blk as [|x blk IH]; intros fuel n pre Hp Hnone Hlo Hf Hk.
  - destruct fuel as [|fuel]; cbn [app rev] in *; cbn [Re.rep_loop];
      rewrite (proj2 (Nat.leb_le lo n)) by lia; rewrite Hk; reflexivity.
  - destruct fuel as [|fuel]; [cbn [List.length] in Hf; lia|].
    cbn [forallb] in Hp. apply andb_true_iff in Hp. destruct Hp as [Hx Hp].
    cbn [app List.length] in Hf.
    pose proof (Hnone [] x blk eq_refl) as H0. cbn [rev app] in H0.
    cbn [app Re.rep_loop Re.below]. rewrite (proj2 (Nat.leb_le lo n)) by lia.
    rewrite H0, run_chr, Hx.
    rewrite (proj2 (Nat.ltb_lt _ _)) by (cbn [List.length]; lia).
    apply (IH fuel (S n) (x :: pre) Hp); [| lia | lia |].
    + intros b1 y b2 Hb. specialize (Hnone (x :: b1) y b2). cbn [rev app] in Hnone.
      rewrite <- app_assoc in Hnone. apply Hnone. rewrite Hb. reflexivity.
    + cbn [rev] in Hk. rewrite <- app_assoc in Hk. exact Hk.
Qed.

Lemma lower_chr_idem c : lower_chr (lower_chr c) = lower_chr c.
Proof.
  unfold lower_chr, is_upper_ascii, in_range.
  destruct ((65 <=? c)%N && (c <=? 90)%N) eqn:E; [|rewrite E; reflexivity].
  apply andb_true_iff in E. destruct E as [E1 E2].
  apply N.leb_le in E1. apply N.leb_le in E2.
  rewrite (proj2 (N.leb_gt (c + 32) 90)) by lia. rewrite andb_false_r. reflexivity.
Qed.

(** The folding of [re.IGNORECASE] on ASCII is [lower]. *)
Lemma fold_chr_ascii c : (c < 128)%N -> fold_chr c = lower_chr c.
Proof.
  intros H. unfold fold_chr, chr_eqb.
  rewrite (proj2 (N.eqb_neq c 304)), (proj2 (N.eqb_neq c 305)), (proj2 (N.eqb_neq c 383)),
    (proj2 (N.eqb_neq c 8490)) by lia.
  reflexivity.
Qed.

Lemma alpha_below c : is_alpha_ascii c = true -> (c < 128)%N.
Proof.
  unfold is_alpha_ascii, is_upper_ascii, is_lower_ascii, in_range. intros H.
  apply orb_true_iff in H. destruct H as [H|H]; apply andb_true_iff in H;
    destruct H as [_ H]; apply N.leb_le in H; lia.
Qed.

Lemma alpha_fold c : is_alpha_ascii c = true -> is_alpha_fold c = true.
Proof.
  intros H. unfold is_alpha_fold. rewrite (fold_chr_ascii c (alpha_below c H)).
  unfold is_alpha_ascii, is_lower_ascii, lower_chr in *.
  unfold is_upper_ascii, in_range in *.
  destruct ((65 <=? c)%N && (c <=? 90)%N) eqn:E.
  - apply andb_true_iff in E. destruct E as [E1 E2].
    apply N.leb_le in E1. apply N.leb_le in E2.
    apply andb_true_iff. split; apply N.leb_le; lia.
  - exact H.
Qed.

Lemma forallb_alpha_fold s : forallb is_alpha_ascii s = true -> forallb is_alpha_fold s = true.
Proof.
  intros H. rewrite forallb_forall in *. intros c Hc. apply alpha_fold, H, Hc.
Qed.

(** On letters of ASCII the two readings of [lower] agree. *)
Lemma lower_folded_alpha s : forallb is_alpha_ascii s = true -> lower_folded s = lower s.
Proof.
  induction s as [|c s IH]; [reflexivity|]. cbn [forallb]. intros H.
  apply andb_true_iff in H. destruct H as [Hc Hs].
  unfold lower_folded, lower in *. cbn [flat_map map]. rewrite (IH Hs).
  pose proof (alpha_below c Hc) as Hb. unfold chr_eqb.
  rewrite (proj2 (N.eqb_neq c 304)), (proj2 (N.eqb_neq c 8490)) by lia.
  reflexivity.
Qed.

(** A literal text of ASCII under [re.IGNORECASE], in front of the subject
    as it is written. *)
Lemma run_text_i (A : Type) (t : str) :
  forallb (fun x => (x <? 128)%N) t = true ->
  forall pre s c (k : Re.cont A),
    Re.run (Re.text_i t) pre (t ++ s) c k = k (rev t ++ pre) s c.
Proof.
  assert (H1 : forall x pre s c (k : Re.cont A),
             (x < 128)%N -> Re.run (Re.ci1 x) pre (x :: s) c k = k (x :: pre) s c).
  { intros x pre s c k Hx. unfold Re.ci1.
    rewrite run_chr, (fold_chr_ascii x Hx), chr_eqb_refl. reflexivity. }
  induction t as [|x t IH]; intros Ht pre s c k; [reflexivity|].
  cbn [forallb] in Ht. apply andb_true_iff in Ht. destruct Ht as [Hx Ht].
  apply N.ltb_lt in Hx.
  destruct t as [|y t].
  - cbn [Re.text_i app rev]. apply (H1 _ _ _ _ _ Hx).
  - change (Re.text_i (x :: y :: t)) with (Re.Seq (Re.ci1 x) (Re.text_i (y :: t))).
    rewrite run_seq. change ((x :: y :: t) ++ s) with (x :: (y :: t) ++ s).
    rewrite (H1 _ _ _ _ _ Hx), (IH Ht). cbn [rev]. rewrite <- !app_assoc. reflexivity.
Qed.

Lemma long_none pre x s :
  is_digit x = false -> Re.match_here Dates.long_re pre (x :: s) = None.
Proof.
  intros Hx. unfold Re.match_here, Dates.long_re. cbn [Re.seq].
  rewrite run_seq, run_grp. unfold Re.between, Re.dg. rewrite run_rep.
  apply rep_class_none; [lia | exact Hx].
Qed.

Lemma needs_slash_numeric : needs (fun c => chr_eqb 47 c) Dates.numeric_re.
Proof.
  unfold Dates.numeric_re. cbn [Re.seq].
  apply needs_seq_r. apply needs_seq_l. unfold Re.c1. apply needs_chr.
  intros x Hx. exact Hx.
Qed.

(** The pattern of the dates in words: the five groups. *)
Lemma long_match pre (dt mon yt mid ht it rest : str) :
  dt <> [] -> forallb is_digit_ascii dt = true -> List.length dt <= 2 ->
  mon <> [] -> forallb is_alpha_ascii mon = true ->
  forallb is_digit_ascii yt = true -> List.length yt = 4 ->
  forallb (fun c => negb (is_digit c) && negb (chr_eqb c 10)) mid = true ->
  forallb is_digit_ascii ht = true -> List.length ht = 2 ->
  forallb is_digit_ascii it = true -> List.length it = 2 ->
  exists m,
    Re.match_here Dates.long_re pre
      (dt ++ 32%N :: mon ++ 32%N :: yt ++ mid ++ ht ++ 58%N :: it ++ 32%N :: lit "WIB" ++ rest)
    = Some m /\
    Re.group (Re.m_caps m) 1 = dt /\ Re.group (Re.m_caps m) 2 = mon /\
    Re.group (Re.m_caps m) 3 = yt /\ Re.group (Re.m_caps m) 4 = ht /\
    Re.group (Re.m_caps m) 5 = it.
Proof.
  intros Hd Fd Ld Hm Fm Fy Ly Fmid Fh Lh Fi Li.
  assert (N1 : forall l : str, l <> [] -> 1 <= List.length l)
    by (intros l Hl; destruct l; [contradiction Hl; reflexivity | cbn; lia]).
  assert (Sd : forall (l r : str), l <> [] -> forallb is_digit_ascii l = true ->
                 match l ++ r with [] => True | x :: _ => is_space x = false end).
  { intros l r Hl Fl. destruct l as [|x l]; [contradiction Hl; reflexivity|].
    cbn [forallb] in Fl. apply andb_true_iff in Fl. destruct Fl as [Fx _].
    cbn [app]. apply (digit_word_facts x Fx). }
  assert (Sa : forall (l r : str), l <> [] -> forallb is_alpha_ascii l = true ->
                 match l ++ r with [] => True | x :: _ => is_space x = false end).
  { intros l r Hl Fl. destruct l as [|x l]; [contradiction Hl; reflexivity|].
    cbn [forallb] in Fl. apply andb_true_iff in Fl. destruct Fl as [Fx _].
    cbn [app]. apply (alpha_facts x Fx). }
  assert (Ly' : yt <> []) by (intros ->; discriminate Ly).
  assert (Fdot : forallb (fun c => negb (chr_eqb c 10)) mid = true).
  { apply forallb_forall. intros c Hc. rewrite forallb_forall in Fmid.
    specialize (Fmid c Hc). apply andb_true_iff in Fmid. apply Fmid. }
  eexists. split.
  - unfold Re.match_here, Dates.long_re. cbn [Re.seq].
    rewrite run_seq, run_grp. unfold Re.between at 1. unfold Re.dg. rewrite run_rep.
    apply rep_class_bounded; [exact (forallb_digit_ascii _ Fd) | left; reflexivity | apply N1; exact Hd | cbn; lia | lia |].
    rewrite run_seq. unfold Re.plus at 1. unfold Re.ws at 1. rewrite run_rep.
    apply (rep_class_bounded _ _ _ _ _ _ _ _ [32%N]);
      [reflexivity | left; apply (Sa mon _ Hm Fm) | cbn; lia | exact I
      | apply Nat.lt_succ_diag_r |].
    rewrite run_seq, run_grp. unfold Re.plus at 1. rewrite run_rep.
    apply rep_class_bounded;
      [exact (forallb_alpha_fold _ Fm) | left; reflexivity | apply N1; exact Hm | exact I | lia |].
    rewrite run_seq. unfold Re.plus at 1. unfold Re.ws at 1. rewrite run_rep.
    apply (rep_class_bounded _ _ _ _ _ _ _ _ [32%N]);
      [reflexivity | left; apply (Sd yt _ Ly' Fy) | cbn; lia | exact I
      | apply Nat.lt_succ_diag_r |].
    rewrite run_seq, run_grp. unfold Re.times at 1. rewrite run_rep.
    apply rep_class_bounded;
      [exact (forallb_digit_ascii _ Fy) | right; rewrite Ly; reflexivity | lia | cbn; lia | lia |].
    rewrite run_seq. unfold Re.star_lazy, Re.dot. rewrite run_rep.
    apply rep_class_lazy; [exact Fdot | | lia | lia |].
    { intros b1 x b2 Hb. rewrite run_seq, run_grp. unfold Re.times at 1. rewrite run_rep.
      apply rep_class_none; [lia|].
      rewrite forallb_forall in Fmid.
      assert (Hin : In x mid) by (rewrite Hb; apply in_or_app; right; left; reflexivity).
      specialize (Fmid x Hin). apply andb_true_iff in Fmid. destruct Fmid as [Fx _].
      apply negb_true_iff. exact Fx. }
    rewrite run_seq, run_grp. unfold Re.times at 1. rewrite run_rep.
    apply rep_class_bounded; [exact (forallb_digit_ascii _ Fh) | left; reflexivity | lia | cbn; lia | lia |].
    rewrite run_seq, run_c1.
    rewrite run_seq, run_grp. unfold Re.times at 1. rewrite run_rep.
    apply rep_class_bounded; [exact (forallb_digit_ascii _ Fi) | left; reflexivity | lia | cbn; lia | lia |].
    rewrite run_seq. unfold Re.star at 1. unfold Re.ws at 1. rewrite run_rep.
    apply (rep_class_bounded _ _ _ _ _ _ _ _ [32%N]);
      [reflexivity | left; reflexivity | cbn; lia | exact I | apply Nat.lt_succ_diag_r |].
    rewrite run_text_i by reflexivity. reflexivity.
  - cbn [Re.m_caps Re.group Nat.eqb]. repeat split; apply firstn_front.
Qed.

(** Property X23. The time that a page of kompas shows in words, as in
    [Kompas.com - 17 Desember 2025, 09:46 WIB]: after a text without a
    decimal digit of any script, the day in one or two digits, a month in
    letters of ASCII that the table has (in any letter case), a year of
    four digits, a text without such a digit, as a comma and a space, hours
    and minutes, [WIB]; in a text without a slash.
    [parse_kompas_time_text_to_wib] gives [2025-12-17 09:46:00]. *)
Theorem X23_kompas_shown_time_words (text before daytext mon mid after : str)
    (y m d hh mi : Z) :
  text <> [] ->
  forallb (fun c => negb (is_digit c)) before = true ->
  mon <> [] -> forallb is_alpha_ascii mon = true ->
  Dates.dict_get Dates.bulan_map (lower mon) 0%Z = m -> (1 <= m <= 12)%Z ->
  forallb (fun c => negb (is_digit c) && negb (chr_eqb c 10)) mid = true ->
  (1000 <= y <= 9999)%Z -> (1 <= d <= Datetime.days_in_month y m)%Z ->
  (0 <= hh <= 23)%Z -> (0 <= mi <= 59)%Z ->
  (daytext = Datetime.pad2 d \/ ((d <= 9)%Z /\ daytext = [Datetime.digit d])) ->
  Detik_text.clean_text (Some text)
  = before ++ daytext ++ lit " " ++ mon ++ lit " " ++ Datetime.pad4 y ++ mid ++
    Datetime.pad2 hh ++ lit ":" ++ Datetime.pad2 mi ++ lit " WIB" ++ after ->
  existsb (fun c => chr_eqb 47 c) (Detik_text.clean_text (Some text)) = false ->
  Dates.parse_kompas_time_text_to_wib text
  = Ok (Datetime.pad4 y ++ lit "-" ++ Datetime.pad2 m ++ lit "-" ++ Datetime.pad2 d ++
        lit " " ++ Datetime.pad2 hh ++ lit ":" ++ Datetime.pad2 mi ++ lit ":00").
Proof.
  intros Ht Fb Hmon Fmon Hbln Hm Fmid Hy Hd Hh Hi Hday Hclean Hslash.
  pose proof (days_in_month_le y m) as H31.
  destruct (small_number_text daytext d ltac:(lia) Hday) as [Nd [Fd [Ld Id]]].
  destruct (pad4_digits y) as [Fy Ly]. destruct (pad2_digits hh) as [Fh Lh].
  destruct (pad2_digits mi) as [Fi Li].
  destruct (long_match (rev before) daytext mon (Datetime.pad4 y) mid (Datetime.pad2 hh)
              (Datetime.pad2 mi) after Nd Fd Ld Hmon Fmon Fy Ly Fmid Fh Lh Fi Li)
    as [mt [Em [G1 [G2 [G3 [G4 G5]]]]]].
  unfold Dates.parse_kompas_time_text_to_wib.
  destruct text as [|t0 text0] eqn:Etext; [contradiction Ht; reflexivity|].
  cbn [truthy negb]. rewrite <- Etext in *.
  assert (E1 : Re.search Dates.numeric_re (Detik_text.clean_text (Some text)) = None).
  { unfold Re.search. apply (search_needs _ _ needs_slash_numeric). exact Hslash. }
  rewrite E1. rewrite Hclean.
  assert (Es : Re.search Dates.long_re
                 (before ++ daytext ++ lit " " ++ mon ++ lit " " ++ Datetime.pad4 y ++ mid ++
                  Datetime.pad2 hh ++ lit ":" ++ Datetime.pad2 mi ++ lit " WIB" ++ after)
               = Some mt).
  { unfold Re.search. rewrite search_from_skip.
    - rewrite app_nil_r. apply search_from_here. exact Em.
    - intros a1 x a2 Ha. apply long_none.
      assert (Hin : In x (a1 ++ x :: a2)) by (apply in_or_app; right; left; reflexivity).
      rewrite <- Ha in Hin. rewrite forallb_forall in Fb.
      apply negb_true_iff. apply (Fb x Hin). }
  rewrite Es. cbv zeta. rewrite G1, G2, G3, G4, G5, (lower_folded_alpha mon Fmon), Hbln, Id.
  rewrite (proj2 (Z.eqb_neq m 0)) by lia.
  rewrite int_pad4, !int_pad2 by lia. rewrite make_ok by lia. cbn [bind]. f_equal.
  unfold Datetime.strftime.
  cbn [Datetime.year Datetime.month Datetime.day Datetime.hour Datetime.minute
       Datetime.second].
  rewrite year_text_pad4 by lia. reflexivity.
Qed.

Lemma X23_kompas_shown_time_words_witness :
  Dates.parse_kompas_time_text_to_wib (lit "Kompas.com - 7 DESEMBER 2025, 09:46 WIB")
  = Ok (lit "2025-12-07 09:46:00").
Proof.
  refine (X23_kompas_shown_time_words (lit "Kompas.com - 7 DESEMBER 2025, 09:46 WIB")
            (lit "Kompas.com - ") (lit "7") (lit "DESEMBER") (lit ", ") []
            2025%Z 12%Z 7%Z 9%Z 46%Z _ _ _ _ _ _ _ _ _ _ _ _ _ _).
  - discriminate.
  - reflexivity.
  - discriminate.
  - reflexivity.
  - reflexivity.
  - lia.
  - reflexivity.
  - lia.
  - vm_compute. split; discriminate.
  - lia.
  - lia.
  - right. split; [lia | reflexivity].
  - vm_compute. reflexivity.
  - vm_compute. reflexivity.
Defined.
